(* ===== verification/_CoqProject ===== *)
-Q . S2P
Prelude.v
Bitmap.v
Pool.v
Paging.v
PageAlloc.v
Heap.v
Thread.v
Sync.v
Ioqueue.v
Keyboard.v
Kstring.v
Stdio.v
Ps.v
Task.v
Io.v
Boot.v
Intr.v
Main.v
Kernel.v
