(* ===== verification/Prelude.v ===== *)
(** * RogOS memory and concurrency core: a shallow-embedded model in Rocq

    This development models the memory-management and concurrency core of
    RogOS (a single-CPU, 32-bit protected-mode teaching kernel, sources
    under [src/src/]), the interrupt and timer set-up that drives it, the
    keyboard path that feeds it, the string and formatting library it
    uses, the task listing [sys_ps], the boot of the threads and of
    [main], and the port transfers of [io.h], and proves what makes them
    correct, and where they are not.

    ** The program and how its parts interact

    - [lib/kernel/bitmap.c]: a flat bit-vector over a byte buffer
      ([bitmap_init], [bitmap_scan_test], [bitmap_set], [bitmap_scan]).
      Every page allocator of the kernel is a bitmap plus a base address.
    - [kernel/memory.c], pages: two physical page pools (kernel, user) and
      the virtual-address pools, each a bitmap; [palloc]/[pfree] take and
      give back one frame; [vaddr_get]/[vaddr_remove] reserve and release
      runs of virtual pages; [pde_ptr]/[pte_ptr] give the virtual addresses
      of the directory and table entries of an address through the
      recursive mapping of directory slot 1023; [page_table_add] installs a
      mapping, taking a page table from the kernel pool when the directory
      entry is missing; [page_table_pte_remove] clears one; [malloc_page],
      [get_kernel_pages], [get_user_pages], [get_a_page] and [mfree_page]
      compose them under the pool locks.
    - [kernel/memory.c], heap: [block_desc_init], [sys_malloc] and
      [sys_free], seven block classes carved from one-page arenas, and
      whole-page arenas for large requests, on top of [malloc_page].
    - [thread/thread.c]: task control blocks, the ready queue, the
      round-robin [schedule], [thread_block], [thread_unblock],
      [thread_yield], [allocate_pid]; [device/timer.c]'s
      [intr_timer_handler] drives the time slices.
    - [thread/sync.c]: the semaphore and the reentrant lock, built on
      [thread_block]/[thread_unblock].
    - [device/ioqueue.c]: the keyboard's circular buffer, whose producer
      and consumer block on it through the scheduler.
    - [device/keyboard.c]: the keyboard interrupt, which decodes scancodes
      into characters and puts them into that buffer.
    - [lib/string.c] and [lib/stdio.c]: the byte and string routines
      ([memset] clears the bitmaps) and the formatting of [sprintf],
      [printf] and [printk].
    - [kernel/interrupt.c]: the interrupt flag, the only atomicity
      primitive below the semaphore; the interrupt descriptor table, the
      handler and exception-name tables, [general_intr_handler] and the
      programming of the two 8259A interrupt controllers ([idt_init]).
    - [device/timer.c]: the 8254's counter 0 ([timer_init]) and the sleep
      routines [mtime_sleep] and [ticks_to_sleep].
    - [thread/thread.c]'s [sys_ps]: the task list, formatted with
      [sprintf] into 16-column fields by [pad_print].
    - [thread/thread.c]'s [thread_init]: [process_execute] of [init],
      then [make_main_thread] and [thread_start] of [idle].
    - [lib/kernel/io.h]: [outb], and the string transfers [outsw] and
      [insw] of 16-bit words between memory and a port.
    - [kernel/main.c]: [main] loads a program from the disk into a buffer
      of [sys_malloc] and writes it to a file; [init] forks the shell.

    Calls go upward: the heap calls the page allocator, which calls the
    pools, which call the bitmap; the page allocator takes the pool locks
    of [sync.c]; the semaphore and the I/O queue call the scheduler;
    everything brackets its critical sections with the interrupt flag.

    ** Files, in dependency order (see [_CoqProject])

    - [Prelude] (this file): the result type [kres] of kernel code (a
      value, a fatal [ASSERT]/[PANIC], a page fault, which the exception
      handler turns into a halt, or a switch away from a task that
      blocks), its bind and [ASSERT] notations in [kernel_scope],
      machine-width wrap-around ([u32], [i16], [u8]; [u16] is in
      [Pool]), the byte and word stores over [gmap Z Z], the [kernel]
      hint database, the [kernel_rw] rewrite database, and the list,
      option and range lemmas and tactics ([concrete] for witnesses) the
      components share.
    - [Bitmap]: [struct bitmap] over a byte store shared with the memory
      after the buffer; the four operations of [bitmap.c] and [memset];
      the scan's loops as structural recursion bounded by the C loop's own
      bound (bytes left, 8 bits, [bit_left]).
    - [Pool]: the memory state [mstate] ([kernel_pool], [user_pool],
      [kernel_vaddr], the running task's [pgdir] and [userprog_vaddr],
      the byte store of the bitmaps, physical memory and [cr3]);
      [palloc], [pfree], [vaddr_get], [vaddr_remove], [mem_pool_init].
    - [Paging]: the MMU ([translate], a two-level walk of 32-bit entries in
      physical memory), [pde_ptr], [pte_ptr], [page_table_add],
      [page_table_pte_remove], [addr_v2p].
    - [PageAlloc]: the interface [PoolLocks] (a state that contains
      [mstate] and takes and releases a pool's lock) with its laws, and
      [malloc_page], [get_kernel_pages], [get_user_pages], [get_a_page],
      [get_a_page_without_opvaddrbitmap], [mfree_page] against it.
    - [Heap]: the interface [HeapData] (the class descriptors and arena
      headers) with its laws; [block_desc_init], [mem_init], the arena
      fill and release loops, [sys_malloc], [sys_free].
    - [Thread]: the scheduler state [sched] (PCBs by address, ready and
      all-tasks queues as lists of addresses, [EFLAGS.IF], [next_pid]);
      [schedule], [thread_block], [thread_unblock], [thread_yield],
      [intr_timer_handler].  [switch_to] is opaque: the model records the
      next task and the interrupt flag each task restores.
    - [Sync]: [sema_init], [sema_down], [sema_up], [lock_init],
      [lock_acquire], [lock_release] over [sched].
    - [Ioqueue]: [struct ioqueue], [next_pos], [ioqueue_full]/[_empty],
      [ioqueue_wait], [wakeup], [ioqueue_getchar], [ioqueue_putchar].
    - [Keyboard]: the five flags of keyboard.c, [keymap],
      [intr_keyboard_handler] (split as [kbd_decode] and the queue calls)
      and [keyboard_init]; [kbd_step] lets keyboard interrupts interleave
      with the rest of the kernel.
    - [Kstring]: every function of string.c over the byte store, reading
      [char]s as signed bytes.
    - [Stdio]: [itoa], [vsprintf], [sprintf], [printf] and [printk], the
      [va_list] being the list of stack words after the format.
    - [Ps]: [pad_print], [elem2thread_info] and [sys_ps] over tasks laid
      out in the byte store as GCC lays out [struct task_struct]; the
      output is the list of bytes given to [sys_write]; [hres] adds to
      [kres] the outcome of a loop that never ends.
    - [Task]: a task in its page, byte by byte: [init_thread],
      [thread_create], [thread_start], [running_thread] and
      [make_main_thread] write [struct task_struct] and the first
      [struct thread_stack] at GCC's offsets.
    - [Io]: [outsw] as a trace of (port, word) pairs and [insw] reading a
      port as a stream of words.
    - [Boot]: [thread_init] over the tasks of [Task] ([tasks]: the store,
      the two lists, [next_pid]), [process_execute] a parameter.
    - [Intr]: the port writes of [pic_init] and [frequency_set] as a trace
      of (port, byte) pairs, read by device models of the 8259A and the
      8254 written from their data sheets; [make_idt_desc],
      [idt_desc_init], the [lidt] operand, [exception_init],
      [register_handler], [general_intr_handler], [timer_init],
      [mtime_sleep] and [ticks_to_sleep]; [intr_enable], [intr_disable],
      [intr_set_status] and [intr_get_status] on the [EFLAGS] register.
    - [Main]: [SECTOR_SIZE] and [enum oflags] of [fs.h]; [main] over any
      state of [Heap]'s interfaces, its calls to the file system, the disk
      and the console as a trace ([main_call]); [init].
    - [Kernel]: a machine that runs tasks, each a list of kernel calls,
      interleaved by timer interrupts between any two calls; the
      [PoolLocks] instance whose locks are this machine's; [allocate_pid]
      as its call sequence.

    A call that blocks (inside [sema_down], [lock_acquire], or the loops
    of the I/O queue) returns [KBlock] or a resume point at the switch;
    the machine of [Kernel] resumes it when the task runs again.  This is
    how the C loops [while (value == 0) thread_block(...)] are modelled
    without fuel: each iteration is one run of the task.

    ** Theorems

    - Mutual exclusion of locks in every reachable state of the machine,
      by induction on its steps; [sema_up] wakes the first waiter, and an
      interleaving in which the woken task is overtaken and queued again
      at the tail; duplicate pids.
    - The scheduler invariant (exactly the READY tasks are queued, once;
      one task runs) preserved by every operation; round-robin order;
      time slices of [priority + 1] ticks.
    - Bitmap scan soundness and first fit; page pool allocation and the
      free round trip; [page_table_add] installs exactly one translation;
      unmap and remap; [malloc_page] maps every page of its run.
    - Heap: smallest class (and its closed form, a base-2 logarithm);
      arena fill termination and layout; [sys_malloc] pops and [sys_free]
      appends, with the round trip as a permutation; an arena whose last
      block returns is freed.
    - I/O queue: [ioqueue_getchar] and [ioqueue_putchar] refine a bounded
      FIFO queue of capacity 63, preserve its invariant, and block on an
      empty (full) buffer.
    - Keyboard: the interrupt handler puts the decoded character as the
      abstract queue's put does and drops it when the queue is full; the
      letter case follows shift and caps lock; [alt_status] is never
      set, by induction on the keyboard's steps.
    - Strings: the NUL scans end; [strcpy], [strcat] and [memcpy] copy and
      write nothing else; [strchr] and its relatives never find a byte
      above [0x7f], and [strcmp] sorts such bytes first; [itoa]'s digits
      read back as its value; [vsprintf] writes no terminating NUL.
    - [ps]: [pad_print]'s fill loop never ends for a field of 256 bytes;
      its case ['d'] falls through to ['x'], so a task's pid is printed
      as the hexadecimal of [pid + 65536 * status]; a 15-character task
      name makes the [strcat] of [elem2thread_info] write past its
      buffer.
    - Task creation: [init_thread] sets every field of a new task and
      nothing else; a 16-character name loses its NUL to [priority] and
      makes [sys_ps] panic; [thread_create]'s pointer arithmetic on a
      [uint32_t*] puts the first frame 432 bytes below the page top;
      [running_thread] finds the task from its stack pointer;
      [thread_init] leaves [main] running and [idle] last of the ready
      queue, with the next two pids; [pid_t] pids repeat after 65536.
    - Ports and boot: [insw] of the words [outsw] wrote copies the bytes
      (round trip); the scheduler's interrupt flag is refined by the
      [EFLAGS] register under [sti], [cli] and the [EFLAGS_IF] test;
      [main]'s 9 sectors, 120 bytes more than it asked for, fit the
      two-page arena of [sys_malloc] (a file of 3585 to 4084 bytes would
      overrun its page), but a NULL from [sys_malloc] goes to [ide_read]
      unchecked; a negative [fork] result sends [init] down the parent's
      path.
    - Interrupts and timer: the gates recombine to their handlers' addresses;
      after [pic_init] exactly IRQ 0, 1, 2 and 14 are unmasked, at
      vectors [0x20 + i]; [frequency_set] drops the high byte of the
      reload value, so the timer runs at 7697 Hz instead of 100 Hz;
      [mtime_sleep] panics for 0 ms and when [DIV_ROUND_UP] overflows;
      [ticks_to_sleep] wakes after its ticks, across the wrap-round of
      [ticks] (a liveness property of the loop).
    - Error paths, each as the exact [KPanic] or [KFault] outcome: full
      pools, double page mapping, [sema_up] on a free semaphore,
      [thread_unblock] of a task that is not blocked, heap requests that
      [malloc_page] refuses, [ioqueue_init] with a stale consumer; and
      the wrap-around of [next_pid] and of [mem_pool_init]'s 16-bit page
      count.

    ** Bounds and fuel

    The kernel's loops need no fuel.  The bitmap loops recurse on the C
    loop's own bound; the page loops of [malloc_page], [mfree_page] and
    the arena loops recurse on the page or block count, which the code
    bounds ([pg_cnt < 3840], [blocks_per_arena <= 255]); the timer is run
    for a given number of ticks ([timer_ticks]); the machine of [Kernel]
    runs a given list of events.  The string loops, which stop at a NUL,
    get [size m + 1] iterations for a store [m]: a byte never written
    reads as 0, so every scan meets a NUL within that many bytes
    ([Kstring.strlen_total]); only a copy that overwrites its own
    source's terminator runs out, as the C loop runs on until it faults.
    [itoa] gets 32 levels, the digits of a [uint32_t] in base 2
    ([Stdio.itoa_digits]); [vsprintf] one iteration per byte of the
    store.  [init_thread]'s descriptor loop recurses on its bound
    [MAX_FILES_OPEN_PER_PROC].  [pad_print]'s fill loop gets 256 tests, the values of its
    [uint8_t] index: it ends within them or never ([Ps.pad_loop_hangs]).
    Integers are kept at their C width: addresses
    and counters at 32 bits ([u32]), the [uint16_t] counter of
    [block_desc_init] and [mem_pool_init]'s page counts at 16 bits,
    [next_pid] at 16 bits signed, the semaphore value at 8 bits, the
    count of [rep insw]/[rep outsw] at 32 bits.  [main] and [init] end in
    [while (1)]: their results are what they did before it.

    ** Not modelled

    - [process_execute], [fork] and [my_shell] ([userprog/], [shell/])
      are not in the sources: they are parameters of [thread_init] and
      [init].  [kernel_thread] and [idle] are an entry point and a loop
      around [thread_block], the bodies a task runs.  [Thread]'s
      scheduler creates its tasks in their initial state; [Task] and
      [Boot] model their creation in memory separately, and the two are
      not linked by a theorem.
    - The assembly of [kernel.S] (the interrupt entries, [intr_exit]),
      whose addresses are parameters of [Intr]; [put_str] and the console,
      which [general_intr_handler] and [idt_init] print with; the rest of
      [init_all] ([console_init], [tss_init], [syscall_init], [ide_init],
      [filesys_init], whose code is not in the sources) and the TSS.
    - [inb]: the keyboard handler takes the byte it returns.
    - [write] and [console_put_str], to which [printf] and [printk] pass
      their text, are not in the sources: the model's output is the list
      of bytes they are given.
    - [fs/*.h] and [device/ide.h] apart from [SECTOR_SIZE] and [enum
      oflags]: declarations of the file system and the disk driver, whose
      code is not in the sources, and structures only that code uses.
    - [lib/kernel/list.c] is not in the sources: its lists are Rocq lists
      and [elem_find]/[list_remove] are modelled from the spec. *)

From Stdlib Require Import ZArith Lia String.
From stdpp Require Import base gmap list.

Declare Scope kernel_scope.
Delimit Scope kernel_scope with kernel.
Open Scope Z_scope.

(** ** Machine constants and fixed-width arithmetic *)

(** [#define PG_SIZE 4096] in thread.c, memory.c (via global.h). *)
Definition PG_SIZE : Z := 4096.

(** The value of a C [uint32_t] expression: arithmetic modulo 2^32. *)
Definition u32 (z : Z) : Z := z mod 2 ^ 32.

(** The value of a C [uint8_t] expression. *)
Definition u8 (z : Z) : Z := z mod 2 ^ 8.

(** The value of a C [int16_t] ([pid_t]) expression, two's complement. *)
Definition i16 (z : Z) : Z := (z + 2 ^ 15) mod 2 ^ 16 - 2 ^ 15.

(** ** The result of a kernel routine

    A routine either returns, or stops the machine: a failed [ASSERT] or a
    [PANIC] ends in [panic_spin], and a page fault ends in
    [general_intr_handler]'s [while (1)]; both are fatal.  Or the running
    thread blocks, on a lock another thread holds: the rest of the routine
    runs when the thread is woken, which the scheduler's model ([Sync])
    describes, not the sequential model of the routine. *)
Inductive kres (A : Type) : Type :=
| KOk (a : A)
| KPanic (why : string)
| KFault (vaddr : Z)
| KBlock.
Arguments KOk {A} a.
Arguments KPanic {A} why.
Arguments KFault {A} vaddr.
Arguments KBlock {A}.

Definition kbind {A B : Type} (r : kres A) (f : A -> kres B) : kres B :=
  match r with
  | KOk a => f a
  | KPanic w => KPanic w
  | KFault v => KFault v
  | KBlock => KBlock
  end.

Notation "x <- r ;; k" := (kbind r (fun x => k))
  (at level 65, r at next level, right associativity) : kernel_scope.
Notation "'let*' p ':=' r 'in' k" := (kbind r (fun x => match x with p => k end))
  (at level 65, p pattern, r at next level, right associativity) : kernel_scope.
(** [ASSERT(b)] of debug.h: continue with [k], or panic with the condition's text. *)
Notation "'ASSERT' b 'as' msg ;; k" := (if b then k else KPanic msg)
  (at level 65, b at next level, msg at next level, right associativity)
  : kernel_scope.

Open Scope kernel_scope.

(** A routine that did not stop the machine. *)
Definition returns {A : Type} (r : kres A) : bool :=
  match r with KOk _ => true | _ => false end.

(** The value a routine returned, or [d] when it stopped the machine. *)
Definition result_or {A : Type} (r : kres A) (d : A) : A :=
  match r with KOk a => a | _ => d end.

(** ** Memory stores

    Memory is a finite map from addresses to values; an address never
    written reads as 0.  The bitmaps' buffers are a byte store, page
    directories and page tables a store of 32-bit words at byte addresses. *)
Abbreviation store := (gmap Z Z).

Definition rd (m : store) (a : Z) : Z := default 0 (m !! a).
Definition wr (m : store) (a v : Z) : store := <[a := v]> m.

(** ** Generic lemmas *)

Lemma kbind_ok {A B : Type} (r : kres A) (f : A -> kres B) (b : B) :
  kbind r f = KOk b -> exists a, r = KOk a /\ f a = KOk b.
Proof. destruct r; simpl; intros H; [eauto | discriminate ..]. Qed.

Lemma kbind_ret {A B : Type} (a : A) (f : A -> kres B) : kbind (KOk a) f = f a.
Proof. reflexivity. Qed.

(** [KOk] is injective; a lemma rather than [injection], which normalises
    both sides and would unfold the memory they hold. *)
Lemma kok_inj {A : Type} (a b : A) : KOk a = KOk b -> a = b.
Proof. intros H. injection H. auto. Qed.

(** A routine that returns returned its [result_or]; the premise is a
    boolean, cheap to decide by evaluation on a concrete state. *)
Lemma returns_ok {A : Type} (r : kres A) (d : A) : returns r = true -> r = KOk (result_or r d).
Proof. destruct r; simpl; congruence. Qed.

(** The same for a routine that returns a value and a state: the value is
    compared, the state is named by [result_or]. *)
Lemma returns_pair_ok {A B : Type} (r : kres (A * B)) (a : A) (d : A * B) :
  returns r = true -> fst (result_or r d) = a -> r = KOk (a, snd (result_or r d)).
Proof. destruct r as [[x y] | | |]; simpl; congruence. Qed.

Lemma rd_wr_eq m a v : rd (wr m a v) a = v.
Proof. unfold rd, wr. by rewrite lookup_insert_eq. Qed.

Lemma rd_wr_ne m a b v : a <> b -> rd (wr m a v) b = rd m b.
Proof. intros H. unfold rd, wr. by rewrite lookup_insert_ne. Qed.

Lemma rd_wr m a b v : rd (wr m a v) b = if decide (a = b) then v else rd m b.
Proof. case_decide; subst; [apply rd_wr_eq | by apply rd_wr_ne]. Qed.

Lemma u32_small z : 0 <= z < 2 ^ 32 -> u32 z = z.
Proof. intros H. unfold u32. apply Z.mod_small. lia. Qed.

Lemma u32_range z : 0 <= u32 z < 2 ^ 32.
Proof. unfold u32. apply Z.mod_pos_bound. lia. Qed.

Lemma u8_small z : 0 <= z < 2 ^ 8 -> u8 z = z.
Proof. intros H. unfold u8. apply Z.mod_small. lia. Qed.

Lemma i16_small z : - 2 ^ 15 <= z < 2 ^ 15 -> i16 z = z.
Proof. intros H. unfold i16. rewrite Z.mod_small; lia. Qed.

(** A word made of a high part shifted over [k] bits and a [k]-bit low
    part: the low part is its [k] low bits, the high part what is left
    after a shift; and every word is the combination of the two. *)
Lemma lor_shiftl_low (hi lo k : Z) : 0 <= k -> 0 <= lo < 2 ^ k ->
  Z.land (Z.lor (Z.shiftl hi k) lo) (Z.ones k) = lo.
Proof.
  intros Hk Hlo. apply Z.bits_inj'; intros n Hn.
  rewrite Z.land_spec, Z.lor_spec, Z.testbit_ones_nonneg by lia.
  destruct (Z.ltb_spec n k).
  - rewrite Z.shiftl_spec_low by lia. now rewrite andb_true_r.
  - rewrite andb_false_r. symmetry.
    destruct (Z.eq_dec lo 0) as [->|]; [apply Z.bits_0|].
    apply (Z.bits_above_log2 lo n); [lia|]. assert (Z.log2 lo < k) by (apply Z.log2_lt_pow2; lia). lia.
Qed.
Lemma lor_shiftl_high (hi lo k : Z) : 0 <= k -> 0 <= lo < 2 ^ k ->
  Z.shiftr (Z.lor (Z.shiftl hi k) lo) k = hi.
Proof.
  intros Hk Hlo. apply Z.bits_inj'; intros n Hn.
  rewrite Z.shiftr_spec, Z.lor_spec, Z.shiftl_spec by lia. replace (n + k - k) with n by lia.
  destruct (Z.eq_dec lo 0) as [->|]; [now rewrite Z.bits_0, orb_false_r|].
  rewrite (Z.bits_above_log2 lo (n + k)); [apply orb_false_r|lia|]. assert (Z.log2 lo < k) by (apply Z.log2_lt_pow2; lia). lia.
Qed.
Lemma lor_shiftl_split (x k : Z) : 0 <= k -> Z.lor (Z.shiftl (Z.shiftr x k) k) (Z.land x (Z.ones k)) = x.
Proof.
  intros Hk. apply Z.bits_inj'; intros n Hn.
  rewrite Z.lor_spec, Z.land_spec, Z.testbit_ones_nonneg by lia.
  destruct (Z.ltb_spec n k).
  - rewrite Z.shiftl_spec_low by lia. now rewrite andb_true_r.
  - rewrite Z.shiftl_spec, Z.shiftr_spec by lia. replace (n - k + k) with n by lia. now rewrite andb_false_r, orb_false_r.
Qed.

(** [filter] keeps a list whose elements all pass, and empties a list
    whose elements all fail. *)
Lemma filter_keep_all {A} (P : A -> Prop) `{forall x, Decision (P x)} (l : list A) :
  (forall x, x ∈ l -> P x) -> filter P l = l.
Proof.
  induction l as [| x l IH]; intros Hl; [reflexivity |].
  rewrite filter_cons_True by (apply Hl; left). f_equal. apply IH. intros y Hy. apply Hl. by right.
Qed.

Lemma filter_drop_all {A} (P : A -> Prop) `{forall x, Decision (P x)} (l : list A) :
  (forall x, x ∈ l -> ~ P x) -> filter P l = [].
Proof.
  induction l as [| x l IH]; intros Hl; [reflexivity |].
  rewrite filter_cons_False by (apply Hl; left). apply IH. intros y Hy. apply Hl. by right.
Qed.

(** A decidable property of every integer of [\[0, n)], checked by
    evaluation. *)
Lemma forall_range (P : Z -> Prop) `{forall i, Decision (P i)} (n : Z) :
  forallb (fun k => bool_decide (P (Z.of_nat k))) (seq 0 (Z.to_nat n)) = true ->
  forall i, 0 <= i < n -> P i.
Proof.
  intros Hf i Hi. rewrite forallb_forall in Hf. specialize (Hf (Z.to_nat i)).
  rewrite Z2Nat.id in Hf by lia. apply (bool_decide_eq_true_1 (P i)), Hf, list_elem_of_In, elem_of_seq. lia.
Qed.

(** Prove [forall i, 0 <= i < n -> P i] for a concrete [n] by evaluating
    [P] at every point. *)
Ltac check_range :=
  match goal with
  | |- forall i : Z, 0 <= i < _ -> @?P i => apply (forall_range P); vm_compute; reflexivity
  end.

(** ** Automation shared by the component files *)

Create HintDb kernel discriminated.
Create Rewrite HintDb kernel_rw.
#[export] Hint Resolve u32_range : kernel.
#[export] Hint Rewrite rd_wr_eq @kbind_ret : kernel_rw.
#[export] Hint Rewrite rd_wr_ne using (first [lia | congruence]) : kernel_rw.

(** Decompose a hypothesis [kbind r f = KOk b] into its two steps. *)
Ltac kinv H :=
  let a := fresh "a" in
  let Hr := fresh "Hr" in
  let Hk := fresh "Hk" in
  apply kbind_ok in H; destruct H as (a & Hr & Hk).

(** Case on every boolean test of the goal that [simpl] leaves blocked. *)
Ltac case_tests :=
  repeat match goal with
         | |- context [if ?b then _ else _] =>
             lazymatch b with
             | context [if _ then _ else _] => fail
             | _ => let E := fresh "E" in destruct b eqn:E
             end
         end.


(** Discharge a hypothesis of a theorem at a concrete state: arithmetic,
    a decidable proposition, or an equation, by evaluation.
    Evaluation never goes under a binder, where it would unfold the
    definitions applied to a variable, and a returned state is compared
    through [returns], never by normalising the state. *)
Ltac concrete :=
  lazymatch goal with
  | |- Forall _ _ => repeat constructor; concrete
  | |- NoDup _ => apply (bool_decide_unpack _); vm_compute; reflexivity
  | |- _ ∈ _ => apply (bool_decide_unpack _); vm_compute; reflexivity
  | |- is_Some _ => apply (bool_decide_unpack _); vm_compute; reflexivity
  | |- ?r = KOk (result_or ?r _) => apply returns_ok; vm_compute; reflexivity
  | |- ?r = KOk (_, snd (result_or ?r _)) => apply returns_pair_ok; vm_compute; reflexivity
  | |- _ => first [ lia | (vm_compute; repeat split; intros; first [reflexivity | congruence]) ]
  end.

(** Division of a value split as quotient and remainder. *)
Lemma div_mod_split (q r k : Z) :
  0 < k -> 0 <= r < k -> (q * k + r) / k = q /\ (q * k + r) mod k = r.
Proof.
  intros Hk Hr. split.
  - rewrite Z.div_add_l by lia. rewrite Z.div_small by lia. lia.
  - rewrite Z.add_comm, Z.mod_add by lia. apply Z.mod_small. lia.
Qed.

(** Expose [x = k * (x / k) + x mod k] and the remainder's bounds, so that
    [lia] can treat [x / k] and [x mod k] as atoms. *)
Ltac divmod x k :=
  let H1 := fresh "Hdm" in
  let H2 := fresh "Hdm" in
  pose proof (Z.div_mod x k ltac:(lia)) as H1;
  pose proof (Z.mod_pos_bound x k ltac:(lia)) as H2.

(** Case on a concrete kernel call that returns: evaluate only whether it
    returns (a boolean, cheap for [vm_compute]) and discard the fatal cases,
    leaving the returned value abstract. *)
Ltac returning_call r :=
  let R := fresh "R" in
  let E := fresh "E" in
  assert (R : returns r = true) by (vm_compute; reflexivity);
  destruct r eqn:E; simpl in R; try discriminate R; clear R.
