(* ===== verification/Bitmap.v ===== *)
(** * Bitmap: [lib/kernel/bitmap.c] and the [memset] it uses

    A [struct bitmap] is a byte length and the address of a byte buffer; the
    buffer lives in a byte [store] shared with whatever memory follows it
    (the kernel pool's bitmap is followed directly by the user pool's, see
    [mem_pool_init]), so a read or write past the end is visible in the
    model.  Bit [i] is bit [i mod 8] of byte [i / 8].

    The theorems: [bitmap_set] sets exactly one bit and keeps the buffer a
    buffer of bytes; [bitmap_init] clears the buffer; [bitmap_scan] returns
    the lowest free bit for a one-bit request, returns only runs of free
    bits, panics instead of failing when the bitmap is full, and may return
    a run that ends one bit past the buffer. *)

From Stdlib Require Import ZArith Lia String.
From stdpp Require Import base gmap list.
From S2P Require Import Prelude.

Open Scope Z_scope.
Open Scope kernel_scope.

(** ** Data *)

(** [struct bitmap { uint32_t btmp_bytes_len; uint8_t* bits; }] (bitmap.h). *)
Record bitmap := mk_bitmap {
  btmp_bytes_len : Z;
  bits : Z
}.

(** [#define BITMAP_MASK 1] (bitmap.h). *)
Definition BITMAP_MASK : Z := 1.

(** Every value of a byte store is a byte. *)
Definition byte_store (m : store) : Prop := map_Forall (fun _ v => 0 <= v < 256) m.

(** Every bit set in [m] is set in [m']: what a run of [bitmap_set ... 1]
    does to a byte store. *)
Definition bits_grow (m m' : store) : Prop :=
  forall a k, 0 <= k -> Z.testbit (rd m a) k = true -> Z.testbit (rd m' a) k = true.

(** ** Operations *)

(** [memset] (string.c): [while (size-- > 0) *dst++ = value;] *)
Fixpoint memset_loop (m : store) (dst value : Z) (size : nat) : store :=
  match size with
  | O => m
  | S n => memset_loop (wr m dst (u8 value)) (dst + 1) value n
  end.

Definition memset (m : store) (dst value size : Z) : kres store :=
  ASSERT negb (dst =? 0) as "dst_ != NULL" ;;
  KOk (memset_loop m dst value (Z.to_nat size)).

(** [bitmap_init]: [memset(btmp->bits, 0, btmp->btmp_bytes_len)]. *)
Definition bitmap_init (m : store) (b : bitmap) : kres store :=
  memset m (bits b) 0 (btmp_bytes_len b).

(** [bitmap_scan_test]: [bits[bit_idx / 8] & (BITMAP_MASK << bit_idx % 8)]. *)
Definition bitmap_scan_test (m : store) (b : bitmap) (bit_idx : Z) : bool :=
  let byte_idx := bit_idx / 8 in
  let bit_odd := bit_idx mod 8 in
  negb (Z.land (rd m (bits b + byte_idx)) (Z.shiftl BITMAP_MASK bit_odd) =? 0).

(** [bitmap_set]: set bit [bit_idx] to [value], which must be 0 or 1. *)
Definition bitmap_set (m : store) (b : bitmap) (bit_idx value : Z) : kres store :=
  ASSERT (value =? 0) || (value =? 1) as "value == 0 || value == 1" ;;
  let byte_idx := bit_idx / 8 in
  let bit_odd := bit_idx mod 8 in
  let old := rd m (bits b + byte_idx) in
  if value =? 1
  then KOk (wr m (bits b + byte_idx) (u8 (Z.lor old (Z.shiftl BITMAP_MASK bit_odd))))
  else KOk (wr m (bits b + byte_idx) (u8 (Z.land old (Z.lnot (Z.shiftl BITMAP_MASK bit_odd))))).

(** First loop of [bitmap_scan]:
    [while ((0xff == bits[idx_byte]) && (idx_byte < btmp_bytes_len)) idx_byte++;]
    [n] is the number of bytes left, [btmp_bytes_len - idx_byte]: when it
    is 0 the second conjunct ends the loop. *)
Fixpoint skip_full_bytes (m : store) (b : bitmap) (idx_byte : Z) (n : nat) : Z :=
  match n with
  | O => idx_byte
  | S n' =>
      if rd m (bits b + idx_byte) =? 255
      then skip_full_bytes m b (idx_byte + 1) n'
      else idx_byte
  end.

(** Second loop:
    [while ((uint8_t)(BITMAP_MASK << idx_bit) & bits[idx_byte]) idx_bit++;]
    After 8 iterations the [uint8_t] cast of the mask is 0 and the loop
    ends, so 8 is the loop's own bound. *)
Fixpoint first_clear_bit (byte idx_bit : Z) (n : nat) : Z :=
  match n with
  | O => idx_bit
  | S n' =>
      if Z.land (u8 (Z.shiftl BITMAP_MASK idx_bit)) byte =? 0
      then idx_bit
      else first_clear_bit byte (idx_bit + 1) n'
  end.

(** Third loop, run [bit_left] times:
    [if (!bitmap_scan_test(btmp, next_bit)) count++; else count = 0;
     if (count == cnt) { bit_idx_start = next_bit - cnt + 1; break; }
     next_bit++;]
    and [-1] when the loop ends without a [break]. *)
Fixpoint scan_run (m : store) (b : bitmap) (cnt next_bit count : Z) (bit_left : nat) : Z :=
  match bit_left with
  | O => -1
  | S n =>
      let count' := if bitmap_scan_test m b next_bit then 0 else count + 1 in
      if count' =? cnt then next_bit - cnt + 1
      else scan_run m b cnt (next_bit + 1) count' n
  end.

(** [bitmap_scan]: the start of [cnt] consecutive free bits, or [-1]. *)
Definition bitmap_scan (m : store) (b : bitmap) (cnt : Z) : kres Z :=
  let idx_byte := skip_full_bytes m b 0 (Z.to_nat (btmp_bytes_len b)) in
  ASSERT (idx_byte <? btmp_bytes_len b) as "idx_byte < btmp->btmp_bytes_len" ;;
  let idx_bit := first_clear_bit (rd m (bits b + idx_byte)) 0 8 in
  let bit_idx_start := idx_byte * 8 + idx_bit in
  if cnt =? 1 then KOk bit_idx_start
  else
    let bit_left := u32 (btmp_bytes_len b * 8 - bit_idx_start) in
    if bit_left <? u32 (cnt - 1) then KOk (-1)
    else KOk (scan_run m b cnt (bit_idx_start + 1) 1 (Z.to_nat bit_left)).

(** ** Bit-level lemmas *)

Lemma land_mask_testbit (x k : Z) :
  0 <= k -> (Z.land x (Z.shiftl BITMAP_MASK k) =? 0) = negb (Z.testbit x k).
Proof.
  intros Hk. unfold BITMAP_MASK. rewrite Z.shiftl_1_l.
  destruct (Z.testbit x k) eqn:E; simpl.
  - apply Z.eqb_neq. intros H0.
    assert (Z.testbit (Z.land x (2 ^ k)) k = false) as F by (rewrite H0; apply Z.testbit_0_l).
    rewrite Z.land_spec, Z.pow2_bits_true, E in F by lia. discriminate.
  - apply Z.eqb_eq. apply Z.bits_inj'. intros j Hj.
    rewrite Z.land_spec, Z.pow2_bits_eqb, Z.testbit_0_l by lia.
    destruct (Z.eqb_spec k j); subst; [rewrite E; reflexivity | apply andb_false_r].
Qed.

Lemma rd_byte (m : store) (a : Z) : byte_store m -> 0 <= rd m a < 256.
Proof.
  intros Hm. unfold rd. destruct (m !! a) eqn:E; simpl; [| lia].
  exact (Hm a z E).
Qed.

Lemma byte_store_wr (m : store) (a v : Z) :
  byte_store m -> 0 <= v < 256 -> byte_store (wr m a v).
Proof. intros Hm Hv. unfold byte_store, wr. by apply map_Forall_insert_2. Qed.

Lemma u8_range (z : Z) : 0 <= u8 z < 256.
Proof. unfold u8. apply Z.mod_pos_bound. lia. Qed.

Lemma byte_store_empty : byte_store ∅.
Proof. apply map_Forall_empty. Qed.

#[export] Hint Resolve rd_byte byte_store_wr byte_store_empty u8_range : kernel.

Lemma testbit_u8 (z k : Z) : 0 <= k < 8 -> Z.testbit (u8 z) k = Z.testbit z k.
Proof. intros Hk. unfold u8. apply Z.mod_pow2_bits_low. lia. Qed.

(** A byte whose eight bits are all set is [0xff]. *)
Lemma byte_all_ones (x : Z) :
  0 <= x < 256 -> (forall k, 0 <= k < 8 -> Z.testbit x k = true) -> x = 255.
Proof.
  intros Hx Hk. apply Z.bits_inj'. intros j Hj.
  destruct (Z.lt_ge_cases j 8).
  - rewrite Hk by lia. change 255 with (Z.ones 8). rewrite Z.ones_spec_low; lia.
  - change 255 with (Z.ones 8). rewrite Z.ones_spec_high by lia.
    rewrite <- (Z.mod_small x (2 ^ 8)) by lia. apply Z.mod_pow2_bits_high. lia.
Qed.

Lemma bitmap_scan_test_spec (m : store) (b : bitmap) (i : Z) :
  0 <= i ->
  bitmap_scan_test m b i = Z.testbit (rd m (bits b + i / 8)) (i mod 8).
Proof.
  intros Hi. unfold bitmap_scan_test. rewrite land_mask_testbit.
  - apply negb_involutive.
  - apply Z.mod_pos_bound. lia.
Qed.

Lemma u8_mask (k : Z) : 0 <= k < 8 -> u8 (Z.shiftl BITMAP_MASK k) = Z.shiftl BITMAP_MASK k.
Proof.
  intros Hk. unfold BITMAP_MASK. rewrite Z.shiftl_1_l. apply u8_small.
  split; [lia |]. apply (Z.pow_lt_mono_r 2 k 8); lia.
Qed.

(** ** The loops of [bitmap_scan] *)

Section ScanLoops.
Context (m : store) (b : bitmap).

Lemma skip_full_bytes_spec (i : Z) (n : nat) :
  let r := skip_full_bytes m b i n in
  i <= r <= i + Z.of_nat n /\
  (forall k, i <= k < r -> rd m (bits b + k) = 255) /\
  (r < i + Z.of_nat n -> rd m (bits b + r) <> 255).
Proof.
  revert i; induction n as [| n IH]; intros i; simpl.
  - split; [lia | split; intros; lia].
  - destruct (Z.eqb_spec (rd m (bits b + i)) 255) as [E | E].
    + destruct (IH (i + 1)) as (H1 & H2 & H3). split; [lia | split].
      * intros k Hk. destruct (Z.eq_dec k i); [subst; exact E | apply H2; lia].
      * intros Hr. apply H3. lia.
    + split; [lia | split; [intros; lia | intros _; exact E]].
Qed.

Lemma first_clear_bit_spec (byte k : Z) (n : nat) :
  0 <= k -> k + Z.of_nat n <= 8 ->
  let r := first_clear_bit byte k n in
  k <= r <= k + Z.of_nat n /\
  (forall j, k <= j < r -> Z.testbit byte j = true) /\
  (r < k + Z.of_nat n -> Z.testbit byte r = false).
Proof.
  revert k; induction n as [| n IH]; intros k Hk Hn; simpl.
  - split; [lia | split; intros; lia].
  - rewrite u8_mask, Z.land_comm, land_mask_testbit by lia.
    destruct (Z.testbit byte k) eqn:E; simpl.
    + destruct (IH (k + 1) ltac:(lia) ltac:(lia)) as (H1 & H2 & H3).
      split; [lia | split].
      * intros j Hj. destruct (Z.eq_dec j k); [subst; exact E | apply H2; lia].
      * intros Hr. apply H3. lia.
    + split; [lia | split; [intros; lia | intros _; exact E]].
Qed.

(** In a byte that is not [0xff], the second loop stops at its lowest clear bit. *)
Lemma first_clear_bit_byte (byte : Z) :
  0 <= byte < 256 -> byte <> 255 ->
  let r := first_clear_bit byte 0 8 in
  0 <= r < 8 /\ Z.testbit byte r = false /\
  (forall j, 0 <= j < r -> Z.testbit byte j = true).
Proof.
  intros Hb Hne. destruct (first_clear_bit_spec byte 0 8 ltac:(lia) ltac:(simpl; lia)) as (H1 & H2 & H3).
  set (r := first_clear_bit byte 0 8) in *. simpl Z.of_nat in *.
  destruct (Z.eq_dec r 8) as [E | E].
  - exfalso. apply Hne, byte_all_ones; [exact Hb |]. intros k Hk. apply H2. lia.
  - split; [lia | split; [apply H3; lia | exact H2]].
Qed.

(** The third loop counts the length of the current run of free bits: it
    only stops on a run of [cnt] free bits, which it returns. *)
Lemma scan_run_sound (cnt nb count : Z) (n : nat) :
  1 <= cnt -> 0 <= count < cnt -> 0 <= nb - count ->
  (forall i, nb - count <= i < nb -> bitmap_scan_test m b i = false) ->
  let s := scan_run m b cnt nb count n in
  s <> -1 ->
  nb - count <= s /\ s + cnt <= nb + Z.of_nat n /\
  (forall i, s <= i < s + cnt -> bitmap_scan_test m b i = false).
Proof.
  revert nb count; induction n as [| n IH]; intros nb count Hc Hcount Hnb Hrun; cbv zeta; simpl.
  - intros H; lia.
  - destruct (bitmap_scan_test m b nb) eqn:T.
    + rewrite (proj2 (Z.eqb_neq 0 cnt)) by lia. intros Hs.
      destruct (IH (nb + 1) 0 Hc ltac:(lia) ltac:(lia) ltac:(intros; lia) Hs) as (H1 & H2 & H3).
      split; [lia | split; [lia | exact H3]].
    + destruct (Z.eqb_spec (count + 1) cnt) as [E | E].
      * intros _. split; [lia | split; [lia |]].
        intros i Hi. destruct (Z.eq_dec i nb); [subst; exact T | apply Hrun; lia].
      * intros Hs.
        assert (Hrun' : forall i, nb + 1 - (count + 1) <= i < nb + 1 ->
                          bitmap_scan_test m b i = false).
        { intros i Hi. destruct (Z.eq_dec i nb); [subst; exact T | apply Hrun; lia]. }
        destruct (IH (nb + 1) (count + 1) Hc ltac:(lia) ltac:(lia) Hrun' Hs) as (H1 & H2 & H3).
        split; [lia | split; [lia | exact H3]].
Qed.
End ScanLoops.

Lemma testbit_255 (k : Z) : 0 <= k < 8 -> Z.testbit 255 k = true.
Proof. intros Hk. change 255 with (Z.ones 8). apply Z.ones_spec_low. lia. Qed.

(** Where the first two loops of [bitmap_scan] stop: at the lowest free bit. *)
Lemma scan_start_spec (m : store) (b : bitmap) :
  byte_store m ->
  let ib := skip_full_bytes m b 0 (Z.to_nat (btmp_bytes_len b)) in
  ib < btmp_bytes_len b ->
  let st := ib * 8 + first_clear_bit (rd m (bits b + ib)) 0 8 in
  0 <= st < 8 * btmp_bytes_len b /\ bitmap_scan_test m b st = false /\
  (forall i, 0 <= i < st -> bitmap_scan_test m b i = true).
Proof.
  intros Hm ib Hib st.
  destruct (skip_full_bytes_spec m b 0 (Z.to_nat (btmp_bytes_len b))) as (S1 & S2 & S3).
  fold ib in S1, S2, S3.
  rewrite Z2Nat.id in S3 by lia.
  destruct (first_clear_bit_byte (rd m (bits b + ib)) ltac:(auto with kernel) ltac:(apply S3; lia))
    as (F1 & F2 & F3).
  set (r := first_clear_bit (rd m (bits b + ib)) 0 8) in *.
  assert (Hq : st / 8 = ib /\ st mod 8 = r) by (apply div_mod_split; lia).
  split; [lia | split].
  - rewrite bitmap_scan_test_spec by lia. destruct Hq as [-> ->]. exact F2.
  - intros i Hi. rewrite bitmap_scan_test_spec by lia.
    divmod i 8. destruct (Z.lt_ge_cases (i / 8) ib).
    + rewrite S2 by lia. apply testbit_255. lia.
    + assert (i / 8 = ib) as -> by lia. apply F3. lia.
Qed.

(** What a one-bit scan returns, when it returns. *)
Lemma bitmap_scan_one (m : store) (b : bitmap) (s : Z) :
  byte_store m -> bitmap_scan m b 1 = KOk s ->
  0 <= s < 8 * btmp_bytes_len b /\ bitmap_scan_test m b s = false /\
  (forall i, 0 <= i < s -> bitmap_scan_test m b i = true).
Proof.
  intros Hm Hscan. unfold bitmap_scan in Hscan.
  destruct (Z.ltb_spec (skip_full_bytes m b 0 (Z.to_nat (btmp_bytes_len b))) (btmp_bytes_len b))
    as [Hib | Hib]; [| discriminate].
  simpl in Hscan. injection Hscan as <-. exact (scan_start_spec m b Hm Hib).
Qed.

(** ** Theorems on [bitmap_scan] *)

(** A scan that does not return [-1] returns a run of free bits. *)
Lemma scan_free_run (m : store) (b : bitmap) (cnt s : Z) :
  byte_store m -> btmp_bytes_len b * 8 < 2 ^ 32 -> 1 <= cnt ->
  bitmap_scan m b cnt = KOk s -> s <> -1 ->
  0 <= s /\ s + cnt <= 8 * btmp_bytes_len b + (if cnt =? 1 then 0 else 1) /\
  (forall i, s <= i < s + cnt -> bitmap_scan_test m b i = false).
Proof.
  intros Hm Hlen Hcnt Hscan Hs. unfold bitmap_scan in Hscan.
  destruct (Z.ltb_spec (skip_full_bytes m b 0 (Z.to_nat (btmp_bytes_len b))) (btmp_bytes_len b))
    as [Hib | Hib]; [| discriminate].
  destruct (scan_start_spec m b Hm Hib) as (T1 & T2 & T3).
  set (st := skip_full_bytes m b 0 (Z.to_nat (btmp_bytes_len b)) * 8 +
             first_clear_bit (rd m (bits b + skip_full_bytes m b 0 (Z.to_nat (btmp_bytes_len b)))) 0 8)
    in *.
  destruct (Z.eqb_spec cnt 1) as [-> | Hne].
  - injection Hscan as <-. split; [lia | split; [lia |]].
    intros i Hi. assert (i = st) as -> by lia. exact T2.
  - rewrite u32_small in Hscan by lia.
    destruct (_ <? _); [injection Hscan as <-; lia |].
    injection Hscan as Hscan.
    destruct (scan_run_sound m b cnt (st + 1) 1 (Z.to_nat (btmp_bytes_len b * 8 - st)))
      as (R1 & R2 & R3); [lia | lia | lia | | rewrite Hscan; exact Hs |].
    { intros i Hi. assert (i = st) as -> by lia. exact T2. }
    rewrite Hscan in R1, R2, R3. rewrite Z2Nat.id in R2 by lia.
    split; [lia | split; [lia | exact R3]].
Qed.

(** C3 (safety) A scan either fails with [-1], which a one-bit request
    never does, or returns a run of [cnt] free bits that starts inside the
    bitmap.  A one-bit run stays inside the buffer; a longer run may end
    one bit past it: the third loop runs [bit_left] times starting at
    [bit_idx_start + 1], so its last test is of bit [8 * btmp_bytes_len],
    the first bit after the buffer. *)
Theorem bitmap_scan_sound (m : store) (b : bitmap) (cnt s : Z) :
  byte_store m -> btmp_bytes_len b * 8 < 2 ^ 32 -> 1 <= cnt ->
  bitmap_scan m b cnt = KOk s ->
  (s = -1 /\ cnt <> 1) \/
  (0 <= s /\ s + cnt <= 8 * btmp_bytes_len b + (if cnt =? 1 then 0 else 1) /\
   forall i, s <= i < s + cnt -> bitmap_scan_test m b i = false).
Proof.
  intros Hm Hlen Hcnt Hscan. destruct (Z.eq_dec s (-1)) as [-> | Hs].
  - left. split; [reflexivity |]. intros ->.
    destruct (bitmap_scan_one m b (-1) Hm Hscan). lia.
  - right. exact (scan_free_run m b cnt s Hm Hlen Hcnt Hscan Hs).
Qed.

(** A one-bit scan of a bitmap with a free bit returns the lowest one. *)
Lemma scan_one_finds_free (m : store) (b : bitmap) (j : Z) :
  byte_store m -> 0 <= j < 8 * btmp_bytes_len b -> bitmap_scan_test m b j = false ->
  exists s, bitmap_scan m b 1 = KOk s /\ s <= j /\ bitmap_scan_test m b s = false /\
            (forall i, 0 <= i < s -> bitmap_scan_test m b i = true).
Proof.
  intros Hm Hj Hfree. unfold bitmap_scan.
  destruct (skip_full_bytes_spec m b 0 (Z.to_nat (btmp_bytes_len b))) as (S1 & S2 & _).
  rewrite Z2Nat.id in S1 by lia.
  set (ib := skip_full_bytes m b 0 (Z.to_nat (btmp_bytes_len b))) in *.
  assert (Hib : ib < btmp_bytes_len b).
  { destruct (Z.lt_ge_cases ib (btmp_bytes_len b)) as [H | H]; [exact H | exfalso].
    rewrite bitmap_scan_test_spec in Hfree by lia. divmod j 8.
    rewrite S2, testbit_255 in Hfree by lia. discriminate. }
  destruct (scan_start_spec m b Hm Hib) as (T1 & T2 & T3). fold ib in T1, T2, T3.
  rewrite (proj2 (Z.ltb_lt _ _) Hib). simpl.
  eexists; split; [reflexivity | split; [| split; [exact T2 | exact T3]]].
  destruct (Z.le_gt_cases (ib * 8 + first_clear_bit (rd m (bits b + ib)) 0 8) j) as [H | H];
    [exact H |].
  rewrite T3 in Hfree by lia. discriminate.
Qed.

(** A scan of a bitmap whose bytes are all [0xff] stops at the [ASSERT]. *)
Lemma scan_full_stops (m : store) (b : bitmap) (cnt : Z) :
  (forall k, 0 <= k < btmp_bytes_len b -> rd m (bits b + k) = 255) ->
  bitmap_scan m b cnt = KPanic "idx_byte < btmp->btmp_bytes_len".
Proof.
  intros Hfull. unfold bitmap_scan.
  destruct (skip_full_bytes_spec m b 0 (Z.to_nat (btmp_bytes_len b))) as (S1 & _ & S3).
  set (ib := skip_full_bytes m b 0 (Z.to_nat (btmp_bytes_len b))) in *.
  destruct (Z.ltb_spec ib (btmp_bytes_len b)) as [H | H]; [| reflexivity].
  exfalso. apply S3; [lia |]. apply Hfull. lia.
Qed.

(** A one-bit scan is total on a byte store: it returns
    the lowest free bit when there is one, and it stops the kernel exactly
    when every bit of the bitmap is set; it never faults. *)
Theorem bitmap_scan_one_spec (m : store) (b : bitmap) :
  byte_store m ->
  match bitmap_scan m b 1 with
  | KOk s => 0 <= s < 8 * btmp_bytes_len b /\ bitmap_scan_test m b s = false /\
             (forall i, 0 <= i < s -> bitmap_scan_test m b i = true)
  | KPanic _ => forall i, 0 <= i < 8 * btmp_bytes_len b -> bitmap_scan_test m b i = true
  | KFault _ | KBlock => False
  end.
Proof.
  intros Hm. destruct (bitmap_scan m b 1) as [s | w | v |] eqn:E;
    [| | revert E; unfold bitmap_scan; case_tests; discriminate ..].
  - exact (bitmap_scan_one m b s Hm E).
  - intros i Hi. destruct (bitmap_scan_test m b i) eqn:T; [reflexivity |].
    destruct (scan_one_finds_free m b i Hm Hi T) as (s & Hs & _). congruence.
Qed.

(** A scan stops the kernel, for any request size, exactly when
    every byte of the bitmap is [0xff]: a full bitmap is not reported with
    the failure value [-1] but by the [ASSERT] after the byte-skipping
    loop. *)
Theorem bitmap_scan_full_panics (m : store) (b : bitmap) (cnt : Z) :
  0 <= btmp_bytes_len b ->
  bitmap_scan m b cnt = KPanic "idx_byte < btmp->btmp_bytes_len" <->
  (forall k, 0 <= k < btmp_bytes_len b -> rd m (bits b + k) = 255).
Proof.
  intros Hl. split; [| apply scan_full_stops].
  intros E k Hk. unfold bitmap_scan in E.
  destruct (skip_full_bytes_spec m b 0 (Z.to_nat (btmp_bytes_len b))) as (S1 & S2 & _).
  rewrite Z2Nat.id in S1 by lia.
  destruct (Z.ltb_spec (skip_full_bytes m b 0 (Z.to_nat (btmp_bytes_len b))) (btmp_bytes_len b));
    [revert E; case_tests; discriminate |].
  apply S2. lia.
Qed.

(** The run returned by the scan can end past
    the buffer.  A one-byte bitmap whose last bit is free, followed in
    memory by a byte whose bit 0 is clear (here: the next bitmap of
    [mem_pool_init]'s layout at [MEM_BITMAP_BASE]), yields bits 7 and 8 for
    a two-bit request; bit 8 is not part of the bitmap. *)
Theorem bitmap_scan_past_end :
  let b := mk_bitmap 1 0xc009a000 in
  let m := wr (wr ∅ 0xc009a000 0x7f) 0xc009a001 0 in
  bitmap_scan m b 2 = KOk 7 /\ 7 + 2 > 8 * btmp_bytes_len b /\
  bitmap_scan_test m b 7 = false /\ bitmap_scan_test m b 8 = false.
Proof. vm_compute. repeat split; reflexivity. Qed.

(** ** Theorems on [bitmap_set] and [bitmap_init] *)

Lemma testbit_set_bit (old k j : Z) (value : Z) :
  0 <= k < 8 -> 0 <= j < 8 -> (value = 0 \/ value = 1) ->
  Z.testbit (u8 (if value =? 1 then Z.lor old (Z.shiftl BITMAP_MASK k)
                 else Z.land old (Z.lnot (Z.shiftl BITMAP_MASK k)))) j =
  if j =? k then value =? 1 else Z.testbit old j.
Proof.
  intros Hk Hj Hv. rewrite testbit_u8 by lia. unfold BITMAP_MASK. rewrite Z.shiftl_1_l.
  destruct Hv as [-> | ->]; simpl.
  - rewrite Z.land_spec, Z.lnot_spec, Z.pow2_bits_eqb by lia.
    destruct (Z.eqb_spec k j), (Z.eqb_spec j k); subst; try lia; simpl;
      first [apply andb_false_r | apply andb_true_r].
  - rewrite Z.lor_spec, Z.pow2_bits_eqb by lia.
    destruct (Z.eqb_spec k j), (Z.eqb_spec j k); subst; try lia; simpl;
      first [apply orb_true_r | apply orb_false_r].
Qed.

(** What a successful [bitmap_set] does. *)
Lemma bitmap_set_ok (m : store) (b : bitmap) (i value : Z) (m' : store) :
  0 <= i -> bitmap_set m b i value = KOk m' ->
  (value = 0 \/ value = 1) /\
  (byte_store m -> byte_store m') /\
  (forall a, a <> bits b + i / 8 -> rd m' a = rd m a) /\
  (forall j, 0 <= j ->
     bitmap_scan_test m' b j = if j =? i then value =? 1 else bitmap_scan_test m b j).
Proof.
  intros Hi Hset. unfold bitmap_set in Hset.
  destruct ((value =? 0) || (value =? 1)) eqn:Hv; [| discriminate].
  assert (Hv' : value = 0 \/ value = 1) by (apply orb_true_iff in Hv; lia).
  assert (Hm' : m' = wr m (bits b + i / 8)
                  (u8 (if value =? 1 then Z.lor (rd m (bits b + i / 8)) (Z.shiftl BITMAP_MASK (i mod 8))
                       else Z.land (rd m (bits b + i / 8)) (Z.lnot (Z.shiftl BITMAP_MASK (i mod 8)))))).
  { destruct (value =? 1); congruence. }
  clear Hset. subst m'. split; [exact Hv' | split; [| split]].
  - intros Hm. apply byte_store_wr; [exact Hm | apply u8_range].
  - intros a Ha. apply rd_wr_ne. congruence.
  - intros j Hj. rewrite !bitmap_scan_test_spec by lia. rewrite rd_wr.
    divmod i 8. divmod j 8. case_decide as Hb.
    + assert (Hq : i / 8 = j / 8) by lia. rewrite testbit_set_bit by lia.
      destruct (Z.eqb_spec (j mod 8) (i mod 8)), (Z.eqb_spec j i); try lia;
        first [reflexivity | rewrite Hq; reflexivity].
    + destruct (Z.eqb_spec j i); [subst; congruence | reflexivity].
Qed.

(** [bitmap_set] stops the kernel unless the value is 0
    or 1; otherwise it changes exactly the requested bit to the requested
    value, writes nothing but the byte that holds it, and keeps every value
    of the store a byte. *)
Theorem bitmap_set_spec (m : store) (b : bitmap) (i value : Z) :
  0 <= i ->
  match bitmap_set m b i value with
  | KOk m' =>
      (value = 0 \/ value = 1) /\
      (byte_store m -> byte_store m') /\
      (forall a, a <> bits b + i / 8 -> rd m' a = rd m a) /\
      (forall j, 0 <= j ->
         bitmap_scan_test m' b j = if j =? i then value =? 1 else bitmap_scan_test m b j)
  | KPanic _ => value <> 0 /\ value <> 1
  | KFault _ | KBlock => False
  end.
Proof.
  intros Hi. destruct (bitmap_set m b i value) as [m' | w | v |] eqn:E;
    [| | unfold bitmap_set in E; revert E; case_tests; discriminate ..].
  - exact (bitmap_set_ok m b i value m' Hi E).
  - unfold bitmap_set in E.
    destruct (Z.eqb_spec value 0), (Z.eqb_spec value 1); simpl in E;
      [subst; discriminate .. | lia].
Qed.

Lemma memset_loop_rd (m : store) (dst value : Z) (n : nat) (a : Z) :
  rd (memset_loop m dst value n) a =
  if decide (dst <= a < dst + Z.of_nat n) then u8 value else rd m a.
Proof.
  revert m dst; induction n as [| n IH]; intros m dst; simpl.
  - case_decide; [lia | reflexivity].
  - rewrite IH, rd_wr. repeat case_decide; subst; try reflexivity; lia.
Qed.

(** What [bitmap_init] does to a non-NULL buffer. *)
Lemma bitmap_init_ok (m : store) (b : bitmap) :
  bits b <> 0 -> 0 <= btmp_bytes_len b ->
  exists m', bitmap_init m b = KOk m' /\ (byte_store m -> byte_store m') /\
    (forall j, 0 <= j < 8 * btmp_bytes_len b -> bitmap_scan_test m' b j = false) /\
    (forall a, ~ (bits b <= a < bits b + btmp_bytes_len b) -> rd m' a = rd m a).
Proof.
  intros Hb Hl. unfold bitmap_init, memset. rewrite (proj2 (Z.eqb_neq _ 0) Hb). simpl.
  eexists. split; [reflexivity | split; [| split]].
  - intros Hm. clear Hb Hl. generalize (bits b) m Hm.
    induction (Z.to_nat (btmp_bytes_len b)) as [| n IH]; intros d m0 Hm0; simpl; auto with kernel.
  - intros j Hj. rewrite bitmap_scan_test_spec, memset_loop_rd by lia.
    divmod j 8. rewrite Z2Nat.id by lia.
    case_decide; [| lia]. apply Z.testbit_0_l.
  - intros a Ha. rewrite memset_loop_rd, Z2Nat.id by lia. case_decide; [lia | reflexivity].
Qed.

(** [bitmap_init] (a [memset] of the buffer) clears every
    bit of the bitmap and touches no byte outside the buffer; it stops the
    kernel when the buffer pointer is NULL. *)
Theorem bitmap_init_spec (m : store) (b : bitmap) :
  0 <= btmp_bytes_len b ->
  match bitmap_init m b with
  | KOk m' =>
      bits b <> 0 /\
      (forall i, 0 <= i < 8 * btmp_bytes_len b -> bitmap_scan_test m' b i = false) /\
      (forall a, ~ (bits b <= a < bits b + btmp_bytes_len b) -> rd m' a = rd m a)
  | KPanic _ => bits b = 0
  | KFault _ | KBlock => False
  end.
Proof.
  intros Hlen. destruct (Z.eq_dec (bits b) 0) as [E | E].
  - unfold bitmap_init, memset. rewrite E. reflexivity.
  - destruct (bitmap_init_ok m b E Hlen) as (m' & -> & _ & H1 & H2). auto.
Qed.

(** Setting a bit to 1 clears none. *)
Lemma bitmap_set_one_grows (m : store) (b : bitmap) (i : Z) (m' : store) :
  byte_store m -> bitmap_set m b i 1 = KOk m' -> bits_grow m m'.
Proof.
  intros Hm Hset a k Hk Ht. unfold bitmap_set in Hset. simpl in Hset.
  apply kok_inj in Hset. subst m'. rewrite rd_wr. case_decide as Ha; [| exact Ht]. subst a.
  pose proof (rd_byte m (bits b + i / 8) Hm) as Hr.
  assert (Hk8 : k < 8).
  { destruct (Z.lt_ge_cases k 8) as [H8 | H8]; [exact H8 |].
    rewrite <- (Z.mod_small (rd m (bits b + i / 8)) (2 ^ 8)), Z.mod_pow2_bits_high in Ht by lia.
    discriminate. }
  rewrite testbit_u8, Z.lor_spec, Ht by lia. reflexivity.
Qed.

Lemma bitmap_set_byte_store (m : store) (b : bitmap) (i v : Z) (m' : store) :
  byte_store m -> bitmap_set m b i v = KOk m' -> byte_store m'.
Proof.
  intros Hm Hset. unfold bitmap_set in Hset.
  destruct (_ || _); [| discriminate]. destruct (v =? 1); apply kok_inj in Hset; subst m';
    apply byte_store_wr; auto using u8_range.
Qed.

Lemma bits_grow_refl (m : store) : bits_grow m m.
Proof. intros a k _ H. exact H. Qed.

Lemma bits_grow_trans (m1 m2 m3 : store) : bits_grow m1 m2 -> bits_grow m2 m3 -> bits_grow m1 m3.
Proof. intros H1 H2 a k Hk H. apply H2, H1; assumption. Qed.

(** A set bit of any bitmap stays set. *)
Lemma bits_grow_test (m m' : store) (b : bitmap) (j : Z) :
  bits_grow m m' -> 0 <= j -> bitmap_scan_test m b j = true -> bitmap_scan_test m' b j = true.
Proof.
  intros Hg Hj. rewrite !bitmap_scan_test_spec by exact Hj. apply Hg.
  apply Z.mod_pos_bound. lia.
Qed.

#[export] Hint Resolve bits_grow_refl : kernel.

(** ** Extensionality: a buffer is determined by its bits *)

Lemma byte_ext (x y : Z) :
  0 <= x < 256 -> 0 <= y < 256 ->
  (forall k, 0 <= k < 8 -> Z.testbit x k = Z.testbit y k) -> x = y.
Proof.
  intros Hx Hy Hk. apply Z.bits_inj'. intros j Hj.
  destruct (Z.lt_ge_cases j 8) as [H | H]; [apply Hk; lia |].
  rewrite <- (Z.mod_small x (2 ^ 8)), <- (Z.mod_small y (2 ^ 8)) by lia.
  rewrite !Z.mod_pow2_bits_high by lia. reflexivity.
Qed.

(** Two byte stores that agree below the buffer and on every bit of the
    bitmap (including the bits past its end) agree everywhere. *)
Lemma bitmap_store_ext (m m' : store) (b : bitmap) :
  byte_store m -> byte_store m' ->
  (forall a, a < bits b -> rd m' a = rd m a) ->
  (forall j, 0 <= j -> bitmap_scan_test m' b j = bitmap_scan_test m b j) ->
  forall a, rd m' a = rd m a.
Proof.
  intros Hm Hm' Hlow Hbits a.
  destruct (Z.lt_ge_cases a (bits b)) as [H | H]; [apply Hlow, H |].
  apply byte_ext; auto with kernel. intros k Hk.
  specialize (Hbits (8 * (a - bits b) + k) ltac:(lia)).
  rewrite !bitmap_scan_test_spec in Hbits by lia.
  destruct (div_mod_split (a - bits b) k 8) as [Hq Hr]; [lia | lia |].
  rewrite Z.mul_comm in Hbits. rewrite Hq, Hr in Hbits.
  replace (bits b + (a - bits b)) with a in Hbits by lia. exact Hbits.
Qed.

(** ** Witnesses: the theorems applied to concrete bitmaps *)

(** A two-byte bitmap at [MEM_BITMAP_BASE] whose first byte is [0b00000111]:
    a two-bit scan returns bits 3 and 4. *)
Lemma bitmap_scan_sound_witness :
  (3 = -1 /\ 2 <> 1) \/
  (0 <= 3 /\ 3 + 2 <= 8 * 2 + (if 2 =? 1 then 0 else 1) /\
   forall i, 3 <= i < 3 + 2 ->
     bitmap_scan_test (wr (wr ∅ 0xc009a000 7) 0xc009a001 0) (mk_bitmap 2 0xc009a000) i = false).
Proof.
  apply (bitmap_scan_sound (wr (wr ∅ 0xc009a000 7) 0xc009a001 0) (mk_bitmap 2 0xc009a000) 2 3).
  - repeat apply byte_store_wr; auto with kernel; lia.
  - simpl. lia.
  - lia.
  - vm_compute. reflexivity.
Defined.

(** The byte [0xfb] has bit 2 clear: a one-bit scan returns 2. *)
Lemma bitmap_scan_one_spec_witness :
  match bitmap_scan (wr ∅ 0xc009a000 0xfb) (mk_bitmap 1 0xc009a000) 1 with
  | KOk s => 0 <= s < 8 * 1 /\
      bitmap_scan_test (wr ∅ 0xc009a000 0xfb) (mk_bitmap 1 0xc009a000) s = false /\
      (forall i, 0 <= i < s -> bitmap_scan_test (wr ∅ 0xc009a000 0xfb) (mk_bitmap 1 0xc009a000) i = true)
  | KPanic _ => forall i, 0 <= i < 8 * 1 ->
      bitmap_scan_test (wr ∅ 0xc009a000 0xfb) (mk_bitmap 1 0xc009a000) i = true
  | KFault _ | KBlock => False
  end.
Proof.
  apply (bitmap_scan_one_spec (wr ∅ 0xc009a000 0xfb) (mk_bitmap 1 0xc009a000)).
  repeat apply byte_store_wr; auto with kernel; lia.
Defined.

Lemma bitmap_scan_full_panics_witness :
  bitmap_scan (wr (wr ∅ 0xc009a000 255) 0xc009a001 255) (mk_bitmap 2 0xc009a000) 3 =
  KPanic "idx_byte < btmp->btmp_bytes_len".
Proof.
  apply (proj2 (bitmap_scan_full_panics (wr (wr ∅ 0xc009a000 255) 0xc009a001 255)
                  (mk_bitmap 2 0xc009a000) 3 ltac:(simpl; lia))).
  simpl. intros k Hk.
  assert (k = 0 \/ k = 1) as [-> | ->] by lia; vm_compute; reflexivity.
Defined.

Lemma bitmap_set_spec_witness :
  match bitmap_set (wr ∅ 0xc009a000 0) (mk_bitmap 1 0xc009a000) 5 1 with
  | KOk m' =>
      (1 = 0 \/ 1 = 1) /\
      (byte_store (wr ∅ 0xc009a000 0) -> byte_store m') /\
      (forall a, a <> bits (mk_bitmap 1 0xc009a000) + 5 / 8 -> rd m' a = rd (wr ∅ 0xc009a000 0) a) /\
      (forall j, 0 <= j ->
         bitmap_scan_test m' (mk_bitmap 1 0xc009a000) j =
         if j =? 5 then 1 =? 1 else bitmap_scan_test (wr ∅ 0xc009a000 0) (mk_bitmap 1 0xc009a000) j)
  | KPanic _ => 1 <> 0 /\ 1 <> 1
  | KFault _ | KBlock => False
  end.
Proof. apply (bitmap_set_spec (wr ∅ 0xc009a000 0) (mk_bitmap 1 0xc009a000) 5 1). lia. Defined.

Lemma bitmap_init_spec_witness :
  match bitmap_init (wr ∅ 0xc009a000 0xff) (mk_bitmap 1 0xc009a000) with
  | KOk m' =>
      bits (mk_bitmap 1 0xc009a000) <> 0 /\
      (forall i, 0 <= i < 8 * btmp_bytes_len (mk_bitmap 1 0xc009a000) ->
         bitmap_scan_test m' (mk_bitmap 1 0xc009a000) i = false) /\
      (forall a, ~ (bits (mk_bitmap 1 0xc009a000) <= a <
                    bits (mk_bitmap 1 0xc009a000) + btmp_bytes_len (mk_bitmap 1 0xc009a000)) ->
         rd m' a = rd (wr ∅ 0xc009a000 0xff) a)
  | KPanic _ => bits (mk_bitmap 1 0xc009a000) = 0
  | KFault _ | KBlock => False
  end.
Proof. apply bitmap_init_spec. simpl. lia. Defined.
