(* ===== verification/Pool.v ===== *)
(** * Pool: the page pools of [kernel/memory.c]

    The kernel's memory state as [memory.c] keeps it: the two physical
    pools [kernel_pool] and [user_pool] ([struct pool]: a bitmap, a start
    address and a size), the kernel heap's virtual-address pool
    [kernel_vaddr] ([struct virtual_addr]), and the fields of the running
    task that the allocator reads ([pgdir], [userprog_vaddr]).  The bitmaps'
    buffers live in the byte store [bmem]; physical memory (page
    directories and page tables, read by the MMU) is the word store [pmem]
    and the active directory is [cr3].  The pool locks are not part of this
    state: [palloc], [pfree], [vaddr_get] and [vaddr_remove] do not take
    them (their callers do).

    Operations: [palloc], [pfree], [vaddr_get], [vaddr_remove] and
    [mem_pool_init].  Theorems: [palloc] never returns NULL (it panics on
    a full pool instead), returns a frame of its pool whose bit it sets, and
    [pfree] of that frame restores the bitmap bit for bit; [vaddr_get]
    reserves exactly a run of free pages; [mem_pool_init]'s layout, and the
    16-bit page count that wraps for large memories. *)

From Stdlib Require Import ZArith Lia String.
From stdpp Require Import base gmap list.
From S2P Require Import Prelude Bitmap.

Open Scope Z_scope.
Open Scope kernel_scope.

(** ** Data *)

(** [enum pool_flags { PF_KERNEL = 1, PF_USER = 2 }] (memory.h). *)
Inductive pool_flags := PF_KERNEL | PF_USER.

(** [struct pool] without its lock. *)
Record pool := mk_pool {
  pool_bitmap : bitmap;
  phy_addr_start : Z;
  pool_size : Z
}.

(** [struct virtual_addr] (memory.h). *)
Record virtual_addr := mk_vaddr {
  vaddr_bitmap : bitmap;
  vaddr_start : Z
}.

(** The memory-management state. *)
Record mstate := mk_mstate {
  kernel_pool : pool;
  user_pool : pool;
  kernel_vaddr : virtual_addr;
  cur_pgdir : Z;               (** [running_thread()->pgdir], 0 for NULL *)
  cur_uvaddr : virtual_addr;   (** [running_thread()->userprog_vaddr] *)
  bmem : store;                (** the bitmaps' bytes *)
  pmem : store;                (** physical memory, 32-bit words *)
  cr3 : Z                      (** physical address of the active page directory *)
}.

Definition with_bmem (st : mstate) (m : store) : mstate :=
  mk_mstate (kernel_pool st) (user_pool st) (kernel_vaddr st) (cur_pgdir st)
            (cur_uvaddr st) m (pmem st) (cr3 st).

Definition with_pmem (st : mstate) (m : store) : mstate :=
  mk_mstate (kernel_pool st) (user_pool st) (kernel_vaddr st) (cur_pgdir st)
            (cur_uvaddr st) (bmem st) m (cr3 st).

(** [struct pool* mem_pool = pf & PF_KERNEL ? &kernel_pool : &user_pool;] *)
Definition pool_of (st : mstate) (pf : pool_flags) : pool :=
  match pf with PF_KERNEL => kernel_pool st | PF_USER => user_pool st end.

(** The virtual pool [vaddr_get] and [vaddr_remove] use: [if (pf == PF_KERNEL)]
    the kernel's, else the running task's [userprog_vaddr]. *)
Definition vaddr_of (st : mstate) (pf : pool_flags) : virtual_addr :=
  match pf with PF_KERNEL => kernel_vaddr st | PF_USER => cur_uvaddr st end.

(** [#define K_HEAP_START 0xc0100000] and [#define MEM_BITMAP_BASE 0xc009a000]. *)
Definition K_HEAP_START : Z := 0xc0100000.
Definition MEM_BITMAP_BASE : Z := 0xc009a000.

(** ** Operations *)

(** The loops [while (cnt < pg_cnt) bitmap_set(bm, bit_idx_start + cnt++, value);]
    of [vaddr_get] and [vaddr_remove]. *)
Fixpoint set_run (m : store) (b : bitmap) (start : Z) (n : nat) (value : Z) : kres store :=
  match n with
  | O => KOk m
  | S n' => m' <- bitmap_set m b start value ;; set_run m' b (start + 1) n' value
  end.

(** [vaddr_get]: reserve [pg_cnt] consecutive virtual pages in the kernel
    pool or in the running task's user pool; 0 (NULL) when none is free. *)
Definition vaddr_get (st : mstate) (pf : pool_flags) (pg_cnt : Z) : kres (Z * mstate) :=
  match pf with
  | PF_KERNEL =>
      let vb := vaddr_bitmap (kernel_vaddr st) in
      bit_idx_start <- bitmap_scan (bmem st) vb pg_cnt ;;
      if bit_idx_start =? -1 then KOk (0, st) else
      m' <- set_run (bmem st) vb bit_idx_start (Z.to_nat pg_cnt) 1 ;;
      KOk (u32 (vaddr_start (kernel_vaddr st) + bit_idx_start * PG_SIZE), with_bmem st m')
  | PF_USER =>
      let vb := vaddr_bitmap (cur_uvaddr st) in
      bit_idx_start <- bitmap_scan (bmem st) vb pg_cnt ;;
      if bit_idx_start =? -1 then KOk (0, st) else
      m' <- set_run (bmem st) vb bit_idx_start (Z.to_nat pg_cnt) 1 ;;
      let vaddr_start := u32 (vaddr_start (cur_uvaddr st) + bit_idx_start * PG_SIZE) in
      ASSERT (vaddr_start <? 0xc0000000 - PG_SIZE) as "(uint32_t)vaddr_start < (0xc0000000 - PG_SIZE)" ;;
      KOk (vaddr_start, with_bmem st m')
  end.

(** [palloc]: one free frame of the pool, its bit set; 0 (NULL) when the
    scan fails. *)
Definition palloc (st : mstate) (pf : pool_flags) : kres (Z * mstate) :=
  let p := pool_of st pf in
  bit_idx <- bitmap_scan (bmem st) (pool_bitmap p) 1 ;;
  if bit_idx =? -1 then KOk (0, st) else
  m' <- bitmap_set (bmem st) (pool_bitmap p) bit_idx 1 ;;
  KOk (u32 (phy_addr_start p + bit_idx * PG_SIZE), with_bmem st m').

(** [pfree]: the pool is the one whose start is below the address. *)
Definition pfree (st : mstate) (pg_phy_addr : Z) : kres mstate :=
  let p := if pg_phy_addr >=? phy_addr_start (user_pool st)
           then user_pool st else kernel_pool st in
  let bit_idx := u32 (pg_phy_addr - phy_addr_start p) / PG_SIZE in
  m' <- bitmap_set (bmem st) (pool_bitmap p) bit_idx 0 ;;
  KOk (with_bmem st m').

(** [vaddr_remove]: release [pg_cnt] virtual pages from [_vaddr]. *)
Definition vaddr_remove (st : mstate) (pf : pool_flags) (vaddr pg_cnt : Z) : kres mstate :=
  let va := vaddr_of st pf in
  let bit_idx_start := u32 (vaddr - vaddr_start va) / PG_SIZE in
  m' <- set_run (bmem st) (vaddr_bitmap va) bit_idx_start (Z.to_nat pg_cnt) 0 ;;
  KOk (with_bmem st m').

(** [uint16_t] truncation, as in [uint16_t all_free_pages = free_mem / PG_SIZE;]. *)
Definition u16 (z : Z) : Z := z mod 2 ^ 16.

(** The values [mem_pool_init] computes from the memory size [all_mem]:
    the two pools and the kernel virtual pool, before the bitmaps are
    cleared ([bitmap_init]) and the locks initialised. *)
Definition mem_pool_layout (all_mem : Z) : pool * pool * virtual_addr :=
  let page_table_size := PG_SIZE * 256 in
  let used_mem := page_table_size + 0x100000 in
  let free_mem := u32 (all_mem - used_mem) in
  let all_free_pages := u16 (free_mem / PG_SIZE) in
  let kernel_free_pages := u16 (all_free_pages / 2) in
  let user_free_pages := u16 (all_free_pages - kernel_free_pages) in
  let kbm_length := kernel_free_pages / 8 in
  let ubm_length := user_free_pages / 8 in
  let kp_start := used_mem in
  let up_start := u32 (kp_start + kernel_free_pages * PG_SIZE) in
  (mk_pool (mk_bitmap kbm_length MEM_BITMAP_BASE) kp_start (kernel_free_pages * PG_SIZE),
   mk_pool (mk_bitmap ubm_length (MEM_BITMAP_BASE + kbm_length)) up_start (user_free_pages * PG_SIZE),
   mk_vaddr (mk_bitmap kbm_length (MEM_BITMAP_BASE + kbm_length + ubm_length)) K_HEAP_START).

(** [mem_pool_init]: lay the pools out and clear the three bitmaps. *)
Definition mem_pool_init (st : mstate) (all_mem : Z) : kres mstate :=
  let '(kp, up, kv) := mem_pool_layout all_mem in
  m1 <- bitmap_init (bmem st) (pool_bitmap kp) ;;
  m2 <- bitmap_init m1 (pool_bitmap up) ;;
  m3 <- bitmap_init m2 (vaddr_bitmap kv) ;;
  KOk (mk_mstate kp up kv (cur_pgdir st) (cur_uvaddr st) m3 (pmem st) (cr3 st)).

(** A machine with 32 MiB of memory right after [mem_pool_init], used to
    instantiate the theorems below on a concrete state. *)
Definition empty_mstate : mstate :=
  mk_mstate (mk_pool (mk_bitmap 0 0) 0 0) (mk_pool (mk_bitmap 0 0) 0 0)
            (mk_vaddr (mk_bitmap 0 0) 0) 0 (mk_vaddr (mk_bitmap 0 0) 0) ∅ ∅ 0x100000.

Definition boot_mstate : mstate :=
  match mem_pool_init empty_mstate (32 * 1024 * 1024) with
  | KOk st => st
  | _ => empty_mstate
  end.

(** ** Well-formed pools

    What [mem_pool_init] establishes for the memory sizes it handles (see
    [mem_pool_layout_wf]): the bitmaps hold bytes, the kernel pool's frames
    lie below the user pool's, and every frame of either pool is a 32-bit
    address. *)
Definition pools_wf (st : mstate) : Prop :=
  byte_store (bmem st) /\
  0 < phy_addr_start (kernel_pool st) /\
  0 <= btmp_bytes_len (pool_bitmap (kernel_pool st)) /\
  0 <= btmp_bytes_len (pool_bitmap (user_pool st)) /\
  phy_addr_start (kernel_pool st) + 8 * btmp_bytes_len (pool_bitmap (kernel_pool st)) * PG_SIZE
    <= phy_addr_start (user_pool st) /\
  phy_addr_start (user_pool st) + 8 * btmp_bytes_len (pool_bitmap (user_pool st)) * PG_SIZE
    <= 2 ^ 32.

(** A virtual pool whose addresses, including the one bit a multi-page scan
    may reach past the end of the bitmap, are 32-bit and nonzero. *)
Definition vpool_wf (v : virtual_addr) : Prop :=
  0 < vaddr_start v /\ 0 <= btmp_bytes_len (vaddr_bitmap v) /\
  vaddr_start v + (8 * btmp_bytes_len (vaddr_bitmap v) + 1) * PG_SIZE <= 2 ^ 32.

(** ** Lemmas on the run loop *)

Lemma set_run_spec (m : store) (b : bitmap) (s : Z) (n : nat) (v : Z) :
  0 <= s -> (v = 0 \/ v = 1) ->
  exists m', set_run m b s n v = KOk m' /\
    (byte_store m -> byte_store m') /\
    (forall a, a < bits b + s / 8 -> rd m' a = rd m a) /\
    (forall j, 0 <= j -> bitmap_scan_test m' b j =
       if decide (s <= j < s + Z.of_nat n) then v =? 1 else bitmap_scan_test m b j).
Proof.
  revert m s; induction n as [| n IH]; intros m s Hs Hv; simpl.
  - exists m. split; [reflexivity | split; [auto | split; [auto |]]].
    intros j Hj. case_decide; [lia | reflexivity].
  - assert (Hok : (v =? 0) || (v =? 1) = true) by (destruct Hv as [-> | ->]; reflexivity).
    destruct (bitmap_set m b s v) as [m1 | w | w |] eqn:E1;
      [| unfold bitmap_set in E1; rewrite Hok in E1; destruct (v =? 1); discriminate ..].
    destruct (bitmap_set_ok m b s v m1 Hs E1) as (_ & B1 & B2 & B3).
    destruct (IH m1 (s + 1) ltac:(lia) Hv) as (m2 & E2 & C1 & C2 & C3).
    exists m2. simpl. split; [exact E2 | split; [auto | split]].
    + intros a Ha. rewrite C2, B2; [reflexivity | | ]. 
      * divmod s 8. lia.
      * assert ((s + 1) / 8 >= s / 8) by (apply Z.le_ge, Z.div_le_mono; lia). lia.
    + intros j Hj. rewrite C3, B3 by lia.
      destruct (Z.eqb_spec j s); repeat case_decide; subst; try reflexivity; lia.
Qed.

(** Marking a run clears no bit. *)
Lemma set_run_one_grows (m : store) (b : bitmap) (s : Z) (n : nat) (m' : store) :
  byte_store m -> set_run m b s n 1 = KOk m' -> bits_grow m m' /\ byte_store m'.
Proof.
  revert m s. induction n as [| n IH]; intros m s Hm E; cbn [set_run] in E.
  - apply kok_inj in E. subst. auto with kernel.
  - kinv E. destruct (IH a (s + 1) (bitmap_set_byte_store _ _ _ _ _ Hm Hr) Hk) as [G B].
    split; [exact (bits_grow_trans _ _ _ (bitmap_set_one_grows _ _ _ _ Hm Hr) G) | exact B].
Qed.

Lemma with_bmem_id (st : mstate) : with_bmem st (bmem st) = st.
Proof. destruct st; reflexivity. Qed.

(** ** Physical frames: [palloc] and [pfree] *)

(** What a returning [palloc] did. *)
Lemma palloc_effect (st : mstate) (pf : pool_flags) (pa : Z) (st' : mstate) :
  pools_wf st -> palloc st pf = KOk (pa, st') ->
  let b := pool_bitmap (pool_of st pf) in
  exists idx, 0 <= idx < 8 * btmp_bytes_len b /\
    pa = phy_addr_start (pool_of st pf) + idx * PG_SIZE /\ pa <> 0 /\
    bitmap_scan_test (bmem st) b idx = false /\
    (forall i, 0 <= i < idx -> bitmap_scan_test (bmem st) b i = true) /\
    st' = with_bmem st (bmem st') /\ byte_store (bmem st') /\
    bitmap_scan_test (bmem st') b idx = true /\
    (forall j, 0 <= j -> j <> idx -> bitmap_scan_test (bmem st') b j = bitmap_scan_test (bmem st) b j) /\
    (forall a, a <> bits b + idx / 8 -> rd (bmem st') a = rd (bmem st) a).
Proof.
  intros (Hm & Hkp & Hkl & Hul & Hku & Huu) Hp b. unfold palloc in Hp. fold b in Hp.
  kinv Hp. destruct (bitmap_scan_one (bmem st) b a Hm Hr) as (S1 & S2 & S3).
  rewrite (proj2 (Z.eqb_neq a (-1))) in Hk by lia.
  kinv Hk. injection Hk0 as <- <-.
  destruct (bitmap_set_ok (bmem st) b a 1 a0 ltac:(lia) Hr0) as (_ & B1 & B2 & B3).
  assert (Hpa : 0 < phy_addr_start (pool_of st pf) /\
                phy_addr_start (pool_of st pf) + a * PG_SIZE < 2 ^ 32)
    by (unfold b in S1; destruct pf; simpl in *; unfold PG_SIZE in *; lia).
  exists a. rewrite u32_small by (unfold PG_SIZE in *; lia).
  split; [exact S1 | split; [reflexivity | split; [unfold PG_SIZE in *; lia |]]].
  split; [exact S2 | split; [exact S3 | split; [reflexivity | split; [auto |]]]].
  split; [rewrite B3 by lia; rewrite Z.eqb_refl; reflexivity | split].
  - intros j Hj Hne. rewrite B3 by lia. rewrite (proj2 (Z.eqb_neq j a) Hne). reflexivity.
  - exact B2.
Qed.

(** [palloc] never faults, touching no memory through the MMU, and never
    blocks, taking no lock. *)
Lemma palloc_no_fault (st : mstate) (pf : pool_flags) (v : Z) : palloc st pf <> KFault v.
Proof. unfold palloc, bitmap_scan, bitmap_set. simpl. case_tests; simpl; case_tests; discriminate. Qed.

Lemma palloc_no_block (st : mstate) (pf : pool_flags) : palloc st pf <> KBlock.
Proof. unfold palloc, bitmap_scan, bitmap_set. simpl. case_tests; simpl; case_tests; discriminate. Qed.

(** [palloc] and [vaddr_get] only set bits, and change only the bitmaps. *)
Lemma palloc_grows (st : mstate) (pf : pool_flags) (pa : Z) (st' : mstate) :
  byte_store (bmem st) -> palloc st pf = KOk (pa, st') ->
  bits_grow (bmem st) (bmem st') /\ byte_store (bmem st') /\ st' = with_bmem st (bmem st').
Proof.
  intros Hm E. unfold palloc in E. kinv E. destruct (a =? -1).
  - apply kok_inj in Hk. injection Hk as _ <-. rewrite with_bmem_id. auto with kernel.
  - kinv Hk. apply kok_inj in Hk0. injection Hk0 as _ <-. cbn [bmem with_bmem].
    split; [exact (bitmap_set_one_grows _ _ _ _ Hm Hr0) |].
    split; [exact (bitmap_set_byte_store _ _ _ _ _ Hm Hr0) | reflexivity].
Qed.

Lemma vaddr_get_grows (st : mstate) (pf : pool_flags) (n va : Z) (st' : mstate) :
  byte_store (bmem st) -> vaddr_get st pf n = KOk (va, st') ->
  bits_grow (bmem st) (bmem st') /\ byte_store (bmem st') /\ st' = with_bmem st (bmem st').
Proof.
  intros Hm E. unfold vaddr_get in E.
  destruct pf; kinv E; (destruct (a =? -1);
    [apply kok_inj in Hk; injection Hk as _ <-; rewrite with_bmem_id; auto with kernel |]);
    kinv Hk; destruct (set_run_one_grows _ _ _ _ _ Hm Hr0) as [G B];
    [| destruct (_ <? _) in Hk0; [| discriminate]];
    apply kok_inj in Hk0; injection Hk0 as _ <-; cbn [bmem with_bmem]; auto.
Qed.

(** [palloc] stops the kernel only at the scan's [ASSERT], on a full pool. *)
Lemma palloc_panics_full (st : mstate) (pf : pool_flags) (w : string) :
  pools_wf st -> palloc st pf = KPanic w ->
  w = "idx_byte < btmp->btmp_bytes_len"%string /\
  forall i, 0 <= i < 8 * btmp_bytes_len (pool_bitmap (pool_of st pf)) ->
    bitmap_scan_test (bmem st) (pool_bitmap (pool_of st pf)) i = true.
Proof.
  intros Hwf E. set (b := pool_bitmap (pool_of st pf)). split.
  - revert E. unfold palloc, bitmap_scan, bitmap_set. simpl. case_tests; simpl; case_tests;
      intros H; try discriminate H; injection H as <-; reflexivity.
  - intros i Hi. destruct (bitmap_scan_test (bmem st) b i) eqn:T; [reflexivity |].
    destruct (scan_one_finds_free (bmem st) b i (proj1 Hwf) Hi T) as (s & Hs & _).
    revert E. unfold palloc. fold b. rewrite Hs. unfold bitmap_set. simpl. case_tests; discriminate.
Qed.

(** C5 (functional) [palloc] is total on well-formed pools and never
    returns NULL: when it returns, the frame is the lowest free frame of the
    requested pool, its bit was clear and is now set, no other bit or byte
    of the bitmaps changed, and only the bitmaps changed; it stops the
    kernel only when every frame of the pool is in use.  (The NULL checks
    of its callers are dead code.) *)
Theorem palloc_spec (st : mstate) (pf : pool_flags) :
  pools_wf st ->
  let b := pool_bitmap (pool_of st pf) in
  match palloc st pf with
  | KOk (pa, st') =>
    exists idx, 0 <= idx < 8 * btmp_bytes_len b /\
      pa = phy_addr_start (pool_of st pf) + idx * PG_SIZE /\ pa <> 0 /\
      bitmap_scan_test (bmem st) b idx = false /\
      (forall i, 0 <= i < idx -> bitmap_scan_test (bmem st) b i = true) /\
      st' = with_bmem st (bmem st') /\ byte_store (bmem st') /\
      bitmap_scan_test (bmem st') b idx = true /\
      (forall j, 0 <= j -> j <> idx -> bitmap_scan_test (bmem st') b j = bitmap_scan_test (bmem st) b j) /\
      (forall a, a <> bits b + idx / 8 -> rd (bmem st') a = rd (bmem st) a)
  | KPanic _ => forall i, 0 <= i < 8 * btmp_bytes_len b -> bitmap_scan_test (bmem st) b i = true
  | KFault _ | KBlock => False
  end.
Proof.
  intros Hwf b. destruct (palloc st pf) as [[pa st'] | w | v |] eqn:E.
  - exact (palloc_effect st pf pa st' Hwf E).
  - exact (proj2 (palloc_panics_full st pf w Hwf E)).
  - exact (palloc_no_fault st pf v E).
  - exact (palloc_no_block st pf E).
Qed.

(** Pool exhaustion is fatal, not a NULL return: when every
    byte of the pool's bitmap is [0xff], [palloc] stops at the [ASSERT] of
    [bitmap_scan]. *)
Theorem palloc_exhausted_panics (st : mstate) (pf : pool_flags) :
  let b := pool_bitmap (pool_of st pf) in
  (forall k, 0 <= k < btmp_bytes_len b -> rd (bmem st) (bits b + k) = 255) ->
  palloc st pf = KPanic "idx_byte < btmp->btmp_bytes_len".
Proof.
  intros b Hfull. unfold palloc. fold b. rewrite scan_full_stops by exact Hfull.
  reflexivity.
Qed.

(** While the pool has a free frame, [palloc] returns one. *)
Theorem palloc_available (st : mstate) (pf : pool_flags) (j : Z) :
  pools_wf st ->
  let b := pool_bitmap (pool_of st pf) in
  0 <= j < 8 * btmp_bytes_len b -> bitmap_scan_test (bmem st) b j = false ->
  exists pa st', palloc st pf = KOk (pa, st').
Proof.
  intros (Hm & _) b Hj Hfree.
  destruct (scan_one_finds_free (bmem st) b j Hm Hj Hfree) as (s & Hs & Hsj & Hs1 & _).
  destruct (bitmap_scan_one (bmem st) b s Hm Hs) as (S1 & _).
  unfold palloc. fold b. rewrite Hs. simpl.
  rewrite (proj2 (Z.eqb_neq s (-1))) by lia.
  unfold bitmap_set. simpl. eauto.
Qed.

(** [pfree] of a frame of a pool picks that pool and clears the frame's bit. *)
Lemma pfree_frame (st : mstate) (pf : pool_flags) (idx : Z) :
  pools_wf st -> 0 <= idx < 8 * btmp_bytes_len (pool_bitmap (pool_of st pf)) ->
  pfree st (phy_addr_start (pool_of st pf) + idx * PG_SIZE) =
  m' <- bitmap_set (bmem st) (pool_bitmap (pool_of st pf)) idx 0 ;; KOk (with_bmem st m').
Proof.
  intros (_ & Hkp & Hkl & Hul & Hku & Huu) Hidx. unfold pfree.
  destruct pf; simpl in *; unfold PG_SIZE in *.
  - rewrite Z.geb_leb, (proj2 (Z.leb_gt _ _)) by lia.
    rewrite u32_small by lia. rewrite Z.add_simpl_l, Z.div_mul by lia. reflexivity.
  - rewrite Z.geb_leb, (proj2 (Z.leb_le _ _)) by lia.
    rewrite u32_small by lia. rewrite Z.add_simpl_l, Z.div_mul by lia. reflexivity.
Qed.

(** C4 (roundtrip) [palloc] followed by [pfree] of the frame it returned
    leaves the bitmaps bit for bit (indeed byte for byte) as they were, and
    the rest of the state untouched. *)
Theorem palloc_pfree_roundtrip (st : mstate) (pf : pool_flags) (pa : Z) (st' : mstate) :
  pools_wf st -> palloc st pf = KOk (pa, st') ->
  exists st'', pfree st' pa = KOk st'' /\ st'' = with_bmem st (bmem st'') /\
    forall a, rd (bmem st'') a = rd (bmem st) a.
Proof.
  intros Hwf Hp.
  destruct (palloc_effect st pf pa st' Hwf Hp)
    as (idx & I1 & -> & _ & I2 & _ & Est' & Hm' & _ & I3 & I4).
  set (b := pool_bitmap (pool_of st pf)) in *.
  assert (Hwf' : pools_wf st').
  { rewrite Est'. destruct Hwf as (_ & W). split; [exact Hm' | exact W]. }
  assert (Hpool : pool_of st' pf = pool_of st pf) by (rewrite Est'; destruct pf; reflexivity).
  pose proof (pfree_frame st' pf idx Hwf' ltac:(rewrite Hpool; exact I1)) as Hf.
  rewrite Hpool in Hf. fold b in Hf. rewrite Hf.
  destruct (set_run_spec (bmem st') b idx 1 0 ltac:(lia) ltac:(lia)) as (m2 & E2 & C1 & C2 & C3).
  assert (E3 : bitmap_set (bmem st') b idx 0 = KOk m2)
    by (rewrite <- E2; reflexivity).
  rewrite E3. simpl. eexists. split; [reflexivity | split; [rewrite Est'; reflexivity |]].
  simpl. apply (bitmap_store_ext _ _ b (proj1 Hwf) (C1 Hm')).
  - intros a Ha. rewrite C2, I4; [reflexivity | divmod idx 8; lia | divmod idx 8; lia].
  - intros j Hj. rewrite C3 by lia. case_decide.
    + assert (j = idx) as -> by lia. exact (eq_sym I2).
    + apply I3; lia.
Qed.

(** ** Virtual pages: [vaddr_get] and [vaddr_remove] *)

(** The scan-then-mark step shared by both branches of [vaddr_get]. *)
Lemma scan_then_mark (m m' : store) (vb : bitmap) (n s : Z) :
  byte_store m -> btmp_bytes_len vb * 8 < 2 ^ 32 -> 1 <= n ->
  bitmap_scan m vb n = KOk s -> s <> -1 ->
  set_run m vb s (Z.to_nat n) 1 = KOk m' ->
  0 <= s /\ s + n <= 8 * btmp_bytes_len vb + 1 /\
  (forall j, s <= j < s + n -> bitmap_scan_test m vb j = false) /\
  byte_store m' /\ (forall a, a < bits vb -> rd m' a = rd m a) /\
  (forall j, 0 <= j -> bitmap_scan_test m' vb j =
     if decide (s <= j < s + n) then true else bitmap_scan_test m vb j).
Proof.
  intros Hm Hlen Hn Hscan Hs Hrun.
  destruct (scan_free_run m vb n s Hm Hlen Hn Hscan Hs) as (S1 & S2 & S3).
  destruct (set_run_spec m vb s (Z.to_nat n) 1 ltac:(lia) ltac:(lia)) as (m2 & E2 & C1 & C2 & C3).
  rewrite Hrun in E2. injection E2 as <-. rewrite Z2Nat.id in C3 by lia.
  split; [lia | split; [destruct (Z.eqb_spec n 1); lia | split; [exact S3 | split; [auto | split]]]].
  - intros a Ha. apply C2. divmod s 8. lia.
  - exact C3.
Qed.

(** What a [vaddr_get] that returned a non-NULL address did. *)
Lemma vaddr_get_effect (st : mstate) (pf : pool_flags) (n va : Z) (st' : mstate) :
  byte_store (bmem st) -> vpool_wf (vaddr_of st pf) -> 1 <= n ->
  vaddr_get st pf n = KOk (va, st') -> va <> 0 ->
  let v := vaddr_of st pf in
  exists s, va = vaddr_start v + s * PG_SIZE /\ 0 <= s /\
    s + n <= 8 * btmp_bytes_len (vaddr_bitmap v) + 1 /\
    (forall j, s <= j < s + n -> bitmap_scan_test (bmem st) (vaddr_bitmap v) j = false) /\
    st' = with_bmem st (bmem st') /\ byte_store (bmem st') /\
    (forall a, a < bits (vaddr_bitmap v) -> rd (bmem st') a = rd (bmem st) a) /\
    (forall j, 0 <= j -> bitmap_scan_test (bmem st') (vaddr_bitmap v) j =
       if decide (s <= j < s + n) then true else bitmap_scan_test (bmem st) (vaddr_bitmap v) j).
Proof.
  intros Hm (Hv0 & Hvl & Hvu) Hn Hget Hva v.
  assert (Hlen : btmp_bytes_len (vaddr_bitmap v) * 8 < 2 ^ 32) by (unfold v, PG_SIZE in *; lia).
  unfold vaddr_get in Hget.
  destruct pf; unfold v, vaddr_of in *; simpl in *; kinv Hget;
    (destruct (Z.eqb_spec a (-1)) as [-> | Ha]; [injection Hk as <- <-; contradiction |]);
    kinv Hk;
    destruct (scan_then_mark _ _ _ n a Hm Hlen Hn Hr Ha Hr0) as (T1 & T2 & T3 & T4 & T5 & T6);
    rewrite u32_small in Hk0 by (unfold PG_SIZE in *; lia);
    [| destruct (_ <? _) in Hk0; [| discriminate]];
    injection Hk0 as <- <-; exists a; split; try reflexivity; simpl;
    repeat (split; [assumption || reflexivity |]); exact T6.
Qed.

(** A [vaddr_get] that returned NULL changed nothing. *)
Lemma vaddr_get_null (st : mstate) (pf : pool_flags) (n : Z) (st' : mstate) :
  byte_store (bmem st) -> vpool_wf (vaddr_of st pf) -> 1 <= n ->
  vaddr_get st pf n = KOk (0, st') -> st' = st.
Proof.
  intros Hm (Hv0 & Hvl & Hvu) Hn Hget.
  assert (Hlen : btmp_bytes_len (vaddr_bitmap (vaddr_of st pf)) * 8 < 2 ^ 32)
    by (unfold PG_SIZE in *; lia).
  unfold vaddr_get in Hget.
  destruct pf; unfold vaddr_of in *; simpl in *; kinv Hget;
    (destruct (Z.eqb_spec a (-1)) as [-> | Ha]; [injection Hk as <-; reflexivity |]);
    kinv Hk;
    destruct (scan_then_mark _ _ _ n a Hm Hlen Hn Hr Ha Hr0) as (T1 & T2 & _);
    rewrite u32_small in Hk0 by (unfold PG_SIZE in *; lia);
    [| destruct (_ <? _) in Hk0; [| discriminate]];
    injection Hk0 as H0 _; unfold PG_SIZE in *; lia.
Qed.

(** [vaddr_get] either returns NULL and changes nothing,
    or reserves a run of [pg_cnt] pages that were all free: the address is
    the run's first page, exactly the run's bits become set, and nothing
    but the bitmaps changes. *)
Theorem vaddr_get_spec (st : mstate) (pf : pool_flags) (n va : Z) (st' : mstate) :
  byte_store (bmem st) -> vpool_wf (vaddr_of st pf) -> 1 <= n ->
  vaddr_get st pf n = KOk (va, st') ->
  let v := vaddr_of st pf in
  (va = 0 /\ st' = st) \/
  exists s, va = vaddr_start v + s * PG_SIZE /\ 0 <= s /\
    s + n <= 8 * btmp_bytes_len (vaddr_bitmap v) + 1 /\
    (forall j, s <= j < s + n -> bitmap_scan_test (bmem st) (vaddr_bitmap v) j = false) /\
    st' = with_bmem st (bmem st') /\ byte_store (bmem st') /\
    (forall a, a < bits (vaddr_bitmap v) -> rd (bmem st') a = rd (bmem st) a) /\
    (forall j, 0 <= j -> bitmap_scan_test (bmem st') (vaddr_bitmap v) j =
       if decide (s <= j < s + n) then true else bitmap_scan_test (bmem st) (vaddr_bitmap v) j).
Proof.
  intros Hm Hwf Hn Hget v. destruct (Z.eq_dec va 0) as [-> | Hva].
  - left. split; [reflexivity | exact (vaddr_get_null st pf n st' Hm Hwf Hn Hget)].
  - right. exact (vaddr_get_effect st pf n va st' Hm Hwf Hn Hget Hva).
Qed.

(** [vaddr_remove] of the pages [vaddr_get] reserved
    restores the bitmaps byte for byte. *)
Theorem vaddr_get_remove_roundtrip (st : mstate) (pf : pool_flags) (n va : Z) (st' : mstate) :
  byte_store (bmem st) -> vpool_wf (vaddr_of st pf) -> 1 <= n ->
  vaddr_get st pf n = KOk (va, st') -> va <> 0 ->
  exists st'', vaddr_remove st' pf va n = KOk st'' /\ st'' = with_bmem st (bmem st'') /\
    forall a, rd (bmem st'') a = rd (bmem st) a.
Proof.
  intros Hm Hwf Hn Hget Hva.
  destruct (vaddr_get_effect st pf n va st' Hm Hwf Hn Hget Hva)
    as (s & -> & S1 & S2 & S3 & Est' & Hm' & S4 & S5).
  destruct Hwf as (Hv0 & Hvl & Hvu).
  assert (Hv : vaddr_of st' pf = vaddr_of st pf) by (rewrite Est'; destruct pf; reflexivity).
  set (v := vaddr_of st pf) in *.
  destruct (set_run_spec (bmem st') (vaddr_bitmap v) s (Z.to_nat n) 0 ltac:(lia) ltac:(lia))
    as (m2 & E2 & C1 & C2 & C3).
  unfold vaddr_remove. rewrite Hv. fold v.
  rewrite Z.add_simpl_l, u32_small, Z.div_mul by (unfold PG_SIZE in *; lia).
  rewrite E2. simpl. eexists. split; [reflexivity | split; [rewrite Est'; reflexivity |]].
  simpl. apply (bitmap_store_ext _ _ (vaddr_bitmap v) Hm (C1 Hm')).
  - intros a Ha. rewrite C2, S4; [reflexivity | exact Ha | divmod s 8; lia].
  - intros j Hj. rewrite C3, S5 by lia. rewrite Z2Nat.id by lia.
    case_decide; [| reflexivity]. symmetry. apply S3. lia.
Qed.

(** ** [mem_pool_init] *)

Lemma bitmap_scan_test_same_byte (m m' : store) (b : bitmap) (j : Z) :
  rd m' (bits b + j / 8) = rd m (bits b + j / 8) ->
  bitmap_scan_test m' b j = bitmap_scan_test m b j.
Proof. intros H. unfold bitmap_scan_test. rewrite H. reflexivity. Qed.

(** For every memory size from 2 MiB up to (not including)
    258 MiB, [mem_pool_init] yields well-formed pools: the kernel pool
    starts at 2 MiB right after the low megabyte and the 256 page tables,
    the user pool follows it and ends within a page of the end of memory,
    the kernel heap's virtual pool is well formed, and all three bitmaps
    (laid out back to back from [MEM_BITMAP_BASE]) are clear. *)
Theorem mem_pool_init_wf (st : mstate) (all_mem : Z) :
  byte_store (bmem st) -> 0x200000 <= all_mem < 0x10200000 ->
  exists st', mem_pool_init st all_mem = KOk st' /\ pools_wf st' /\
    vpool_wf (kernel_vaddr st') /\
    phy_addr_start (kernel_pool st') = 0x200000 /\
    phy_addr_start (user_pool st') =
      phy_addr_start (kernel_pool st') + pool_size (kernel_pool st') /\
    all_mem - PG_SIZE < phy_addr_start (user_pool st') + pool_size (user_pool st') <= all_mem /\
    (forall j, 0 <= j < 8 * btmp_bytes_len (pool_bitmap (kernel_pool st')) ->
       bitmap_scan_test (bmem st') (pool_bitmap (kernel_pool st')) j = false) /\
    (forall j, 0 <= j < 8 * btmp_bytes_len (pool_bitmap (user_pool st')) ->
       bitmap_scan_test (bmem st') (pool_bitmap (user_pool st')) j = false) /\
    (forall j, 0 <= j < 8 * btmp_bytes_len (vaddr_bitmap (kernel_vaddr st')) ->
       bitmap_scan_test (bmem st') (vaddr_bitmap (kernel_vaddr st')) j = false).
Proof.
  intros Hm Hmem. unfold mem_pool_init, mem_pool_layout.
  unfold u32, u16, PG_SIZE, MEM_BITMAP_BASE, K_HEAP_START.
  set (F := (all_mem - (4096 * 256 + 0x100000)) mod 2 ^ 32) in *.
  assert (HF : F = all_mem - 0x200000) by (unfold F; rewrite Z.mod_small; lia).
  rewrite HF. clear F HF.
  set (A := ((all_mem - 0x200000) / 4096) mod 2 ^ 16).
  assert (HA : A = (all_mem - 0x200000) / 4096) by (unfold A; rewrite Z.mod_small; [lia |]; split; [apply Z.div_pos | apply Z.div_lt_upper_bound]; lia).
  rewrite HA. clear A HA. set (P := (all_mem - 0x200000) / 4096).
  assert (HP : 0 <= P < 65536 /\ 4096 * P <= all_mem - 0x200000 < 4096 * P + 4096) by (unfold P; divmod (all_mem - 0x200000) 4096; lia).
  rewrite (Z.mod_small (P / 2)) by (divmod P 2; lia).
  rewrite (Z.mod_small (P - P / 2)) by (divmod P 2; lia).
  rewrite (Z.mod_small (0x200000 + P / 2 * 4096)) by (divmod P 2; lia).
  set (K := P / 2) in *. set (U := P - K) in *.
  assert (HK : 0 <= K /\ 2 * K <= P) by (unfold K; divmod P 2; lia).
  assert (Hk8 : 0 <= K / 8 /\ 8 * (K / 8) <= K) by (divmod K 8; lia).
  assert (Hu8 : 0 <= U / 8 /\ 8 * (U / 8) <= U) by (divmod U 8; lia).
  destruct (bitmap_init_ok (bmem st) (mk_bitmap (K / 8) 3221856256) ltac:(simpl; lia) ltac:(simpl; lia))
    as (m1 & E1 & B1 & T1 & F1).
  destruct (bitmap_init_ok m1 (mk_bitmap (U / 8) (3221856256 + K / 8)) ltac:(simpl; lia) ltac:(simpl; lia))
    as (m2 & E2 & B2 & T2 & F2).
  destruct (bitmap_init_ok m2 (mk_bitmap (K / 8) (3221856256 + K / 8 + U / 8)) ltac:(simpl; lia) ltac:(simpl; lia))
    as (m3 & E3 & B3 & T3 & F3).
  cbn [bits btmp_bytes_len] in T1, T2, T3, F1, F2, F3.
  cbn [pool_bitmap vaddr_bitmap]. rewrite E1. simpl. rewrite E2. simpl. rewrite E3. simpl.
  eexists. split; [reflexivity |]. simpl.
  split; [unfold pools_wf, PG_SIZE; simpl; split; [auto | repeat split; lia] |].
  split; [unfold vpool_wf, PG_SIZE; simpl; repeat split; lia |].
  split; [reflexivity | split; [lia | split; [lia |]]].
  split; [| split].
  - intros j Hj. rewrite (bitmap_scan_test_same_byte m1); [apply T1; simpl; lia |].
    simpl. divmod j 8. rewrite F3, F2 by lia. reflexivity.
  - intros j Hj. rewrite (bitmap_scan_test_same_byte m2); [apply T2; simpl; lia |].
    simpl. divmod j 8. rewrite F3 by lia. reflexivity.
  - intros j Hj. apply T3. simpl. lia.
Qed.

(** The page counts of [mem_pool_init] are
    [uint16_t], so they wrap once free memory reaches 256 MiB although the
    file's comment says the bitmaps support 512 MiB: with 512 MiB the two
    pools together cover less than half of the free memory, and with
    exactly 258 MiB both pools are empty and the first [palloc] stops the
    kernel. *)
Theorem mem_pool_init_wraps (st : mstate) :
  (let '(kp, up, _) := mem_pool_layout (512 * 1024 * 1024) in
   pool_size kp + pool_size up < (512 * 1024 * 1024 - 0x200000) / 2) /\
  exists st', mem_pool_init st 0x10200000 = KOk st' /\
    pool_size (kernel_pool st') = 0 /\ pool_size (user_pool st') = 0 /\
    palloc st' PF_KERNEL = KPanic "idx_byte < btmp->btmp_bytes_len".
Proof.
  split; [vm_compute; reflexivity |].
  eexists. split; [reflexivity |]. split; [reflexivity | split; [reflexivity |]].
  reflexivity.
Qed.

(** ** Witnesses on the 32 MiB machine *)

Lemma boot_mstate_wf : pools_wf boot_mstate.
Proof.
  split; [unfold byte_store; apply (bool_decide_unpack _); vm_compute; exact I |].
  vm_compute. repeat split; discriminate.
Qed.

Lemma palloc_spec_witness :
  let b := pool_bitmap (pool_of boot_mstate PF_KERNEL) in
  match palloc boot_mstate PF_KERNEL with
  | KOk (pa, st') =>
    exists idx, 0 <= idx < 8 * btmp_bytes_len b /\
      pa = phy_addr_start (pool_of boot_mstate PF_KERNEL) + idx * PG_SIZE /\ pa <> 0 /\
      bitmap_scan_test (bmem boot_mstate) b idx = false /\
      (forall i, 0 <= i < idx -> bitmap_scan_test (bmem boot_mstate) b i = true) /\
      st' = with_bmem boot_mstate (bmem st') /\ byte_store (bmem st') /\
      bitmap_scan_test (bmem st') b idx = true /\
      (forall j, 0 <= j -> j <> idx ->
         bitmap_scan_test (bmem st') b j = bitmap_scan_test (bmem boot_mstate) b j) /\
      (forall a, a <> bits b + idx / 8 -> rd (bmem st') a = rd (bmem boot_mstate) a)
  | KPanic _ => forall i, 0 <= i < 8 * btmp_bytes_len b -> bitmap_scan_test (bmem boot_mstate) b i = true
  | KFault _ | KBlock => False
  end.
Proof. exact (palloc_spec boot_mstate PF_KERNEL boot_mstate_wf). Defined.

Lemma palloc_exhausted_panics_witness :
  palloc (with_bmem boot_mstate (memset_loop (bmem boot_mstate) MEM_BITMAP_BASE 0xff 480)) PF_KERNEL =
  KPanic "idx_byte < btmp->btmp_bytes_len".
Proof.
  apply palloc_exhausted_panics. intros k Hk.
  set (st := with_bmem boot_mstate (memset_loop (bmem boot_mstate) MEM_BITMAP_BASE 0xff 480)) in *.
  assert (Hl : btmp_bytes_len (pool_bitmap (pool_of st PF_KERNEL)) = 480) by (vm_compute; reflexivity).
  assert (Hb : bits (pool_bitmap (pool_of st PF_KERNEL)) = MEM_BITMAP_BASE) by (vm_compute; reflexivity).
  rewrite Hl in Hk. rewrite Hb. unfold st. cbn [bmem with_bmem]. rewrite memset_loop_rd.
  case_decide as H; [reflexivity |]. exfalso. apply H. lia.
Defined.

Lemma palloc_available_witness : exists pa st', palloc boot_mstate PF_USER = KOk (pa, st').
Proof.
  apply (palloc_available boot_mstate PF_USER 5 boot_mstate_wf).
  - assert (Hl : btmp_bytes_len (pool_bitmap (pool_of boot_mstate PF_USER)) = 480)
      by (vm_compute; reflexivity).
    rewrite Hl. lia.
  - vm_compute. reflexivity.
Defined.

Lemma palloc_pfree_roundtrip_witness :
  match palloc boot_mstate PF_USER with
  | KOk (pa, st') =>
      exists st'', pfree st' pa = KOk st'' /\ st'' = with_bmem boot_mstate (bmem st'') /\
        forall a, rd (bmem st'') a = rd (bmem boot_mstate) a
  | _ => False
  end.
Proof.
  returning_call (palloc boot_mstate PF_USER). destruct a as [pa st'].
  exact (palloc_pfree_roundtrip boot_mstate PF_USER pa st' boot_mstate_wf E).
Defined.

Lemma boot_vpool_wf : vpool_wf (vaddr_of boot_mstate PF_KERNEL).
Proof. vm_compute. repeat split; discriminate. Qed.

Lemma vaddr_get_spec_witness :
  match vaddr_get boot_mstate PF_KERNEL 3 with
  | KOk (va, st') =>
      let v := vaddr_of boot_mstate PF_KERNEL in
      (va = 0 /\ st' = boot_mstate) \/
      exists s, va = vaddr_start v + s * PG_SIZE /\ 0 <= s /\
        s + 3 <= 8 * btmp_bytes_len (vaddr_bitmap v) + 1 /\
        (forall j, s <= j < s + 3 -> bitmap_scan_test (bmem boot_mstate) (vaddr_bitmap v) j = false) /\
        st' = with_bmem boot_mstate (bmem st') /\ byte_store (bmem st') /\
        (forall a, a < bits (vaddr_bitmap v) -> rd (bmem st') a = rd (bmem boot_mstate) a) /\
        (forall j, 0 <= j -> bitmap_scan_test (bmem st') (vaddr_bitmap v) j =
           if decide (s <= j < s + 3) then true
           else bitmap_scan_test (bmem boot_mstate) (vaddr_bitmap v) j)
  | _ => False
  end.
Proof.
  returning_call (vaddr_get boot_mstate PF_KERNEL 3). destruct a as [va st'].
  exact (vaddr_get_spec boot_mstate PF_KERNEL 3 va st' (proj1 boot_mstate_wf) boot_vpool_wf
           ltac:(lia) E).
Defined.

Lemma vaddr_get_remove_roundtrip_witness :
  match vaddr_get boot_mstate PF_KERNEL 3 with
  | KOk (va, st') =>
      exists st'', vaddr_remove st' PF_KERNEL va 3 = KOk st'' /\
        st'' = with_bmem boot_mstate (bmem st'') /\
        forall a, rd (bmem st'') a = rd (bmem boot_mstate) a
  | _ => False
  end.
Proof.
  returning_call (vaddr_get boot_mstate PF_KERNEL 3). destruct a as [va st'].
  apply (vaddr_get_remove_roundtrip boot_mstate PF_KERNEL 3 va st' (proj1 boot_mstate_wf)
           boot_vpool_wf ltac:(lia) E).
  intros ->. assert (R : vaddr_get boot_mstate PF_KERNEL 3 <> KOk (0, st'))
    by (intros H; apply (f_equal (fun r => match r with KOk (v, _) => v =? 0 | _ => false end)) in H;
        vm_compute in H; discriminate H).
  exact (R E).
Defined.

Lemma mem_pool_init_wf_witness :
  exists st', mem_pool_init empty_mstate (32 * 1024 * 1024) = KOk st' /\ pools_wf st' /\
    vpool_wf (kernel_vaddr st') /\
    phy_addr_start (kernel_pool st') = 0x200000 /\
    phy_addr_start (user_pool st') =
      phy_addr_start (kernel_pool st') + pool_size (kernel_pool st') /\
    32 * 1024 * 1024 - PG_SIZE < phy_addr_start (user_pool st') + pool_size (user_pool st') <=
      32 * 1024 * 1024 /\
    (forall j, 0 <= j < 8 * btmp_bytes_len (pool_bitmap (kernel_pool st')) ->
       bitmap_scan_test (bmem st') (pool_bitmap (kernel_pool st')) j = false) /\
    (forall j, 0 <= j < 8 * btmp_bytes_len (pool_bitmap (user_pool st')) ->
       bitmap_scan_test (bmem st') (pool_bitmap (user_pool st')) j = false) /\
    (forall j, 0 <= j < 8 * btmp_bytes_len (vaddr_bitmap (kernel_vaddr st')) ->
       bitmap_scan_test (bmem st') (vaddr_bitmap (kernel_vaddr st')) j = false).
Proof.
  apply mem_pool_init_wf; [apply byte_store_empty | lia].
Defined.
