(* ===== verification/Paging.v ===== *)
(** * Paging: the page-table routines of [kernel/memory.c]

    The two-level i386 page walk, and the routines that edit page tables
    through the recursive mapping: the last directory slot (1023) of every
    page directory points back at the directory itself, so the directory
    appears at virtual [0xfffff000] and the page table of directory slot
    [i] at virtual [0xffc00000 + i * 4096].  [pde_ptr] and [pte_ptr]
    compute those virtual addresses; every access the code makes through
    them ([*pde], [*pte]) is a virtual access, translated by the MMU model
    [translate] over physical memory [pmem] with the directory at [cr3].
    An access to an unmapped address is a page fault, which
    [general_intr_handler] turns into a halt ([KFault]).

    The MMU ignores the TLB: [page_table_pte_remove] flushes the one entry
    it changes with [invlpg], and no other routine changes a present entry,
    so the hardware's cached translations agree with [translate].  Page
    tables are zeroed by [memset] byte by byte; the model zeroes the same
    4096 bytes as 1024 words, which is the same memory contents.

    Operations: [pde_ptr], [pte_ptr], [page_table_add],
    [page_table_pte_remove], [addr_v2p].  Theorems: the self-map lemmas for
    [pde_ptr]/[pte_ptr] (and the page fault of [*pte] while the directory
    entry is missing, which is why [page_table_add] must write [*pde]
    first), the translation installed by [page_table_add], the double-map
    panic, the one-slot frame property, unmap and remap, [addr_v2p]. *)

From Stdlib Require Import ZArith Lia String Bool.
From stdpp Require Import base gmap list.
From S2P Require Import Prelude Bitmap Pool.

Open Scope Z_scope.
Open Scope kernel_scope.

(** ** Data *)

(** [#define PG_P_1 1], [PG_RW_W 2], [PG_US_U 4] (memory.h). *)
Definition PG_P_1 : Z := 1.
Definition PG_RW_W : Z := 2.
Definition PG_US_U : Z := 4.

(** [#define PDE_IDX(addr) ((addr & 0xffc00000) >> 22)] *)
Definition PDE_IDX (addr : Z) : Z := Z.shiftr (Z.land addr 0xffc00000) 22.
(** [#define PTE_IDX(addr) ((addr & 0x003ff000) >> 12)] *)
Definition PTE_IDX (addr : Z) : Z := Z.shiftr (Z.land addr 0x003ff000) 12.

(** The fields of a page-table entry the MMU reads. *)
Definition present (entry : Z) : bool := Z.testbit entry 0.
Definition frame (entry : Z) : Z := Z.land entry 0xfffff000.

(** ** The MMU *)

(** Two-level walk with the directory at [cr3]: present bit 0 of the
    directory entry, then of the table entry; the frame is the entry's
    upper 20 bits. *)
Definition translate (pm : store) (cr3 va : Z) : option Z :=
  let pde := rd pm (cr3 + PDE_IDX va * 4) in
  if Z.testbit pde 0 then
    let pte := rd pm (Z.land pde 0xfffff000 + PTE_IDX va * 4) in
    if Z.testbit pte 0 then Some (Z.land pte 0xfffff000 + Z.land va 0xfff) else None
  else None.

(** A 32-bit load or store through the MMU. *)
Definition vload (st : mstate) (va : Z) : kres Z :=
  match translate (pmem st) (cr3 st) va with
  | Some pa => KOk (rd (pmem st) pa)
  | None => KFault va
  end.

Definition vstore (st : mstate) (va v : Z) : kres mstate :=
  match translate (pmem st) (cr3 st) va with
  | Some pa => KOk (with_pmem st (wr (pmem st) pa (u32 v)))
  | None => KFault va
  end.

(** ** Operations *)

(** [pte_ptr]: [0xffc00000 + ((vaddr & 0xffc00000) >> 10) + PTE_IDX(vaddr) * 4]. *)
Definition pte_ptr (vaddr : Z) : Z :=
  u32 (0xffc00000 + Z.shiftr (Z.land vaddr 0xffc00000) 10 + PTE_IDX vaddr * 4).

(** [pde_ptr]: [0xfffff000 + PDE_IDX(vaddr) * 4]. *)
Definition pde_ptr (vaddr : Z) : Z := u32 (0xfffff000 + PDE_IDX vaddr * 4).

(** [memset(dst, 0, n)] on a virtual, word-aligned range, as [n / 4] word
    stores of 0. *)
Fixpoint vzero_words (st : mstate) (va : Z) (n : nat) : kres mstate :=
  match n with
  | O => KOk st
  | S n' => st' <- vstore st va 0 ;; vzero_words st' (va + 4) n'
  end.

Definition vmemset_zero (st : mstate) (dst size : Z) : kres mstate :=
  ASSERT negb (dst =? 0) as "dst_ != NULL" ;;
  vzero_words st dst (Z.to_nat (size / 4)).

(** [page_table_add]: map the page of [vaddr] to [page_phyaddr]. *)
Definition page_table_add (st : mstate) (vaddr page_phyaddr : Z) : kres mstate :=
  let pde := pde_ptr vaddr in
  let pte := pte_ptr vaddr in
  let entry := Z.lor page_phyaddr (Z.lor PG_US_U (Z.lor PG_RW_W PG_P_1)) in
  pde_v <- vload st pde ;;
  if Z.testbit pde_v 0 then
    pte_v <- vload st pte ;;
    ASSERT negb (Z.testbit pte_v 0) as "!(*pte & 0x00000001)" ;;
    if negb (Z.testbit pte_v 0) then vstore st pte entry else KPanic "pte repeat"
  else
    let* (pde_phyaddr, st1) := palloc st PF_KERNEL in
    st2 <- vstore st1 pde (Z.lor pde_phyaddr (Z.lor PG_US_U (Z.lor PG_RW_W PG_P_1))) ;;
    st3 <- vmemset_zero st2 (Z.land pte 0xfffff000) PG_SIZE ;;
    pte_v <- vload st3 pte ;;
    ASSERT negb (Z.testbit pte_v 0) as "!(*pte & 0x00000001)" ;;
    vstore st3 pte entry.

(** [page_table_pte_remove]: [*pte &= ~PG_P_1;] then [invlpg]. *)
Definition page_table_pte_remove (st : mstate) (vaddr : Z) : kres mstate :=
  let pte := pte_ptr vaddr in
  pte_v <- vload st pte ;;
  vstore st pte (Z.land pte_v (Z.lnot PG_P_1)).

(** [addr_v2p]: the frame of [*pte] plus the offset [vaddr & 0x00000fff]. *)
Definition addr_v2p (st : mstate) (vaddr : Z) : kres Z :=
  pte_v <- vload st (pte_ptr vaddr) ;;
  KOk (u32 (Z.land pte_v 0xfffff000 + Z.land vaddr 0x00000fff)).

(** ** Physical effects *)

(** What [n] word stores of 0 from physical address [a] leave in memory. *)
Fixpoint zero_words (m : store) (a : Z) (n : nat) : store :=
  match n with
  | O => m
  | S n' => zero_words (wr m a 0) (a + 4) n'
  end.

(** The physical address of the page-table entry the MMU reads for [va],
    when the directory entry is present. *)
Definition pte_slot (pm : store) (cr3 va : Z) : option Z :=
  let pde := rd pm (cr3 + PDE_IDX va * 4) in
  if present pde then Some (frame pde + PTE_IDX va * 4) else None.

(** ** Invariants of the page tables *)

(** Directory entry [i] of the directory at [cr3]. *)
Definition pde_of (pm : store) (cr3 i : Z) : Z := rd pm (cr3 + i * 4).

(** The active directory is a page-aligned 32-bit frame whose last slot
    maps the directory itself (set up by the loader for the kernel and by
    the process creation code for user directories). *)
Definition self_mapped (st : mstate) : Prop :=
  0 <= cr3 st < 2 ^ 32 /\ cr3 st mod PG_SIZE = 0 /\
  present (pde_of (pmem st) (cr3 st) 1023) = true /\
  frame (pde_of (pmem st) (cr3 st) 1023) = cr3 st.

(** A frame [palloc] cannot hand out: outside the kernel pool, or marked. *)
Definition in_use (st : mstate) (f : Z) : Prop :=
  forall idx, 0 <= idx < 8 * btmp_bytes_len (pool_bitmap (kernel_pool st)) ->
    f = phy_addr_start (kernel_pool st) + idx * PG_SIZE ->
    bitmap_scan_test (bmem st) (pool_bitmap (kernel_pool st)) idx = true.

(** Physical memory holds 32-bit words. *)
Definition word_store (m : store) : Prop := map_Forall (fun _ v => 0 <= v < 2 ^ 32) m.

(** The page tables are consistent with the pools: the directory and every
    page table it points to (other than through the self slot) are frames
    in use, the kernel pool (where [page_table_add] takes new tables) is
    page aligned, and no table is the directory itself. *)
Definition pt_wf (st : mstate) : Prop :=
  self_mapped st /\ pools_wf st /\ word_store (pmem st) /\ in_use st (cr3 st) /\
  phy_addr_start (kernel_pool st) mod PG_SIZE = 0 /\
  forall i, 0 <= i < 1023 -> present (pde_of (pmem st) (cr3 st) i) = true ->
    frame (pde_of (pmem st) (cr3 st) i) <> cr3 st /\
    in_use st (frame (pde_of (pmem st) (cr3 st) i)).

(** [page_table_add st va pa] gave [st']: the directory is the same, the
    table slot [p] the MMU reads for [va] holds [pa | 7], and every address
    below the self-map whose table slot is not [p] translates as before. *)
Definition maps_only (st st' : mstate) (va pa : Z) : Prop :=
  cr3 st' = cr3 st /\
  exists p, pte_slot (pmem st') (cr3 st') va = Some p /\ rd (pmem st') p = pa + 7 /\
    forall va', 0 <= va' < 0xffc00000 -> pte_slot (pmem st') (cr3 st') va' <> Some p ->
      translate (pmem st') (cr3 st') va' = translate (pmem st) (cr3 st) va'.

(** A decision procedure for the directory part of [pt_wf] on a concrete
    directory: every present slot below 1023 points to a frame other than
    the directory and below [lim]. *)
Definition tables_below (pm : store) (cr3 lim : Z) : bool :=
  forallb (fun i => negb (present (pde_of pm cr3 i)) ||
                    (negb (frame (pde_of pm cr3 i) =? cr3) && (frame (pde_of pm cr3 i) <? lim)))
          (map Z.of_nat (seq 0 1023)).

(** ** The page tables the loader leaves

    [boot/loader.S] (not among the sources) builds the directory at
    physical [0x100000]: slots 0 and 768 both point to the table at
    [0x101000], whose first 256 entries identity-map the low megabyte, and
    slot 1023 points to the directory itself. *)
Fixpoint low_megabyte (m : store) (n : nat) : store :=
  match n with
  | O => m
  | S k => wr (low_megabyte m k) (0x101000 + Z.of_nat k * 4) (Z.of_nat k * PG_SIZE + 7)
  end.

Definition loader_pm : store :=
  low_megabyte (wr (wr (wr ∅ 0x100000 0x101007) (0x100000 + 768 * 4) 0x101007)
                   (0x100000 + 1023 * 4) 0x100007) 256.

Definition loader_mstate : mstate := with_pmem boot_mstate loader_pm.

(** ** Address arithmetic *)

Lemma land_bitrange (x lo hi : Z) :
  0 <= lo <= hi ->
  Z.land x (Z.ldiff (Z.ones hi) (Z.ones lo)) = (x mod 2 ^ hi) / 2 ^ lo * 2 ^ lo.
Proof.
  intros Hl. apply Z.bits_inj'. intros i Hi.
  rewrite <- Z.shiftr_div_pow2, <- Z.shiftl_mul_pow2 by lia.
  rewrite Z.land_spec, Z.ldiff_spec, !Z.testbit_ones by lia.
  rewrite Z.shiftl_spec by lia.
  destruct (Z.ltb_spec i lo).
  - rewrite (Z.testbit_neg_r _ (i - lo)) by lia.
    destruct (Z.leb_spec 0 i); simpl; try lia; try (rewrite andb_false_r; reflexivity).
  - rewrite Z.shiftr_spec by lia. replace (i - lo + lo) with i by lia.
    rewrite Z.testbit_mod_pow2 by lia. destruct (Z.leb_spec 0 i); try lia.
    destruct (Z.ltb_spec i lo); try lia. simpl. rewrite andb_true_r. apply andb_comm.
Qed.

Lemma mask_hi10 (x : Z) : Z.land x 0xffc00000 = (x mod 2 ^ 32) / 2 ^ 22 * 2 ^ 22.
Proof. change 0xffc00000 with (Z.ldiff (Z.ones 32) (Z.ones 22)). apply land_bitrange. lia. Qed.

Lemma mask_mid10 (x : Z) : Z.land x 0x003ff000 = (x mod 2 ^ 22) / 2 ^ 12 * 2 ^ 12.
Proof. change 0x003ff000 with (Z.ldiff (Z.ones 22) (Z.ones 12)). apply land_bitrange. lia. Qed.

Lemma mask_hi20 (x : Z) : Z.land x 0xfffff000 = (x mod 2 ^ 32) / 2 ^ 12 * 2 ^ 12.
Proof. change 0xfffff000 with (Z.ldiff (Z.ones 32) (Z.ones 12)). apply land_bitrange. lia. Qed.

Lemma mask_lo12 (x : Z) : Z.land x 0xfff = x mod 2 ^ 12.
Proof. change 0xfff with (Z.ones 12). apply Z.land_ones. lia. Qed.

(** A 32-bit address as directory index, table index and page offset. *)
Lemma addr_fields (a b c : Z) :
  0 <= a < 1024 -> 0 <= b < 1024 -> 0 <= c < 4096 ->
  let x := a * 2 ^ 22 + b * 2 ^ 12 + c in
  PDE_IDX x = a /\ PTE_IDX x = b /\ Z.land x 0xfff = c /\
  frame x = a * 2 ^ 22 + b * 2 ^ 12 /\ Z.shiftr (Z.land x 0xffc00000) 10 = a * 2 ^ 12.
Proof.
  intros Ha Hb Hc x.
  assert (H32 : x mod 2 ^ 32 = x) by (apply Z.mod_small; unfold x; lia).
  assert (H22 : x / 2 ^ 22 = a /\ x mod 2 ^ 22 = b * 2 ^ 12 + c).
  { unfold x. rewrite <- Z.add_assoc. apply div_mod_split; lia. }
  assert (H12 : (b * 2 ^ 12 + c) / 2 ^ 12 = b /\ (b * 2 ^ 12 + c) mod 2 ^ 12 = c)
    by (apply div_mod_split; lia).
  assert (H12' : x / 2 ^ 12 = a * 2 ^ 10 + b).
  { unfold x. replace (a * 2 ^ 22 + b * 2 ^ 12 + c) with ((a * 2 ^ 10 + b) * 2 ^ 12 + c) by lia.
    apply div_mod_split; lia. }
  unfold PDE_IDX, PTE_IDX, frame. rewrite mask_hi10, mask_mid10, mask_hi20, mask_lo12, H32.
  destruct H22 as [-> ->]. destruct H12 as [-> _]. rewrite H12'.
  rewrite !Z.shiftr_div_pow2 by lia. rewrite !Z.div_mul by lia.
  split; [reflexivity | split; [reflexivity | split; [| split; [lia |]]]].
  - unfold x. replace (a * 2 ^ 22 + b * 2 ^ 12 + c) with ((a * 2 ^ 10 + b) * 2 ^ 12 + c) by lia.
    apply div_mod_split; lia.
  - replace (a * 2 ^ 22) with (a * 2 ^ 12 * 2 ^ 10) by lia. apply Z.div_mul. lia.
Qed.

(** Every 32-bit address splits into the three fields. *)
Lemma addr_split (x : Z) :
  0 <= x < 2 ^ 32 ->
  x = PDE_IDX x * 2 ^ 22 + PTE_IDX x * 2 ^ 12 + Z.land x 0xfff /\
  0 <= PDE_IDX x < 1024 /\ 0 <= PTE_IDX x < 1024 /\ 0 <= Z.land x 0xfff < 4096.
Proof.
  intros Hx. divmod x (2 ^ 22). divmod (x mod 2 ^ 22) (2 ^ 12).
  set (a := x / 2 ^ 22) in *. set (b := x mod 2 ^ 22 / 2 ^ 12) in *.
  set (c := x mod 2 ^ 22 mod 2 ^ 12) in *.
  assert (Ha : 0 <= a < 1024) by (unfold a; split; [apply Z.div_pos | apply Z.div_lt_upper_bound]; lia).
  assert (Hb : 0 <= b < 1024) by (unfold b; split; [apply Z.div_pos | apply Z.div_lt_upper_bound]; lia).
  assert (Hxe : x = a * 2 ^ 22 + b * 2 ^ 12 + c) by lia.
  destruct (addr_fields a b c Ha Hb ltac:(lia)) as (F1 & F2 & F3 & _).
  rewrite Hxe, F1, F2, F3. split; [reflexivity | lia].
Qed.

(** [pde_ptr] and [pte_ptr] in closed form. *)
Lemma pde_ptr_fields (x : Z) :
  0 <= x < 2 ^ 32 -> pde_ptr x = 1023 * 2 ^ 22 + 1023 * 2 ^ 12 + PDE_IDX x * 4.
Proof.
  intros Hx. destruct (addr_split x Hx) as (_ & H1 & _).
  unfold pde_ptr. rewrite u32_small; lia.
Qed.

Lemma pte_ptr_fields (x : Z) :
  0 <= x < 2 ^ 32 -> pte_ptr x = 1023 * 2 ^ 22 + PDE_IDX x * 2 ^ 12 + PTE_IDX x * 4.
Proof.
  intros Hx. destruct (addr_split x Hx) as (Hs & H1 & H2 & H3).
  destruct (addr_fields (PDE_IDX x) (PTE_IDX x) (Z.land x 0xfff) H1 H2 H3) as (_ & _ & _ & _ & F5).
  rewrite <- Hs in F5. unfold pte_ptr. rewrite F5, u32_small; lia.
Qed.

(** ** The self-map *)

(** Through slot 1023, virtual page [1023 * 2^22 + d * 2^12] is the page
    table of directory slot [d] (the directory itself for [d = 1023]). *)
Lemma translate_selfmap (st : mstate) (d off : Z) :
  self_mapped st -> 0 <= d < 1024 -> 0 <= off < 4096 ->
  translate (pmem st) (cr3 st) (1023 * 2 ^ 22 + d * 2 ^ 12 + off) =
  if present (pde_of (pmem st) (cr3 st) d)
  then Some (frame (pde_of (pmem st) (cr3 st) d) + off) else None.
Proof.
  intros (Hc & Ha & Hp & Hf) Hd Ho.
  destruct (addr_fields 1023 d off ltac:(lia) Hd Ho) as (F1 & F2 & F3 & _).
  unfold translate. rewrite F1, F2, F3.
  unfold present, frame, pde_of in *. rewrite Hp, Hf.
  destruct (Z.testbit _ 0); reflexivity.
Qed.

(** ** Entries and pages *)

(** Two addresses in different pages differ. *)
Lemma page_disjoint (a b i j : Z) :
  a mod PG_SIZE = 0 -> b mod PG_SIZE = 0 -> a <> b ->
  0 <= i < PG_SIZE -> 0 <= j < PG_SIZE -> a + i <> b + j.
Proof.
  unfold PG_SIZE. intros Ha Hb Hab Hi Hj.
  divmod a 4096. divmod b 4096. nia.
Qed.

Lemma frame_aligned (e : Z) : frame e mod PG_SIZE = 0 /\ 0 <= frame e < 2 ^ 32.
Proof.
  unfold frame, PG_SIZE. rewrite mask_hi20. split.
  - change 4096 with (2 ^ 12). apply Z.mod_mul. lia.
  - pose proof (Z.mod_pos_bound e (2 ^ 32) ltac:(lia)).
    divmod (e mod 2 ^ 32) (2 ^ 12). lia.
Qed.

(** An entry built as [frame | flags] with a page-aligned frame. *)
Lemma entry_fields (f fl : Z) :
  0 <= f < 2 ^ 32 -> f mod PG_SIZE = 0 -> 0 <= fl < PG_SIZE ->
  u32 (Z.lor f fl) = f + fl /\ frame (f + fl) = f /\ present (f + fl) = Z.testbit fl 0.
Proof.
  unfold PG_SIZE. intros Hf Ha Hfl.
  assert (Hland : Z.land f fl = 0).
  { apply Z.bits_inj'. intros i Hi. rewrite Z.land_spec, Z.bits_0.
    destruct (Z.ltb_spec i 12).
    - rewrite <- (Z.mod_pow2_bits_low f 12 i) by lia.
      change (2 ^ 12) with 4096. rewrite Ha, Z.bits_0. reflexivity.
    - rewrite <- (Z.mod_small fl (2 ^ 12)) by lia.
      rewrite Z.mod_pow2_bits_high by lia. apply andb_false_r. }
  assert (Hlor : Z.lor f fl = f + fl)
    by (rewrite <- (Z.lxor_lor _ _ Hland); symmetry; apply Z.add_nocarry_lxor, Hland).
  divmod f 4096.
  rewrite Hlor, u32_small by lia. split; [reflexivity | split].
  - unfold frame. rewrite mask_hi20, Z.mod_small by lia.
    replace (f + fl) with (f / 4096 * 2 ^ 12 + fl) by lia.
    rewrite (proj1 (div_mod_split _ fl (2 ^ 12) ltac:(lia) ltac:(lia))). lia.
  - unfold present. rewrite !Z.bit0_odd. replace (f + fl) with (fl + 2 * (f / 4096 * 2048)) by lia.
    rewrite Z.odd_add_mul_2. reflexivity.
Qed.

Lemma zero_words_out (m : store) (a b : Z) (n : nat) :
  ~ (a <= b < a + 4 * Z.of_nat n) -> rd (zero_words m a n) b = rd m b.
Proof.
  revert m a. induction n as [| n IH]; intros m a Hb; simpl; [reflexivity |].
  rewrite IH by lia. apply rd_wr_ne. lia.
Qed.

Lemma zero_words_in (m : store) (a j : Z) (n : nat) :
  0 <= j < Z.of_nat n -> rd (zero_words m a n) (a + 4 * j) = 0.
Proof.
  revert m a j. induction n as [| n IH]; intros m a j Hj; simpl; [lia |].
  destruct (Z.eq_dec j 0) as [-> | Hj0].
  - rewrite zero_words_out by lia. rewrite Z.add_0_r. apply rd_wr_eq.
  - replace (a + 4 * j) with (a + 4 + 4 * (j - 1)) by lia. apply IH. lia.
Qed.

Lemma word_store_wr (m : store) (a v : Z) :
  word_store m -> 0 <= v < 2 ^ 32 -> word_store (wr m a v).
Proof. intros Hm Hv. apply map_Forall_insert_2; assumption. Qed.

Lemma word_store_zero_words (m : store) (a : Z) (n : nat) :
  word_store m -> word_store (zero_words m a n).
Proof.
  revert m a. induction n as [| n IH]; intros m a Hm; simpl; [exact Hm |].
  apply IH, word_store_wr; [exact Hm | lia].
Qed.

#[export] Hint Resolve word_store_wr word_store_zero_words : kernel.

(** A store into one page leaves every other page as it was. *)
Lemma rd_wr_page (m : store) (a j b i v : Z) :
  a mod PG_SIZE = 0 -> b mod PG_SIZE = 0 -> a <> b ->
  0 <= j < PG_SIZE -> 0 <= i < PG_SIZE -> rd (wr m (a + j) v) (b + i) = rd m (b + i).
Proof. intros. apply rd_wr_ne. apply page_disjoint; assumption. Qed.

(** Zeroing a page leaves every other page as it was. *)
Lemma zero_page_other (m : store) (a b i : Z) :
  a mod PG_SIZE = 0 -> b mod PG_SIZE = 0 -> a <> b -> 0 <= i < PG_SIZE ->
  rd (zero_words m a 1024) (b + i) = rd m (b + i).
Proof.
  intros Ha Hb Hab Hi. apply zero_words_out. simpl Z.of_nat.
  pose proof (page_disjoint a b 0 i Ha Hb Hab).
  unfold PG_SIZE in *. divmod a 4096. divmod b 4096. nia.
Qed.

(** ** The MMU through the self-map *)

Lemma va_low_pde (va : Z) :
  0 <= va < 0xffc00000 -> 0 <= PDE_IDX va < 1023 /\ 0 <= PTE_IDX va < 1024.
Proof. intros Hva. destruct (addr_split va ltac:(lia)) as (Hs & H1 & H2 & H3). lia. Qed.

(** [*pde] reads directory slot [PDE_IDX va] of the active directory. *)
Lemma translate_pde_ptr (st : mstate) (va : Z) :
  self_mapped st -> 0 <= va < 2 ^ 32 ->
  translate (pmem st) (cr3 st) (pde_ptr va) = Some (cr3 st + PDE_IDX va * 4).
Proof.
  intros Hsm Hva. pose proof Hsm as (_ & _ & Hp & Hf).
  destruct (addr_split va Hva) as (_ & H1 & _).
  rewrite pde_ptr_fields by exact Hva.
  rewrite translate_selfmap by (auto; lia). rewrite Hp, Hf. reflexivity.
Qed.

(** [*pte] reads the entry the MMU itself reads for [va], and faults when
    the directory entry is not present. *)
Lemma translate_pte_ptr (st : mstate) (va : Z) :
  self_mapped st -> 0 <= va < 2 ^ 32 ->
  translate (pmem st) (cr3 st) (pte_ptr va) = pte_slot (pmem st) (cr3 st) va.
Proof.
  intros Hsm Hva. destruct (addr_split va Hva) as (_ & H1 & H2 & _).
  rewrite pte_ptr_fields by exact Hva.
  rewrite translate_selfmap by (auto; lia). reflexivity.
Qed.

(** The walk, split at the table entry. *)
Lemma translate_slot (pm : store) (cr3 va : Z) :
  translate pm cr3 va =
  match pte_slot pm cr3 va with
  | Some p => if present (rd pm p) then Some (frame (rd pm p) + Z.land va 0xfff) else None
  | None => None
  end.
Proof.
  unfold translate, pte_slot, present, frame.
  destruct (Z.testbit _ 0); reflexivity.
Qed.

(** Two memories that agree on the directory slot and on the table slot
    of [va] translate [va] alike. *)
Lemma translate_agree (pm pm' : store) (cr3 va : Z) :
  rd pm' (cr3 + PDE_IDX va * 4) = rd pm (cr3 + PDE_IDX va * 4) ->
  (forall p, pte_slot pm cr3 va = Some p -> rd pm' p = rd pm p) ->
  translate pm' cr3 va = translate pm cr3 va.
Proof.
  intros Hd Ht. rewrite !translate_slot.
  assert (Hs : pte_slot pm' cr3 va = pte_slot pm cr3 va) by (unfold pte_slot; rewrite Hd; reflexivity).
  rewrite Hs. destruct (pte_slot pm cr3 va) as [p |]; [rewrite (Ht p eq_refl) |]; reflexivity.
Qed.

(** The directory slot of a pointer into the directory's page. *)
Lemma pde_slot_in_page (i : Z) :
  0 <= i < 1024 -> 0 <= i * 4 < PG_SIZE.
Proof. unfold PG_SIZE. lia. Qed.

(** [self_mapped] depends on the directory's last slot only. *)
Lemma self_mapped_agree (st st' : mstate) :
  self_mapped st -> cr3 st' = cr3 st ->
  rd (pmem st') (cr3 st + 1023 * 4) = rd (pmem st) (cr3 st + 1023 * 4) ->
  self_mapped st'.
Proof. unfold self_mapped, pde_of. intros H -> ->. exact H. Qed.

(** ** [page_table_add], path by path *)

(** The entry [page_table_add] writes: [page_phyaddr | PG_US_U | PG_RW_W | PG_P_1]. *)
Lemma entry_flags (pa : Z) : Z.lor pa (Z.lor PG_US_U (Z.lor PG_RW_W PG_P_1)) = Z.lor pa 7.
Proof. reflexivity. Qed.

(** Directory entry present: the table entry is written, or the kernel
    stops when it is present already. *)
Lemma page_table_add_present (st : mstate) (va pa : Z) :
  self_mapped st -> 0 <= va < 0xffc00000 ->
  present (pde_of (pmem st) (cr3 st) (PDE_IDX va)) = true ->
  page_table_add st va pa =
  let p := frame (pde_of (pmem st) (cr3 st) (PDE_IDX va)) + PTE_IDX va * 4 in
  if present (rd (pmem st) p) then KPanic "!(*pte & 0x00000001)"
  else KOk (with_pmem st (wr (pmem st) p (u32 (Z.lor pa 7)))).
Proof.
  intros Hsm Hva Hp. unfold page_table_add, vload, vstore.
  rewrite translate_pde_ptr, translate_pte_ptr by (auto; lia).
  rewrite kbind_ret, entry_flags. unfold pte_slot, pde_of, present in *. rewrite Hp.
  cbv zeta. rewrite kbind_ret. destruct (Z.testbit (rd (pmem st) (frame _ + _)) 0); reflexivity.
Qed.

Lemma with_pmem_id (st : mstate) : with_pmem st (pmem st) = st.
Proof. destruct st; reflexivity. Qed.

(** [memset] of the page table of slot [d] through the self-map zeroes the
    table's frame, word by word. *)
Lemma vzero_words_table (st : mstate) (d F k : Z) (n : nat) :
  self_mapped st -> 0 <= d < 1023 ->
  present (pde_of (pmem st) (cr3 st) d) = true -> frame (pde_of (pmem st) (cr3 st) d) = F ->
  F <> cr3 st -> 0 <= k -> k + Z.of_nat n <= 1024 ->
  vzero_words st (1023 * 2 ^ 22 + d * 2 ^ 12 + 4 * k) n =
  KOk (with_pmem st (zero_words (pmem st) (F + 4 * k) n)).
Proof.
  revert st k. induction n as [| n IH]; intros st k Hsm Hd Hp Hf HFc Hk Hkn.
  - simpl. rewrite with_pmem_id. reflexivity.
  - pose proof (frame_aligned (pde_of (pmem st) (cr3 st) d)) as [HFa _]. rewrite Hf in HFa.
    pose proof Hsm as (_ & Hca & _).
    simpl vzero_words. unfold vstore.
    rewrite translate_selfmap by (auto; lia). rewrite Hp, Hf, kbind_ret.
    change (u32 0) with 0.
    assert (Hrd : forall i, 0 <= i < 1024 ->
              rd (wr (pmem st) (F + 4 * k) 0) (cr3 st + i * 4) = rd (pmem st) (cr3 st + i * 4))
      by (intros i Hi; apply rd_wr_page; unfold PG_SIZE in *; auto; lia).
    replace (1023 * 2 ^ 22 + d * 2 ^ 12 + 4 * k + 4) with (1023 * 2 ^ 22 + d * 2 ^ 12 + 4 * (k + 1)) by lia.
    rewrite IH; cbn [pmem cr3 with_pmem]; unfold pde_of; try rewrite Hrd by lia; auto; try lia.
    + replace (F + 4 * (k + 1)) with (F + 4 * k + 4) by lia. reflexivity.
    + apply (self_mapped_agree st); [exact Hsm | reflexivity | apply Hrd; lia].
Qed.

Lemma vload_pde (st : mstate) (va : Z) :
  self_mapped st -> 0 <= va < 2 ^ 32 ->
  vload st (pde_ptr va) = KOk (pde_of (pmem st) (cr3 st) (PDE_IDX va)).
Proof. intros. unfold vload. rewrite translate_pde_ptr by assumption. reflexivity. Qed.

(** [*pte] as a load: the entry, or a page fault when the directory entry
    is missing. *)
Lemma vload_pte (st : mstate) (va : Z) :
  self_mapped st -> 0 <= va < 2 ^ 32 ->
  vload st (pte_ptr va) =
  match pte_slot (pmem st) (cr3 st) va with
  | Some p => KOk (rd (pmem st) p)
  | None => KFault (pte_ptr va)
  end.
Proof. intros. unfold vload. rewrite translate_pte_ptr by assumption. reflexivity. Qed.

Lemma vstore_pte (st : mstate) (va v : Z) :
  self_mapped st -> 0 <= va < 2 ^ 32 ->
  vstore st (pte_ptr va) v =
  match pte_slot (pmem st) (cr3 st) va with
  | Some p => KOk (with_pmem st (wr (pmem st) p (u32 v)))
  | None => KFault (pte_ptr va)
  end.
Proof. intros. unfold vstore. rewrite translate_pte_ptr by assumption. reflexivity. Qed.

(** ** The table frame [page_table_add] takes from the kernel pool *)

(** A frame whose bit is clear is not in use. *)
Lemma in_use_clear (st : mstate) (idx : Z) :
  0 <= idx < 8 * btmp_bytes_len (pool_bitmap (kernel_pool st)) ->
  bitmap_scan_test (bmem st) (pool_bitmap (kernel_pool st)) idx = false ->
  ~ in_use st (phy_addr_start (kernel_pool st) + idx * PG_SIZE).
Proof. intros Hr Hc Hu. rewrite (Hu idx Hr eq_refl) in Hc. discriminate. Qed.

Lemma palloc_table_frame (st st1 : mstate) (F : Z) :
  pt_wf st -> palloc st PF_KERNEL = KOk (F, st1) ->
  F mod PG_SIZE = 0 /\ 0 <= F < 2 ^ 32 /\ ~ in_use st F /\
  pmem st1 = pmem st /\ cr3 st1 = cr3 st /\ kernel_pool st1 = kernel_pool st /\
  pools_wf st1 /\ in_use st1 F /\ (forall f, in_use st f -> in_use st1 f).
Proof.
  intros (Hsm & Hpw & Hws & Hcr & Hal & Hpd) Hp.
  destruct (palloc_effect st PF_KERNEL F st1 Hpw Hp)
    as (idx & I1 & HF & _ & I2 & _ & Est & Hm' & I3 & I4 & _).
  cbn [pool_of] in *. pose proof Hpw as (_ & Hkp & Hkl & Hul & Hku & Huu).
  assert (Hk : kernel_pool st1 = kernel_pool st) by (rewrite Est; reflexivity).
  split; [| split; [| split; [| split; [| split; [| split; [| split; [| split]]]]]]].
  - rewrite HF. unfold PG_SIZE in *. rewrite Z.mod_add by lia. exact Hal.
  - unfold PG_SIZE in *. lia.
  - rewrite HF. exact (in_use_clear st idx I1 I2).
  - rewrite Est. reflexivity.
  - rewrite Est. reflexivity.
  - exact Hk.
  - rewrite Est. split; [exact Hm' | exact (proj2 Hpw)].
  - intros j Hj Hj'. rewrite Hk in Hj, Hj'. rewrite Hk.
    assert (j = idx) as -> by (unfold PG_SIZE in *; lia). exact I3.
  - intros f Hf j Hj Hj'. rewrite Hk in Hj, Hj' |- *.
    destruct (Z.eq_dec j idx) as [-> | Hne]; [exact I3 |].
    rewrite I4 by lia. exact (Hf j Hj Hj').
Qed.

(** ** Preservation of [pt_wf] *)

(** A 32-bit store into a page other than the directory keeps the tables
    well formed. *)
Lemma pt_wf_wr_table (st : mstate) (a j v : Z) :
  pt_wf st -> a mod PG_SIZE = 0 -> a <> cr3 st -> 0 <= j < PG_SIZE -> 0 <= v < 2 ^ 32 ->
  pt_wf (with_pmem st (wr (pmem st) (a + j) v)).
Proof.
  intros (Hsm & Hpw & Hws & Hcr & Hal & Hpd) Ha Hac Hj Hv. pose proof Hsm as (_ & Hca & _).
  assert (Hrd : forall i, 0 <= i < 1024 ->
            pde_of (wr (pmem st) (a + j) v) (cr3 st) i = pde_of (pmem st) (cr3 st) i)
    by (intros i Hi; apply rd_wr_page; unfold PG_SIZE in *; auto; lia).
  split; [| split; [exact Hpw | split; [apply word_store_wr; assumption | split; [exact Hcr | split; [exact Hal |]]]]].
  - apply (self_mapped_agree st); [exact Hsm | reflexivity | apply Hrd; lia].
  - intros i Hi. cbn [pmem cr3 with_pmem]. rewrite Hrd by lia. apply Hpd, Hi.
Qed.

(** The directory slot of [va] agrees: so does the table slot. *)
Lemma pte_slot_agree (pm pm' : store) (cr3 va : Z) :
  rd pm' (cr3 + PDE_IDX va * 4) = rd pm (cr3 + PDE_IDX va * 4) ->
  pte_slot pm' cr3 va = pte_slot pm cr3 va.
Proof. intros Hd. unfold pte_slot. rewrite Hd. reflexivity. Qed.

(** A table slot holding [pa | 7] maps the page to [pa]. *)
Lemma translate_installed (pm : store) (cr3 va pa p : Z) :
  pa mod PG_SIZE = 0 -> 0 <= pa < 2 ^ 32 ->
  pte_slot pm cr3 va = Some p -> rd pm p = pa + 7 ->
  translate pm cr3 va = Some (pa + Z.land va 0xfff).
Proof.
  intros Ha Hpa Hs Hp. rewrite translate_slot, Hs, Hp.
  destruct (entry_fields pa 7 Hpa Ha ltac:(unfold PG_SIZE; lia)) as (_ & -> & ->). reflexivity.
Qed.

(** The entry [page_table_add] writes, for a page-aligned frame. *)
Lemma entry_value (pa : Z) :
  pa mod PG_SIZE = 0 -> 0 <= pa < 2 ^ 32 -> u32 (Z.lor pa 7) = pa + 7 /\ 0 <= pa + 7 < 2 ^ 32.
Proof.
  intros Ha Hpa. split; [exact (proj1 (entry_fields pa 7 Hpa Ha ltac:(unfold PG_SIZE; lia))) |].
  unfold PG_SIZE in Ha. divmod pa 4096. lia.
Qed.

(** Directory entry missing: a frame [F] from the kernel pool becomes the
    table, through the steps of the [else] branch in their order. *)
Section AbsentPath.
Context (st st1 : mstate) (va pa F : Z).
Hypothesis Hsm : self_mapped st.
Hypothesis Hva : 0 <= va < 0xffc00000.
Hypothesis HFa : F mod PG_SIZE = 0.
Hypothesis HF32 : 0 <= F < 2 ^ 32.
Hypothesis HFc : F <> cr3 st.
Hypothesis Hpm1 : pmem st1 = pmem st.
Hypothesis Hcr1 : cr3 st1 = cr3 st.

(** The directory after [*pde = pde_phyaddr | 7], and the memory after the
    [memset] of the new table. *)
Local Abbreviation absent_pm2 := (wr (pmem st) (cr3 st + PDE_IDX va * 4) (F + 7)).
Local Abbreviation absent_pm3 := (zero_words absent_pm2 F 1024).

Lemma absent_fields : u32 (Z.lor F 7) = F + 7 /\ frame (F + 7) = F /\ present (F + 7) = true.
Proof. exact (entry_fields F 7 HF32 HFa ltac:(unfold PG_SIZE; lia)). Qed.

Lemma absent_pde2 : rd absent_pm2 (cr3 st + PDE_IDX va * 4) = F + 7.
Proof. apply rd_wr_eq. Qed.

Lemma absent_self_slot :
  rd absent_pm2 (cr3 st + 1023 * 4) = rd (pmem st) (cr3 st + 1023 * 4).
Proof. pose proof (va_low_pde va Hva). apply rd_wr_ne. lia. Qed.

Lemma absent_store_pde :
  vstore st1 (pde_ptr va) (Z.lor F 7) = KOk (with_pmem st1 absent_pm2).
Proof.
  assert (Hsm1 : self_mapped st1)
    by (apply (self_mapped_agree st); [exact Hsm | exact Hcr1 | rewrite Hpm1; reflexivity]).
  unfold vstore. rewrite translate_pde_ptr by (auto; lia).
  rewrite (proj1 absent_fields), ?Hpm1, ?Hcr1. reflexivity.
Qed.

Lemma absent_memset :
  vmemset_zero (with_pmem st1 absent_pm2) (Z.land (pte_ptr va) 0xfffff000) PG_SIZE =
  KOk (with_pmem st1 (zero_words absent_pm2 F 1024)).
Proof.
  destruct (va_low_pde va Hva) as [Hd Ht].
  destruct (addr_fields 1023 (PDE_IDX va) (PTE_IDX va * 4) ltac:(lia) ltac:(lia) ltac:(lia))
    as (_ & _ & _ & Hfr & _).
  change (Z.land (pte_ptr va) 0xfffff000) with (frame (pte_ptr va)).
  rewrite pte_ptr_fields, Hfr by lia.
  unfold vmemset_zero. rewrite (proj2 (Z.eqb_neq _ 0)) by lia. simpl negb. cbv iota.
  change (Z.to_nat (PG_SIZE / 4)) with 1024%nat.
  replace (1023 * 2 ^ 22 + PDE_IDX va * 2 ^ 12) with (1023 * 2 ^ 22 + PDE_IDX va * 2 ^ 12 + 4 * 0) by lia.
  rewrite vzero_words_table with (F := F); cbn [pmem cr3 with_pmem]; rewrite ?Hcr1; unfold pde_of;
    rewrite ?absent_pde2; try apply absent_fields; auto; try lia.
  - rewrite Z.add_0_r. reflexivity.
  - apply (self_mapped_agree st); [exact Hsm | exact Hcr1 | apply absent_self_slot].
Qed.

Lemma absent_slot3 : pte_slot absent_pm3 (cr3 st) va = Some (F + PTE_IDX va * 4).
Proof.
  destruct (va_low_pde va Hva) as [Hd Ht]. pose proof Hsm as (_ & Hca & _).
  unfold pte_slot. rewrite zero_page_other by (unfold PG_SIZE in *; auto; lia).
  rewrite absent_pde2. destruct absent_fields as (_ & -> & ->). reflexivity.
Qed.

Lemma absent_self_mapped3 : self_mapped (with_pmem st1 absent_pm3).
Proof.
  pose proof Hsm as (_ & Hca & _).
  apply (self_mapped_agree st); [exact Hsm | exact Hcr1 |]. cbn [pmem with_pmem].
  rewrite zero_page_other by (unfold PG_SIZE in *; auto; lia).
  apply absent_self_slot.
Qed.

Lemma absent_entry_clear : rd absent_pm3 (F + PTE_IDX va * 4) = 0.
Proof.
  destruct (va_low_pde va Hva) as [Hd Ht].
  replace (F + PTE_IDX va * 4) with (F + 4 * PTE_IDX va) by lia. apply zero_words_in. simpl. lia.
Qed.

(** The whole [else] branch. *)
Lemma page_table_add_absent :
  present (pde_of (pmem st) (cr3 st) (PDE_IDX va)) = false ->
  palloc st PF_KERNEL = KOk (F, st1) ->
  page_table_add st va pa =
  KOk (with_pmem st1 (wr absent_pm3 (F + PTE_IDX va * 4) (u32 (Z.lor pa 7)))).
Proof.
  intros Hnp Hpal. unfold page_table_add. cbv zeta.
  rewrite vload_pde, kbind_ret by (auto; lia). unfold present in Hnp. rewrite Hnp.
  rewrite Hpal, kbind_ret. cbv beta iota. rewrite !entry_flags.
  rewrite absent_store_pde, kbind_ret, absent_memset, kbind_ret.
  rewrite vload_pte by (exact absent_self_mapped3 || lia). cbn [pmem cr3 with_pmem].
  rewrite Hcr1, absent_slot3, kbind_ret, absent_entry_clear.
  rewrite vstore_pte by (exact absent_self_mapped3 || lia). cbn [pmem cr3 with_pmem].
  rewrite Hcr1, absent_slot3. reflexivity.
Qed.

(** The directory after the [memset]: slot [PDE_IDX va] now holds the new
    table, every other slot is as it was. *)
Lemma absent_pd3 (i : Z) :
  0 <= i < 1024 ->
  rd absent_pm3 (cr3 st + i * 4) =
  if decide (i = PDE_IDX va) then F + 7 else rd (pmem st) (cr3 st + i * 4).
Proof.
  intros Hi. pose proof Hsm as (_ & Hca & _).
  rewrite zero_page_other by (unfold PG_SIZE in *; auto; lia).
  case_decide as Hd; [subst; apply rd_wr_eq | apply rd_wr_ne; lia].
Qed.

(** The tables after the whole branch are well formed, given what [palloc]
    guarantees of the new frame. *)
Lemma absent_pt_wf (v : Z) :
  pt_wf st -> 0 <= v < 2 ^ 32 -> pools_wf st1 -> kernel_pool st1 = kernel_pool st ->
  in_use st1 F -> (forall f, in_use st f -> in_use st1 f) ->
  pt_wf (with_pmem st1 (wr absent_pm3 (F + PTE_IDX va * 4) v)).
Proof.
  intros (_ & _ & Hws & Hcr & Hal & Hpd) Hv Hpw1 Hk1 HF1 Hmono.
  destruct (va_low_pde va Hva) as [Hd Ht].
  refine (pt_wf_wr_table (with_pmem st1 absent_pm3) F (PTE_IDX va * 4) v _ HFa _ _ Hv);
    cbn [cr3 with_pmem]; rewrite ?Hcr1; [| exact HFc | unfold PG_SIZE; lia].
  split; [exact absent_self_mapped3 | split; [exact Hpw1 | split; [| split; [| split]]]].
  - apply word_store_zero_words, word_store_wr; [exact Hws | unfold PG_SIZE in *; divmod F 4096; lia].
  - cbn [cr3 with_pmem]. rewrite Hcr1. apply Hmono, Hcr.
  - cbn [kernel_pool with_pmem]. rewrite Hk1. exact Hal.
  - intros i Hi. cbn [pmem cr3 with_pmem]. rewrite Hcr1. unfold pde_of. rewrite absent_pd3 by lia.
    case_decide.
    + destruct absent_fields as (_ & -> & _). intros _. split; [exact HFc | exact HF1].
    + intros Hp. destruct (Hpd i Hi Hp) as [H1 H2]. split; [exact H1 | apply Hmono, H2].
Qed.

(** Only [va] gains a translation: every other address below the self-map
    that does not share its table slot translates as before. *)
Lemma absent_frame (v va' : Z) :
  pt_wf st -> present (pde_of (pmem st) (cr3 st) (PDE_IDX va)) = false -> ~ in_use st F ->
  0 <= va' < 0xffc00000 ->
  pte_slot (wr absent_pm3 (F + PTE_IDX va * 4) v) (cr3 st) va' <> Some (F + PTE_IDX va * 4) ->
  translate (wr absent_pm3 (F + PTE_IDX va * 4) v) (cr3 st) va' = translate (pmem st) (cr3 st) va'.
Proof.
  intros (_ & _ & _ & _ & _ & Hpd) Hnp HFu Hva' Hne. pose proof Hsm as (_ & Hca & _).
  destruct (va_low_pde va Hva) as [Hd Ht]. destruct (va_low_pde va' Hva') as [Hd' Ht'].
  assert (Hpd4 : forall i, 0 <= i < 1024 ->
            rd (wr absent_pm3 (F + PTE_IDX va * 4) v) (cr3 st + i * 4) = rd absent_pm3 (cr3 st + i * 4))
    by (intros i Hi; apply rd_wr_page; unfold PG_SIZE in *; auto; lia).
  destruct (Z.eq_dec (PDE_IDX va') (PDE_IDX va)) as [Heq | Hneq].
  - rewrite !translate_slot. unfold pte_slot in *. rewrite Hpd4, absent_pd3, Heq by lia.
    rewrite Hpd4, absent_pd3, Heq in Hne by lia. unfold pde_of in Hnp. rewrite Hnp.
    rewrite decide_True in * by reflexivity. destruct absent_fields as (_ & Hfr & Hpr). rewrite Hfr, Hpr in *.
    assert (Htt : PTE_IDX va' <> PTE_IDX va) by (intros E; apply Hne; rewrite E; reflexivity).
    rewrite rd_wr_ne by lia. replace (F + PTE_IDX va' * 4) with (F + 4 * PTE_IDX va') by lia.
    rewrite zero_words_in by (simpl; lia). reflexivity.
  - apply translate_agree; [rewrite Hpd4, absent_pd3 by lia; rewrite decide_False by exact Hneq; reflexivity |].
    intros q Hq. unfold pte_slot in Hq. destruct (present _) eqn:Hp in Hq; [| discriminate].
    injection Hq as <-. destruct (Hpd (PDE_IDX va') ltac:(lia) Hp) as [HTc HTu].
    assert (HTF : frame (pde_of (pmem st) (cr3 st) (PDE_IDX va')) <> F) by (intros E; rewrite E in HTu; contradiction).
    pose proof (frame_aligned (pde_of (pmem st) (cr3 st) (PDE_IDX va'))) as [HTa _].
    unfold pde_of in *.
    rewrite rd_wr_page, zero_page_other, rd_wr_page by (unfold PG_SIZE in *; auto; lia).
    reflexivity.
Qed.

End AbsentPath.

(** With the directory entry missing, a [palloc] panic is [page_table_add]'s. *)
Lemma page_table_add_absent_panic (st : mstate) (va pa : Z) (w : string) :
  self_mapped st -> 0 <= va < 0xffc00000 ->
  present (pde_of (pmem st) (cr3 st) (PDE_IDX va)) = false ->
  palloc st PF_KERNEL = KPanic w -> page_table_add st va pa = KPanic w.
Proof.
  intros Hsm Hva Hnp Hp. unfold page_table_add.
  rewrite vload_pde, kbind_ret by (auto; lia). unfold present in Hnp. rewrite Hnp, Hp. reflexivity.
Qed.

(** ** What a returning [page_table_add] did *)

Lemma page_table_add_ok_present (st st' : mstate) (va pa : Z) :
  pt_wf st -> 0 <= va < 0xffc00000 -> pa mod PG_SIZE = 0 -> 0 <= pa < 2 ^ 32 ->
  present (pde_of (pmem st) (cr3 st) (PDE_IDX va)) = true ->
  page_table_add st va pa = KOk st' -> pt_wf st' /\ maps_only st st' va pa.
Proof.
  intros Hwf Hva Ha Hpa Hp E. pose proof Hwf as (Hsm & _ & _ & _ & _ & Hpd).
  pose proof Hsm as (_ & Hca & _). destruct (va_low_pde va Hva) as [Hd Ht].
  destruct (Hpd _ Hd Hp) as [HTc _].
  pose proof (frame_aligned (pde_of (pmem st) (cr3 st) (PDE_IDX va))) as [HTa _].
  rewrite page_table_add_present in E by assumption. cbv zeta in E.
  destruct (present (rd _ _)); [discriminate | injection E as <-].
  destruct (entry_value pa Ha Hpa) as [-> Hr].
  split; [apply pt_wf_wr_table; auto; unfold PG_SIZE; lia |].
  assert (Hpd' : forall i, 0 <= i < 1024 ->
    rd (wr (pmem st) (frame (pde_of (pmem st) (cr3 st) (PDE_IDX va)) + PTE_IDX va * 4) (pa + 7))
       (cr3 st + i * 4) = rd (pmem st) (cr3 st + i * 4))
    by (intros i Hi; apply rd_wr_page; unfold PG_SIZE in *; auto; lia).
  split; [reflexivity |]. cbn [pmem cr3 with_pmem].
  eexists. split; [| split; [apply rd_wr_eq |]].
  - rewrite (pte_slot_agree (pmem st)) by (apply Hpd'; lia). unfold pte_slot, pde_of in *. rewrite Hp. reflexivity.
  - intros va' Hva' Hne. destruct (va_low_pde va' Hva') as [Hd' _].
    rewrite (pte_slot_agree (pmem st)) in Hne by (apply Hpd'; lia).
    apply translate_agree; [apply Hpd'; lia |].
    intros q Hq. rewrite Hq in Hne. apply rd_wr_ne. congruence.
Qed.

Lemma page_table_add_ok_absent (st st' : mstate) (va pa : Z) :
  pt_wf st -> 0 <= va < 0xffc00000 -> pa mod PG_SIZE = 0 -> 0 <= pa < 2 ^ 32 ->
  present (pde_of (pmem st) (cr3 st) (PDE_IDX va)) = false ->
  page_table_add st va pa = KOk st' -> pt_wf st' /\ maps_only st st' va pa.
Proof.
  intros Hwf Hva Ha Hpa Hnp E. pose proof Hwf as (Hsm & _ & _ & Hcr & _).
  destruct (palloc st PF_KERNEL) as [[F st1] | w | v |] eqn:Hpal.
  2: { rewrite (page_table_add_absent_panic st va pa w Hsm Hva Hnp Hpal) in E. discriminate. }
  2: { exfalso. exact (palloc_no_fault st PF_KERNEL v Hpal). }
  2: { exfalso. exact (palloc_no_block st PF_KERNEL Hpal). }
  destruct (palloc_table_frame st st1 F Hwf Hpal)
    as (HFa & HF32 & HFu & Hpm1 & Hcr1 & Hk1 & Hpw1 & HF1 & Hmono).
  assert (HFc : F <> cr3 st) by (intros ->; contradiction).
  rewrite (page_table_add_absent st st1 va pa F Hsm Hva HFa HF32 HFc Hpm1 Hcr1 Hnp Hpal) in E.
  apply kok_inj in E. subst st'. destruct (entry_value pa Ha Hpa) as [-> Hr].
  split; [exact (absent_pt_wf st st1 va F Hsm Hva HFa HF32 HFc Hcr1 (pa + 7) Hwf Hr Hpw1 Hk1 HF1 Hmono) |].
  split; [exact Hcr1 |]. cbn [pmem cr3 with_pmem]. rewrite Hcr1.
  exists (F + PTE_IDX va * 4). split; [| split; [apply rd_wr_eq |]].
  - destruct (va_low_pde va Hva) as [Hd Ht]. pose proof Hsm as (_ & Hca & _).
    rewrite pte_slot_agree with (pm := zero_words (wr (pmem st) (cr3 st + PDE_IDX va * 4) (F + 7)) F 1024)
      by (apply rd_wr_page; unfold PG_SIZE in *; auto; lia).
    apply (absent_slot3 st va F); assumption.
  - intros va' Hva' Hne. exact (absent_frame st va F Hsm Hva HFa HF32 HFc (pa + 7) va' Hwf Hnp HFu Hva' Hne).
Qed.

Lemma page_table_add_ok (st st' : mstate) (va pa : Z) :
  pt_wf st -> 0 <= va < 0xffc00000 -> pa mod PG_SIZE = 0 -> 0 <= pa < 2 ^ 32 ->
  page_table_add st va pa = KOk st' -> pt_wf st' /\ maps_only st st' va pa.
Proof.
  intros Hwf Hva Ha Hpa E.
  destruct (present (pde_of (pmem st) (cr3 st) (PDE_IDX va))) eqn:Hp;
    [exact (page_table_add_ok_present st st' va pa Hwf Hva Ha Hpa Hp E)
    | exact (page_table_add_ok_absent st st' va pa Hwf Hva Ha Hpa Hp E)].
Qed.

(** ** When [page_table_add] does not return *)

(** It never faults or blocks, and it stops the kernel only at the
    [ASSERT] on a present table entry or in [palloc]. *)
Lemma page_table_add_stops (st : mstate) (va pa : Z) :
  pt_wf st -> 0 <= va < 0xffc00000 ->
  (forall v, page_table_add st va pa <> KFault v) /\ page_table_add st va pa <> KBlock /\
  (forall w, page_table_add st va pa = KPanic w ->
     (present (pde_of (pmem st) (cr3 st) (PDE_IDX va)) = true /\ w = "!(*pte & 0x00000001)"%string /\
      present (rd (pmem st) (frame (pde_of (pmem st) (cr3 st) (PDE_IDX va)) + PTE_IDX va * 4)) = true) \/
     (present (pde_of (pmem st) (cr3 st) (PDE_IDX va)) = false /\ palloc st PF_KERNEL = KPanic w)).
Proof.
  intros Hwf Hva. pose proof Hwf as (Hsm & _).
  destruct (present (pde_of (pmem st) (cr3 st) (PDE_IDX va))) eqn:Hp.
  - rewrite page_table_add_present by assumption. cbv zeta.
    destruct (present (rd _ _)) eqn:Hq;
      (split; [intros ? E; discriminate E | split; [intros E; discriminate E | intros ? E]]);
      [| discriminate E].
    left. injection E as <-. auto.
  - destruct (palloc st PF_KERNEL) as [[F st1] | w' | v' |] eqn:Hpal.
    + destruct (palloc_table_frame st st1 F Hwf Hpal) as (HFa & HF32 & HFu & Hpm1 & Hcr1 & _).
      assert (HFc : F <> cr3 st) by (intros ->; destruct Hwf as (_ & _ & _ & Hcr & _); contradiction).
      rewrite (page_table_add_absent st st1 va pa F Hsm Hva HFa HF32 HFc Hpm1 Hcr1 Hp Hpal).
      split; [intros ? E | split; [intros E | intros ? E]]; discriminate E.
    + rewrite (page_table_add_absent_panic st va pa w' Hsm Hva Hp Hpal).
      split; [intros ? E | split; [intros E | intros ? E]]; [discriminate E .. | injection E as <-; auto].
    + exfalso. exact (palloc_no_fault st PF_KERNEL v' Hpal).
    + exfalso. exact (palloc_no_block st PF_KERNEL Hpal).
Qed.

(** ** [page_table_pte_remove] *)

Lemma pte_remove_ok (st : mstate) (va p : Z) :
  pt_wf st -> 0 <= va < 0xffc00000 -> pte_slot (pmem st) (cr3 st) va = Some p ->
  let st' := with_pmem st (wr (pmem st) p (u32 (Z.land (rd (pmem st) p) (Z.lnot PG_P_1)))) in
  page_table_pte_remove st va = KOk st' /\ pt_wf st' /\
  pte_slot (pmem st') (cr3 st') va = Some p /\ present (rd (pmem st') p) = false /\
  forall i, 0 <= i < 1024 -> pde_of (pmem st') (cr3 st') i = pde_of (pmem st) (cr3 st) i.
Proof.
  intros Hwf Hva Hs st'. pose proof Hwf as (Hsm & _ & _ & _ & _ & Hpd).
  pose proof Hsm as (_ & Hca & _). destruct (va_low_pde va Hva) as [Hd Ht].
  pose proof Hs as Hs0. unfold pte_slot in Hs0.
  destruct (present _) eqn:Hp in Hs0; [injection Hs0 as <- | discriminate].
  destruct (Hpd (PDE_IDX va) Hd Hp) as [HTc _].
  pose proof (frame_aligned (rd (pmem st) (cr3 st + PDE_IDX va * 4))) as [HTa _].
  assert (Hrd : forall i, 0 <= i < 1024 -> pde_of (pmem st') (cr3 st') i = pde_of (pmem st) (cr3 st) i)
    by (intros i Hi; apply rd_wr_page; unfold PG_SIZE in *; auto; lia).
  split; [| split; [| split; [| split; [| exact Hrd]]]].
  - unfold page_table_pte_remove. rewrite vload_pte by (auto; lia). rewrite Hs, kbind_ret.
    rewrite vstore_pte by (auto; lia). rewrite Hs. reflexivity.
  - apply pt_wf_wr_table; unfold PG_SIZE in *; auto with kernel; lia.
  - rewrite (pte_slot_agree (pmem st)) by (apply Hrd; lia). exact Hs.
  - unfold st'. cbn [pmem with_pmem]. rewrite rd_wr_eq. unfold present, u32.
    rewrite Z.testbit_mod_pow2, Z.land_spec, Z.lnot_spec by lia. simpl.
    rewrite andb_false_r. reflexivity.
Qed.

(** ** The shape of a returning [page_table_add] *)

(** Marking more bits in the bitmaps keeps the tables well formed. *)
Lemma pt_wf_grow (st : mstate) (m' : store) :
  pt_wf st -> byte_store m' -> bits_grow (bmem st) m' -> pt_wf (with_bmem st m').
Proof.
  intros (Hsm & Hpw & Hws & Hcr & Hal & Hpd) Hm' Hg.
  assert (Hu : forall f, in_use st f -> in_use (with_bmem st m') f)
    by (intros f Hf idx Hidx Heq; apply (bits_grow_test (bmem st)); [exact Hg | lia | exact (Hf idx Hidx Heq)]).
  split; [exact Hsm | split; [split; [exact Hm' | exact (proj2 Hpw)] |]].
  split; [exact Hws | split; [apply Hu, Hcr | split; [exact Hal |]]].
  intros i Hi Hp. destruct (Hpd i Hi Hp) as [H1 H2]. split; [exact H1 | apply Hu, H2].
Qed.

(** Only the bitmaps, which only gain bits, and physical memory change;
    in the directory, at most the slot of [va] changes, from absent to a
    table that was not in use. *)
Lemma page_table_add_shape (st st' : mstate) (va pa : Z) :
  pt_wf st -> 0 <= va < 0xffc00000 -> page_table_add st va pa = KOk st' ->
  st' = with_pmem (with_bmem st (bmem st')) (pmem st') /\ bits_grow (bmem st) (bmem st') /\
  forall i, 0 <= i < 1024 ->
    pde_of (pmem st') (cr3 st) i = pde_of (pmem st) (cr3 st) i \/
    (i = PDE_IDX va /\ present (pde_of (pmem st) (cr3 st) i) = false /\
     present (pde_of (pmem st') (cr3 st) i) = true /\ ~ in_use st (frame (pde_of (pmem st') (cr3 st) i))).
Proof.
  intros Hwf Hva E. pose proof Hwf as (Hsm & Hpw & _ & Hcr & _ & Hpd).
  pose proof Hsm as (_ & Hca & _). destruct (va_low_pde va Hva) as [Hd Ht].
  destruct (present (pde_of (pmem st) (cr3 st) (PDE_IDX va))) eqn:Hp.
  - destruct (Hpd _ Hd Hp) as [HTc _].
    pose proof (frame_aligned (pde_of (pmem st) (cr3 st) (PDE_IDX va))) as [HTa _].
    rewrite page_table_add_present in E by assumption. cbv zeta in E.
    destruct (present (rd _ _)); [discriminate | apply kok_inj in E; subst st'].
    split; [reflexivity | split; [apply bits_grow_refl |]].
    intros i Hi. left. apply rd_wr_page; unfold PG_SIZE in *; auto; lia.
  - destruct (palloc st PF_KERNEL) as [[F st1] | w | v |] eqn:Hpal.
    2: { rewrite (page_table_add_absent_panic st va pa w Hsm Hva Hp Hpal) in E. discriminate. }
    2: { exfalso. exact (palloc_no_fault st PF_KERNEL v Hpal). }
    2: { exfalso. exact (palloc_no_block st PF_KERNEL Hpal). }
    destruct (palloc_table_frame st st1 F Hwf Hpal) as (HFa & HF32 & HFu & Hpm1 & Hcr1 & _).
    destruct (palloc_grows st PF_KERNEL F st1 (proj1 Hpw) Hpal) as (Hg & _ & Est1).
    assert (HFc : F <> cr3 st) by (intros ->; contradiction).
    rewrite (page_table_add_absent st st1 va pa F Hsm Hva HFa HF32 HFc Hpm1 Hcr1 Hp Hpal) in E.
    apply kok_inj in E. subst st'. cbn [bmem pmem with_pmem].
    split; [rewrite Est1 at 1; reflexivity | split; [exact Hg |]].
    intros i Hi. unfold pde_of. rewrite rd_wr_page by (unfold PG_SIZE in *; auto; lia).
    rewrite absent_pd3 by (auto; lia). case_decide as Hid; [right | left; reflexivity].
    subst i. destruct (absent_fields F HFa HF32) as (_ & -> & ->). auto.
Qed.

(** ** Theorems *)

(** C6 (functional) [page_table_add] on well-formed tables, for an address
    below the self-map and a page-aligned frame, is total: it returns a
    state whose tables are well formed and in which the address translates
    to the frame plus its page offset; or it stops the kernel, either at
    the [ASSERT] because the address is already mapped, or in [palloc]
    because the directory entry is missing and the kernel pool has no free
    frame for the table; it never page-faults, although [*pte] would fault
    if it were read before [*pde] is written. *)
Theorem page_table_add_spec (st : mstate) (va pa : Z) :
  pt_wf st -> 0 <= va < 0xffc00000 -> pa mod PG_SIZE = 0 -> 0 <= pa < 2 ^ 32 ->
  match page_table_add st va pa with
  | KOk st' =>
      pt_wf st' /\ cr3 st' = cr3 st /\
      translate (pmem st') (cr3 st') va = Some (pa + Z.land va 0xfff)
  | KPanic w =>
      (w = "!(*pte & 0x00000001)"%string /\ translate (pmem st) (cr3 st) va <> None) \/
      (w = "idx_byte < btmp->btmp_bytes_len"%string /\ translate (pmem st) (cr3 st) va = None /\
       forall i, 0 <= i < 8 * btmp_bytes_len (pool_bitmap (kernel_pool st)) ->
         bitmap_scan_test (bmem st) (pool_bitmap (kernel_pool st)) i = true)
  | KFault _ | KBlock => False
  end.
Proof.
  intros Hwf Hva Ha Hpa. destruct (page_table_add_stops st va pa Hwf Hva) as (Hnf & Hnb & Hst).
  destruct (page_table_add st va pa) as [st' | w | v |] eqn:E.
  - destruct (page_table_add_ok st st' va pa Hwf Hva Ha Hpa E) as (Hwf' & Hc & p & Hs & Hp & _).
    split; [exact Hwf' | split; [exact Hc | exact (translate_installed _ _ va pa p Ha Hpa Hs Hp)]].
  - rewrite translate_slot. unfold pte_slot.
    destruct (Hst w eq_refl) as [(Hp & -> & Hq) | (Hp & Hpal)]; unfold pde_of in Hp; rewrite Hp.
    + left. split; [reflexivity |]. unfold pde_of in Hq. rewrite Hq. discriminate.
    + right. destruct (palloc_panics_full st PF_KERNEL w (proj1 (proj2 Hwf)) Hpal) as [-> Hfull].
      split; [reflexivity | split; [reflexivity | exact Hfull]].
  - exact (Hnf v eq_refl).
  - exact (Hnb eq_refl).
Qed.

(** [page_table_add] changes the translation of no other
    address below the self-map whose table slot differs from the mapped
    address's slot. *)
Theorem page_table_add_frame (st st' : mstate) (va pa va' : Z) :
  pt_wf st -> 0 <= va < 0xffc00000 -> pa mod PG_SIZE = 0 -> 0 <= pa < 2 ^ 32 ->
  page_table_add st va pa = KOk st' -> 0 <= va' < 0xffc00000 ->
  pte_slot (pmem st') (cr3 st') va' <> pte_slot (pmem st') (cr3 st') va ->
  translate (pmem st') (cr3 st') va' = translate (pmem st) (cr3 st) va'.
Proof.
  intros Hwf Hva Ha Hpa E Hva' Hne.
  destruct (page_table_add_ok st st' va pa Hwf Hva Ha Hpa E) as (_ & _ & p & Hs & _ & Hfr).
  apply Hfr; [exact Hva' | rewrite <- Hs; exact Hne].
Qed.

(** Mapping an address twice without unmapping it stops the
    kernel at the [ASSERT] that the table entry is not present, whatever
    the second frame. *)
Theorem page_table_add_twice_panics (st st' : mstate) (va pa pa' : Z) :
  pt_wf st -> 0 <= va < 0xffc00000 -> pa mod PG_SIZE = 0 -> 0 <= pa < 2 ^ 32 ->
  page_table_add st va pa = KOk st' ->
  page_table_add st' va pa' = KPanic "!(*pte & 0x00000001)".
Proof.
  intros Hwf Hva Ha Hpa E.
  destruct (page_table_add_ok st st' va pa Hwf Hva Ha Hpa E) as ((Hsm' & _) & _ & p & Hs & Hp & _).
  pose proof Hs as Hs0. unfold pte_slot in Hs0.
  destruct (present _) eqn:Hpd in Hs0; [injection Hs0 as Hpeq | discriminate].
  rewrite page_table_add_present by assumption. cbv zeta. unfold pde_of. rewrite Hpeq, Hp.
  destruct (entry_fields pa 7 Hpa Ha ltac:(unfold PG_SIZE; lia)) as (_ & _ & ->). reflexivity.
Qed.

(** A mapped address has a table slot. *)
Lemma translate_some_slot (pm : store) (cr3 va pa : Z) :
  translate pm cr3 va = Some pa -> exists p, pte_slot pm cr3 va = Some p /\ present (rd pm p) = true.
Proof.
  rewrite translate_slot. destruct (pte_slot pm cr3 va) as [p |]; [| discriminate].
  destruct (present (rd pm p)) eqn:Hp; [eauto | discriminate].
Qed.

(** [page_table_pte_remove] of a mapped address below the
    self-map returns, keeps the tables well formed, leaves the address
    unmapped, and changes the translation of no address with another table
    slot. *)
Theorem page_table_pte_remove_unmaps (st : mstate) (va pa : Z) :
  pt_wf st -> 0 <= va < 0xffc00000 -> translate (pmem st) (cr3 st) va = Some pa ->
  exists st', page_table_pte_remove st va = KOk st' /\ pt_wf st' /\
    translate (pmem st') (cr3 st') va = None /\
    forall va', 0 <= va' < 0xffc00000 ->
      pte_slot (pmem st') (cr3 st') va' <> pte_slot (pmem st') (cr3 st') va ->
      translate (pmem st') (cr3 st') va' = translate (pmem st) (cr3 st) va'.
Proof.
  intros Hwf Hva Ht. destruct (translate_some_slot _ _ _ _ Ht) as (p & Hs & _).
  destruct (pte_remove_ok st va p Hwf Hva Hs) as (E & Hwf' & Hs' & Hnp & Hpd).
  eexists. split; [exact E | split; [exact Hwf' | split]].
  - rewrite translate_slot, Hs', Hnp. reflexivity.
  - intros va' Hva' Hne. destruct (va_low_pde va' Hva') as [Hd' _].
    rewrite Hs' in Hne. rewrite (pte_slot_agree (pmem st)) in Hne by (apply Hpd; lia).
    apply translate_agree; [apply Hpd; lia |].
    intros q Hq. cbn [pmem cr3 with_pmem] in *. apply rd_wr_ne. congruence.
Qed.

(** Map, unmap, map again: the second [page_table_add] of
    the same address returns (no stale entry is left to trip its
    [ASSERT]) and installs the new translation, as a fresh map does. *)
Theorem page_table_map_unmap_map (st st1 st2 : mstate) (va pa pa' : Z) :
  pt_wf st -> 0 <= va < 0xffc00000 ->
  pa mod PG_SIZE = 0 -> 0 <= pa < 2 ^ 32 -> pa' mod PG_SIZE = 0 -> 0 <= pa' < 2 ^ 32 ->
  page_table_add st va pa = KOk st1 -> page_table_pte_remove st1 va = KOk st2 ->
  exists st3, page_table_add st2 va pa' = KOk st3 /\ pt_wf st3 /\
    translate (pmem st3) (cr3 st3) va = Some (pa' + Z.land va 0xfff).
Proof.
  intros Hwf Hva Ha Hpa Ha' Hpa' E1 E2.
  destruct (page_table_add_ok st st1 va pa Hwf Hva Ha Hpa E1) as (Hwf1 & _ & p & Hs & _ & _).
  destruct (pte_remove_ok st1 va p Hwf1 Hva Hs) as (E & Hwf2 & Hs2 & Hnp & _).
  rewrite E2 in E. apply kok_inj in E. rewrite <- E in Hs2, Hnp, Hwf2.
  destruct (page_table_add_stops st2 va pa' Hwf2 Hva) as (Hnf & Hnb & Hst).
  destruct (page_table_add st2 va pa') as [st3 | w | v |] eqn:E3.
  - destruct (page_table_add_ok st2 st3 va pa' Hwf2 Hva Ha' Hpa' E3) as (Hwf3 & _ & q & Hq & Hv & _).
    exists st3. split; [reflexivity | split; [exact Hwf3 | exact (translate_installed _ _ va pa' q Ha' Hpa' Hq Hv)]].
  - exfalso. unfold pte_slot, pde_of in *.
    destruct (present _) eqn:Hpd in Hs2; [injection Hs2 as Hpeq | discriminate].
    destruct (Hst w eq_refl) as [(_ & _ & Hq) | (Hq & _)]; [rewrite Hpeq, Hnp in Hq |]; congruence.
  - destruct (Hnf v eq_refl).
  - destruct (Hnb eq_refl).
Qed.

(** [addr_v2p] agrees with the MMU on every mapped 32-bit
    address, and page-faults when the directory entry of the address is
    missing (it reads [*pte] unconditionally). *)
Theorem addr_v2p_spec (st : mstate) (va : Z) :
  self_mapped st -> 0 <= va < 2 ^ 32 ->
  (forall pa, translate (pmem st) (cr3 st) va = Some pa -> addr_v2p st va = KOk pa) /\
  (pte_slot (pmem st) (cr3 st) va = None -> addr_v2p st va = KFault (pte_ptr va)).
Proof.
  intros Hsm Hva. unfold addr_v2p. rewrite vload_pte, translate_slot by assumption.
  destruct (pte_slot (pmem st) (cr3 st) va) as [p |]; [| split; [discriminate | reflexivity]].
  split; [| discriminate]. intros pa Ht. rewrite kbind_ret.
  destruct (present (rd (pmem st) p)); [injection Ht as <- | discriminate].
  pose proof (frame_aligned (rd (pmem st) p)) as [Hfa Hf32].
  pose proof (Z.mod_pos_bound va (2 ^ 12) ltac:(lia)).
  rewrite mask_lo12. rewrite u32_small; [reflexivity |].
  unfold frame, PG_SIZE in *. divmod (Z.land (rd (pmem st) p) 0xfffff000) 4096. lia.
Qed.

(** ** The loader's tables are well formed *)

Lemma tables_below_sound (pm : store) (cr3 lim : Z) :
  tables_below pm cr3 lim = true ->
  forall i, 0 <= i < 1023 -> present (pde_of pm cr3 i) = true ->
    frame (pde_of pm cr3 i) <> cr3 /\ frame (pde_of pm cr3 i) < lim.
Proof.
  unfold tables_below. rewrite forallb_forall. intros H i Hi Hp.
  assert (Hin : In i (map Z.of_nat (seq 0 1023)))
    by (apply in_map_iff; exists (Z.to_nat i); split; [lia | apply in_seq; lia]).
  specialize (H i Hin). rewrite Hp in H. cbn [negb orb] in H.
  rewrite andb_true_iff, negb_true_iff, Z.eqb_neq, Z.ltb_lt in H. exact H.
Qed.

(** Frames below the kernel pool are never handed out. *)
Lemma in_use_below (st : mstate) (f : Z) : f < phy_addr_start (kernel_pool st) -> in_use st f.
Proof. intros Hf idx Hidx ->. unfold PG_SIZE in *. lia. Qed.

Lemma loader_wf : pt_wf loader_mstate.
Proof.
  assert (Hk : phy_addr_start (kernel_pool loader_mstate) = 0x200000) by (vm_compute; reflexivity).
  assert (Hc : cr3 loader_mstate = 0x100000) by reflexivity.
  split; [| split; [exact boot_mstate_wf | split; [| split; [| split]]]].
  - unfold self_mapped. rewrite Hc. vm_compute. repeat split; congruence.
  - unfold word_store. apply (bool_decide_unpack _). vm_compute. exact I.
  - apply in_use_below. rewrite Hk, Hc. lia.
  - rewrite Hk. reflexivity.
  - intros i Hi Hp.
    assert (Hb : tables_below (pmem loader_mstate) (cr3 loader_mstate) 0x200000 = true)
      by (vm_compute; reflexivity).
    destruct (tables_below_sound _ _ _ Hb i Hi Hp) as [H1 H2].
    split; [exact H1 | apply in_use_below; rewrite Hk; exact H2].
Qed.

(** Because the loader points directory slots 0 and
    768 at the same table, mapping a kernel-heap page in the first 4 MiB
    above [0xc0000000] also maps the low address 3 GiB below it to the same
    frame: mapping [0xc0101000] (the first page of the kernel heap) to
    frame [0x300000] makes [0x00101000], unmapped before, translate to
    [0x300000] as well. *)
Theorem page_table_add_aliases_low_half :
  translate (pmem loader_mstate) (cr3 loader_mstate) 0x00101000 = None /\
  match page_table_add loader_mstate 0xc0101000 0x300000 with
  | KOk st' =>
      translate (pmem st') (cr3 st') 0xc0101000 = Some 0x300000 /\
      translate (pmem st') (cr3 st') 0x00101000 = Some 0x300000
  | _ => False
  end.
Proof. split; vm_compute; [reflexivity | split; reflexivity]. Qed.

(** ** Witnesses on the loader's tables *)

(** The missing-directory-entry path: [0xc0400000] is the first address of
    directory slot 769, which the loader leaves empty. *)
Lemma page_table_add_spec_witness :
  exists st', page_table_add loader_mstate 0xc0400000 0x300000 = KOk st' /\ pt_wf st' /\
    translate (pmem st') (cr3 st') 0xc0400000 = Some (0x300000 + Z.land 0xc0400000 0xfff).
Proof.
  pose proof (page_table_add_spec loader_mstate 0xc0400000 0x300000 loader_wf
                ltac:(lia) eq_refl ltac:(lia)) as H.
  revert H. returning_call (page_table_add loader_mstate 0xc0400000 0x300000).
  intros (H1 & _ & H3). exists a. auto.
Defined.

Lemma page_table_add_frame_witness :
  let st' := result_or (page_table_add loader_mstate 0xc0400000 0x300000) loader_mstate in
  translate (pmem st') (cr3 st') 0xc0005000 = translate (pmem loader_mstate) (cr3 loader_mstate) 0xc0005000.
Proof.
  intros st'. apply (page_table_add_frame loader_mstate st' 0xc0400000 0x300000 0xc0005000 loader_wf);
    [lia | reflexivity | lia | apply returns_ok; vm_compute; reflexivity | lia | vm_compute; discriminate].
Defined.

Lemma page_table_add_twice_panics_witness :
  let st' := result_or (page_table_add loader_mstate 0xc0101000 0x300000) loader_mstate in
  page_table_add st' 0xc0101000 0x400000 = KPanic "!(*pte & 0x00000001)".
Proof.
  intros st'. apply (page_table_add_twice_panics loader_mstate st' 0xc0101000 0x300000 0x400000 loader_wf);
    [lia | reflexivity | lia | apply returns_ok; vm_compute; reflexivity].
Defined.

Lemma page_table_pte_remove_unmaps_witness :
  exists st', page_table_pte_remove loader_mstate 0xc0005000 = KOk st' /\ pt_wf st' /\
    translate (pmem st') (cr3 st') 0xc0005000 = None /\
    forall va', 0 <= va' < 0xffc00000 ->
      pte_slot (pmem st') (cr3 st') va' <> pte_slot (pmem st') (cr3 st') 0xc0005000 ->
      translate (pmem st') (cr3 st') va' = translate (pmem loader_mstate) (cr3 loader_mstate) va'.
Proof.
  apply (page_table_pte_remove_unmaps loader_mstate 0xc0005000 0x5000 loader_wf);
    [lia | vm_compute; reflexivity].
Defined.

Lemma page_table_map_unmap_map_witness :
  let st1 := result_or (page_table_add loader_mstate 0xc0101000 0x300000) loader_mstate in
  let st2 := result_or (page_table_pte_remove st1 0xc0101000) loader_mstate in
  exists st3, page_table_add st2 0xc0101000 0x400000 = KOk st3 /\ pt_wf st3 /\
    translate (pmem st3) (cr3 st3) 0xc0101000 = Some (0x400000 + Z.land 0xc0101000 0xfff).
Proof.
  intros st1 st2.
  apply (page_table_map_unmap_map loader_mstate st1 st2 0xc0101000 0x300000 0x400000 loader_wf);
    [lia | reflexivity | lia | reflexivity | lia | apply returns_ok; vm_compute; reflexivity ..].
Defined.

Lemma addr_v2p_spec_witness : addr_v2p loader_mstate 0xc0005123 = KOk 0x5123.
Proof.
  apply (proj1 (addr_v2p_spec loader_mstate 0xc0005123 (proj1 loader_wf) ltac:(lia))).
  vm_compute. reflexivity.
Defined.
