(* ===== verification/PageAlloc.v ===== *)
(** * PageAlloc: the page-granular allocators of [kernel/memory.c]

    [malloc_page] composes the three steps its comment names: reserve a
    run of virtual pages ([vaddr_get]), take one frame per page ([palloc]),
    map each page ([page_table_add]).  [get_kernel_pages] and
    [get_user_pages] zero the run; [get_a_page] maps one page at a chosen
    address; [mfree_page] undoes [malloc_page] page by page.

    The pool locks these routines take belong to the synchronisation
    component, so the routines that take them are written against the
    interface [PoolLocks]: a state [S] that contains the memory state and
    can acquire and release the lock of a pool.  [Kernel] provides the
    instance whose locks are the [lock]s of [Sync] taken by the running
    task, and [Heap] a trivial one for its concrete states; the theorems
    here hold for every instance that satisfies [PoolLocksLaws].

    Theorems: [malloc_page] maps every page of the run it returns, to a
    frame of the requested pool, and changes no other translation of the
    address range it allocates in; [get_user_pages] stops the kernel
    instead of returning NULL; [get_a_page] refuses the first page of a
    pool. *)

From Stdlib Require Import ZArith Lia String Bool.
From stdpp Require Import base gmap list.
From S2P Require Import Prelude Bitmap Pool Paging.

Open Scope Z_scope.
Open Scope kernel_scope.

(** ** The interface to the pool locks *)

(** [lock_acquire(&pool->lock)] and [lock_release(&pool->lock)] on a state
    that holds the memory state. *)
Class PoolLocks (S : Type) := {
  mm : S -> mstate;
  set_mm : S -> mstate -> S;
  pool_lock_acquire : pool_flags -> S -> kres S;
  pool_lock_release : pool_flags -> S -> kres S
}.

(** What the memory routines rely on: the memory state is a field of the
    state, and taking or releasing a lock does not touch memory. *)
Class PoolLocksLaws (S : Type) `{PoolLocks S} := {
  mm_set : forall s m, mm (set_mm s m) = m;
  acquire_mm : forall pf s s', pool_lock_acquire pf s = KOk s' -> mm s' = mm s;
  release_mm : forall pf s s', pool_lock_release pf s = KOk s' -> mm s' = mm s
}.

(** ** Operations *)

(** The loop [while (cnt-- > 0) { palloc; page_table_add; vaddr += PG_SIZE; }]. *)
Fixpoint malloc_loop (st : mstate) (pf : pool_flags) (vaddr vaddr_start : Z) (cnt : nat)
  : kres (Z * mstate) :=
  match cnt with
  | O => KOk (vaddr_start, st)
  | S cnt' =>
      let* (page_phyaddr, st1) := palloc st pf in
      if page_phyaddr =? 0 then KOk (0, st1) else
      st2 <- page_table_add st1 vaddr page_phyaddr ;;
      malloc_loop st2 pf (u32 (vaddr + PG_SIZE)) vaddr_start cnt'
  end.

(** [malloc_page]: [pg_cnt] pages, virtually contiguous, each backed by a
    frame of the pool; NULL when no virtual run is free. *)
Definition malloc_page (st : mstate) (pf : pool_flags) (pg_cnt : Z) : kres (Z * mstate) :=
  ASSERT (0 <? pg_cnt) && (pg_cnt <? 3840) as "pg_cnt > 0 && pg_cnt < 3840" ;;
  let* (vaddr_start, st1) := vaddr_get st pf pg_cnt in
  if vaddr_start =? 0 then KOk (0, st1) else
  malloc_loop st1 pf vaddr_start vaddr_start (Z.to_nat pg_cnt).

(** [get_kernel_pages]: [malloc_page] in the kernel pool, zeroed when it
    succeeds. *)
Definition get_kernel_pages (st : mstate) (pg_cnt : Z) : kres (Z * mstate) :=
  let* (vaddr, st1) := malloc_page st PF_KERNEL pg_cnt in
  if negb (vaddr =? 0) then
    st2 <- vmemset_zero st1 vaddr (u32 (pg_cnt * PG_SIZE)) ;; KOk (vaddr, st2)
  else KOk (vaddr, st1).

Section WithLocks.
Context {S : Type} `{PoolLocks S}.

(** [get_user_pages]: under the user pool's lock, [malloc_page] in the user
    pool and a [memset] of the result, which is not tested for NULL. *)
Definition get_user_pages (s : S) (pg_cnt : Z) : kres (Z * S) :=
  s1 <- pool_lock_acquire PF_USER s ;;
  let* (vaddr, m2) := malloc_page (mm s1) PF_USER pg_cnt in
  m3 <- vmemset_zero m2 vaddr (u32 (pg_cnt * PG_SIZE)) ;;
  s4 <- pool_lock_release PF_USER (set_mm s1 m3) ;;
  KOk (vaddr, s4).

(** The reservation step of [get_a_page]: mark the page of [vaddr] in the
    virtual pool of the caller's kind.  [bit_idx] is an [int32_t] holding
    a [uint32_t] quotient below [2^20], so it is that quotient. *)
Definition reserve_page (m : mstate) (pf : pool_flags) (vaddr : Z) : kres mstate :=
  if negb (cur_pgdir m =? 0) && (if pf is PF_USER then true else false) then
    let bit_idx := u32 (vaddr - vaddr_start (cur_uvaddr m)) / PG_SIZE in
    ASSERT (0 <? bit_idx) as "bit_idx > 0" ;;
    m1 <- bitmap_set (bmem m) (vaddr_bitmap (cur_uvaddr m)) bit_idx 1 ;;
    KOk (with_bmem m m1)
  else if (cur_pgdir m =? 0) && (if pf is PF_KERNEL then true else false) then
    let bit_idx := u32 (vaddr - vaddr_start (kernel_vaddr m)) / PG_SIZE in
    ASSERT (0 <? bit_idx) as "bit_idx > 0" ;;
    m1 <- bitmap_set (bmem m) (vaddr_bitmap (kernel_vaddr m)) bit_idx 1 ;;
    KOk (with_bmem m m1)
  else KPanic "get_a_page: not allow kernel alloc userspace or user alloc kernelspace by get_a_page".

(** [get_a_page]: map the page of [vaddr] to a new frame of the pool.  The
    NULL return after a failed [palloc] keeps the lock. *)
Definition get_a_page (s : S) (pf : pool_flags) (vaddr : Z) : kres (Z * S) :=
  s1 <- pool_lock_acquire pf s ;;
  m1 <- reserve_page (mm s1) pf vaddr ;;
  let* (page_phyaddr, m2) := palloc m1 pf in
  if page_phyaddr =? 0 then KOk (0, set_mm s1 m2) else
  m3 <- page_table_add m2 vaddr page_phyaddr ;;
  s4 <- pool_lock_release pf (set_mm s1 m3) ;;
  KOk (vaddr, s4).

(** [get_a_page_without_opvaddrbitmap]: the same without the reservation. *)
Definition get_a_page_without_opvaddrbitmap (s : S) (pf : pool_flags) (vaddr : Z) : kres (Z * S) :=
  s1 <- pool_lock_acquire pf s ;;
  let* (page_phyaddr, m2) := palloc (mm s1) pf in
  if page_phyaddr =? 0 then
    s3 <- pool_lock_release pf (set_mm s1 m2) ;; KOk (0, s3)
  else
  m3 <- page_table_add m2 vaddr page_phyaddr ;;
  s4 <- pool_lock_release pf (set_mm s1 m3) ;;
  KOk (vaddr, s4).

End WithLocks.

(** The two loops of [mfree_page]: [vaddr += PG_SIZE], the frame of the
    page, its pool check, [pfree], [page_table_pte_remove].  [in_user]
    selects the loop of the user pool, whose check has no upper bound. *)
Fixpoint mfree_loop (st : mstate) (in_user : bool) (vaddr : Z) (cnt : nat) : kres mstate :=
  match cnt with
  | O => KOk st
  | S cnt' =>
      let vaddr := u32 (vaddr + PG_SIZE) in
      pg_phy_addr <- addr_v2p st vaddr ;;
      ASSERT (pg_phy_addr mod PG_SIZE =? 0) &&
             (if in_user then pg_phy_addr >=? phy_addr_start (user_pool st)
              else (pg_phy_addr >=? phy_addr_start (kernel_pool st)) &&
                   (pg_phy_addr <? phy_addr_start (user_pool st)))
        as (if in_user
            then "pg_phy_addr % PG_SIZE == 0 && pg_phy_addr >= user_pool.phy_addr_start"
            else "pg_phy_addr % PG_SIZE == 0 && pg_phy_addr >= kernel_pool.phy_addr_start && pg_phy_addr < user_pool.phy_addr_start") ;;
      st1 <- pfree st pg_phy_addr ;;
      st2 <- page_table_pte_remove st1 vaddr ;;
      mfree_loop st2 in_user vaddr cnt'
  end.

(** [mfree_page]: free [pg_cnt] pages from [_vaddr]; the pool is chosen by
    the frame of the first page. *)
Definition mfree_page (st : mstate) (pf : pool_flags) (vaddr pg_cnt : Z) : kres mstate :=
  ASSERT (pg_cnt >=? 1) && (vaddr mod PG_SIZE =? 0) as "pg_cnt >= 1 && vaddr % PG_SIZE == 0" ;;
  pg_phy_addr <- addr_v2p st vaddr ;;
  ASSERT (pg_phy_addr mod PG_SIZE =? 0) && (pg_phy_addr >=? 0x102000)
    as "(pg_phy_addr % PG_SIZE) == 0 && pg_phy_addr >= 0x102000" ;;
  st1 <- mfree_loop st (pg_phy_addr >=? phy_addr_start (user_pool st)) (u32 (vaddr - PG_SIZE))
           (Z.to_nat pg_cnt) ;;
  vaddr_remove st1 pf vaddr pg_cnt.

(** ** Invariant for runs of pages *)

(** No two present directory slots in [\[lo, hi)] share a page table.  The
    loader's directory has it for the kernel slots [\[768, 1023)]; it does
    not have it for [\[0, 1023)], since slots 0 and 768 share a table. *)
Definition tables_distinct (st : mstate) (lo hi : Z) : Prop :=
  forall i j, lo <= i < hi -> lo <= j < hi -> i <> j ->
    present (pde_of (pmem st) (cr3 st) i) = true -> present (pde_of (pmem st) (cr3 st) j) = true ->
    frame (pde_of (pmem st) (cr3 st) i) <> frame (pde_of (pmem st) (cr3 st) j).

(** A decision procedure for the case the loader leaves: every slot of
    [\[lo, hi)] but [k] is absent. *)
Definition slots_absent_but (pm : store) (cr3 lo hi k : Z) : bool :=
  forallb (fun i => (i =? k) || negb (present (pde_of pm cr3 i)))
          (map Z.of_nat (seq (Z.to_nat lo) (Z.to_nat (hi - lo)))).

(** ** Runs of pages keep their tables apart *)

Lemma tables_distinct_single (st : mstate) (lo hi k : Z) :
  0 <= lo -> slots_absent_but (pmem st) (cr3 st) lo hi k = true -> tables_distinct st lo hi.
Proof.
  unfold slots_absent_but. rewrite forallb_forall. intros Hlo H i j Hi Hj Hij Hpi Hpj.
  assert (Hin : forall x, lo <= x < hi -> In x (map Z.of_nat (seq (Z.to_nat lo) (Z.to_nat (hi - lo)))))
    by (intros x Hx; apply in_map_iff; exists (Z.to_nat x); split; [lia | apply in_seq; lia]).
  pose proof (H i (Hin i Hi)) as Ci. pose proof (H j (Hin j Hj)) as Cj.
  rewrite Hpi in Ci. rewrite Hpj in Cj. rewrite orb_false_r in Ci, Cj.
  apply Z.eqb_eq in Ci, Cj. lia.
Qed.

Lemma tables_distinct_add (st st' : mstate) (va pa lo hi : Z) :
  pt_wf st -> 0 <= va < 0xffc00000 -> 0 <= lo -> hi <= 1023 -> tables_distinct st lo hi ->
  page_table_add st va pa = KOk st' -> tables_distinct st' lo hi.
Proof.
  intros Hwf Hva Hlo Hhi Hdis E. pose proof Hwf as (_ & _ & _ & _ & _ & Hpd).
  destruct (page_table_add_shape st st' va pa Hwf Hva E) as (Est & _ & Hsh).
  assert (Hc : cr3 st' = cr3 st) by (rewrite Est; reflexivity). unfold tables_distinct. rewrite Hc.
  intros i j Hi Hj Hij Hpi Hpj.
  destruct (Hsh i ltac:(lia)) as [Ei | (-> & _ & _ & Hui)], (Hsh j ltac:(lia)) as [Ej | (-> & _ & _ & Huj)].
  - rewrite Ei, Ej in *. exact (Hdis i j Hi Hj Hij Hpi Hpj).
  - rewrite Ei in *. intros E'. apply Huj. rewrite <- E'. apply (Hpd i ltac:(lia) Hpi).
  - rewrite Ej in *. intros E'. apply Hui. rewrite E'. apply (Hpd j ltac:(lia) Hpj).
  - contradiction.
Qed.

(** The page number of an address splits as directory and table index. *)
Lemma page_number (va : Z) :
  0 <= va < 2 ^ 32 -> va / PG_SIZE = PDE_IDX va * 1024 + PTE_IDX va.
Proof.
  intros Hva. destruct (addr_split va Hva) as (Hs & H1 & H2 & H3). unfold PG_SIZE.
  rewrite Hs at 1. replace (PDE_IDX va * 2 ^ 22 + PTE_IDX va * 2 ^ 12 + Z.land va 0xfff)
    with ((PDE_IDX va * 1024 + PTE_IDX va) * 4096 + Z.land va 0xfff) by lia.
  apply div_mod_split; lia.
Qed.

(** Two pages of a range with distinct tables have distinct table slots. *)
Lemma pte_slot_distinct (st : mstate) (lo hi va1 va2 p : Z) :
  tables_distinct st lo hi -> 0 <= lo -> hi <= 1024 ->
  lo * 2 ^ 22 <= va1 < hi * 2 ^ 22 -> lo * 2 ^ 22 <= va2 < hi * 2 ^ 22 ->
  va1 / PG_SIZE <> va2 / PG_SIZE ->
  pte_slot (pmem st) (cr3 st) va2 = Some p -> pte_slot (pmem st) (cr3 st) va1 <> Some p.
Proof.
  intros Hdis Hlo Hhi H1 H2 Hne Hs2 Hs1.
  destruct (addr_split va1 ltac:(lia)) as (E1 & D1 & T1 & O1).
  destruct (addr_split va2 ltac:(lia)) as (E2 & D2 & T2 & O2).
  rewrite !page_number in Hne by lia.
  unfold pte_slot in Hs1, Hs2.
  destruct (present (rd _ (_ + PDE_IDX va1 * 4))) eqn:P1 in Hs1; [injection Hs1 as Hp1 | discriminate].
  destruct (present (rd _ (_ + PDE_IDX va2 * 4))) eqn:P2 in Hs2; [injection Hs2 as Hp2 | discriminate].
  pose proof (frame_aligned (rd (pmem st) (cr3 st + PDE_IDX va1 * 4))) as [A1 _].
  pose proof (frame_aligned (rd (pmem st) (cr3 st + PDE_IDX va2 * 4))) as [A2 _].
  destruct (Z.eq_dec (PDE_IDX va1) (PDE_IDX va2)) as [Ed | Ed].
  - rewrite Ed in Hp1. apply Hne. rewrite Ed. lia.
  - assert (Hd1 : lo <= PDE_IDX va1 < hi) by lia.
    assert (Hd2 : lo <= PDE_IDX va2 < hi) by lia.
    apply (page_disjoint _ _ (PTE_IDX va1 * 4) (PTE_IDX va2 * 4) A1 A2);
      [exact (Hdis _ _ Hd1 Hd2 Ed P1 P2) | unfold PG_SIZE; lia | unfold PG_SIZE; lia | congruence].
Qed.

(** A bit clear after the bits grew was clear before. *)
Lemma bits_grow_clear (m m' : store) (b : bitmap) (j : Z) :
  bits_grow m m' -> 0 <= j -> bitmap_scan_test m' b j = false -> bitmap_scan_test m b j = false.
Proof.
  intros Hg Hj H. destruct (bitmap_scan_test m b j) eqn:E; [| reflexivity].
  rewrite (bits_grow_test m m' b j Hg Hj E) in H. discriminate.
Qed.

(** ** The loop of [malloc_page] *)

(** A frame of pool [p]. *)
Section MallocRun.
Context (pf : pool_flags) (lo hi : Z).
Hypothesis Hlo : 0 <= lo.
Hypothesis Hhi : hi <= 1023.

(** One iteration: [palloc] then [page_table_add] of one page of the range. *)
Lemma malloc_step (st st1 st2 : mstate) (vaddr pa : Z) :
  pt_wf st -> phy_addr_start (pool_of st pf) mod PG_SIZE = 0 -> tables_distinct st lo hi ->
  lo * 2 ^ 22 <= vaddr -> vaddr + PG_SIZE <= hi * 2 ^ 22 -> vaddr mod PG_SIZE = 0 ->
  palloc st pf = KOk (pa, st1) -> page_table_add st1 vaddr pa = KOk st2 ->
  (exists idx, 0 <= idx < 8 * btmp_bytes_len (pool_bitmap (pool_of st pf)) /\
     pa = phy_addr_start (pool_of st pf) + idx * PG_SIZE) /\
  pt_wf st2 /\ tables_distinct st2 lo hi /\ st2 = with_pmem (with_bmem st (bmem st2)) (pmem st2) /\
  bits_grow (bmem st1) (bmem st2) /\ translate (pmem st2) (cr3 st2) vaddr = Some pa /\
  (forall va', lo * 2 ^ 22 <= va' < hi * 2 ^ 22 -> va' / PG_SIZE <> vaddr / PG_SIZE ->
     translate (pmem st2) (cr3 st2) va' = translate (pmem st) (cr3 st) va').
Proof.
  intros Hwf Hal Hdis Hv1 Hv2 Hva Hp E. pose proof Hwf as (_ & Hpw & _).
  destruct (palloc_effect st pf pa st1 Hpw Hp) as (idx & I1 & Hpa & _).
  destruct (palloc_grows st pf pa st1 (proj1 Hpw) Hp) as (Hg & Hb & Est1).
  pose proof Hpw as (_ & Hkp & Hkl & Hul & Hku & Huu).
  assert (Hwf1 : pt_wf st1) by (rewrite Est1; apply pt_wf_grow; assumption).
  assert (Hdis1 : tables_distinct st1 lo hi) by (rewrite Est1; exact Hdis).
  assert (Hpa32 : 0 <= pa < 2 ^ 32) by (rewrite Hpa; destruct pf; simpl in *; unfold PG_SIZE in *; lia).
  assert (Hpaa : pa mod PG_SIZE = 0) by (rewrite Hpa; unfold PG_SIZE in *; rewrite Z.mod_add; lia).
  assert (Hvb : 0 <= vaddr < 0xffc00000) by (unfold PG_SIZE in *; lia).
  destruct (page_table_add_ok st1 st2 vaddr pa Hwf1 Hvb Hpaa Hpa32 E)
    as (Hwf2 & Hc2 & p & Hs & Hrd & Hfr).
  destruct (page_table_add_shape st1 st2 vaddr pa Hwf1 Hvb E) as (Est2 & Hg2 & _).
  split; [eauto |]. split; [exact Hwf2 |].
  split; [exact (tables_distinct_add st1 st2 vaddr pa lo hi Hwf1 Hvb Hlo Hhi Hdis1 E) |].
  split; [rewrite Est2 at 1; rewrite Est1; reflexivity |].
  split; [exact Hg2 |].
  split.
  - rewrite (translate_installed _ _ vaddr pa p Hpaa Hpa32 Hs Hrd), mask_lo12.
    unfold PG_SIZE in Hva. change 4096 with (2 ^ 12) in Hva. rewrite Hva, Z.add_0_r. reflexivity.
  - intros va' Hr Hne.
    pose proof (tables_distinct_add st1 st2 vaddr pa lo hi Hwf1 Hvb Hlo Hhi Hdis1 E) as Hdis2.
    rewrite Hfr; [rewrite Est1; reflexivity | unfold PG_SIZE in *; lia |].
    apply (pte_slot_distinct st2 lo hi va' vaddr p Hdis2 Hlo); unfold PG_SIZE in *; try lia; assumption.
Qed.

(** The loop maps each page of the range in turn; a page mapped stays
    mapped, since later pages have other table slots. *)
Lemma malloc_loop_ok (n : nat) :
  forall st vaddr vs r st',
  pt_wf st -> phy_addr_start (pool_of st pf) mod PG_SIZE = 0 -> tables_distinct st lo hi ->
  lo * 2 ^ 22 <= vaddr -> vaddr + Z.of_nat n * PG_SIZE <= hi * 2 ^ 22 -> vaddr mod PG_SIZE = 0 ->
  malloc_loop st pf vaddr vs n = KOk (r, st') ->
  r = vs /\ pt_wf st' /\ tables_distinct st' lo hi /\
  st' = with_pmem (with_bmem st (bmem st')) (pmem st') /\ bits_grow (bmem st) (bmem st') /\
  (forall i, 0 <= i < Z.of_nat n -> exists idx,
     0 <= idx < 8 * btmp_bytes_len (pool_bitmap (pool_of st pf)) /\
     bitmap_scan_test (bmem st) (pool_bitmap (pool_of st pf)) idx = false /\
     translate (pmem st') (cr3 st') (vaddr + i * PG_SIZE) =
     Some (phy_addr_start (pool_of st pf) + idx * PG_SIZE)) /\
  (forall i j, 0 <= i < Z.of_nat n -> 0 <= j < Z.of_nat n ->
     translate (pmem st') (cr3 st') (vaddr + i * PG_SIZE) = translate (pmem st') (cr3 st') (vaddr + j * PG_SIZE) ->
     i = j) /\
  (forall va', lo * 2 ^ 22 <= va' < hi * 2 ^ 22 -> va' < vaddr \/ vaddr + Z.of_nat n * PG_SIZE <= va' ->
     translate (pmem st') (cr3 st') va' = translate (pmem st) (cr3 st) va').
Proof.
  induction n as [| n IH]; intros st vaddr vs r st' Hwf Hal Hdis Hv1 Hv2 Hva E; cbn [malloc_loop] in E.
  - apply kok_inj in E. injection E as <- <-. rewrite with_bmem_id, with_pmem_id.
    split; [reflexivity |]. split; [exact Hwf |]. split; [exact Hdis |]. split; [reflexivity |].
    split; [apply bits_grow_refl |]. split; [intros i Hi; lia |]. split; [intros i j Hi; lia | auto].
  - destruct (palloc st pf) as [[pa st1] | w | v |] eqn:Hp; [| discriminate ..].
    rewrite kbind_ret in E. pose proof Hwf as (_ & Hpw & _).
    destruct (palloc_effect st pf pa st1 Hpw Hp) as (idx & I1 & Hidx & Hpa0 & Hclr & _ & _ & _ & Hset & _).
    destruct (palloc_grows st pf pa st1 (proj1 Hpw) Hp) as (Hg1 & _ & _).
    rewrite (proj2 (Z.eqb_neq pa 0) Hpa0) in E. kinv E.
    destruct (malloc_step st st1 a vaddr pa Hwf Hal Hdis Hv1 ltac:(unfold PG_SIZE in *; lia) Hva Hp Hr)
      as (_ & Hwf2 & Hdis2 & Est2 & Hg2 & Ht2 & Hfr2).
    assert (Hpool : pool_of a pf = pool_of st pf) by (rewrite Est2; destruct pf; reflexivity).
    rewrite u32_small in Hk by (unfold PG_SIZE in *; lia).
    destruct (IH a (vaddr + PG_SIZE) vs r st' Hwf2 ltac:(rewrite Hpool; exact Hal) Hdis2
                ltac:(unfold PG_SIZE in *; lia) ltac:(unfold PG_SIZE in *; lia)
                ltac:(unfold PG_SIZE in *; rewrite Z.add_mod, Hva by lia; reflexivity) Hk)
      as (-> & Hwf' & Hdis' & Est' & Hg' & Hmap & Hinj & Hfr).
    rewrite Hpool in Hmap.
    set (b := pool_bitmap (pool_of st pf)) in *.
    assert (Hga : bits_grow (bmem st) (bmem a)) by exact (bits_grow_trans _ _ _ Hg1 Hg2).
    assert (Hset_a : bitmap_scan_test (bmem a) b idx = true) by exact (bits_grow_test (bmem st1) (bmem a) b idx Hg2 ltac:(lia) Hset).
    assert (H0 : translate (pmem st') (cr3 st') vaddr = Some (phy_addr_start (pool_of st pf) + idx * PG_SIZE))
      by (rewrite Hfr, Ht2, Hidx; [reflexivity | | left]; unfold PG_SIZE in *; lia).
    assert (Hk' : forall k, 0 < k < Z.of_nat (S n) -> exists idx', 0 <= idx' < 8 * btmp_bytes_len b /\
              bitmap_scan_test (bmem a) b idx' = false /\
              translate (pmem st') (cr3 st') (vaddr + k * PG_SIZE) = Some (phy_addr_start (pool_of st pf) + idx' * PG_SIZE)).
    { intros k Hk0. destruct (Hmap (k - 1) ltac:(lia)) as (idx' & I' & C' & Ht').
      exists idx'. split; [exact I' |]. split; [exact C' |]. rewrite <- Ht'. f_equal. lia. }
    split; [reflexivity | split; [exact Hwf' | split; [exact Hdis' |]]].
    split; [rewrite Est' at 1; rewrite Est2; reflexivity |].
    split; [exact (bits_grow_trans _ _ _ Hga Hg') |]. split; [| split].
    + intros i Hi. destruct (Z.eq_dec i 0) as [-> | Hi0].
      * exists idx. split; [exact I1 |]. split; [exact Hclr |]. rewrite Z.mul_0_l, Z.add_0_r. exact H0.
      * destruct (Hk' i ltac:(lia)) as (idx' & I' & C' & Ht'). exists idx'. split; [exact I' |].
        split; [exact (bits_grow_clear (bmem st) (bmem a) b idx' Hga ltac:(lia) C') | exact Ht'].
    + assert (Hne : forall k, 0 < k < Z.of_nat (S n) ->
                translate (pmem st') (cr3 st') (vaddr + k * PG_SIZE) <> translate (pmem st') (cr3 st') vaddr).
      { intros k Hk0 Heq. destruct (Hk' k Hk0) as (idx' & _ & C' & Ht'). rewrite Ht', H0 in Heq.
        injection Heq as Heq. assert (idx' = idx) as -> by (unfold PG_SIZE in Heq; lia). congruence. }
      intros i j Hi Hj Heq.
      destruct (Z.eq_dec i 0) as [-> | Hi0], (Z.eq_dec j 0) as [-> | Hj0]; [reflexivity | | |].
      * rewrite Z.mul_0_l, Z.add_0_r in Heq. exfalso. exact (Hne j ltac:(lia) (eq_sym Heq)).
      * rewrite Z.mul_0_l, Z.add_0_r in Heq. exfalso. exact (Hne i ltac:(lia) Heq).
      * enough (i - 1 = j - 1) by lia. apply Hinj; [lia | lia |].
        replace (vaddr + PG_SIZE + (i - 1) * PG_SIZE) with (vaddr + i * PG_SIZE) by lia.
        replace (vaddr + PG_SIZE + (j - 1) * PG_SIZE) with (vaddr + j * PG_SIZE) by lia. exact Heq.
    + intros va' Hr' Hout.
      assert (Hpg : va' / PG_SIZE <> vaddr / PG_SIZE)
        by (unfold PG_SIZE in *; divmod va' 4096; divmod vaddr 4096; lia).
      rewrite Hfr by (try exact Hr'; unfold PG_SIZE in *; lia). exact (Hfr2 va' Hr' Hpg).
Qed.

End MallocRun.

(** ** Theorems *)

(** C34 (functional) [malloc_page] either returns NULL and changes nothing
    (no free virtual run), or returns a run of [pg_cnt] pages each mapped
    to a frame of the requested pool that was free before the call, no two
    pages to the same frame, with well-formed tables, and changes
    no other translation of the address range it allocates in, provided
    the tables of that range are distinct.  It never returns NULL once the
    virtual run is reserved: [palloc] does not fail, it panics. *)
Theorem malloc_page_maps (st : mstate) (pf : pool_flags) (n va : Z) (st' : mstate) (lo hi : Z) :
  pt_wf st -> phy_addr_start (pool_of st pf) mod PG_SIZE = 0 ->
  vpool_wf (vaddr_of st pf) -> vaddr_start (vaddr_of st pf) mod PG_SIZE = 0 ->
  0 <= lo -> hi <= 1023 -> lo * 2 ^ 22 <= vaddr_start (vaddr_of st pf) ->
  vaddr_start (vaddr_of st pf) + (8 * btmp_bytes_len (vaddr_bitmap (vaddr_of st pf)) + 1) * PG_SIZE
    <= hi * 2 ^ 22 ->
  tables_distinct st lo hi ->
  malloc_page st pf n = KOk (va, st') ->
  (va = 0 /\ st' = st) \/
  (va <> 0 /\ pt_wf st' /\
   (forall i, 0 <= i < n -> exists idx,
      0 <= idx < 8 * btmp_bytes_len (pool_bitmap (pool_of st pf)) /\
      bitmap_scan_test (bmem st) (pool_bitmap (pool_of st pf)) idx = false /\
      translate (pmem st') (cr3 st') (va + i * PG_SIZE) = Some (phy_addr_start (pool_of st pf) + idx * PG_SIZE)) /\
   (forall i j, 0 <= i < n -> 0 <= j < n ->
      translate (pmem st') (cr3 st') (va + i * PG_SIZE) = translate (pmem st') (cr3 st') (va + j * PG_SIZE) -> i = j) /\
   (forall va', lo * 2 ^ 22 <= va' < hi * 2 ^ 22 -> va' < va \/ va + n * PG_SIZE <= va' ->
      translate (pmem st') (cr3 st') va' = translate (pmem st) (cr3 st) va')).
Proof.
  intros Hwf Hal Hvw Hva0 Hlo Hhi Hvlo Hvhi Hdis E. unfold malloc_page in E.
  destruct ((0 <? n) && (n <? 3840)) eqn:Hn; [| discriminate].
  apply andb_true_iff in Hn as [Hn1 Hn2]. apply Z.ltb_lt in Hn1, Hn2.
  pose proof Hwf as (_ & Hpw & _).
  destruct (vaddr_get st pf n) as [[vs st1] | w | v |] eqn:Hg; [| discriminate ..]. rewrite kbind_ret in E.
  destruct (Z.eqb_spec vs 0) as [-> | Hvs].
  - left. apply kok_inj in E. injection E as <- <-. split; [reflexivity |].
    exact (vaddr_get_null st pf n st1 (proj1 Hpw) Hvw ltac:(lia) Hg).
  - right. destruct (vaddr_get_effect st pf n vs st1 (proj1 Hpw) Hvw ltac:(lia) Hg Hvs)
      as (s & Hvs' & S1 & S2 & _).
    destruct (vaddr_get_grows st pf n vs st1 (proj1 Hpw) Hg) as (Hgr & Hb & Est1).
    assert (Hwf1 : pt_wf st1) by (rewrite Est1; apply pt_wf_grow; assumption).
    assert (Hpool : pool_of st1 pf = pool_of st pf) by (rewrite Est1; destruct pf; reflexivity).
    assert (Hdis1 : tables_distinct st1 lo hi) by (rewrite Est1; exact Hdis).
    destruct (malloc_loop_ok pf lo hi Hlo Hhi (Z.to_nat n) st1 vs vs va st' Hwf1
                ltac:(rewrite Hpool; exact Hal) Hdis1 ltac:(unfold PG_SIZE in *; nia)
                ltac:(rewrite Z2Nat.id by lia; unfold PG_SIZE in *; nia)
                ltac:(rewrite Hvs'; unfold PG_SIZE in *; rewrite Z.mod_add by lia; exact Hva0) E)
      as (-> & Hwf' & _ & _ & _ & Hmap & Hinj & Hfr).
    rewrite Z2Nat.id in Hmap, Hinj, Hfr by lia. rewrite Hpool in Hmap.
    split; [exact Hvs | split; [exact Hwf' | split; [| split; [exact Hinj |]]]].
    { intros i Hi. destruct (Hmap i Hi) as (idx & I & C & T). exists idx. split; [exact I |].
      split; [exact (bits_grow_clear (bmem st) (bmem st1) _ idx Hgr ltac:(lia) C) | exact T]. }
    intros va' Hr Hout. rewrite (Hfr va' Hr Hout), Est1. reflexivity.
Qed.

(** ** The routines that take a pool lock *)

Section LockedRoutines.
Context {S : Type} `{PoolLocks S}.

(** [get_user_pages] does not test what [malloc_page] returned: when
    the user's virtual pool has no free run of [pg_cnt] pages, the
    [memset] of NULL stops the kernel instead of NULL being returned. *)
Theorem get_user_pages_null_panics (s s1 : S) (pg_cnt : Z) (m2 : mstate) :
  pool_lock_acquire PF_USER s = KOk s1 -> malloc_page (mm s1) PF_USER pg_cnt = KOk (0, m2) ->
  get_user_pages s pg_cnt = KPanic "dst_ != NULL".
Proof. intros H1 H2. unfold get_user_pages. rewrite H1. cbn [kbind]. rewrite H2. reflexivity. Qed.

(** [get_a_page] refuses the first page of the virtual pool it
    reserves in: that page's bit index is 0 and the code asserts
    [bit_idx > 0], although bit 0 is a page of the pool. *)
Theorem get_a_page_first_page_panics (s s1 : S) (pf : pool_flags) :
  pool_lock_acquire pf s = KOk s1 ->
  (cur_pgdir (mm s1) = 0 /\ pf = PF_KERNEL) \/ (cur_pgdir (mm s1) <> 0 /\ pf = PF_USER) ->
  get_a_page s pf (vaddr_start (if pf is PF_KERNEL then kernel_vaddr (mm s1) else cur_uvaddr (mm s1))) =
    KPanic "bit_idx > 0".
Proof.
  intros H1 Hc. unfold get_a_page. rewrite H1. cbn [kbind]. unfold reserve_page.
  destruct Hc as [[Hp ->] | [Hp ->]].
  - rewrite Hp. cbn. rewrite Z.sub_diag. reflexivity.
  - rewrite (proj2 (Z.eqb_neq _ _) Hp). cbn. rewrite Z.sub_diag. reflexivity.
Qed.

End LockedRoutines.

(** ** Witnesses on the loader's tables *)

(** Three kernel pages from the start of the kernel heap: the third page
    is mapped to a frame of the kernel pool. *)
Lemma malloc_page_maps_witness :
  let r := result_or (malloc_page loader_mstate PF_KERNEL 3) (0, loader_mstate) in
  fst r = 0xc0100000 /\
  exists idx, 0 <= idx < 3840 /\
    translate (pmem (snd r)) (cr3 (snd r)) (0xc0100000 + 2 * PG_SIZE) = Some (0x200000 + idx * PG_SIZE).
Proof.
  intros r.
  assert (Hr : fst r = 0xc0100000) by (vm_compute; reflexivity).
  assert (E : malloc_page loader_mstate PF_KERNEL 3 = KOk (fst r, snd r))
    by (rewrite <- surjective_pairing; apply returns_ok; vm_compute; reflexivity).
  assert (Hl : btmp_bytes_len (pool_bitmap (pool_of loader_mstate PF_KERNEL)) = 480) by (vm_compute; reflexivity).
  assert (Hs : phy_addr_start (pool_of loader_mstate PF_KERNEL) = 0x200000) by (vm_compute; reflexivity).
  destruct (malloc_page_maps loader_mstate PF_KERNEL 3 (fst r) (snd r) 768 1023 loader_wf
              ltac:(vm_compute; reflexivity) boot_vpool_wf ltac:(vm_compute; reflexivity)
              ltac:(lia) ltac:(lia) ltac:(vm_compute; discriminate) ltac:(vm_compute; discriminate)
              (tables_distinct_single loader_mstate 768 1023 768 ltac:(lia) ltac:(vm_compute; reflexivity)) E)
    as [[H0 _] | (_ & _ & Hmap & _)]; [rewrite Hr in H0; discriminate |].
  split; [exact Hr |]. destruct (Hmap 2 ltac:(lia)) as (idx & I & _ & Ht).
  rewrite Hl in I. rewrite Hs, Hr in Ht. exists idx. split; [lia | exact Ht].
Defined.
