(* ===== verification/Thread.v ===== *)
(** * Thread: the interrupt flag and the scheduler of [thread/thread.c]

    The state [sched] holds the task control blocks by address (the value
    [running_thread()] computes from [esp]), the ready queue and the
    all-tasks queue (the kernel's intrusive lists, as lists of PCB
    addresses: [list_append] adds at the tail, [list_push] at the head,
    [list_pop] takes the head), the interrupt flag [EFLAGS.IF] and the
    scheduler's globals.

    [switch_to] is the opaque context switch: the model records which task
    runs next and, for the task switched out, the interrupt flag its own
    code restores when it runs again ([saved_if]): the [old_status] of
    [thread_block] and [thread_yield], which call [intr_set_status] after
    [schedule] returns, and [INTR_ON] for the timer handler, whose [iret]
    restores the interrupted flags, and for a new thread, whose
    [kernel_thread] starts with [intr_enable].  Switching to a task loads
    its [saved_if].

    Theorems: the scheduler invariant (exactly the [READY] tasks are
    queued, once; one task runs) is preserved by [schedule] and the
    operations built on it, which never panic on it; [thread_unblock]
    queues at the head and [thread_yield] at the tail; a time slice lasts
    [priority + 1] ticks. *)

From Stdlib Require Import ZArith Lia String Bool.
From stdpp Require Import base gmap list.
From S2P Require Import Prelude.

Open Scope Z_scope.
Open Scope kernel_scope.

(** ** Data *)

(** [enum intr_status] (interrupt.h). *)
Inductive intr_status := INTR_OFF | INTR_ON.

(** [enum task_status] (thread.h). *)
Inductive task_status :=
  TASK_RUNNING | TASK_READY | TASK_BLOCKED | TASK_WAITING | TASK_HANGING | TASK_DIED.

#[export] Instance intr_status_eq_dec : EqDecision intr_status.
Proof. solve_decision. Defined.
#[export] Instance task_status_eq_dec : EqDecision task_status.
Proof. solve_decision. Defined.

(** The fields of [struct task_struct] the scheduler and the allocators
    use; the name, the file table, the kernel stack pointer and the user
    block descriptors are not modelled.  [saved_if] is not a field: it is
    the interrupt flag of the context saved on the task's kernel stack. *)
Record task := mk_task {
  status : task_status;
  priority : Z;          (** [uint8_t] *)
  ticks : Z;             (** [uint8_t] *)
  elapsed_ticks : Z;     (** [uint32_t] *)
  pid : Z;               (** [pid_t], an [int16_t] *)
  parent_pid : Z;
  pgdir : Z;             (** 0 for NULL *)
  stack_magic : Z;
  saved_if : intr_status
}.

(** A PCB the code never initialised reads as zeroes ([TASK_RUNNING] is 0). *)
Definition null_task : task := mk_task TASK_RUNNING 0 0 0 0 0 0 0 INTR_OFF.

Record sched := mk_sched {
  tasks : gmap Z task;   (** PCBs by address *)
  ready : list Z;        (** [thread_ready_list] *)
  all_tasks : list Z;    (** [thread_all_list] *)
  running : Z;           (** [running_thread()] *)
  intr : intr_status;    (** [EFLAGS.IF] *)
  idle_thread : Z;       (** [idle_thread] *)
  ticks_total : Z        (** [ticks] of timer.c *)
}.

Definition get_task (s : sched) (t : Z) : task := default null_task (tasks s !! t).

Definition set_task (s : sched) (t : Z) (f : task -> task) : sched :=
  mk_sched (<[t := f (get_task s t)]> (tasks s)) (ready s) (all_tasks s) (running s) (intr s)
           (idle_thread s) (ticks_total s).

Definition with_ready (s : sched) (l : list Z) : sched :=
  mk_sched (tasks s) l (all_tasks s) (running s) (intr s) (idle_thread s) (ticks_total s).

Definition with_intr (s : sched) (i : intr_status) : sched :=
  mk_sched (tasks s) (ready s) (all_tasks s) (running s) i (idle_thread s) (ticks_total s).

Definition with_running (s : sched) (t : Z) : sched :=
  mk_sched (tasks s) (ready s) (all_tasks s) t (intr s) (idle_thread s) (ticks_total s).

Definition set_status (st : task_status) (tk : task) : task :=
  mk_task st (priority tk) (ticks tk) (elapsed_ticks tk) (pid tk) (parent_pid tk) (pgdir tk)
          (stack_magic tk) (saved_if tk).

Definition set_ticks (n : Z) (tk : task) : task :=
  mk_task (status tk) (priority tk) n (elapsed_ticks tk) (pid tk) (parent_pid tk) (pgdir tk)
          (stack_magic tk) (saved_if tk).

Definition set_saved_if (i : intr_status) (tk : task) : task :=
  mk_task (status tk) (priority tk) (ticks tk) (elapsed_ticks tk) (pid tk) (parent_pid tk) (pgdir tk)
          (stack_magic tk) i.

(** [elem_find] on a queue. *)
Definition queued (t : Z) (l : list Z) : bool := bool_decide (t ∈ l).

(** [stat] is one of the three blocked states. *)
Definition blocked_state (st : task_status) : bool :=
  match st with TASK_BLOCKED | TASK_WAITING | TASK_HANGING => true | _ => false end.

(** ** The interrupt flag (interrupt.c) *)

(** [intr_enable], [intr_disable], [intr_set_status]: the new state and the
    status before. *)
Definition intr_enable (s : sched) : intr_status * sched :=
  match intr s with INTR_ON => (INTR_ON, s) | INTR_OFF => (INTR_OFF, with_intr s INTR_ON) end.

Definition intr_disable (s : sched) : intr_status * sched :=
  match intr s with INTR_ON => (INTR_ON, with_intr s INTR_OFF) | INTR_OFF => (INTR_OFF, s) end.

Definition intr_set_status (st : intr_status) (s : sched) : intr_status * sched :=
  match st with INTR_ON => intr_enable s | INTR_OFF => intr_disable s end.

(** ** Operations *)

(** [thread_unblock]: queue a blocked task at the head of the ready queue. *)
Definition thread_unblock (s : sched) (t : Z) : kres sched :=
  let old_status := intr s in
  ASSERT blocked_state (status (get_task s t))
    as "((pthread->status == TASK_BLOCKED) || (pthread->status == TASK_WAITING) || (pthread->status == TASK_HANGING))" ;;
  s1 <- (if bool_decide (status (get_task s t) <> TASK_READY) then
           if queued t (ready s) then KPanic "thread_unblock: blocked thread in ready_list\n"
           else KOk (set_task (with_ready s (t :: ready s)) t (set_status TASK_READY))
         else KOk s) ;;
  KOk (snd (intr_set_status old_status s1)).

(** [switch_to(cur, next)]: [cur] will restore [resume] when it runs again;
    [next] runs, with the flag its own code restores. *)
Definition switch_to (s : sched) (cur next : Z) (resume : intr_status) : sched :=
  let s1 := set_task s cur (set_saved_if resume) in
  with_intr (with_running s1 next) (saved_if (get_task s1 next)).

(** The first step of [schedule]: a task still [RUNNING] goes to the tail
    of the ready queue with a new time slice. *)
Definition requeue_running (s : sched) : kres sched :=
  let cur := running s in
  if bool_decide (status (get_task s cur) = TASK_RUNNING) then
    ASSERT negb (queued cur (ready s)) as "!elem_find(&thread_ready_list, &cur->general_tag)" ;;
    KOk (set_task (with_ready s (ready s ++ [cur])) cur
           (fun tk => set_status TASK_READY (set_ticks (priority tk) tk)))
  else KOk s.

(** The second step: with nothing ready, the idle task is woken. *)
Definition wake_idle (s : sched) : kres sched :=
  if ready s is [] then thread_unblock s (idle_thread s) else KOk s.

(** [schedule], called by code that restores [resume] once [cur] runs
    again.  [process_activate], which loads the next task's page
    directory, belongs to the memory state and is applied with it. *)
Definition schedule (resume : intr_status) (s : sched) : kres sched :=
  ASSERT (if intr s is INTR_OFF then true else false) as "intr_get_status() == INTR_OFF" ;;
  let cur := running s in
  s1 <- requeue_running s ;;
  s2 <- wake_idle s1 ;;
  match ready s2 with
  | [] => KPanic "!list_empty(&thread_ready_list)"
  | next :: rest =>
      KOk (switch_to (set_task (with_ready s2 rest) next (set_status TASK_RUNNING)) cur next resume)
  end.

(** [thread_block]: the running task takes state [stat] and gives up the CPU. *)
Definition thread_block (s : sched) (stat : task_status) : kres sched :=
  ASSERT blocked_state stat
    as "((stat == TASK_BLOCKED) || (stat == TASK_WAITING) || (stat == TASK_HANGING))" ;;
  let (old_status, s1) := intr_disable s in
  schedule old_status (set_task s1 (running s1) (set_status stat)).

(** [thread_yield]: the running task goes to the tail of the ready queue. *)
Definition thread_yield (s : sched) : kres sched :=
  let cur := running s in
  let (old_status, s1) := intr_disable s in
  ASSERT negb (queued cur (ready s1)) as "!elem_find(&thread_ready_list, &cur->general_tag)" ;;
  schedule old_status (set_task (with_ready s1 (ready s1 ++ [cur])) cur (set_status TASK_READY)).

(** [intr_timer_handler], entered through an interrupt gate (the flag is
    clear while it runs) from code that had interrupts on. *)
Definition intr_timer_handler (s : sched) : kres sched :=
  let s0 := with_intr s INTR_OFF in
  let cur := running s0 in
  ASSERT (stack_magic (get_task s0 cur) =? 0x19870916) as "cur_thread->stack_magic == 0x19870916" ;;
  let s1 := set_task s0 cur (fun tk =>
              mk_task (status tk) (priority tk) (ticks tk) (u32 (elapsed_ticks tk + 1)) (pid tk)
                      (parent_pid tk) (pgdir tk) (stack_magic tk) (saved_if tk)) in
  let s2 := mk_sched (tasks s1) (ready s1) (all_tasks s1) (running s1) (intr s1)
                     (idle_thread s1) (u32 (ticks_total s1 + 1)) in
  if ticks (get_task s2 cur) =? 0 then schedule INTR_ON s2
  else KOk (with_intr (set_task s2 cur (fun tk => set_ticks (ticks tk - 1) tk)) INTR_ON).

(** [n] successive timer interrupts. *)
Fixpoint timer_ticks (n : nat) (s : sched) : kres sched :=
  match n with
  | O => KOk s
  | S k => s1 <- intr_timer_handler s ;; timer_ticks k s1
  end.

(** A state after [thread_init] and a first run of the idle task: the
    main thread (its PCB at [0xc009e000], below the stack [loader.S] set
    up) runs, the idle task has blocked itself, and one kernel thread is
    ready; [init_thread] gives each task [ticks = priority]. *)
Definition demo_task (st : task_status) (prio pid_ : Z) (sif : intr_status) : task :=
  mk_task st prio prio 0 pid_ (-1) 0 0x19870916 sif.

Definition demo_sched : sched :=
  mk_sched (<[0xc009e000 := demo_task TASK_RUNNING 31 1 INTR_ON]>
            (<[0xc0101000 := demo_task TASK_BLOCKED 10 2 INTR_ON]>
             (<[0xc0102000 := demo_task TASK_READY 8 3 INTR_ON]> ∅)))
           [0xc0102000] [0xc009e000; 0xc0101000; 0xc0102000] 0xc009e000 INTR_ON 0xc0101000 0.

(** ** The scheduler invariant *)

(** The queues: exactly the [READY] tasks are in the ready queue, once
    each; the idle task exists and has not died. *)
Definition queue_inv (s : sched) : Prop :=
  (forall t, t ∈ ready s -> is_Some (tasks s !! t) /\ status (get_task s t) = TASK_READY) /\
  (forall t tk, tasks s !! t = Some tk -> status tk = TASK_READY -> t ∈ ready s) /\
  NoDup (ready s) /\
  is_Some (tasks s !! idle_thread s) /\ status (get_task s (idle_thread s)) <> TASK_DIED.

(** What [schedule] needs: the queues are consistent, and no task but the
    caller is [RUNNING] (the caller may have changed its own state). *)
Definition only_running (s : sched) (r : Z) : Prop :=
  forall t tk, tasks s !! t = Some tk -> status tk = TASK_RUNNING -> t = r.

Definition pre_sched (s : sched) : Prop :=
  queue_inv s /\ is_Some (tasks s !! running s) /\ only_running s (running s).

(** Between kernel operations: moreover the running task is [RUNNING]. *)
Definition sched_inv (s : sched) : Prop :=
  pre_sched s /\ status (get_task s (running s)) = TASK_RUNNING.

(** No task is [RUNNING]: the state in the middle of [schedule]. *)
Definition no_running (s : sched) : Prop :=
  forall t tk, tasks s !! t = Some tk -> status tk <> TASK_RUNNING.

(** The invariants are decidable: a concrete state is checked by [decide]. *)
#[export] Instance queue_inv_dec (s : sched) : Decision (queue_inv s).
Proof.
  refine (cast_if (decide
    (Forall (fun t => is_Some (tasks s !! t) /\ status (get_task s t) = TASK_READY) (ready s) /\
     map_Forall (fun t tk => status tk = TASK_READY -> t ∈ ready s) (tasks s) /\ NoDup (ready s) /\
     is_Some (tasks s !! idle_thread s) /\ status (get_task s (idle_thread s)) <> TASK_DIED)));
    unfold queue_inv, map_Forall in *; rewrite Forall_forall in *; tauto.
Defined.

#[export] Instance only_running_dec (s : sched) (r : Z) : Decision (only_running s r).
Proof.
  refine (cast_if (decide (map_Forall (fun t tk => status tk = TASK_RUNNING -> t = r) (tasks s))));
    unfold only_running, map_Forall in *; tauto.
Defined.

#[export] Instance pre_sched_dec (s : sched) : Decision (pre_sched s).
Proof. unfold pre_sched. apply _. Defined.
#[export] Instance sched_inv_dec (s : sched) : Decision (sched_inv s).
Proof. unfold sched_inv. apply _. Defined.

(** What the steps of [schedule] before the switch leave alone: the
    running task, the flag, the idle task, every saved flag and the tasks
    that exist. *)
Definition sched_frame (s s' : sched) : Prop :=
  running s' = running s /\ intr s' = intr s /\ idle_thread s' = idle_thread s /\
  (forall t, saved_if (get_task s' t) = saved_if (get_task s t)) /\
  (forall t, is_Some (tasks s !! t) -> is_Some (tasks s' !! t)).

(** The tasks a step leaves out of the ready queue keep their state. *)
Definition status_kept (s s' : sched) : Prop :=
  forall t, t ∉ ready s' -> status (get_task s' t) = status (get_task s t).

(** A step leaves every time slice and priority alone. *)
Definition slices_kept (s s' : sched) : Prop :=
  forall t, ticks (get_task s' t) = ticks (get_task s t) /\ priority (get_task s' t) = priority (get_task s t).

(** The slices after [schedule]: the caller, if still [RUNNING], gets a
    new slice of [priority] ticks; no other slice and no priority changes. *)
Definition requeued_slice (s s' : sched) : Prop :=
  forall t, priority (get_task s' t) = priority (get_task s t) /\
    ticks (get_task s' t) = if bool_decide (t = running s /\ status (get_task s (running s)) = TASK_RUNNING)
                            then priority (get_task s t) else ticks (get_task s t).

(** ** Task updates *)

Lemma lookup_set_task (s : sched) (t u : Z) (f : task -> task) :
  tasks (set_task s t f) !! u = if decide (u = t) then Some (f (get_task s t)) else tasks s !! u.
Proof.
  unfold set_task. cbn [tasks]. case_decide as H;
    [subst; apply lookup_insert_eq | apply lookup_insert_ne; congruence].
Qed.

Lemma get_set_task (s : sched) (t u : Z) (f : task -> task) :
  get_task (set_task s t f) u = if decide (u = t) then f (get_task s t) else get_task s u.
Proof. unfold get_task at 1. rewrite lookup_set_task. case_decide; reflexivity. Qed.

Lemma get_task_some (s : sched) (t : Z) (tk : task) : tasks s !! t = Some tk -> get_task s t = tk.
Proof. intros H. unfold get_task. rewrite H. reflexivity. Qed.

Lemma set_task_dom (s : sched) (t u : Z) (f : task -> task) :
  is_Some (tasks s !! u) -> is_Some (tasks (set_task s t f) !! u).
Proof. intros H. rewrite lookup_set_task. case_decide; [eauto | exact H]. Qed.

#[export] Hint Resolve set_task_dom : kernel.
(** The fields [set_task] leaves alone. *)
Lemma set_task_fields (s : sched) (t : Z) (f : task -> task) :
  ready (set_task s t f) = ready s /\ running (set_task s t f) = running s /\
  intr (set_task s t f) = intr s /\ idle_thread (set_task s t f) = idle_thread s.
Proof. repeat split. Qed.

Definition ready_set_task s t f := proj1 (set_task_fields s t f).
Definition running_set_task s t f := proj1 (proj2 (set_task_fields s t f)).
Definition intr_set_task s t f := proj1 (proj2 (proj2 (set_task_fields s t f))).
Definition idle_set_task s t f := proj2 (proj2 (proj2 (set_task_fields s t f))).

#[export] Hint Rewrite get_set_task lookup_set_task ready_set_task running_set_task intr_set_task
  idle_set_task : kernel_rw.

(** The fields of a task the setters leave alone. *)
Lemma status_set_ticks (n : Z) (tk : task) : status (set_ticks n tk) = status tk.
Proof. reflexivity. Qed.
Lemma status_set_saved_if (i : intr_status) (tk : task) : status (set_saved_if i tk) = status tk.
Proof. reflexivity. Qed.

(** A queued task is [READY]; a [RUNNING] task is not queued. *)
Lemma running_not_queued (s : sched) (t : Z) :
  queue_inv s -> status (get_task s t) = TASK_RUNNING -> t ∉ ready s.
Proof. intros (Hq & _) Hr Hin. destruct (Hq t Hin) as [_ Hs]. congruence. Qed.

(** ** The queue invariant under the scheduler's updates *)

Lemma queue_inv_status_same (s : sched) (t : Z) (f : task -> task) :
  (forall tk, status (f tk) = status tk) -> queue_inv s -> queue_inv (set_task s t f).
Proof.
  intros Hf (Hq1 & Hq2 & Hnd & Hidle & Hidd).
  split; [| split; [| split; [| split]]]; rewrite ?ready_set_task, ?idle_set_task.
  - intros u Hu. destruct (Hq1 u Hu) as [Hs Hst].
    rewrite lookup_set_task, get_set_task. case_decide; subst; [rewrite Hf |]; eauto.
  - intros u tk. rewrite lookup_set_task. case_decide; [subst | eauto].
    intros [= <-]. rewrite Hf. unfold get_task. destruct (tasks s !! t) eqn:E; [eauto | discriminate].
  - exact Hnd.
  - eauto with kernel.
  - rewrite get_set_task. case_decide; [subst; rewrite Hf |]; exact Hidd.
Qed.

(** A task outside the queue takes a state other than [READY]. *)
Lemma queue_inv_unready (s : sched) (t : Z) (f : task -> task) :
  t ∉ ready s -> status (f (get_task s t)) <> TASK_READY -> queue_inv s ->
  status (f (get_task s t)) <> TASK_DIED \/ t <> idle_thread s -> queue_inv (set_task s t f).
Proof.
  intros Hn Hf (Hq1 & Hq2 & Hnd & Hidle & Hidd) Hdied.
  split; [| split; [| split; [| split]]]; rewrite ?ready_set_task, ?idle_set_task.
  - intros u Hu. destruct (Hq1 u Hu) as [Hs Hst].
    rewrite lookup_set_task, get_set_task. case_decide; [subst; contradiction | eauto].
  - intros u tk. rewrite lookup_set_task. case_decide; [subst; intros [= <-]; contradiction | eauto].
  - exact Hnd.
  - eauto with kernel.
  - rewrite get_set_task. case_decide; [subst; tauto | exact Hidd].
Qed.

Lemma get_task_with_ready (s : sched) (l : list Z) (t : Z) : get_task (with_ready s l) t = get_task s t.
Proof. reflexivity. Qed.
Lemma with_ready_fields (s : sched) (l : list Z) :
  tasks (with_ready s l) = tasks s /\ ready (with_ready s l) = l /\
  idle_thread (with_ready s l) = idle_thread s /\ running (with_ready s l) = running s /\
  intr (with_ready s l) = intr s.
Proof. repeat split. Qed.
Definition tasks_with_ready s l := proj1 (with_ready_fields s l).
Definition ready_with_ready s l := proj1 (proj2 (with_ready_fields s l)).
Definition idle_with_ready s l := proj1 (proj2 (proj2 (with_ready_fields s l))).
Definition running_with_ready s l := proj1 (proj2 (proj2 (proj2 (with_ready_fields s l)))).
Definition intr_with_ready s l := proj2 (proj2 (proj2 (proj2 (with_ready_fields s l)))).
Lemma with_intr_fields (s : sched) (i : intr_status) :
  get_task (with_intr s i) = get_task s /\ tasks (with_intr s i) = tasks s /\ ready (with_intr s i) = ready s /\
  running (with_intr s i) = running s /\ intr (with_intr s i) = i.
Proof. repeat split. Qed.
Definition get_task_with_intr s i := proj1 (with_intr_fields s i).
Definition tasks_with_intr s i := proj1 (proj2 (with_intr_fields s i)).
Definition ready_with_intr s i := proj1 (proj2 (proj2 (with_intr_fields s i))).
Definition running_with_intr s i := proj1 (proj2 (proj2 (proj2 (with_intr_fields s i)))).
Definition intr_with_intr s i := proj2 (proj2 (proj2 (proj2 (with_intr_fields s i)))).

#[export] Hint Rewrite get_task_with_intr tasks_with_intr ready_with_intr running_with_intr intr_with_intr
  : kernel_rw.
#[export] Hint Rewrite get_task_with_ready tasks_with_ready ready_with_ready idle_with_ready
  running_with_ready intr_with_ready : kernel_rw.

(** A task outside the queue is queued as [READY], at any position. *)
Lemma queue_inv_enqueue (s : sched) (t : Z) (l : list Z) (f : task -> task) :
  l ≡ₚ t :: ready s -> t ∉ ready s -> status (f (get_task s t)) = TASK_READY ->
  queue_inv s -> queue_inv (set_task (with_ready s l) t f).
Proof.
  intros Hp Hn Hf (Hq1 & Hq2 & Hnd & Hidle & Hidd).
  split; [| split; [| split; [| split]]]; autorewrite with kernel_rw.
  - intros u Hu. rewrite Hp in Hu. autorewrite with kernel_rw.
    case_decide; [subst; eauto |]. apply elem_of_cons in Hu as [-> | Hu]; [congruence | apply Hq1, Hu].
  - intros u tk. autorewrite with kernel_rw. rewrite Hp. case_decide; [subst; intros _ _; left |].
    intros Hl Hs. right. exact (Hq2 u tk Hl Hs).
  - rewrite Hp. constructor; assumption.
  - case_decide; eauto.
  - case_decide; [subst; rewrite Hf; discriminate | exact Hidd].
Qed.

(** The head of the queue is taken off and leaves [READY]. *)
Lemma queue_inv_dequeue (s : sched) (t : Z) (rest : list Z) (f : task -> task) :
  ready s = t :: rest -> status (f (get_task s t)) <> TASK_READY ->
  status (f (get_task s t)) <> TASK_DIED -> queue_inv s -> queue_inv (set_task (with_ready s rest) t f).
Proof.
  intros Hr Hf Hd (Hq1 & Hq2 & Hnd & Hidle & Hidd). rewrite Hr in Hq1, Hq2, Hnd.
  apply NoDup_cons in Hnd as [Hn Hnd].
  split; [| split; [| split; [| split]]]; autorewrite with kernel_rw.
  - intros u Hu. autorewrite with kernel_rw.
    case_decide; [subst; contradiction |]. apply Hq1. right. exact Hu.
  - intros u tk. autorewrite with kernel_rw. case_decide; [subst; intros [= <-]; contradiction |].
    intros Hl Hs. pose proof (Hq2 u tk Hl Hs) as Hu.
    apply elem_of_cons in Hu as [-> | Hu]; [congruence | exact Hu].
  - exact Hnd.
  - case_decide; eauto.
  - case_decide; [subst; exact Hd | exact Hidd].
Qed.

(** ** The steps of [schedule] *)

Lemma sched_frame_refl (s : sched) : sched_frame s s.
Proof. repeat split; auto. Qed.

Lemma sched_frame_trans (s1 s2 s3 : sched) : sched_frame s1 s2 -> sched_frame s2 s3 -> sched_frame s1 s3.
Proof.
  intros (H1 & H2 & H3 & H4 & H5) (G1 & G2 & G3 & G4 & G5).
  repeat split; [congruence .. | intros t; rewrite G4; apply H4 | auto].
Qed.

(** A status change, with the queue rearranged, is inside the frame. *)
Lemma sched_frame_set_task (s : sched) (l : list Z) (t : Z) (f : task -> task) :
  (forall tk, saved_if (f tk) = saved_if tk) -> sched_frame s (set_task (with_ready s l) t f).
Proof.
  intros Hf. repeat split.
  - intros u. autorewrite with kernel_rw. case_decide; [subst; apply Hf | reflexivity].
  - intros u Hu. apply set_task_dom, Hu.
Qed.

Lemma no_running_set_task (s : sched) (l : list Z) (t : Z) (f : task -> task) :
  no_running s -> status (f (get_task s t)) <> TASK_RUNNING -> no_running (set_task (with_ready s l) t f).
Proof.
  intros Hn Hf u tk. autorewrite with kernel_rw. case_decide; [intros [= <-]; exact Hf | apply Hn].
Qed.

Lemma status_kept_refl (s : sched) : status_kept s s.
Proof. intros t _. reflexivity. Qed.

(** Queueing a task is the only change of state. *)
Lemma status_kept_enqueue (s : sched) (l : list Z) (t : Z) (f : task -> task) :
  t ∈ l -> status_kept s (set_task (with_ready s l) t f).
Proof.
  intros Hin u Hu. autorewrite with kernel_rw. autorewrite with kernel_rw in Hu.
  case_decide; [subst; contradiction | reflexivity].
Qed.

Lemma slices_kept_refl (s : sched) : slices_kept s s.
Proof. intros t. split; reflexivity. Qed.

Lemma slices_kept_trans (s1 s2 s3 : sched) : slices_kept s1 s2 -> slices_kept s2 s3 -> slices_kept s1 s3.
Proof. intros H1 H2 t. destruct (H1 t), (H2 t). split; congruence. Qed.

Lemma slices_kept_set_task (s : sched) (t : Z) (f : task -> task) :
  (forall tk, ticks (f tk) = ticks tk /\ priority (f tk) = priority tk) -> slices_kept s (set_task s t f).
Proof. intros Hf u. autorewrite with kernel_rw. case_decide; [subst; apply Hf | split; reflexivity]. Qed.

Lemma slices_kept_set_status (s : sched) (l : list Z) (t : Z) (st : task_status) :
  slices_kept s (set_task (with_ready s l) t (set_status st)).
Proof. apply (slices_kept_set_task (with_ready s l)). split; reflexivity. Qed.

Lemma requeued_slice_kept (s s1 s2 : sched) :
  requeued_slice s s1 -> slices_kept s1 s2 -> requeued_slice s s2.
Proof. intros H1 H2 t. destruct (H1 t), (H2 t). split; congruence. Qed.

#[export] Hint Resolve sched_frame_refl sched_frame_set_task status_kept_refl slices_kept_refl
  slices_kept_set_status : kernel.

Lemma requeue_running_ok (s : sched) :
  pre_sched s ->
  exists s1, requeue_running s = KOk s1 /\ queue_inv s1 /\ no_running s1 /\ sched_frame s s1 /\
    status_kept s s1 /\ requeued_slice s s1 /\
    ready s1 = ready s ++ (if bool_decide (status (get_task s (running s)) = TASK_RUNNING)
                           then [running s] else []).
Proof.
  intros (Hqi & Hcur & Hrun).
  unfold requeue_running. case_bool_decide as Hr.
  - assert (Hni : running s ∉ ready s) by (apply running_not_queued; assumption).
    unfold queued. rewrite bool_decide_false by exact Hni. simpl negb. cbv iota.
    eexists. split; [reflexivity |].
    split; [| split; [| split; [auto with kernel | split; [| split; [| reflexivity]]]]].
    + apply queue_inv_enqueue; [| exact Hni | reflexivity | exact Hqi].
      rewrite Permutation_app_comm. reflexivity.
    + intros t tk. autorewrite with kernel_rw. case_decide as Ht; [intros [= <-]; discriminate |].
      intros Hl Hs. apply Ht, (Hrun t tk Hl Hs).
    + apply status_kept_enqueue. set_solver.
    + intros t. autorewrite with kernel_rw. case_decide; subst.
      * rewrite bool_decide_true by auto. split; reflexivity.
      * rewrite bool_decide_false by tauto. split; reflexivity.
  - eexists. split; [reflexivity |]. split; [exact Hqi |].
    split; [| split; [auto with kernel | split; [auto with kernel | split; [| symmetry; apply app_nil_r]]]].
    2: { intros t. rewrite bool_decide_false by tauto. split; reflexivity. }
    intros t tk Hl Hs. rewrite (Hrun t tk Hl Hs) in Hl. rewrite (get_task_some _ _ _ Hl) in Hr.
    contradiction.
Qed.

(** Restoring the flag a state already has changes nothing. *)
Lemma intr_set_status_same (s : sched) : snd (intr_set_status (intr s) s) = s.
Proof. unfold intr_set_status, intr_enable, intr_disable. destruct (intr s) eqn:E; reflexivity. Qed.

(** A blocked task is not queued. *)
Lemma blocked_not_queued (s : sched) (t : Z) :
  queue_inv s -> blocked_state (status (get_task s t)) = true -> t ∉ ready s.
Proof. intros (Hq & _) Hb Hin. destruct (Hq t Hin) as [_ Hs]. rewrite Hs in Hb. discriminate. Qed.

(** [thread_unblock] of a blocked task pushes it at the head as [READY]. *)
Lemma thread_unblock_effect (s : sched) (t : Z) :
  queue_inv s -> blocked_state (status (get_task s t)) = true ->
  thread_unblock s t = KOk (set_task (with_ready s (t :: ready s)) t (set_status TASK_READY)).
Proof.
  intros Hq Hb. unfold thread_unblock. rewrite Hb.
  rewrite bool_decide_true by (destruct (status (get_task s t)); discriminate).
  unfold queued. rewrite bool_decide_false by (apply (blocked_not_queued s t Hq Hb)).
  cbn [kbind]. f_equal. exact (intr_set_status_same (set_task (with_ready s (t :: ready s)) t (set_status TASK_READY))).
Qed.

Lemma thread_unblock_queue_inv (s : sched) (t : Z) :
  queue_inv s -> blocked_state (status (get_task s t)) = true ->
  queue_inv (set_task (with_ready s (t :: ready s)) t (set_status TASK_READY)).
Proof. intros Hq Hb. apply queue_inv_enqueue; [reflexivity | apply blocked_not_queued | reflexivity |]; assumption. Qed.

(** The idle task, when nothing is ready and nothing runs, is blocked. *)
Lemma idle_blocked (s : sched) :
  queue_inv s -> no_running s -> ready s = [] -> blocked_state (status (get_task s (idle_thread s))) = true.
Proof.
  intros (Hq1 & Hq2 & _ & [tk Hi] & Hd) Hn He. rewrite (get_task_some _ _ _ Hi) in *.
  specialize (Hq2 _ tk Hi). specialize (Hn _ tk Hi). rewrite He in Hq2.
  destruct (status tk); try reflexivity; try contradiction. exfalso. eapply not_elem_of_nil, Hq2. reflexivity.
Qed.

Lemma wake_idle_ok (s : sched) :
  queue_inv s -> no_running s ->
  exists s1, wake_idle s = KOk s1 /\ queue_inv s1 /\ no_running s1 /\ sched_frame s s1 /\
    status_kept s s1 /\ slices_kept s s1 /\ ready s1 = (if ready s is [] then [idle_thread s] else ready s).
Proof.
  intros Hq Hn. unfold wake_idle. destruct (ready s) as [| t l] eqn:E.
  - pose proof (idle_blocked s Hq Hn E) as Hb.
    rewrite (thread_unblock_effect s _ Hq Hb). eexists. split; [reflexivity |].
    split; [apply thread_unblock_queue_inv; assumption |].
    split; [apply no_running_set_task; [exact Hn | discriminate] |].
    split; [auto with kernel |]. split; [apply status_kept_enqueue; left |].
    split; [auto with kernel |]. autorewrite with kernel_rw. rewrite E. reflexivity.
  - eexists. split; [reflexivity |]. split; [exact Hq | split; [exact Hn |]].
    split; [| split; [| split]]; auto with kernel.
Qed.

Lemma only_running_status_same (s : sched) (r t : Z) (f : task -> task) :
  (forall tk, status (f tk) = status tk) -> is_Some (tasks s !! t) -> only_running s r ->
  only_running (set_task s t f) r.
Proof.
  intros Hf [tk0 Ht] Ho u tk. autorewrite with kernel_rw. case_decide; [subst; intros [= <-] | apply Ho].
  rewrite Hf, (get_task_some _ _ _ Ht). apply Ho, Ht.
Qed.

Lemma only_running_start (s : sched) (l : list Z) (t : Z) :
  no_running s -> only_running (set_task (with_ready s l) t (set_status TASK_RUNNING)) t.
Proof.
  intros Hn u tk. autorewrite with kernel_rw. case_decide; [auto | intros Hl Hs; contradiction (Hn u tk Hl Hs)].
Qed.

Lemma switch_to_fields (s : sched) (cur next : Z) (r : intr_status) :
  let s1 := set_task s cur (set_saved_if r) in
  tasks (switch_to s cur next r) = tasks s1 /\ get_task (switch_to s cur next r) = get_task s1 /\
  running (switch_to s cur next r) = next /\ ready (switch_to s cur next r) = ready s /\
  idle_thread (switch_to s cur next r) = idle_thread s /\
  intr (switch_to s cur next r) = saved_if (get_task s1 next).
Proof. repeat split. Qed.

(** The last step of [schedule]: the head of the queue runs. *)
Lemma pick_next_ok (s : sched) (cur next : Z) (rest : list Z) (resume : intr_status) :
  queue_inv s -> no_running s -> ready s = next :: rest -> is_Some (tasks s !! cur) ->
  let s' := switch_to (set_task (with_ready s rest) next (set_status TASK_RUNNING)) cur next resume in
  sched_inv s' /\ running s' = next /\ ready s' = rest /\ idle_thread s' = idle_thread s /\
  saved_if (get_task s' cur) = resume /\ intr s' = saved_if (get_task s' next) /\
  (forall t, t <> cur -> saved_if (get_task s' t) = saved_if (get_task s t)) /\
  (forall t, t <> next -> status (get_task s' t) = status (get_task s t)) /\
  slices_kept s s' /\ (forall t, is_Some (tasks s !! t) -> is_Some (tasks s' !! t)).
Proof.
  intros Hq Hn Hr Hc s'.
  assert (Hin : next ∈ ready s) by (rewrite Hr; left).
  destruct (proj1 Hq next Hin) as [Hdom _].
  assert (Hq3 : queue_inv (set_task (with_ready s rest) next (set_status TASK_RUNNING)))
    by (apply queue_inv_dequeue; [exact Hr | discriminate | discriminate | exact Hq]).
  destruct (switch_to_fields (set_task (with_ready s rest) next (set_status TASK_RUNNING)) cur next resume)
    as (Et & Eg & Er & Eq & Ei & Ef). fold s' in Et, Eg, Er, Eq, Ei, Ef.
  set (s3 := set_task (with_ready s rest) next (set_status TASK_RUNNING)) in *.
  assert (Hqs : queue_inv s').
  { change (queue_inv (set_task s3 cur (set_saved_if resume))).
    apply queue_inv_status_same; [reflexivity | exact Hq3]. }
  assert (Hos : only_running s' next).
  { change (only_running (set_task s3 cur (set_saved_if resume)) next).
    apply only_running_status_same; [reflexivity | apply set_task_dom, Hc | apply only_running_start, Hn]. }
  unfold sched_inv, pre_sched, slices_kept. rewrite Er, Et, Eg, Eq, Ei, Ef. clear Et Eg Er Eq Ei Ef. clearbody s'.
  split; [split; [split; [exact Hqs | split; [| exact Hos]] |] |].
  - unfold s3. do 2 apply set_task_dom. exact Hdom.
  - unfold s3. autorewrite with kernel_rw. repeat case_decide; subst; first [reflexivity | congruence].
  - clear Hqs Hos.
    unfold s3. autorewrite with kernel_rw.
    split; [reflexivity | split; [reflexivity | split; [reflexivity | split]]].
    + repeat case_decide; subst; first [reflexivity | congruence].
    + split; [reflexivity | split; [| split]].
      * intros t Ht. autorewrite with kernel_rw. repeat case_decide; subst; first [reflexivity | congruence].
      * intros t Ht. autorewrite with kernel_rw. repeat case_decide; subst; first [reflexivity | congruence].
      * split; [intros t; autorewrite with kernel_rw; repeat case_decide; subst; split; reflexivity |].
        intros t Ht. do 2 apply set_task_dom. exact Ht.
Qed.

(** ** [schedule] *)

Lemma schedule_spec (resume : intr_status) (s : sched) :
  pre_sched s -> intr s = INTR_OFF ->
  let q := ready s ++ (if bool_decide (status (get_task s (running s)) = TASK_RUNNING)
                       then [running s] else []) in
  exists s', schedule resume s = KOk s' /\ sched_inv s' /\
    running s' = hd (idle_thread s) q /\ ready s' = tl q /\ idle_thread s' = idle_thread s /\
    saved_if (get_task s' (running s)) = resume /\ intr s' = saved_if (get_task s' (running s')) /\
    (forall t, t ∉ q -> t <> hd (idle_thread s) q -> status (get_task s' t) = status (get_task s t)) /\
    requeued_slice s s' /\ (forall t, is_Some (tasks s !! t) -> is_Some (tasks s' !! t)).
Proof.
  intros Hp Hi q. pose proof Hp as (_ & Hc & _). unfold schedule. rewrite Hi. cbv iota.
  destruct (requeue_running_ok s Hp) as (s1 & E1 & Hq1 & Hn1 & F1 & K1 & S1 & R1). rewrite E1. cbn [kbind].
  destruct (wake_idle_ok s1 Hq1 Hn1) as (s2 & E2 & Hq2 & Hn2 & F2 & K2 & S2 & R2). rewrite E2. cbn [kbind].
  pose proof (sched_frame_trans _ _ _ F1 F2) as (_ & _ & Fi2 & _ & Fd).
  pose proof F1 as (_ & _ & Fi & _ & _).
  rewrite R1 in R2. fold q in R1, R2.
  destruct (ready s2) as [| next rest] eqn:E3; [destruct q; discriminate |].
  destruct (pick_next_ok s2 (running s) next rest resume Hq2 Hn2 E3 (Fd _ Hc))
    as (Hinv & Hr & Hrd & Hid & Hsv & Hf & _ & Hst & S3 & Hdom).
  eexists. split; [reflexivity |]. split; [exact Hinv |].
  assert (Hnext : next = hd (idle_thread s) q) by (destruct q; simplify_eq; cbn; congruence).
  split; [congruence | split; [| split; [congruence | split; [exact Hsv | split; [rewrite Hr; exact Hf |]]]]].
  - rewrite Hrd. destruct q; simplify_eq; reflexivity.
  - split; [| split; [eapply requeued_slice_kept; [eapply requeued_slice_kept; eassumption | exact S3]
                     | intros t Ht; apply Hdom, Fd, Ht]].
    intros t Hq Hh. rewrite Hst by congruence. rewrite K2, K1; [reflexivity | rewrite R1; exact Hq |].
    rewrite E3. intros [-> | Ht]%elem_of_cons; [congruence |].
    destruct q; simplify_eq; set_solver.
Qed.

(** C7: with interrupts off and the queues consistent, [schedule] never
    panics and keeps the scheduler invariant; it runs the head of the ready
    queue, behind which the caller was appended if it was still
    [RUNNING], or the idle task when that queue is empty (round robin);
    the caller will restore [resume], and the flag becomes the one the
    chosen task saved. *)
Theorem schedule_round_robin (resume : intr_status) (s : sched) :
  pre_sched s -> intr s = INTR_OFF ->
  let q := ready s ++ (if bool_decide (status (get_task s (running s)) = TASK_RUNNING)
                       then [running s] else []) in
  exists s', schedule resume s = KOk s' /\ sched_inv s' /\
    running s' = hd (idle_thread s) q /\ ready s' = tl q /\
    saved_if (get_task s' (running s)) = resume /\ intr s' = saved_if (get_task s' (running s')).
Proof.
  intros Hp Hi q. destruct (schedule_spec resume s Hp Hi) as (s' & E & Hinv & Hr & Hrd & _ & Hsv & Hf & _).
  exists s'. split; [exact E |]. split; [exact Hinv |]. repeat split; assumption.
Qed.

(** [schedule] entered with interrupts on stops at its first assertion. *)
Theorem schedule_intr_on_panics (resume : intr_status) (s : sched) :
  intr s = INTR_ON -> schedule resume s = KPanic "intr_get_status() == INTR_OFF".
Proof. intros Hi. unfold schedule. rewrite Hi. reflexivity. Qed.

(** ** Blocking, yielding, waking *)

Lemma intr_disable_spec (s : sched) : intr_disable s = (intr s, with_intr s INTR_OFF).
Proof. unfold intr_disable. destruct s as [? ? ? ? [|] ? ?]; reflexivity. Qed.

Lemma only_running_set_self (s : sched) (r : Z) (f : task -> task) :
  only_running s r -> only_running (set_task s r f) r.
Proof. intros Ho t tk. autorewrite with kernel_rw. case_decide; [auto | apply Ho]. Qed.

(** The running task leaves [RUNNING] for a state other than [READY]:
    what [thread_block] hands to [schedule]. *)
Lemma pre_sched_block (s : sched) (st : task_status) :
  sched_inv s -> st <> TASK_READY -> st <> TASK_DIED \/ running s <> idle_thread s ->
  pre_sched (set_task (with_intr s INTR_OFF) (running s) (set_status st)).
Proof.
  intros ((Hq & Hc & Ho) & Hr) Hst Hd. split; [| split].
  - apply queue_inv_unready; [apply running_not_queued; assumption | exact Hst | exact Hq | exact Hd].
  - apply set_task_dom, Hc.
  - apply only_running_set_self, Ho.
Qed.

(** [thread_block], before the switch, in one lemma the claims share. *)
Lemma thread_block_spec (s : sched) (stat : task_status) :
  sched_inv s -> blocked_state stat = true ->
  exists s', thread_block s stat = KOk s' /\ sched_inv s' /\
    running s' = hd (idle_thread s) (ready s) /\ ready s' = tl (ready s) /\
    saved_if (get_task s' (running s)) = intr s /\
    (forall t, t ∉ ready s -> t <> hd (idle_thread s) (ready s) ->
       status (get_task s' t) = if decide (t = running s) then stat else status (get_task s t)) /\
    (forall t, is_Some (tasks s !! t) -> is_Some (tasks s' !! t)).
Proof.
  intros Hinv Hb. pose proof Hinv as ((Hq & _) & Hr).
  assert (Hst : stat <> TASK_READY /\ stat <> TASK_DIED) by (destruct stat; split; discriminate).
  unfold thread_block. rewrite Hb, intr_disable_spec. cbn [running with_intr].
  destruct (schedule_spec (intr s) _ (pre_sched_block s stat Hinv (proj1 Hst) (or_introl (proj2 Hst))) eq_refl)
    as (s' & E & Hinv' & Hrn & Hrd & _ & Hsv & _ & Hkept & _ & Hdom).
  autorewrite with kernel_rw in *. cbn [running ready idle_thread with_intr] in *.
  rewrite decide_True in * by reflexivity. cbn [status set_status] in *.
  rewrite bool_decide_false in * by (destruct stat; discriminate). rewrite app_nil_r in *.
  exists s'. split; [exact E |]. split; [exact Hinv' |]. split; [exact Hrn |]. split; [exact Hrd |].
  split; [exact Hsv |]. split.
  - intros t Ht Hh. rewrite Hkept by assumption. autorewrite with kernel_rw. case_decide; reflexivity.
  - intros t Ht. apply Hdom, set_task_dom, Ht.
Qed.

(** The running task queued at the tail as [READY]: what [thread_yield]
    hands to [schedule]. *)
Lemma pre_sched_yield (s : sched) :
  sched_inv s ->
  pre_sched (set_task (with_ready (with_intr s INTR_OFF) (ready s ++ [running s])) (running s)
               (set_status TASK_READY)).
Proof.
  intros ((Hq & Hc & Ho) & Hr). split; [| split].
  - apply queue_inv_enqueue; [rewrite Permutation_app_comm; reflexivity | | reflexivity | exact Hq].
    apply running_not_queued; assumption.
  - apply set_task_dom, Hc.
  - apply only_running_set_self, Ho.
Qed.

(** [thread_unblock] of a blocked task, for the claims that build on it. *)
Lemma thread_unblock_ok (s : sched) (t : Z) :
  sched_inv s -> blocked_state (status (get_task s t)) = true ->
  exists s', thread_unblock s t = KOk s' /\ sched_inv s' /\ ready s' = t :: ready s /\
    status (get_task s' t) = TASK_READY /\ running s' = running s /\ intr s' = intr s.
Proof.
  intros ((Hq & Hc & Ho) & Hr) Hb. rewrite (thread_unblock_effect s t Hq Hb).
  eexists. split; [reflexivity |]. autorewrite with kernel_rw.
  assert (Ht : t <> running s) by (intros ->; rewrite Hr in Hb; discriminate).
  split; [split; [split; [| split] |] |].
  - apply thread_unblock_queue_inv; assumption.
  - apply set_task_dom, Hc.
  - intros u tk. autorewrite with kernel_rw. case_decide; [intros [= <-]; discriminate | apply Ho].
  - autorewrite with kernel_rw. rewrite decide_False by congruence. exact Hr.
  - rewrite decide_True by reflexivity. auto.
Qed.

(** [thread_unblock] of a blocked task keeps the scheduler invariant,
    makes the task [READY] and pushes it at the head of the ready queue;
    the running task, the flag and the idle task do not change. *)
Theorem thread_unblock_pushes_head (s : sched) (t : Z) :
  sched_inv s -> blocked_state (status (get_task s t)) = true ->
  exists s', thread_unblock s t = KOk s' /\ sched_inv s' /\ ready s' = t :: ready s /\
    status (get_task s' t) = TASK_READY /\ running s' = running s /\ intr s' = intr s.
Proof. apply thread_unblock_ok. Qed.

(** [thread_unblock] of a task that is not blocked (one already
    [READY] included) stops at its assertion. *)
Theorem thread_unblock_not_blocked_panics (s : sched) (t : Z) :
  blocked_state (status (get_task s t)) = false ->
  thread_unblock s t =
    KPanic "((pthread->status == TASK_BLOCKED) || (pthread->status == TASK_WAITING) || (pthread->status == TASK_HANGING))".
Proof. intros Hb. unfold thread_unblock. rewrite Hb. reflexivity. Qed.

(** [thread_block] with another task ready takes the caller off the
    CPU: it keeps state [stat], is in no queue, will restore the flag it
    had, and the head of the ready queue runs. *)
Theorem thread_block_deschedules (s : sched) (stat : task_status) :
  sched_inv s -> blocked_state stat = true -> ready s <> [] ->
  exists s', thread_block s stat = KOk s' /\ sched_inv s' /\
    status (get_task s' (running s)) = stat /\ (running s ∉ ready s') /\
    running s' = hd (running s) (ready s) /\ saved_if (get_task s' (running s)) = intr s.
Proof.
  intros Hinv Hb Hne. destruct (thread_block_spec s stat Hinv Hb) as (s' & E & Hinv' & Hrn & Hrd & Hsv & Hst & _).
  pose proof Hinv as ((Hq & _) & Hr). pose proof (running_not_queued s _ Hq Hr) as Hni.
  destruct (ready s) as [| h l] eqn:El; [contradiction |]. cbn in Hrn, Hrd, Hst |- *.
  exists s'. split; [exact E |]. split; [exact Hinv' |].
  pose proof (Hst (running s) Hni) as Hs. rewrite decide_True in Hs by reflexivity.
  split; [apply Hs; intros Heq; apply Hni; rewrite Heq; left |].
  split; [rewrite Hrd; set_solver |]. auto.
Qed.

(** [thread_yield] keeps the scheduler invariant and moves the caller
    to the tail of the ready queue; the head runs, which is the caller
    again when nothing else is ready; the caller will restore its flag. *)
Theorem thread_yield_round_robin (s : sched) :
  sched_inv s ->
  exists s', thread_yield s = KOk s' /\ sched_inv s' /\
    running s' = hd (running s) (ready s ++ [running s]) /\ ready s' = tl (ready s ++ [running s]) /\
    saved_if (get_task s' (running s)) = intr s.
Proof.
  intros Hinv. pose proof Hinv as ((Hq & _) & Hr). pose proof (running_not_queued s _ Hq Hr) as Hni.
  unfold thread_yield. rewrite intr_disable_spec. cbn [ready running with_intr].
  unfold queued. rewrite bool_decide_false by exact Hni. cbn [negb].
  destruct (schedule_spec (intr s) _ (pre_sched_yield s Hinv) eq_refl)
    as (s' & E & Hinv' & Hrn & Hrd & _ & Hsv & _).
  autorewrite with kernel_rw in *. cbn [running ready with_intr with_ready] in *.
  rewrite decide_True in * by reflexivity. cbn [status set_status] in *.
  rewrite bool_decide_false in * by discriminate. rewrite app_nil_r in *.
  exists s'. split; [exact E |]. split; [exact Hinv' |]. split; [| split; [exact Hrd | exact Hsv]].
  rewrite Hrn. destruct (ready s); reflexivity.
Qed.

(** ** The timer *)

(** The invariants read only the tasks, the queue, the running and the idle task. *)
Lemma sched_inv_same (s s' : sched) :
  tasks s' = tasks s -> ready s' = ready s -> running s' = running s -> idle_thread s' = idle_thread s ->
  sched_inv s -> sched_inv s'.
Proof. destruct s, s'. cbn. intros -> -> -> ->. exact id. Qed.

Lemma sched_inv_status_same (s : sched) (t : Z) (f : task -> task) :
  (forall tk, status (f tk) = status tk) -> is_Some (tasks s !! t) -> sched_inv s -> sched_inv (set_task s t f).
Proof.
  intros Hf Ht ((Hq & Hc & Ho) & Hr). split; [split; [| split] |].
  - apply queue_inv_status_same; assumption.
  - apply set_task_dom, Hc.
  - apply only_running_status_same; assumption.
  - autorewrite with kernel_rw. case_decide; [subst; rewrite Hf |]; exact Hr.
Qed.

(** The accounting of one interrupt: the running task's [elapsed_ticks]
    and the global [ticks], interrupts off. *)
Lemma timer_account (s : sched) :
  sched_inv s -> stack_magic (get_task s (running s)) = 0x19870916 ->
  exists s2, sched_inv s2 /\ intr s2 = INTR_OFF /\ running s2 = running s /\ ready s2 = ready s /\
    idle_thread s2 = idle_thread s /\
    (forall t, status (get_task s2 t) = status (get_task s t) /\ ticks (get_task s2 t) = ticks (get_task s t) /\
               priority (get_task s2 t) = priority (get_task s t) /\
               stack_magic (get_task s2 t) = stack_magic (get_task s t)) /\
    intr_timer_handler s =
      if ticks (get_task s2 (running s)) =? 0 then schedule INTR_ON s2
      else KOk (with_intr (set_task s2 (running s) (fun tk => set_ticks (ticks tk - 1) tk)) INTR_ON).
Proof.
  intros Hinv Hm. pose proof Hinv as ((_ & Hc & _) & _). unfold intr_timer_handler.
  cbn [running with_intr]. change (get_task (with_intr s INTR_OFF)) with (get_task s). rewrite Hm, Z.eqb_refl.
  match goal with |- context [schedule INTR_ON ?x] => exists x end.
  split; [| split; [reflexivity | split; [reflexivity | split; [reflexivity | split; [reflexivity |]]]]].
  - eapply sched_inv_same; [reflexivity .. | apply (sched_inv_status_same (with_intr s INTR_OFF)); auto].
  - split; [| reflexivity]. intros t. change (get_task (mk_sched ?m _ _ _ _ _ _) t) with (default null_task (m !! t)).
    fold (get_task (set_task (with_intr s INTR_OFF) (running s)
      (fun tk => mk_task (status tk) (priority tk) (ticks tk) (u32 (elapsed_ticks tk + 1)) (pid tk)
                         (parent_pid tk) (pgdir tk) (stack_magic tk) (saved_if tk))) t).
    rewrite get_set_task. case_decide; subst; repeat split.
Qed.

(** An interrupt with slice left: the same task runs, one tick less. *)
Lemma timer_tick_dec (s : sched) :
  sched_inv s -> stack_magic (get_task s (running s)) = 0x19870916 -> 0 < ticks (get_task s (running s)) ->
  exists s1, intr_timer_handler s = KOk s1 /\ sched_inv s1 /\ running s1 = running s /\ ready s1 = ready s /\
    intr s1 = INTR_ON /\ stack_magic (get_task s1 (running s)) = 0x19870916 /\
    ticks (get_task s1 (running s)) = ticks (get_task s (running s)) - 1 /\
    priority (get_task s1 (running s)) = priority (get_task s (running s)).
Proof.
  intros Hinv Hm Ht. destruct (timer_account s Hinv Hm) as (s2 & Hinv2 & _ & Hr & Hrd & _ & Hk & E).
  destruct (Hk (running s)) as (_ & Ht2 & Hp2 & Hm2).
  rewrite E, Ht2, (proj2 (Z.eqb_neq _ 0)) by lia. eexists. split; [reflexivity |].
  pose proof Hinv2 as ((_ & Hc2 & _) & _). rewrite Hr in Hc2.
  split; [eapply sched_inv_same; [reflexivity .. | apply sched_inv_status_same; [reflexivity | exact Hc2 | exact Hinv2]] |].
  autorewrite with kernel_rw. rewrite decide_True by reflexivity.
  cbn [stack_magic ticks priority set_ticks]. split; [exact Hr |]. split; [exact Hrd |].
  split; [reflexivity |]. split; [congruence |]. split; congruence.
Qed.

(** [n] interrupts with at least [n] ticks left keep the running task. *)
Lemma timer_ticks_run (n : nat) (s : sched) :
  sched_inv s -> stack_magic (get_task s (running s)) = 0x19870916 ->
  Z.of_nat n <= ticks (get_task s (running s)) ->
  exists s', timer_ticks n s = KOk s' /\ sched_inv s' /\ running s' = running s /\ ready s' = ready s /\
    stack_magic (get_task s' (running s)) = 0x19870916 /\
    ticks (get_task s' (running s)) = ticks (get_task s (running s)) - Z.of_nat n /\
    priority (get_task s' (running s)) = priority (get_task s (running s)).
Proof.
  revert s. induction n as [| n IH]; intros s Hinv Hm Hn.
  - exists s. split; [reflexivity |]. split; [exact Hinv |]. repeat split; auto; lia.
  - destruct (timer_tick_dec s Hinv Hm) as (s1 & E1 & Hinv1 & Hr1 & Hrd1 & _ & Hm1 & Ht1 & Hp1); [lia |].
    rewrite <- Hr1 in Hm1. destruct (IH s1 Hinv1 Hm1) as (s' & E & Hinv' & Hr & Hrd & Hm' & Ht & Hp);
      [rewrite Hr1; lia |].
    exists s'. cbn [timer_ticks]. rewrite E1. cbn [kbind]. rewrite Hr1 in *.
    split; [exact E |]. split; [exact Hinv' |]. repeat split; [congruence | congruence | assumption | lia | congruence].
Qed.

(** C33: a time slice lasts one interrupt more than the ticks it starts
    with: the running task keeps the CPU through [ticks] timer
    interrupts, and the next one moves it to the tail of the ready queue
    with a new slice of [priority] ticks and runs the head (itself again
    when nothing else is ready).  A task requeued by [schedule] thus runs
    [priority + 1] interrupts. *)
Theorem timer_time_slice (s : sched) :
  sched_inv s -> stack_magic (get_task s (running s)) = 0x19870916 -> 0 <= ticks (get_task s (running s)) ->
  let cur := running s in
  exists s1, timer_ticks (Z.to_nat (ticks (get_task s cur))) s = KOk s1 /\ running s1 = cur /\
    ready s1 = ready s /\
    exists s2, intr_timer_handler s1 = KOk s2 /\ sched_inv s2 /\
      running s2 = hd cur (ready s ++ [cur]) /\ ready s2 = tl (ready s ++ [cur]) /\
      ticks (get_task s2 cur) = priority (get_task s cur).
Proof.
  intros Hinv Hm Ht0. cbv zeta.
  destruct (timer_ticks_run (Z.to_nat (ticks (get_task s (running s)))) s Hinv Hm)
    as (s1 & E1 & Hinv1 & Hr1 & Hrd1 & Hm1 & Ht1 & Hp1); [lia |].
  exists s1. split; [exact E1 |]. split; [exact Hr1 |]. split; [exact Hrd1 |].
  rewrite <- Hr1 in Hm1. destruct (timer_account s1 Hinv1 Hm1) as (s2 & Hinv2 & Hi2 & Hr2 & Hrd2 & _ & Hk & E).
  destruct (Hk (running s1)) as (_ & Ht2 & Hp2 & _). rewrite E, Ht2, Hr1 in *.
  rewrite Ht1, Z2Nat.id, Z.sub_diag by exact Ht0. cbn [Z.eqb].
  destruct (schedule_spec INTR_ON s2 (proj1 Hinv2) Hi2) as (s3 & E3 & Hinv3 & Hr3 & Hrd3 & _ & _ & _ & _ & Hs3 & _).
  pose proof (proj2 Hinv2) as Hst. rewrite ?Hr2, ?Hr1 in Hst.
  rewrite ?Hr2, ?Hr1, ?Hrd2, ?Hrd1, Hst, bool_decide_true in * by reflexivity.
  exists s3. split; [exact E3 |]. split; [exact Hinv3 |].
  split; [rewrite Hr3; destruct (ready s); reflexivity |]. split; [exact Hrd3 |].
  destruct (Hs3 (running s)) as [_ ->]. rewrite bool_decide_true by (rewrite Hr2; split; [reflexivity | exact Hst]). congruence.
Qed.

(** ** Witnesses *)

Lemma demo_sched_inv : sched_inv demo_sched.
Proof. apply (bool_decide_unpack _). vm_compute. reflexivity. Qed.

Lemma schedule_round_robin_witness :
  pre_sched (with_intr demo_sched INTR_OFF) /\
  exists s', schedule INTR_ON (with_intr demo_sched INTR_OFF) = KOk s' /\ running s' = 0xc0102000 /\
    ready s' = [0xc009e000].
Proof.
  assert (H : pre_sched (with_intr demo_sched INTR_OFF)) by exact (proj1 demo_sched_inv).
  split; [exact H |].
  destruct (schedule_round_robin INTR_ON (with_intr demo_sched INTR_OFF) H eq_refl)
    as (s' & E & _ & Hr & Hrd & _).
  exists s'. split; [exact E |]. rewrite Hr, Hrd. vm_compute. split; reflexivity.
Defined.

Lemma schedule_intr_on_panics_witness :
  schedule INTR_ON demo_sched = KPanic "intr_get_status() == INTR_OFF".
Proof. apply schedule_intr_on_panics. reflexivity. Defined.

Lemma thread_unblock_pushes_head_witness :
  exists s', thread_unblock demo_sched 0xc0101000 = KOk s' /\ ready s' = [0xc0101000; 0xc0102000].
Proof.
  destruct (thread_unblock_pushes_head demo_sched 0xc0101000 demo_sched_inv eq_refl)
    as (s' & E & _ & Hrd & _). exists s'. split; [exact E | exact Hrd].
Defined.

Lemma thread_unblock_not_blocked_panics_witness :
  thread_unblock demo_sched 0xc0102000 =
    KPanic "((pthread->status == TASK_BLOCKED) || (pthread->status == TASK_WAITING) || (pthread->status == TASK_HANGING))".
Proof. apply thread_unblock_not_blocked_panics. reflexivity. Defined.

Lemma thread_block_deschedules_witness :
  exists s', thread_block demo_sched TASK_BLOCKED = KOk s' /\ running s' = 0xc0102000 /\
    status (get_task s' 0xc009e000) = TASK_BLOCKED.
Proof.
  destruct (thread_block_deschedules demo_sched TASK_BLOCKED demo_sched_inv eq_refl ltac:(discriminate))
    as (s' & E & _ & Hst & _ & Hr & _).
  exists s'. split; [exact E |]. split; [exact Hr | exact Hst].
Defined.

Lemma thread_yield_round_robin_witness :
  exists s', thread_yield demo_sched = KOk s' /\ running s' = 0xc0102000 /\ ready s' = [0xc009e000].
Proof.
  destruct (thread_yield_round_robin demo_sched demo_sched_inv) as (s' & E & _ & Hr & Hrd & _).
  exists s'. split; [exact E |]. split; [exact Hr | exact Hrd].
Defined.

Lemma timer_time_slice_witness :
  exists s1, timer_ticks 31 demo_sched = KOk s1 /\ running s1 = 0xc009e000 /\
    exists s2, intr_timer_handler s1 = KOk s2 /\ running s2 = 0xc0102000 /\
      ticks (get_task s2 0xc009e000) = 31.
Proof.
  destruct (timer_time_slice demo_sched demo_sched_inv eq_refl ltac:(vm_compute; discriminate))
    as (s1 & E1 & Hr1 & _ & s2 & E2 & _ & Hr2 & _ & Ht2).
  exists s1. split; [exact E1 |]. split; [exact Hr1 |]. exists s2. split; [exact E2 |].
  split; [exact Hr2 | exact Ht2].
Defined.
