(* ===== verification/Sync.v ===== *)
(** * Sync: semaphores and locks of [thread/sync.c]

    A semaphore is its [value] ([uint8_t]) and its queue of waiting tasks
    (PCB addresses, [list_append] at the tail, [list_pop] at the head); a
    lock is its [holder] (0 for NULL), its semaphore and its
    [holder_repeat_nr].  The operations take the scheduler state of
    [Thread] and the object, and return both.

    [sema_down] loops [while (value == 0)] around [thread_block]: the task
    that blocks is switched out inside the loop and, once woken and
    scheduled, tests [value] again.  The model returns at the switch with
    the flag [false] ("not done"): the loop is resumed by calling
    [sema_down_loop] again when the task runs (the kernel machine of
    [Kernel] does this).  [lock_acquire] returns the same flag.

    Theorems: a semaphore is taken without blocking when it is free and
    blocks the caller at the tail of the queue otherwise; [sema_up] wakes
    the head of the queue, which goes to the head of the ready queue;
    [sema_up] on a free semaphore stops the kernel, so two [sema_up] in a
    row stop it even with tasks waiting; locks are reentrant and only
    their holder releases them; the semaphore invariant (binary value,
    blocked waiters, each once) is kept. *)

From Stdlib Require Import ZArith Lia String Bool.
From stdpp Require Import base gmap list.
From S2P Require Import Prelude Thread.

Open Scope Z_scope.
Open Scope kernel_scope.

(** ** Data *)

(** [struct semaphore] (sync.h). *)
Record semaphore := mk_sema {
  value : Z;             (** [uint8_t] *)
  waiters : list Z       (** [struct list waiters] *)
}.

(** [struct lock] (sync.h); [lsema] is its field [semaphore]. *)
Record lock := mk_lock {
  holder : Z;            (** [struct task_struct*], 0 for NULL *)
  lsema : semaphore;
  holder_repeat_nr : Z   (** [uint32_t] *)
}.

(** [sema_init]. *)
Definition sema_init (v : Z) : semaphore := mk_sema (u8 v) [].

(** [lock_init]. *)
Definition lock_init : lock := mk_lock 0 (sema_init 1) 0.

(** ** Semaphores *)

(** One test of the loop of [sema_down], by the running task, with the
    flag [old_status] to restore: [true] when the semaphore is taken,
    [false] when the task blocked (the state is then the one after the
    switch). *)
Definition sema_down_loop (s : sched) (m : semaphore) (old_status : intr_status)
  : kres (bool * sched * semaphore) :=
  if value m =? 0 then
    ASSERT negb (queued (running s) (waiters m))
      as "!elem_find(&psema->waiters, &running_thread()->general_tag)" ;;
    let m1 := mk_sema (value m) (waiters m ++ [running s]) in
    s1 <- thread_block s TASK_BLOCKED ;;
    KOk (false, s1, m1)
  else
    let m1 := mk_sema (u8 (value m - 1)) (waiters m) in
    ASSERT (value m1 =? 0) as "psema->value == 0" ;;
    KOk (true, snd (intr_set_status old_status s), m1).

(** [sema_down]: interrupts off, then the loop. *)
Definition sema_down (s : sched) (m : semaphore) : kres (bool * sched * semaphore) :=
  let (old_status, s1) := intr_disable s in
  sema_down_loop s1 m old_status.

(** [sema_up]: wake the first waiter, if any, and release. *)
Definition sema_up (s : sched) (m : semaphore) : kres (sched * semaphore) :=
  let (old_status, s1) := intr_disable s in
  ASSERT (value m =? 0) as "psema->value == 0" ;;
  let* (s2, w) := match waiters m with
                  | t :: rest => s2 <- thread_unblock s1 t ;; KOk (s2, rest)
                  | [] => KOk (s1, [])
                  end in
  let m1 := mk_sema (u8 (value m + 1)) w in
  ASSERT (value m1 =? 1) as "psema->value == 1" ;;
  KOk (snd (intr_set_status old_status s2), m1).

(** ** Locks *)

Definition with_lsema (l : lock) (m : semaphore) : lock := mk_lock (holder l) m (holder_repeat_nr l).

(** The end of [lock_acquire] once the semaphore is taken. *)
Definition lock_acquire_tail (s : sched) (l : lock) : kres lock :=
  let l1 := mk_lock (running s) (lsema l) (holder_repeat_nr l) in
  ASSERT (holder_repeat_nr l1 =? 0) as "plock->holder_repeat_nr == 0" ;;
  KOk (mk_lock (holder l1) (lsema l1) 1).

(** [lock_acquire]: a second acquisition by the holder only counts; any
    other task takes the semaphore, which may block it. *)
Definition lock_acquire (s : sched) (l : lock) : kres (bool * sched * lock) :=
  if bool_decide (holder l <> running s) then
    let* (done, s1, m1) := sema_down s (lsema l) in
    if done then l2 <- lock_acquire_tail s1 (with_lsema l m1) ;; KOk (true, s1, l2)
    else KOk (false, s1, with_lsema l m1)
  else KOk (true, s, mk_lock (holder l) (lsema l) (u32 (holder_repeat_nr l + 1))).

(** The rest of [lock_acquire] when the task that blocked in its
    [sema_down] runs again: the loop, then the tail. *)
Definition lock_acquire_resume (s : sched) (l : lock) (old_status : intr_status)
  : kres (bool * sched * lock) :=
  let* (done, s1, m1) := sema_down_loop s (lsema l) old_status in
  if done then l2 <- lock_acquire_tail s1 (with_lsema l m1) ;; KOk (true, s1, l2)
  else KOk (false, s1, with_lsema l m1).

(** [lock_release]: only the holder; the last release clears the holder
    and ups the semaphore. *)
Definition lock_release (s : sched) (l : lock) : kres (sched * lock) :=
  ASSERT (holder l =? running s) as "plock->holder == running_thread()" ;;
  if holder_repeat_nr l >? 1 then
    KOk (s, mk_lock (holder l) (lsema l) (holder_repeat_nr l - 1))
  else
  ASSERT (holder_repeat_nr l =? 1) as "plock->holder_repeat_nr == 1" ;;
  let l1 := mk_lock 0 (lsema l) 0 in
  let* (s1, m1) := sema_up s (lsema l1) in
  KOk (s1, with_lsema l1 m1).

(** ** Invariants *)

(** What of a lock decides who may enter: its semaphore's value, its
    holder and its count (not the waiters). *)
Definition lock_view (l : lock) : Z * Z * Z := (value (lsema l), holder l, holder_repeat_nr l).

(** A semaphore: its value is 0 or 1, and its waiters are blocked tasks,
    each once. *)
Definition sema_inv (s : sched) (m : semaphore) : Prop :=
  (value m = 0 \/ value m = 1) /\ NoDup (waiters m) /\
  (forall t, t ∈ waiters m -> is_Some (tasks s !! t) /\ status (get_task s t) = TASK_BLOCKED).

(** A lock: free with no count, or held with a positive count and its
    semaphore taken. *)
Definition lock_inv (s : sched) (l : lock) : Prop :=
  sema_inv s (lsema l) /\
  ((holder l = 0 /\ holder_repeat_nr l = 0) \/
   (holder l <> 0 /\ 1 <= holder_repeat_nr l < 2 ^ 32 /\ value (lsema l) = 0)).

#[export] Instance sema_inv_dec (s : sched) (m : semaphore) : Decision (sema_inv s m).
Proof.
  refine (cast_if (decide ((value m = 0 \/ value m = 1) /\ NoDup (waiters m) /\
    Forall (fun t => is_Some (tasks s !! t) /\ status (get_task s t) = TASK_BLOCKED) (waiters m))));
    unfold sema_inv in *; rewrite Forall_forall in *; tauto.
Defined.

#[export] Instance lock_inv_dec (s : sched) (l : lock) : Decision (lock_inv s l).
Proof. unfold lock_inv. apply _. Defined.

(** ** The interrupt flag around a critical section *)

Lemma intr_restore (s : sched) : snd (intr_set_status (intr s) (with_intr s INTR_OFF)) = s.
Proof. destruct s as [? ? ? ? [|] ? ?]; reflexivity. Qed.

Lemma intr_set_status_off (s : sched) (st : intr_status) :
  intr s = INTR_OFF -> snd (intr_set_status st s) = with_intr s st.
Proof. destruct s as [? ? ? ? i ? ?]. cbn. intros ->. destruct st; reflexivity. Qed.

Lemma sched_inv_with_intr (s : sched) (i : intr_status) : sched_inv s -> sched_inv (with_intr s i).
Proof. apply sched_inv_same; reflexivity. Qed.

#[export] Hint Resolve sched_inv_with_intr : kernel.

(** ** One test of the loop of [sema_down] *)

Lemma sema_loop_take (s : sched) (m : semaphore) (old : intr_status) :
  value m = 1 ->
  sema_down_loop s m old = KOk (true, snd (intr_set_status old s), mk_sema 0 (waiters m)).
Proof. intros Hv. unfold sema_down_loop. rewrite Hv. reflexivity. Qed.

(** The running task, with another task ready, blocks at the tail of the
    waiters; the other tasks keep their state. *)
Lemma sema_loop_block (s : sched) (m : semaphore) (old : intr_status) :
  sched_inv s -> value m = 0 -> running s ∉ waiters m -> ready s <> [] ->
  exists s', sema_down_loop s m old = KOk (false, s', mk_sema 0 (waiters m ++ [running s])) /\
    sched_inv s' /\ running s' = hd (running s) (ready s) /\ ready s' = tl (ready s) /\
    saved_if (get_task s' (running s)) = intr s /\
    (forall t, t ∉ ready s -> status (get_task s' t) =
                              if decide (t = running s) then TASK_BLOCKED else status (get_task s t)) /\
    (forall t, is_Some (tasks s !! t) -> is_Some (tasks s' !! t)).
Proof.
  intros Hinv Hv Hw Hne. unfold sema_down_loop. rewrite Hv. cbn [Z.eqb].
  unfold queued. rewrite bool_decide_false by exact Hw. cbn [negb].
  destruct (thread_block_spec s TASK_BLOCKED Hinv eq_refl) as (s' & E & Hinv' & Hrn & Hrd & Hsv & Hst & Hdom).
  rewrite E. cbn [kbind]. exists s'. split; [reflexivity |].
  destruct (ready s) as [| h l] eqn:El; [contradiction |]. cbn in Hrn, Hrd, Hst |- *.
  split; [exact Hinv' |]. split; [exact Hrn |]. split; [exact Hrd |]. split; [exact Hsv |].
  split; [| exact Hdom]. intros t Ht. apply Hst; [exact Ht |]. intros ->. apply Ht. left.
Qed.

(** ** Semaphore claims *)

(** [sema_down] of a free semaphore takes it without blocking: the
    value drops to 0, the waiters and the scheduler state are unchanged,
    the interrupt flag restored. *)
Theorem sema_down_free (s : sched) (m : semaphore) :
  value m = 1 -> sema_down s m = KOk (true, s, mk_sema 0 (waiters m)).
Proof.
  intros Hv. unfold sema_down. rewrite intr_disable_spec, sema_loop_take by exact Hv.
  rewrite intr_restore. reflexivity.
Qed.

(** C18: [sema_down] of a taken semaphore, with another task ready,
    blocks the caller: it joins the tail of the waiters as [BLOCKED], it
    is in no ready queue, it will resume in the loop with interrupts off,
    and the head of the ready queue runs. *)
Theorem sema_down_blocks (s : sched) (m : semaphore) :
  sched_inv s -> value m = 0 -> running s ∉ waiters m -> ready s <> [] ->
  exists s', sema_down s m = KOk (false, s', mk_sema 0 (waiters m ++ [running s])) /\
    sched_inv s' /\ status (get_task s' (running s)) = TASK_BLOCKED /\ (running s ∉ ready s') /\
    running s' = hd (running s) (ready s) /\ saved_if (get_task s' (running s)) = INTR_OFF.
Proof.
  intros Hinv Hv Hw Hne. unfold sema_down. rewrite intr_disable_spec.
  destruct (sema_loop_block (with_intr s INTR_OFF) m (intr s) (sched_inv_with_intr _ _ Hinv) Hv Hw Hne)
    as (s' & E & Hinv' & Hrn & Hrd & Hsv & Hst & _).
  autorewrite with kernel_rw in *. pose proof Hinv as ((Hq & _) & Hr).
  pose proof (running_not_queued s _ Hq Hr) as Hni.
  exists s'. split; [exact E |]. split; [exact Hinv' |].
  split; [rewrite Hst by exact Hni; apply decide_True; reflexivity |].
  split; [rewrite Hrd; destruct (ready s); [contradiction | set_solver] |]. auto.
Qed.

(** [sema_up] with waiters, for the claims and the lock. *)
Lemma sema_up_wake (s : sched) (m : semaphore) (t : Z) (rest : list Z) :
  sched_inv s -> value m = 0 -> waiters m = t :: rest -> status (get_task s t) = TASK_BLOCKED ->
  exists s', sema_up s m = KOk (s', mk_sema 1 rest) /\ sched_inv s' /\ ready s' = t :: ready s /\
    running s' = running s /\ intr s' = intr s /\
    (forall u, status (get_task s' u) = if decide (u = t) then TASK_READY else status (get_task s u)) /\
    (forall u, is_Some (tasks s !! u) -> is_Some (tasks s' !! u)).
Proof.
  intros Hinv Hv Hw Hb. pose proof Hinv as ((Hq & _) & _).
  unfold sema_up. rewrite intr_disable_spec, Hv, Hw. cbn [Z.eqb].
  assert (Hb' : blocked_state (status (get_task (with_intr s INTR_OFF) t)) = true) by (rewrite get_task_with_intr, Hb; reflexivity).
  rewrite (thread_unblock_effect (with_intr s INTR_OFF) t Hq Hb'). cbn [kbind].
  destruct (thread_unblock_ok (with_intr s INTR_OFF) t (sched_inv_with_intr _ _ Hinv) Hb')
    as (s2 & E & Hinv2 & Hrd & _ & Hr & Hi).
  rewrite (thread_unblock_effect (with_intr s INTR_OFF) t Hq Hb') in E. apply kok_inj in E. rewrite <- E in *.
  rewrite intr_set_status_off by exact Hi. eexists. split; [reflexivity |].
  split; [apply sched_inv_with_intr, Hinv2 |]. autorewrite with kernel_rw in *.
  split; [exact Hrd |]. split; [exact Hr |]. split; [reflexivity |]. split.
  - intros u. autorewrite with kernel_rw. case_decide; reflexivity.
  - intros u Hu. apply set_task_dom, Hu.
Qed.

(** C19: [sema_up] of a taken semaphore with waiters wakes the first
    waiter: it leaves the waiters, becomes [READY] at the head of the
    ready queue, and the semaphore is free; the caller keeps running with
    its interrupt flag, and the scheduler invariant holds. *)
Theorem sema_up_wakes_first (s : sched) (m : semaphore) (t : Z) (rest : list Z) :
  sched_inv s -> sema_inv s m -> value m = 0 -> waiters m = t :: rest ->
  exists s', sema_up s m = KOk (s', mk_sema 1 rest) /\ sched_inv s' /\ ready s' = t :: ready s /\
    status (get_task s' t) = TASK_READY /\ running s' = running s /\ intr s' = intr s.
Proof.
  intros Hinv (_ & _ & Hw) Hv Hws. assert (Hb : status (get_task s t) = TASK_BLOCKED)
    by (apply Hw; rewrite Hws; left).
  destruct (sema_up_wake s m t rest Hinv Hv Hws Hb) as (s' & E & Hinv' & Hrd & Hr & Hi & Hst & _).
  exists s'. split; [exact E |]. split; [exact Hinv' |]. split; [exact Hrd |].
  split; [rewrite Hst; apply decide_True; reflexivity |]. auto.
Qed.

(** [sema_up] of a free semaphore stops the kernel, waiters or not:
    the semaphores are binary, and two [sema_up] with no [sema_down]
    between them stop the kernel. *)
Theorem sema_up_free_panics (s : sched) (m : semaphore) :
  value m <> 0 -> sema_up s m = KPanic "psema->value == 0".
Proof.
  intros Hv. unfold sema_up. rewrite intr_disable_spec. rewrite (proj2 (Z.eqb_neq _ _) Hv). reflexivity.
Qed.

(** ** Lock claims *)

(** A free lock is taken at once: the caller becomes the holder with
    count 1 and the semaphore is taken. *)
Theorem lock_acquire_free (s : sched) (l : lock) :
  running s <> 0 -> holder l = 0 -> holder_repeat_nr l = 0 -> value (lsema l) = 1 ->
  lock_acquire s l = KOk (true, s, mk_lock (running s) (mk_sema 0 (waiters (lsema l))) 1).
Proof.
  intros Hr Hh Hn Hv. unfold lock_acquire. rewrite bool_decide_true by congruence.
  rewrite sema_down_free by exact Hv. cbn [kbind]. unfold lock_acquire_tail. cbn. rewrite Hn. reflexivity.
Qed.

(** The holder acquiring its lock again only counts: locks are
    reentrant. *)
Theorem lock_acquire_reentrant (s : sched) (l : lock) :
  holder l = running s ->
  lock_acquire s l = KOk (true, s, mk_lock (holder l) (lsema l) (u32 (holder_repeat_nr l + 1))).
Proof. intros Hh. unfold lock_acquire. rewrite bool_decide_false by (intros []; exact Hh). reflexivity. Qed.

(** A task that does not hold a held lock blocks on it: it joins the
    tail of the waiters as [BLOCKED], the holder and the count do not
    change, and the head of the ready queue runs. *)
Theorem lock_acquire_contended_blocks (s : sched) (l : lock) :
  sched_inv s -> holder l <> running s -> value (lsema l) = 0 -> running s ∉ waiters (lsema l) ->
  ready s <> [] ->
  exists s', lock_acquire s l =
      KOk (false, s', mk_lock (holder l) (mk_sema 0 (waiters (lsema l) ++ [running s])) (holder_repeat_nr l)) /\
    sched_inv s' /\ status (get_task s' (running s)) = TASK_BLOCKED /\ running s' = hd (running s) (ready s).
Proof.
  intros Hinv Hh Hv Hw Hne. unfold lock_acquire. rewrite bool_decide_true by exact Hh.
  destruct (sema_loop_block (with_intr s INTR_OFF) (lsema l) (intr s) (sched_inv_with_intr _ _ Hinv) Hv Hw Hne)
    as (s' & E & Hinv' & Hrn & _ & _ & Hst & _).
  unfold sema_down. rewrite intr_disable_spec. autorewrite with kernel_rw in *. rewrite E. cbn [kbind].
  pose proof Hinv as ((Hq & _) & Hr).
  exists s'. split; [reflexivity |]. split; [exact Hinv' |]. split; [| exact Hrn].
  rewrite Hst by (apply running_not_queued; assumption). apply decide_True. reflexivity.
Qed.

(** Only the holder may release a lock. *)
Theorem lock_release_not_holder_panics (s : sched) (l : lock) :
  holder l <> running s -> lock_release s l = KPanic "plock->holder == running_thread()".
Proof. intros Hh. unfold lock_release. rewrite (proj2 (Z.eqb_neq _ _) Hh). reflexivity. Qed.

(** The last release of a lock with waiters frees it and hands the
    CPU's next turn to the first waiter: the lock has no holder and count
    0, its semaphore is free, and the first waiter is [READY] at the head
    of the ready queue; a nested release only decrements the count. *)
Theorem lock_release_wakes_first (s : sched) (l : lock) (t : Z) (rest : list Z) :
  sched_inv s -> lock_inv s l -> running s <> 0 -> holder l = running s -> waiters (lsema l) = t :: rest ->
  exists s' l', lock_release s l = KOk (s', l') /\ sched_inv s' /\
    if holder_repeat_nr l >? 1 then s' = s /\ l' = mk_lock (holder l) (lsema l) (holder_repeat_nr l - 1)
    else l' = mk_lock 0 (mk_sema 1 rest) 0 /\ ready s' = t :: ready s /\
         status (get_task s' t) = TASK_READY /\ running s' = running s.
Proof.
  intros Hinv ((Hv01 & Hnd & Hw) & Hl) Hr0 Hh Hws. unfold lock_release. rewrite Hh, Z.eqb_refl.
  destruct (holder_repeat_nr l >? 1) eqn:Hn.
  - do 2 eexists. split; [reflexivity |]. split; [exact Hinv |]. split; reflexivity.
  - rewrite Z.gtb_ltb, Z.ltb_ge in Hn.
    destruct Hl as [[H0 _] | (H0 & Hn1 & Hv)]; [congruence |].
    rewrite (proj2 (Z.eqb_eq _ 1)) by lia. cbn [lsema].
    destruct (sema_up_wake s (lsema l) t rest Hinv Hv Hws) as (s' & E & Hinv' & Hrd & Hr & _ & Hst & _);
      [apply Hw; rewrite Hws; left |].
    rewrite E. cbn [kbind]. do 2 eexists. split; [reflexivity |]. split; [exact Hinv' |].
    split; [reflexivity |]. split; [exact Hrd |]. split; [rewrite Hst; apply decide_True; reflexivity | exact Hr].
Qed.

(** ** What a call that returns did *)

Lemma running_intr_set_status (s : sched) (st : intr_status) : running (snd (intr_set_status st s)) = running s.
Proof. unfold intr_set_status, intr_enable, intr_disable. destruct st, (intr s); reflexivity. Qed.

Lemma sema_down_loop_result (s : sched) (m : semaphore) (old : intr_status) (done : bool) (s1 : sched)
    (m1 : semaphore) :
  sema_down_loop s m old = KOk (done, s1, m1) ->
  (done = false /\ value m = 0 /\ value m1 = 0) \/
  (done = true /\ value m <> 0 /\ value m1 = 0 /\ s1 = snd (intr_set_status old s)).
Proof.
  unfold sema_down_loop. destruct (Z.eqb_spec (value m) 0) as [Hv | Hv]; intros H.
  - destruct (negb _); [| discriminate]. kinv H. injection Hk as <- <- <-. left. auto.
  - cbv zeta in H. cbn [value] in H. destruct (Z.eqb_spec (u8 (value m - 1)) 0) as [E | E]; [| discriminate].
    injection H as <- <- <-. right. auto.
Qed.

Lemma sema_down_result (s : sched) (m : semaphore) (done : bool) (s1 : sched) (m1 : semaphore) :
  sema_down s m = KOk (done, s1, m1) ->
  (done = false /\ value m = 0 /\ value m1 = 0) \/
  (done = true /\ value m <> 0 /\ value m1 = 0 /\ running s1 = running s).
Proof.
  unfold sema_down. rewrite intr_disable_spec. intros H.
  destruct (sema_down_loop_result _ _ _ _ _ _ H) as [? | (? & ? & ? & ->)]; [left; exact H0 | right].
  rewrite running_intr_set_status. auto.
Qed.

Lemma lock_acquire_tail_result (s : sched) (l l2 : lock) :
  lock_acquire_tail s l = KOk l2 -> holder_repeat_nr l = 0 /\ lock_view l2 = (value (lsema l), running s, 1).
Proof.
  unfold lock_acquire_tail. cbn. destruct (Z.eqb_spec (holder_repeat_nr l) 0); [| discriminate].
  intros H. apply kok_inj in H. subst. auto.
Qed.

(** The two outcomes of taking a lock's semaphore. *)
Definition acquired_or_blocked (s : sched) (l : lock) (done : bool) (l1 : lock) : Prop :=
  (done = false /\ value (lsema l) = 0 /\ lock_view l1 = lock_view l) \/
  (done = true /\ value (lsema l) <> 0 /\ holder_repeat_nr l = 0 /\ lock_view l1 = (0, running s, 1)).

Lemma lock_acquire_resume_result (s : sched) (l : lock) (old : intr_status) (done : bool) (s1 : sched) (l1 : lock) :
  lock_acquire_resume s l old = KOk (done, s1, l1) -> acquired_or_blocked s l done l1.
Proof.
  unfold lock_acquire_resume. intros H. kinv H. destruct a as [[d s2] m2].
  destruct (sema_down_loop_result _ _ _ _ _ _ Hr) as [(-> & Hv & Hm) | (-> & Hv & Hm & ->)].
  - injection Hk as <- <- <-. left. unfold lock_view. cbn. rewrite Hv, Hm. auto.
  - kinv Hk. injection Hk0 as <- <- <-. apply lock_acquire_tail_result in Hr0 as [Hn Hl].
    right. rewrite running_intr_set_status in Hl. cbn in Hl. rewrite Hm in Hl. auto.
Qed.

Lemma lock_acquire_result (s : sched) (l : lock) (done : bool) (s1 : sched) (l1 : lock) :
  lock_acquire s l = KOk (done, s1, l1) ->
  (holder l = running s /\ done = true /\
   lock_view l1 = (value (lsema l), holder l, u32 (holder_repeat_nr l + 1))) \/
  (holder l <> running s /\ acquired_or_blocked s l done l1).
Proof.
  unfold lock_acquire. case_bool_decide as Hh; intros H.
  - right. split; [exact Hh |]. unfold sema_down in H. rewrite intr_disable_spec in H.
    kinv H. destruct a as [[d s2] m2].
    destruct (sema_down_loop_result _ _ _ _ _ _ Hr) as [(-> & Hv & Hm) | (-> & Hv & Hm & ->)].
    + injection Hk as <- <- <-. left. unfold lock_view. cbn. rewrite Hv, Hm. auto.
    + kinv Hk. injection Hk0 as <- <- <-. apply lock_acquire_tail_result in Hr0 as [Hn Hl].
      right. rewrite running_intr_set_status in Hl. cbn in Hl. rewrite Hm in Hl. auto.
  - left. injection H as <- <- <-. auto.
Qed.

Lemma sema_up_result (s : sched) (m : semaphore) (s1 : sched) (m1 : semaphore) :
  sema_up s m = KOk (s1, m1) -> value m = 0 /\ value m1 = 1.
Proof.
  unfold sema_up. rewrite intr_disable_spec. destruct (Z.eqb_spec (value m) 0) as [Hv | Hv]; [| discriminate].
  intros H. kinv H. destruct a as [s2 w]. cbn in Hk. rewrite Hv in Hk. cbn in Hk.
  injection Hk as _ <-. auto.
Qed.

Lemma lock_release_result (s : sched) (l : lock) (s1 : sched) (l1 : lock) :
  lock_release s l = KOk (s1, l1) -> holder l = running s /\
  ((1 < holder_repeat_nr l /\ lock_view l1 = (value (lsema l), holder l, holder_repeat_nr l - 1)) \/
   (holder_repeat_nr l = 1 /\ value (lsema l) = 0 /\ lock_view l1 = (1, 0, 0))).
Proof.
  unfold lock_release. intros H.
  destruct (Z.eqb_spec (holder l) (running s)) as [Hh | Hh]; [| discriminate].
  split; [exact Hh |]. destruct (Z.gtb_spec (holder_repeat_nr l) 1) as [Hn | Hn].
  - injection H as <- <-. left. auto.
  - destruct (Z.eqb_spec (holder_repeat_nr l) 1) as [Hn1 | Hn1]; [| discriminate].
    kinv H. destruct a as [s2 m2]. injection Hk as <- <-. cbn in Hr.
    apply sema_up_result in Hr as [Hv Hm]. right. unfold lock_view. cbn. rewrite Hm. auto.
Qed.

(** ** Witnesses *)

Lemma sema_down_free_witness : sema_down demo_sched (sema_init 1) = KOk (true, demo_sched, mk_sema 0 []).
Proof. apply sema_down_free. reflexivity. Defined.

Lemma sema_down_blocks_witness :
  exists s', sema_down demo_sched (mk_sema 0 []) = KOk (false, s', mk_sema 0 [0xc009e000]) /\
    running s' = 0xc0102000 /\ status (get_task s' 0xc009e000) = TASK_BLOCKED.
Proof.
  destruct (sema_down_blocks demo_sched (mk_sema 0 []) demo_sched_inv eq_refl
              ltac:(apply not_elem_of_nil) ltac:(discriminate)) as (s' & E & _ & Hst & _ & Hr & _).
  exists s'. split; [exact E |]. split; [exact Hr | exact Hst].
Defined.

Lemma sema_up_wakes_first_witness :
  exists s', sema_up demo_sched (mk_sema 0 [0xc0101000]) = KOk (s', mk_sema 1 []) /\
    ready s' = [0xc0101000; 0xc0102000].
Proof.
  destruct (sema_up_wakes_first demo_sched (mk_sema 0 [0xc0101000]) 0xc0101000 [] demo_sched_inv
              ltac:(apply (bool_decide_unpack _); vm_compute; reflexivity) eq_refl eq_refl)
    as (s' & E & _ & Hrd & _). exists s'. split; [exact E | exact Hrd].
Defined.

Lemma sema_up_free_panics_witness :
  sema_up demo_sched (mk_sema 1 [0xc0101000]) = KPanic "psema->value == 0".
Proof. apply sema_up_free_panics. discriminate. Defined.

Lemma lock_acquire_free_witness :
  lock_acquire demo_sched lock_init = KOk (true, demo_sched, mk_lock 0xc009e000 (mk_sema 0 []) 1).
Proof. apply lock_acquire_free; [discriminate | reflexivity ..]. Defined.

Lemma lock_acquire_reentrant_witness :
  lock_acquire demo_sched (mk_lock 0xc009e000 (mk_sema 0 []) 1) =
    KOk (true, demo_sched, mk_lock 0xc009e000 (mk_sema 0 []) 2).
Proof. apply lock_acquire_reentrant. reflexivity. Defined.

Lemma lock_acquire_contended_blocks_witness :
  exists s', lock_acquire demo_sched (mk_lock 0xc0102000 (mk_sema 0 []) 1) =
      KOk (false, s', mk_lock 0xc0102000 (mk_sema 0 [0xc009e000]) 1) /\ running s' = 0xc0102000.
Proof.
  destruct (lock_acquire_contended_blocks demo_sched (mk_lock 0xc0102000 (mk_sema 0 []) 1) demo_sched_inv
              ltac:(discriminate) eq_refl ltac:(apply not_elem_of_nil) ltac:(discriminate))
    as (s' & E & _ & _ & Hr). exists s'. split; [exact E | exact Hr].
Defined.

Lemma lock_release_not_holder_panics_witness :
  lock_release demo_sched (mk_lock 0xc0102000 (mk_sema 0 []) 1) = KPanic "plock->holder == running_thread()".
Proof. apply lock_release_not_holder_panics. discriminate. Defined.

Lemma lock_release_wakes_first_witness :
  exists s' l', lock_release demo_sched (mk_lock 0xc009e000 (mk_sema 0 [0xc0101000]) 1) = KOk (s', l') /\
    l' = mk_lock 0 (mk_sema 1 []) 0 /\ ready s' = [0xc0101000; 0xc0102000].
Proof.
  destruct (lock_release_wakes_first demo_sched (mk_lock 0xc009e000 (mk_sema 0 [0xc0101000]) 1) 0xc0101000 []
              demo_sched_inv ltac:(apply (bool_decide_unpack _); vm_compute; reflexivity)
              ltac:(discriminate) eq_refl eq_refl) as (s' & l' & E & _ & Hl & Hrd & _).
  exists s', l'. split; [exact E |]. split; [exact Hl | exact Hrd].
Defined.
