(* ===== verification/Ioqueue.v ===== *)
(** * Ioqueue: the circular buffer of [device/ioqueue.c]

    An [ioqueue] is a buffer of [bufsize] characters, the index [head]
    where the producer writes and [tail] where the consumer reads, the
    task waiting as producer or consumer (0 for NULL), and a lock.  One
    slot is always left free: the queue is full when [next_pos(head)] is
    [tail], so it holds at most [bufsize - 1] characters.

    [ioqueue_getchar] and [ioqueue_putchar] run with interrupts off.  On
    an empty (full) buffer they take the queue's lock, record the running
    task as consumer (producer) and block; the task that wakes them resets
    the field.  The woken task releases the lock and tests again.  As in
    [Sync], a call that blocks returns at the switch with the point where
    it resumes ([ioq_pc]): inside the [lock_acquire], or after the
    [thread_block] of [ioqueue_wait].

    Theorems: [next_pos] stays in the buffer; the characters between
    [tail] and [head] ([contents]) behave as a FIFO queue of capacity
    [bufsize - 1]: [ioqueue_getchar] on a non-empty queue returns its
    first character and [ioqueue_putchar] on a non-full queue appends one
    (a refinement of an abstract bounded queue); a call on an empty (full)
    queue blocks the caller as the queue's consumer (producer), holding
    the lock; a character put while a consumer waits wakes it at the head
    of the ready queue; [ioqueue_init] leaves [consumer] as it was. *)

From Stdlib Require Import ZArith Lia String Bool.
From stdpp Require Import base gmap list.
From S2P Require Import Prelude Thread Sync.

Open Scope Z_scope.
Open Scope kernel_scope.

(** ** Data *)

(** [#define bufsize 64] (ioqueue.h). *)
Definition bufsize : Z := 64.

(** [struct ioqueue] (ioqueue.h); [buf] holds the [char]s as integers. *)
Record ioqueue := mk_ioq {
  ioq_lock : lock;
  producer : Z;          (** [struct task_struct*], 0 for NULL *)
  consumer : Z;
  buf : list Z;          (** [char buf[bufsize]] *)
  head : Z;              (** [int32_t] *)
  tail : Z               (** [int32_t] *)
}.

Definition with_ioq_lock (q : ioqueue) (l : lock) : ioqueue :=
  mk_ioq l (producer q) (consumer q) (buf q) (head q) (tail q).
Definition with_producer (q : ioqueue) (p : Z) : ioqueue :=
  mk_ioq (ioq_lock q) p (consumer q) (buf q) (head q) (tail q).
Definition with_consumer (q : ioqueue) (c : Z) : ioqueue :=
  mk_ioq (ioq_lock q) (producer q) c (buf q) (head q) (tail q).

(** Where a blocked call resumes: in its [lock_acquire] (with the flag the
    suspended [sema_down] restores), or after [ioqueue_wait]. *)
Inductive ioq_pc := IoqAcquire (old : intr_status) | IoqRelease.

(** A call returns its result, or is suspended at a point. *)
Inductive ioq_res (A : Type) := IoqDone (a : A) | IoqWait (pc : ioq_pc).
Arguments IoqDone {A} a.
Arguments IoqWait {A} pc.

(** ** Operations *)

(** [ioqueue_init]: the lock, [producer] and the indices; [consumer] is
    not written. *)
Definition ioqueue_init (q : ioqueue) : ioqueue :=
  mk_ioq lock_init 0 (consumer q) (buf q) 0 0.

(** [next_pos]: [(pos + 1) % bufsize], C's truncating remainder. *)
Definition next_pos (pos : Z) : Z := Z.rem (pos + 1) bufsize.

Definition intr_off (s : sched) : bool := if intr s is INTR_OFF then true else false.

(** [ioqueue_full]. *)
Definition ioqueue_full (s : sched) (q : ioqueue) : kres bool :=
  ASSERT intr_off s as "intr_get_status() == INTR_OFF" ;;
  KOk (next_pos (head q) =? tail q).

(** [ioqueue_empty]. *)
Definition ioqueue_empty (s : sched) (q : ioqueue) : kres bool :=
  ASSERT intr_off s as "intr_get_status() == INTR_OFF" ;;
  KOk (head q =? tail q).

(** [ioqueue_wait(waiter)]: the running task is recorded in [*waiter] and
    blocks; the new value of [*waiter] is returned with the state after
    the switch. *)
Definition ioqueue_wait (s : sched) (waiter : Z) : kres (sched * Z) :=
  ASSERT (waiter =? 0) as "*waiter == NULL && waiter != NULL" ;;
  let w := running s in
  s1 <- thread_block s TASK_BLOCKED ;;
  KOk (s1, w).

(** [wakeup(waiter)]. *)
Definition wakeup (s : sched) (waiter : Z) : kres (sched * Z) :=
  ASSERT negb (waiter =? 0) as "*waiter != NULL" ;;
  s1 <- thread_unblock s waiter ;;
  KOk (s1, 0).

(** ** [ioqueue_getchar] *)

(** Past the loop: read at [tail], advance it, wake a waiting producer. *)
Definition getchar_take (s : sched) (q : ioqueue) : kres (Z * sched * ioqueue) :=
  let byte := default 0 (buf q !! Z.to_nat (tail q)) in
  let q1 := mk_ioq (ioq_lock q) (producer q) (consumer q) (buf q) (head q) (next_pos (tail q)) in
  if negb (producer q1 =? 0) then
    let* (s1, p) := wakeup s (producer q1) in KOk (byte, s1, with_producer q1 p)
  else KOk (byte, s, q1).

(** The loop body once the lock is held: wait as the consumer. *)
Definition getchar_wait (s : sched) (q : ioqueue) : kres (ioq_res Z * sched * ioqueue) :=
  let* (s1, w) := ioqueue_wait s (consumer q) in
  KOk (IoqWait IoqRelease, s1, with_consumer q w).

(** The lock of the loop body, taken or waited for. *)
Definition getchar_locked (s : sched) (q : ioqueue) (r : bool * sched * lock)
  (old : intr_status) : kres (ioq_res Z * sched * ioqueue) :=
  let '(done, s1, l1) := r in
  if done then getchar_wait s1 (with_ioq_lock q l1)
  else KOk (IoqWait (IoqAcquire old), s1, with_ioq_lock q l1).

(** The test of the loop, and what follows it. *)
Definition getchar_test (s : sched) (q : ioqueue) : kres (ioq_res Z * sched * ioqueue) :=
  e <- ioqueue_empty s q ;;
  if e then r <- lock_acquire s (ioq_lock q) ;; getchar_locked s q r (intr s)
  else let* (b, s1, q1) := getchar_take s q in KOk (IoqDone b, s1, q1).

Definition ioqueue_getchar (s : sched) (q : ioqueue) : kres (ioq_res Z * sched * ioqueue) :=
  ASSERT intr_off s as "intr_get_status() == INTR_OFF" ;;
  getchar_test s q.

(** A suspended [ioqueue_getchar], run again by its task. *)
Definition getchar_resume (pc : ioq_pc) (s : sched) (q : ioqueue) : kres (ioq_res Z * sched * ioqueue) :=
  match pc with
  | IoqAcquire old => r <- lock_acquire_resume s (ioq_lock q) old ;; getchar_locked s q r old
  | IoqRelease => let* (s1, l1) := lock_release s (ioq_lock q) in getchar_test s1 (with_ioq_lock q l1)
  end.

(** ** [ioqueue_putchar] *)

(** Past the loop: write at [head], advance it, wake a waiting consumer. *)
Definition putchar_put (s : sched) (q : ioqueue) (byte : Z) : kres (sched * ioqueue) :=
  let q1 := mk_ioq (ioq_lock q) (producer q) (consumer q) (<[Z.to_nat (head q) := byte]> (buf q))
                   (next_pos (head q)) (tail q) in
  if negb (consumer q1 =? 0) then
    let* (s1, c) := wakeup s (consumer q1) in KOk (s1, with_consumer q1 c)
  else KOk (s, q1).

Definition putchar_wait (s : sched) (q : ioqueue) : kres (ioq_res unit * sched * ioqueue) :=
  let* (s1, w) := ioqueue_wait s (producer q) in
  KOk (IoqWait IoqRelease, s1, with_producer q w).

Definition putchar_locked (s : sched) (q : ioqueue) (r : bool * sched * lock)
  (old : intr_status) : kres (ioq_res unit * sched * ioqueue) :=
  let '(done, s1, l1) := r in
  if done then putchar_wait s1 (with_ioq_lock q l1)
  else KOk (IoqWait (IoqAcquire old), s1, with_ioq_lock q l1).

Definition putchar_test (s : sched) (q : ioqueue) (byte : Z) : kres (ioq_res unit * sched * ioqueue) :=
  f <- ioqueue_full s q ;;
  if f then r <- lock_acquire s (ioq_lock q) ;; putchar_locked s q r (intr s)
  else let* (s1, q1) := putchar_put s q byte in KOk (IoqDone tt, s1, q1).

Definition ioqueue_putchar (s : sched) (q : ioqueue) (byte : Z) : kres (ioq_res unit * sched * ioqueue) :=
  ASSERT intr_off s as "intr_get_status() == INTR_OFF" ;;
  putchar_test s q byte.

Definition putchar_resume (pc : ioq_pc) (s : sched) (q : ioqueue) (byte : Z)
  : kres (ioq_res unit * sched * ioqueue) :=
  match pc with
  | IoqAcquire old => r <- lock_acquire_resume s (ioq_lock q) old ;; putchar_locked s q r old
  | IoqRelease => let* (s1, l1) := lock_release s (ioq_lock q) in putchar_test s1 (with_ioq_lock q l1) byte
  end.

(** ** The queue a buffer holds *)

(** The characters of [n] slots from [pos], following [next_pos]. *)
Fixpoint ring (b : list Z) (pos : Z) (n : nat) : list Z :=
  match n with
  | O => []
  | S n' => default 0 (b !! Z.to_nat pos) :: ring b (next_pos pos) n'
  end.

(** The number of characters between [tail] and [head]. *)
Definition count (q : ioqueue) : Z := (head q - tail q) mod bufsize.

Definition contents (q : ioqueue) : list Z := ring (buf q) (tail q) (Z.to_nat (count q)).

(** The buffer has its [bufsize] slots and both indices are in it. *)
Definition ioq_wf (q : ioqueue) : Prop :=
  length (buf q) = Z.to_nat bufsize /\ 0 <= head q < bufsize /\ 0 <= tail q < bufsize.

(** The slot [i] places after [pos]. *)
Definition slot (b : list Z) (pos : Z) (i : nat) : Z :=
  default 0 (b !! Z.to_nat ((pos + Z.of_nat i) mod bufsize)).

(** The abstract bounded queue of capacity [bufsize - 1]. *)
Definition aq_get (l : list Z) : option (Z * list Z) :=
  match l with [] => None | x :: r => Some (x, r) end.

Definition aq_put (l : list Z) (x : Z) : option (list Z) :=
  if Z.of_nat (length l) <? bufsize - 1 then Some (l ++ [x]) else None.

(** ** Concrete queues *)

(** The keyboard's queue holding ['a'] and ['b'], on the scheduler of
    [Thread] inside an interrupt handler (interrupts off). *)
Definition kbd_sched : sched := with_intr demo_sched INTR_OFF.

Definition kbd_ab : ioqueue := mk_ioq lock_init 0 0 (<[0%nat := 97]> (<[1%nat := 98]> (repeat 0 64))) 2 0.

Definition kbd_empty (consumer_ : Z) : ioqueue := mk_ioq lock_init 0 consumer_ (repeat 0 64) 5 5.

(** ** Positions *)

(** Case on every comparison of the context and the goal. *)
Ltac leb_cases :=
  repeat match goal with
         | H : context [?a <=? ?b] |- _ => destruct (Z.leb_spec a b)
         | |- context [?a <=? ?b] => destruct (Z.leb_spec a b)
         | H : context [?a <? ?b] |- _ => destruct (Z.ltb_spec a b)
         | |- context [?a <? ?b] => destruct (Z.ltb_spec a b)
         end.

Lemma next_pos_mod (pos : Z) : 0 <= pos -> next_pos pos = (pos + 1) mod bufsize.
Proof. intros H. unfold next_pos. apply Z.rem_mod_nonneg; unfold bufsize; lia. Qed.

Lemma count_range (q : ioqueue) : 0 <= count q < bufsize.
Proof. unfold count. apply Z.mod_pos_bound. unfold bufsize. lia. Qed.

Lemma ring_length (b : list Z) (pos : Z) (n : nat) : length (ring b pos n) = n.
Proof. revert pos. induction n; intros pos; simpl; auto. Qed.

(** [next_pos] moves one slot along the ring. *)
Lemma next_pos_shift (pos k : Z) : 0 <= pos -> (next_pos pos + k) mod bufsize = (pos + (k + 1)) mod bufsize.
Proof.
  intros H. rewrite next_pos_mod by lia. rewrite Zplus_mod_idemp_l. f_equal. lia.
Qed.

Lemma ring_map (b : list Z) (pos : Z) (n : nat) :
  0 <= pos < bufsize -> ring b pos n = map (slot b pos) (seq 0 n).
Proof.
  revert pos. induction n as [| n IH]; intros pos Hp; [reflexivity |].
  cbn [ring seq map]. rewrite IH.
  2: { rewrite next_pos_mod by lia. apply Z.mod_pos_bound. unfold bufsize. lia. }
  unfold slot at 2. rewrite Z.add_0_r, Z.mod_small by exact Hp. f_equal.
  rewrite <- seq_shift, map_map. apply map_ext. intros i. unfold slot.
  rewrite next_pos_shift by lia. do 3 f_equal. lia.
Qed.

Lemma ring_snoc (b : list Z) (pos : Z) (n : nat) :
  0 <= pos < bufsize -> ring b pos (S n) = ring b pos n ++ [slot b pos n].
Proof. intros Hp. rewrite !ring_map by exact Hp. rewrite seq_S, map_app. reflexivity. Qed.

Lemma ring_insert_other (b : list Z) (pos h x : Z) (n : nat) :
  0 <= pos < bufsize -> 0 <= h ->
  (forall i, (i < n)%nat -> (pos + Z.of_nat i) mod bufsize <> h) ->
  ring (<[Z.to_nat h := x]> b) pos n = ring b pos n.
Proof.
  intros Hp Hh Hne. rewrite !ring_map by exact Hp. apply map_ext_in. intros i Hi.
  apply list_elem_of_In, elem_of_seq in Hi. unfold slot.
  pose proof (Z.mod_pos_bound (pos + Z.of_nat i) bufsize ltac:(unfold bufsize; lia)).
  rewrite list_lookup_insert_ne; [reflexivity |].
  intros E. apply (Hne i); [lia |]. apply Z2Nat.inj in E; lia.
Qed.

Lemma next_pos_cases (p : Z) :
  0 <= p < bufsize -> (p < bufsize - 1 /\ next_pos p = p + 1) \/ (p = bufsize - 1 /\ next_pos p = 0).
Proof.
  intros Hp. rewrite next_pos_mod by lia. unfold bufsize in *.
  destruct (Z.eq_dec p 63) as [-> | Hne]; [right; split; reflexivity |].
  left. split; [lia | apply Z.mod_small; lia].
Qed.

Lemma count_cases (q : ioqueue) :
  ioq_wf q -> count q = if Z.leb (tail q) (head q) then head q - tail q else head q - tail q + bufsize.
Proof.
  intros (_ & Hh & Ht). unfold count, bufsize in *. destruct (Z.leb_spec (tail q) (head q)).
  - apply Z.mod_small. lia.
  - rewrite <- (Z.mod_add _ 1) by lia. apply Z.mod_small. lia.
Qed.

(** The tests of the loops read the number of characters. *)
Lemma ioq_tests (q : ioqueue) :
  ioq_wf q ->
  (head q =? tail q) = (count q =? 0) /\ (next_pos (head q) =? tail q) = (count q =? bufsize - 1).
Proof.
  intros Hw. pose proof (count_cases q Hw) as Hc. pose proof Hw as (_ & Hh & Ht).
  destruct (next_pos_cases (head q) Hh) as [[Hl ->] | [Hl ->]]; unfold bufsize in *;
    destruct (Z.leb_spec (tail q) (head q)); split;
    repeat match goal with |- context [?a =? ?b] => destruct (Z.eqb_spec a b) end; lia.
Qed.

Lemma contents_length (q : ioqueue) : length (contents q) = Z.to_nat (count q).
Proof. apply ring_length. Qed.

(** Reading at [tail] takes the first character. *)
Lemma contents_take (q : ioqueue) :
  ioq_wf q -> count q <> 0 ->
  let q1 := mk_ioq (ioq_lock q) (producer q) (consumer q) (buf q) (head q) (next_pos (tail q)) in
  contents q = default 0 (buf q !! Z.to_nat (tail q)) :: contents q1 /\ ioq_wf q1.
Proof.
  intros Hw Hc q1. pose proof Hw as (Hl & Hh & Ht).
  assert (Hw1 : ioq_wf q1)
    by (unfold q1, ioq_wf; cbn; split; [exact Hl | split; [exact Hh |]];
        destruct (next_pos_cases (tail q) Ht) as [[? ->] | [? ->]]; unfold bufsize in *; lia).
  pose proof (count_cases q Hw) as Hc0. pose proof (count_cases q1 Hw1) as Hc1.
  assert (E : Z.to_nat (count q) = S (Z.to_nat (count q1))).
  { change (head q1) with (head q) in Hc1. change (tail q1) with (next_pos (tail q)) in Hc1.
    pose proof (count_range q).
    destruct (next_pos_cases (tail q) Ht) as [[? E] | [? E]]; rewrite E in Hc1; unfold bufsize in *;
      leb_cases; lia. }
  split; [| exact Hw1]. unfold contents at 1. rewrite E. reflexivity.
Qed.

Lemma mod_ring (x : Z) : 0 <= x < 2 * bufsize -> x mod bufsize = if x <? bufsize then x else x - bufsize.
Proof.
  unfold bufsize. intros Hx. destruct (Z.ltb_spec x 64); [apply Z.mod_small; lia |].
  rewrite <- (Z.mod_add _ (-1)) by lia. apply Z.mod_small. lia.
Qed.

(** Writing at [head] of a queue that is not full appends a character. *)
Lemma contents_put (q : ioqueue) (x : Z) :
  ioq_wf q -> count q <> bufsize - 1 ->
  let q1 := mk_ioq (ioq_lock q) (producer q) (consumer q) (<[Z.to_nat (head q) := x]> (buf q))
                   (next_pos (head q)) (tail q) in
  contents q1 = contents q ++ [x] /\ ioq_wf q1.
Proof.
  intros Hw Hc q1. pose proof Hw as (Hl & Hh & Ht).
  assert (Hw1 : ioq_wf q1)
    by (unfold q1, ioq_wf; cbn; rewrite length_insert; split; [exact Hl | split; [| exact Ht]];
        destruct (next_pos_cases (head q) Hh) as [[? ->] | [? ->]]; unfold bufsize in *; lia).
  pose proof (count_cases q Hw) as Hc0. pose proof (count_cases q1 Hw1) as Hc1. pose proof (count_range q).
  assert (E : Z.to_nat (count q1) = S (Z.to_nat (count q))).
  { change (head q1) with (next_pos (head q)) in Hc1. change (tail q1) with (tail q) in Hc1.
    destruct (next_pos_cases (head q) Hh) as [[? E] | [? E]]; rewrite E in Hc1; unfold bufsize in *;
      leb_cases; lia. }
  assert (Hpos : (tail q + count q) mod bufsize = head q)
    by (rewrite mod_ring; unfold bufsize in *; destruct (Z.leb_spec (tail q) (head q)), (Z.ltb_spec (tail q + count q) 64); lia).
  split; [| exact Hw1]. unfold contents. rewrite E. cbn [buf tail q1].
  rewrite ring_snoc by exact Ht. f_equal.
  - apply ring_insert_other; [exact Ht | lia |]. intros i Hi.
    rewrite mod_ring by (unfold bufsize in *; lia). unfold bufsize in *.
    destruct (Z.leb_spec (tail q) (head q)), (Z.ltb_spec (tail q + Z.of_nat i) 64); lia.
  - unfold slot. rewrite Z2Nat.id by lia. rewrite Hpos, list_lookup_insert_eq; [reflexivity |].
    rewrite Hl. unfold bufsize in *. lia.
Qed.

Lemma intr_off_true (s : sched) : intr s = INTR_OFF -> intr_off s = true.
Proof. unfold intr_off. intros ->. reflexivity. Qed.

(** On a queue that is not full, [ioqueue_putchar] skips its loop and
    stores the character. *)
Lemma putchar_not_full (s : sched) (q : ioqueue) (x : Z) :
  ioq_wf q -> intr s = INTR_OFF -> count q <> bufsize - 1 ->
  ioqueue_putchar s q x = (let* (s1, q1) := putchar_put s q x in KOk (IoqDone tt, s1, q1)).
Proof.
  intros Hw Hi Hn. unfold ioqueue_putchar, putchar_test, ioqueue_full. rewrite intr_off_true by exact Hi.
  rewrite (proj2 (ioq_tests q Hw)), (proj2 (Z.eqb_neq _ _) Hn). reflexivity.
Qed.

(** Storing a character appends it to the queue and wakes a sleeping
    consumer, which must be blocked. *)
Lemma putchar_put_spec (s : sched) (q : ioqueue) (x : Z) :
  sched_inv s -> ioq_wf q -> count q <> bufsize - 1 ->
  (consumer q = 0 \/ status (get_task s (consumer q)) = TASK_BLOCKED) ->
  exists s1 q1, putchar_put s q x = KOk (s1, q1) /\ contents q1 = contents q ++ [x] /\ ioq_wf q1 /\
    sched_inv s1 /\ running s1 = running s /\ intr s1 = intr s /\ consumer q1 = 0.
Proof.
  intros Hinv Hw Hn Hc. destruct (contents_put q x Hw Hn) as [Ec Hw1]. unfold putchar_put. cbn [consumer].
  destruct (Z.eqb_spec (consumer q) 0) as [E | E]; cbn [negb].
  - eexists _, _. split; [reflexivity |]. split; [exact Ec |]. split; [exact Hw1 |]. split; [exact Hinv |]. split; [| split]; auto.
  - destruct Hc as [Hc | Hb]; [contradiction |]. unfold wakeup.
    rewrite (proj2 (Z.eqb_neq _ _) E). cbn [negb].
    destruct (thread_unblock_ok s (consumer q) Hinv) as (s' & Hu & Hinv' & _ & _ & Hrun & Hi');
      [rewrite Hb; reflexivity |].
    rewrite Hu. cbn [kbind]. eexists _, _. split; [reflexivity |]. split; [exact Ec |]. split; [exact Hw1 |]. auto.
Qed.

(** ** The queue refines a bounded FIFO queue *)

(** C11 (refinement) With no producer waiting, [ioqueue_getchar] on a
    well-formed buffer whose characters form a non-empty queue returns
    the queue's first character without blocking and leaves the rest of
    the queue: it implements [aq_get] of the abstract queue. *)
Theorem ioqueue_getchar_refines (s : sched) (q : ioqueue) (x : Z) (r : list Z) :
  ioq_wf q -> intr s = INTR_OFF -> producer q = 0 -> aq_get (contents q) = Some (x, r) ->
  exists q', ioqueue_getchar s q = KOk (IoqDone x, s, q') /\ ioq_wf q' /\ contents q' = r /\
    producer q' = 0 /\ consumer q' = consumer q /\ ioq_lock q' = ioq_lock q.
Proof.
  intros Hw Hi Hp Hg.
  assert (Hc : count q <> 0).
  { intros H0. pose proof (contents_length q) as L. rewrite H0 in L.
    destruct (contents q); [discriminate | discriminate L]. }
  destruct (contents_take q Hw Hc) as [Ec Hw1]. rewrite Ec in Hg. injection Hg as <- <-.
  unfold ioqueue_getchar, getchar_test, ioqueue_empty, getchar_take. rewrite intr_off_true by exact Hi.
  rewrite (proj1 (ioq_tests q Hw)), (proj2 (Z.eqb_neq _ _) Hc). cbn. rewrite Hp. cbn.
  eexists. split; [reflexivity |]. cbn. auto.
Qed.

(** C12 (refinement) With no consumer waiting, [ioqueue_putchar] on a
    well-formed buffer holding fewer than [bufsize - 1] characters appends
    the character without blocking: it implements [aq_put]. *)
Theorem ioqueue_putchar_refines (s : sched) (q : ioqueue) (x : Z) (l' : list Z) :
  ioq_wf q -> intr s = INTR_OFF -> consumer q = 0 -> aq_put (contents q) x = Some l' ->
  exists q', ioqueue_putchar s q x = KOk (IoqDone tt, s, q') /\ ioq_wf q' /\ contents q' = l' /\
    producer q' = producer q /\ consumer q' = 0 /\ ioq_lock q' = ioq_lock q.
Proof.
  intros Hw Hi Hc Hput. unfold aq_put in Hput. rewrite contents_length in Hput.
  pose proof (count_range q) as Hr. rewrite Z2Nat.id in Hput by lia.
  destruct (Z.ltb_spec (count q) (bufsize - 1)) as [Hlt |]; [| discriminate]. injection Hput as <-.
  assert (Hn : count q <> bufsize - 1) by lia.
  destruct (contents_put q x Hw Hn) as [Ec Hw1].
  unfold ioqueue_putchar, putchar_test, ioqueue_full, putchar_put. rewrite intr_off_true by exact Hi.
  rewrite (proj2 (ioq_tests q Hw)), (proj2 (Z.eqb_neq _ _) Hn). cbn. rewrite Hc. cbn.
  eexists. split; [reflexivity |]. auto.
Qed.

(** The buffer of [bufsize] slots holds at most [bufsize - 1]
    characters: [ioqueue_full] holds exactly when the queue has
    [bufsize - 1] of them, and [ioqueue_empty] exactly when it has none. *)
Theorem ioqueue_capacity (s : sched) (q : ioqueue) :
  ioq_wf q -> intr s = INTR_OFF ->
  ioqueue_full s q = KOk (Z.of_nat (length (contents q)) =? bufsize - 1) /\
  ioqueue_empty s q = KOk (Z.of_nat (length (contents q)) =? 0) /\
  Z.of_nat (length (contents q)) <= bufsize - 1.
Proof.
  intros Hw Hi. rewrite contents_length, Z2Nat.id by apply count_range.
  unfold ioqueue_full, ioqueue_empty. rewrite intr_off_true by exact Hi.
  rewrite (proj1 (ioq_tests q Hw)), (proj2 (ioq_tests q Hw)).
  pose proof (count_range q). unfold bufsize in *. repeat split; lia.
Qed.

(** ** Blocking and waking *)

Lemma contents_empty (q : ioqueue) : contents q = [] -> count q = 0.
Proof.
  intros H. pose proof (contents_length q) as L. rewrite H in L. pose proof (count_range q). simpl in L. lia.
Qed.

(** [ioqueue_getchar] on an empty buffer, with the queue's
    lock free and another task ready, takes the lock, records the caller
    as the queue's consumer and blocks it: the caller is [BLOCKED], holds
    the lock while it sleeps, and the head of the ready queue runs. *)
Theorem ioqueue_getchar_empty_blocks (s : sched) (q : ioqueue) :
  sched_inv s -> ioq_wf q -> intr s = INTR_OFF -> contents q = [] -> consumer q = 0 ->
  running s <> 0 -> holder (ioq_lock q) = 0 -> holder_repeat_nr (ioq_lock q) = 0 ->
  value (lsema (ioq_lock q)) = 1 -> ready s <> [] ->
  exists s' q', ioqueue_getchar s q = KOk (IoqWait IoqRelease, s', q') /\
    consumer q' = running s /\ holder (ioq_lock q') = running s /\ contents q' = [] /\
    sched_inv s' /\ running s' = hd (idle_thread s) (ready s) /\
    status (get_task s' (running s)) = TASK_BLOCKED.
Proof.
  intros Hinv Hw Hi He Hc Hr0 Hh Hn Hv Hne. pose proof Hinv as (((Hq & _) & _) & Hr).
  unfold ioqueue_getchar, getchar_test, ioqueue_empty. rewrite intr_off_true by exact Hi.
  rewrite (proj1 (ioq_tests q Hw)), (contents_empty q He). cbn [kbind Z.eqb].
  rewrite (lock_acquire_free s (ioq_lock q)) by assumption. cbn [kbind getchar_locked].
  unfold getchar_wait, ioqueue_wait. cbn [consumer with_ioq_lock]. rewrite Hc. cbn [Z.eqb kbind].
  destruct (thread_block_spec s TASK_BLOCKED Hinv eq_refl) as (s' & Hb & Hinv' & Hrun & _ & _ & Hst & _).
  rewrite Hb. cbn [kbind]. eexists _, _. split; [reflexivity |].
  do 2 (split; [reflexivity |]). split; [exact He |]. split; [exact Hinv' |]. split; [exact Hrun |].
  pose proof (running_not_queued s (running s) (proj1 (proj1 Hinv)) Hr) as Hnq.
  rewrite Hst; [case_decide; congruence | exact Hnq |].
  destruct (ready s) as [| t rest] eqn:Er; [congruence |]. cbn. intros E. apply Hnq. rewrite ?Er, E. left.
Qed.

(** A character put while a consumer sleeps on the queue
    is appended and wakes the consumer: it goes to the head of the ready
    queue as [READY], the field is reset, and the caller keeps running. *)
Theorem ioqueue_putchar_wakes_consumer (s : sched) (q : ioqueue) (x c : Z) :
  sched_inv s -> ioq_wf q -> intr s = INTR_OFF -> count q <> bufsize - 1 ->
  consumer q = c -> c <> 0 -> status (get_task s c) = TASK_BLOCKED ->
  exists s' q', ioqueue_putchar s q x = KOk (IoqDone tt, s', q') /\
    contents q' = contents q ++ [x] /\ consumer q' = 0 /\ ready s' = c :: ready s /\
    status (get_task s' c) = TASK_READY /\ running s' = running s /\ sched_inv s'.
Proof.
  intros Hinv Hw Hi Hn Hc Hc0 Hb.
  destruct (contents_put q x Hw Hn) as [Ec _].
  unfold ioqueue_putchar, putchar_test, ioqueue_full, putchar_put, wakeup. rewrite intr_off_true by exact Hi.
  rewrite (proj2 (ioq_tests q Hw)), (proj2 (Z.eqb_neq _ _) Hn). cbn [kbind negb consumer]. rewrite Hc.
  rewrite (proj2 (Z.eqb_neq _ _) Hc0). cbn [negb].
  destruct (thread_unblock_ok s c Hinv) as (s' & Hu & Hinv' & Hready & Hst & Hrun & _); [rewrite Hb; reflexivity |].
  rewrite Hu. cbn [kbind]. eexists _, _. split; [reflexivity |]. split; [exact Ec | auto].
Qed.

(** [ioqueue_init] does not reset [consumer]: on a queue whose
    [consumer] still names a task that is not blocked, the first
    [ioqueue_putchar] after [ioqueue_init] calls [thread_unblock] on that
    task and stops the kernel. *)
Theorem ioqueue_init_stale_consumer_panics (s : sched) (q : ioqueue) (x : Z) :
  intr s = INTR_OFF -> consumer q <> 0 -> blocked_state (status (get_task s (consumer q))) = false ->
  ioqueue_putchar s (ioqueue_init q) x =
    KPanic "((pthread->status == TASK_BLOCKED) || (pthread->status == TASK_WAITING) || (pthread->status == TASK_HANGING))".
Proof.
  intros Hi Hc Hb.
  unfold ioqueue_putchar, putchar_test, ioqueue_full, putchar_put, wakeup, thread_unblock.
  rewrite intr_off_true by exact Hi. cbn [ioqueue_init consumer head tail kbind].
  replace (next_pos 0 =? 0) with false by reflexivity. cbn [kbind negb].
  rewrite (proj2 (Z.eqb_neq _ _) Hc). cbn [negb]. rewrite Hb. reflexivity.
Qed.

(** ** The buffer stays well formed *)

(** Reading and writing keep the buffer well formed, whatever task they
    wake. *)
Lemma getchar_take_wf (s s1 : sched) (q q1 : ioqueue) (b : Z) :
  ioq_wf q -> count q <> 0 -> getchar_take s q = KOk (b, s1, q1) -> ioq_wf q1.
Proof.
  intros Hw Hc H. destruct (contents_take q Hw Hc) as [_ Hw1]. unfold getchar_take in H.
  destruct (negb _).
  - kinv H. destruct a as [s2 p]. by injection Hk as _ _ <-.
  - by injection H as _ _ <-.
Qed.

Lemma putchar_put_wf (s s1 : sched) (q q1 : ioqueue) (x : Z) :
  ioq_wf q -> count q <> bufsize - 1 -> putchar_put s q x = KOk (s1, q1) -> ioq_wf q1.
Proof.
  intros Hw Hc H. destruct (contents_put q x Hw Hc) as [_ Hw1]. unfold putchar_put in H.
  destruct (negb _).
  - kinv H. destruct a as [s2 c]. by injection Hk as _ <-.
  - by injection H as _ <-.
Qed.

Lemma getchar_test_wf (s s' : sched) (q q' : ioqueue) (r : ioq_res Z) :
  ioq_wf q -> getchar_test s q = KOk (r, s', q') -> ioq_wf q'.
Proof.
  intros Hw H. unfold getchar_test, ioqueue_empty in H. destruct (intr_off s); [| discriminate].
  cbn [kbind] in H. rewrite (proj1 (ioq_tests q Hw)) in H. destruct (Z.eqb_spec (count q) 0) as [Hc | Hc].
  - kinv H. destruct a as [[[|] s1] l1]; cbn in Hk.
    + unfold getchar_wait in Hk. kinv Hk. destruct a as [s2 w]. by injection Hk0 as _ _ <-.
    + by injection Hk as _ _ <-.
  - kinv H. destruct a as [[b s1] q1]. injection Hk as _ _ <-. exact (getchar_take_wf _ _ _ _ _ Hw Hc Hr).
Qed.

Lemma putchar_test_wf (s s' : sched) (q q' : ioqueue) (x : Z) (r : ioq_res unit) :
  ioq_wf q -> putchar_test s q x = KOk (r, s', q') -> ioq_wf q'.
Proof.
  intros Hw H. unfold putchar_test, ioqueue_full in H. destruct (intr_off s); [| discriminate].
  cbn [kbind] in H. rewrite (proj2 (ioq_tests q Hw)) in H.
  destruct (Z.eqb_spec (count q) (bufsize - 1)) as [Hc | Hc].
  - kinv H. destruct a as [[[|] s1] l1]; cbn in Hk.
    + unfold putchar_wait in Hk. kinv Hk. destruct a as [s2 w]. by injection Hk0 as _ _ <-.
    + by injection Hk as _ _ <-.
  - kinv H. destruct a as [s1 q1]. injection Hk as _ _ <-. exact (putchar_put_wf _ _ _ _ _ Hw Hc Hr).
Qed.

(** C13 (type) Every operation on a queue keeps the buffer well formed (its
    [bufsize] slots, both indices in range): [ioqueue_getchar] and
    [ioqueue_putchar], and their resumption after blocking, whatever they
    return, block on or wake. *)
Theorem ioqueue_ops_wf (s s' : sched) (q q' : ioqueue) (pc : ioq_pc) (x : Z) (rg : ioq_res Z) (rp : ioq_res unit) :
  ioq_wf q ->
  (ioqueue_getchar s q = KOk (rg, s', q') -> ioq_wf q') /\
  (getchar_resume pc s q = KOk (rg, s', q') -> ioq_wf q') /\
  (ioqueue_putchar s q x = KOk (rp, s', q') -> ioq_wf q') /\
  (putchar_resume pc s q x = KOk (rp, s', q') -> ioq_wf q').
Proof.
  intros Hw. unfold ioqueue_getchar, ioqueue_putchar, getchar_resume, putchar_resume.
  refine (conj _ (conj _ (conj _ _))); intros Hop.
  - destruct (intr_off s); [exact (getchar_test_wf _ _ _ _ _ Hw Hop) | discriminate].
  - destruct pc as [old |]; kinv Hop.
    + destruct a as [[[|] s1] l1]; cbn in Hk.
      * unfold getchar_wait in Hk. kinv Hk. destruct a as [s2 w]. by injection Hk0 as _ _ <-.
      * by injection Hk as _ _ <-.
    + destruct a as [s1 l1]. exact (getchar_test_wf _ _ (with_ioq_lock q l1) _ _ Hw Hk).
  - destruct (intr_off s); [exact (putchar_test_wf _ _ _ _ _ _ Hw Hop) | discriminate].
  - destruct pc as [old |]; kinv Hop.
    + destruct a as [[[|] s1] l1]; cbn in Hk.
      * unfold putchar_wait in Hk. kinv Hk. destruct a as [s2 w]. by injection Hk0 as _ _ <-.
      * by injection Hk as _ _ <-.
    + destruct a as [s1 l1]. exact (putchar_test_wf _ _ (with_ioq_lock q l1) _ _ _ Hw Hk).
Qed.

(** ** Witnesses *)

Lemma kbd_sched_inv : sched_inv kbd_sched.
Proof. apply sched_inv_with_intr, demo_sched_inv. Qed.

Lemma ioqueue_getchar_refines_witness :
  exists q', ioqueue_getchar kbd_sched kbd_ab = KOk (IoqDone 97, kbd_sched, q') /\ ioq_wf q' /\ contents q' = [98] /\
    producer q' = 0 /\ consumer q' = consumer kbd_ab /\ ioq_lock q' = ioq_lock kbd_ab.
Proof. apply ioqueue_getchar_refines; concrete. Defined.

Lemma ioqueue_putchar_refines_witness :
  exists q', ioqueue_putchar kbd_sched kbd_ab 99 = KOk (IoqDone tt, kbd_sched, q') /\ ioq_wf q' /\
    contents q' = [97; 98; 99] /\ producer q' = producer kbd_ab /\ consumer q' = 0 /\ ioq_lock q' = ioq_lock kbd_ab.
Proof. apply ioqueue_putchar_refines; concrete. Defined.

Lemma ioqueue_capacity_witness : ioqueue_full kbd_sched kbd_ab = KOk false.
Proof. rewrite (proj1 (ioqueue_capacity kbd_sched kbd_ab ltac:(concrete) ltac:(concrete))). reflexivity. Defined.

Lemma ioqueue_getchar_empty_blocks_witness :
  exists s' q', ioqueue_getchar kbd_sched (kbd_empty 0) = KOk (IoqWait IoqRelease, s', q') /\
    consumer q' = 0xc009e000 /\ holder (ioq_lock q') = 0xc009e000 /\ contents q' = [] /\
    sched_inv s' /\ running s' = 0xc0102000 /\ status (get_task s' 0xc009e000) = TASK_BLOCKED.
Proof. apply (ioqueue_getchar_empty_blocks kbd_sched (kbd_empty 0)); first [exact kbd_sched_inv | concrete]. Defined.

Lemma ioqueue_putchar_wakes_consumer_witness :
  exists s' q', ioqueue_putchar kbd_sched (kbd_empty 0xc0101000) 97 = KOk (IoqDone tt, s', q') /\
    contents q' = [97] /\ consumer q' = 0 /\ ready s' = [0xc0101000; 0xc0102000] /\
    status (get_task s' 0xc0101000) = TASK_READY /\ running s' = 0xc009e000 /\ sched_inv s'.
Proof. apply (ioqueue_putchar_wakes_consumer kbd_sched (kbd_empty 0xc0101000)); first [exact kbd_sched_inv | concrete]. Defined.

Lemma ioqueue_init_stale_consumer_panics_witness :
  ioqueue_putchar kbd_sched (ioqueue_init (kbd_empty 0xc0102000)) 97 =
    KPanic "((pthread->status == TASK_BLOCKED) || (pthread->status == TASK_WAITING) || (pthread->status == TASK_HANGING))".
Proof. apply ioqueue_init_stale_consumer_panics; concrete. Defined.

Lemma ioqueue_ops_wf_witness :
  ioq_wf (snd (result_or (ioqueue_getchar kbd_sched kbd_ab) (IoqWait IoqRelease, kbd_sched, kbd_ab))).
Proof.
  set (r := result_or (ioqueue_getchar kbd_sched kbd_ab) (IoqWait IoqRelease, kbd_sched, kbd_ab)).
  apply (proj1 (ioqueue_ops_wf kbd_sched (snd (fst r)) kbd_ab (snd r) IoqRelease 0 (fst (fst r)) (IoqDone tt)
                  ltac:(concrete))).
  vm_compute. reflexivity.
Defined.
