(* ===== verification/Keyboard.v ===== *)
(** * Keyboard: the scancode translation of [device/keyboard.c]

    The keyboard interrupt reads one byte of scancode set 1 from port
    [0x60] and turns the make codes of the keys in [keymap] into
    characters, which it puts into the I/O queue [kbd_buf] of [Ioqueue]
    unless the queue is full.  Its state is five [static bool]s: whether
    ctrl, shift and alt are down, whether caps lock is on, and whether the
    previous byte was the prefix [0xe0] of a two-byte code.

    [kbd_decode] is the part of [intr_keyboard_handler] that computes the
    new state and what the handler does with the character (put it, or
    nothing); [intr_keyboard_handler] adds the interrupt gate and the
    calls of [ioqueue_full] and [ioqueue_putchar].  Characters are their
    ASCII codes; the port read is the handler's argument.

    Theorems: the handler puts exactly the decoded character at the tail
    of the queue when there is room and drops it otherwise, never blocks,
    and keeps the queue and the scheduler invariants; a letter comes out
    in upper case exactly when one of shift and caps lock is on, and the
    ctrl shortcuts give the control codes; pressing and releasing a
    modifier restores the state; [alt_status] is never set. *)

From Stdlib Require Import ZArith Lia String Ascii Bool.
From stdpp Require Import base gmap list.
From S2P Require Import Prelude Thread Sync Ioqueue.

Open Scope Z_scope.
Open Scope kernel_scope.

(** ** Data *)

(** A character constant as its code: ['a'] is [ch "a"]. *)
Definition ch (a : ascii) : Z := Z.of_nat (nat_of_ascii a).

(** The control characters of the [#define]s: [esc] is ['\033'],
    [backspace] ['\b'], [tab] ['\t'], [enter] ['\r'], [delete] ['\117'];
    every invisible key is [char_invisible], 0. *)
Definition esc : Z := 27.
Definition backspace : Z := 8.
Definition tab : Z := 9.
Definition enter : Z := 13.
Definition delete : Z := 79.
Definition char_invisible : Z := 0.

(** The make and break codes of the modifier keys. *)
Definition shift_l_make : Z := 0x2a.
Definition shift_r_make : Z := 0x36.
Definition alt_l_make : Z := 0x38.
Definition alt_r_make : Z := 0xe038.
Definition alt_r_break : Z := 0xe0b8.
Definition ctrl_l_make : Z := 0x1d.
Definition ctrl_r_make : Z := 0xe01d.
Definition ctrl_r_break : Z := 0xe09d.
Definition caps_lock_make : Z := 0x3a.

(** The five [static bool]s of keyboard.c. *)
Record kbd_state := mk_kbd {
  ctrl_status : bool;
  shift_status : bool;
  alt_status : bool;
  caps_lock_status : bool;
  ext_scancode : bool
}.

Definition with_ctrl (k : kbd_state) (b : bool) : kbd_state :=
  mk_kbd b (shift_status k) (alt_status k) (caps_lock_status k) (ext_scancode k).
Definition with_shift (k : kbd_state) (b : bool) : kbd_state :=
  mk_kbd (ctrl_status k) b (alt_status k) (caps_lock_status k) (ext_scancode k).
Definition with_alt (k : kbd_state) (b : bool) : kbd_state :=
  mk_kbd (ctrl_status k) (shift_status k) b (caps_lock_status k) (ext_scancode k).
Definition with_caps (k : kbd_state) (b : bool) : kbd_state :=
  mk_kbd (ctrl_status k) (shift_status k) (alt_status k) b (ext_scancode k).
Definition with_ext (k : kbd_state) (b : bool) : kbd_state :=
  mk_kbd (ctrl_status k) (shift_status k) (alt_status k) (caps_lock_status k) b.

(** [keymap], indexed by make code: the character without and with shift. *)
Definition keymap : list (Z * Z) := [
  (* 0x00 *) (0, 0);                 (esc, esc);
  (* 0x02 *) (ch "1", ch "!");       (ch "2", ch "@");     (ch "3", ch "#");     (ch "4", ch "$");
  (* 0x06 *) (ch "5", ch "%");       (ch "6", ch "^");     (ch "7", ch "&");     (ch "8", ch "*");
  (* 0x0A *) (ch "9", ch "(");       (ch "0", ch ")");     (ch "-", ch "_");     (ch "=", ch "+");
  (* 0x0E *) (backspace, backspace); (tab, tab);
  (* 0x10 *) (ch "q", ch "Q");       (ch "w", ch "W");     (ch "e", ch "E");     (ch "r", ch "R");
  (* 0x14 *) (ch "t", ch "T");       (ch "y", ch "Y");     (ch "u", ch "U");     (ch "i", ch "I");
  (* 0x18 *) (ch "o", ch "O");       (ch "p", ch "P");     (ch "[", ch "{");     (ch "]", ch "}");
  (* 0x1C *) (enter, enter);         (char_invisible, char_invisible);
  (* 0x1E *) (ch "a", ch "A");       (ch "s", ch "S");     (ch "d", ch "D");     (ch "f", ch "F");
  (* 0x22 *) (ch "g", ch "G");       (ch "h", ch "H");     (ch "j", ch "J");     (ch "k", ch "K");
  (* 0x26 *) (ch "l", ch "L");       (ch ";", ch ":");     (ch "'", ch "034");   (ch "`", ch "~");
  (* 0x2A *) (char_invisible, char_invisible);             (ch "\", ch "|");
  (* 0x2C *) (ch "z", ch "Z");       (ch "x", ch "X");     (ch "c", ch "C");     (ch "v", ch "V");
  (* 0x30 *) (ch "b", ch "B");       (ch "n", ch "N");     (ch "m", ch "M");     (ch ",", ch "<");
  (* 0x34 *) (ch ".", ch ">");       (ch "/", ch "?");     (char_invisible, char_invisible);
  (* 0x37 *) (ch "*", ch "*");       (char_invisible, char_invisible);
  (* 0x39 *) (ch " ", ch " ");       (char_invisible, char_invisible)
].

(** [keymap[index][shift]]; the handler only reads rows below [0x3b]. *)
Definition keymap_at (index : Z) (shift : bool) : Z :=
  let '(c0, c1) := nth (Z.to_nat index) keymap (0, 0) in if shift then c1 else c0.

(** What the handler does after decoding a byte. *)
Inductive kbd_action := KbdNothing | KbdPut (c : Z) | KbdUnknown.

(** ** The handler *)

(** The keys whose shifted character ignores caps lock: the digits, ['-'],
    ['='], and the punctuation keys the code lists. *)
Definition shift_only_key (scancode : Z) : bool :=
  (scancode <? 0x0e) || (scancode =? 0x29) || (scancode =? 0x1a) || (scancode =? 0x1b) ||
  (scancode =? 0x2b) || (scancode =? 0x27) || (scancode =? 0x28) || (scancode =? 0x33) ||
  (scancode =? 0x34) || (scancode =? 0x35).

(** The break-code branch: releasing a modifier clears its flag. *)
Definition kbd_break (k : kbd_state) (make_code : Z) : kbd_state :=
  if (make_code =? ctrl_l_make) || (make_code =? ctrl_r_make) then with_ctrl k false
  else if (make_code =? shift_l_make) || (make_code =? shift_r_make) then with_shift k false
  else if (make_code =? alt_l_make) || (make_code =? alt_r_make) then with_alt k false
  else k.

(** The end of the make-code branch for a key without a character. *)
Definition kbd_modifier (k : kbd_state) (scancode : Z) : kbd_state :=
  if (scancode =? ctrl_l_make) || (scancode =? ctrl_r_make) then with_ctrl k true
  else if (scancode =? shift_l_make) || (scancode =? shift_r_make) then with_shift k true
  else if scancode =? caps_lock_make then with_caps k (negb (caps_lock_status k))
  else k.

(** [intr_keyboard_handler] up to the queue: the new state and the
    action.  [data] is the byte [inb(KBD_BUF_PORT)] returns; the flags
    [*_last] are those of [k], which the code reads before any change. *)
Definition kbd_decode (k : kbd_state) (data : Z) : kbd_state * kbd_action :=
  let ctrl_down_last := ctrl_status k in
  let shift_down_last := shift_status k in
  let caps_lock_last := caps_lock_status k in
  let scancode := u8 data in
  if scancode =? 0xe0 then (with_ext k true, KbdNothing) else
  let '(scancode, k1) := if ext_scancode k then (Z.lor 0xe000 scancode, with_ext k false)
                         else (scancode, k) in
  let is_break_code := negb (Z.land scancode 0x0080 =? 0) in
  if is_break_code then (kbd_break k1 (Z.land scancode 0xff7f), KbdNothing)
  else if ((0 <? scancode) && (scancode <? 0x3b)) || (scancode =? alt_r_make) || (scancode =? ctrl_r_make) then
    let shift := if shift_only_key scancode then shift_down_last
                 else if shift_down_last && caps_lock_last then false
                 else if shift_down_last || caps_lock_last then true
                 else false in
    let scancode := Z.land scancode 0x00ff in
    let index := u8 scancode in
    let cur_char := keymap_at index shift in
    if negb (cur_char =? 0) then
      let cur_char := if (ctrl_down_last && (cur_char =? ch "l")) || (ctrl_down_last && (cur_char =? ch "u"))
                      then cur_char - ch "a" else cur_char in
      (k1, KbdPut cur_char)
    else (kbd_modifier k1 scancode, KbdNothing)
  else (k1, KbdUnknown).

(** [intr_keyboard_handler], entered through an interrupt gate (the flag
    is clear while it runs); its [iret] restores the interrupted flag.
    The character goes to [kbd_buf] if [ioqueue_full] says there is room;
    the ["unknown key"] message is console output. *)
Definition intr_keyboard_handler (s : sched) (q : ioqueue) (k : kbd_state) (data : Z)
    : kres (sched * ioqueue * kbd_state) :=
  let s0 := with_intr s INTR_OFF in
  let '(k1, act) := kbd_decode k data in
  match act with
  | KbdPut c =>
      full <- ioqueue_full s0 q ;;
      if negb full then
        let* (r, s1, q1) := ioqueue_putchar s0 q c in
        match r with
        | IoqDone _ => KOk (with_intr s1 (intr s), q1, k1)
        | IoqWait _ => KBlock
        end
      else KOk (with_intr s0 (intr s), q, k1)
  | _ => KOk (with_intr s0 (intr s), q, k1)
  end.

(** [keyboard_init]: [ioqueue_init(&kbd_buf)] and the five flags cleared;
    [register_handler] installs the handler in the interrupt table. *)
Definition kbd_released : kbd_state := mk_kbd false false false false false.

Definition keyboard_init (q : ioqueue) : ioqueue * kbd_state := (ioqueue_init q, kbd_released).

(** A byte sequence decoded one interrupt after the other. *)
Fixpoint kbd_feed (k : kbd_state) (data : list Z) : kbd_state * list kbd_action :=
  match data with
  | [] => (k, [])
  | d :: rest => let '(k1, a) := kbd_decode k d in let '(k2, acts) := kbd_feed k1 rest in (k2, a :: acts)
  end.

(** A lower-case letter, and the upper-case letter of a lower-case one,
    as ASCII lays them out. *)
Definition is_lower (c : Z) : bool := (ch "a" <=? c) && (c <=? ch "z").

Definition to_upper (c : Z) : Z := if is_lower c then c - 32 else c.

(** The keyboard as the interrupt sees it: a keyboard interrupt, taken
    when interrupts are on, or any step of the rest of the kernel, which
    may read the queue and schedule but does not touch the five flags. *)
Inductive kbd_step : sched * ioqueue * kbd_state -> sched * ioqueue * kbd_state -> Prop :=
| kbd_irq s q k data s' q' k' :
    intr s = INTR_ON -> intr_keyboard_handler s q k data = KOk (s', q', k') ->
    kbd_step (s, q, k) (s', q', k')
| kbd_other s q k s' q' : kbd_step (s, q, k) (s', q', k).

(** ** The key table *)

(** Facts of the rows [0 .. 0x3a] the handler reads, checked row by row:
    a make code below [0x80] is not a break code and survives the masks;
    a row whose unshifted character is a lower-case letter has its upper
    case as shifted character and follows caps lock; the other visible
    rows that follow caps lock have the same character in both columns. *)
Lemma keymap_rows (sc : Z) :
  0 <= sc < 0x3b ->
  u8 sc = sc /\ Z.land sc 0x0080 = 0 /\ Z.land sc 0x00ff = sc /\
  (is_lower (keymap_at sc false) = true ->
     0 < sc /\ shift_only_key sc = false /\ keymap_at sc true = to_upper (keymap_at sc false)).
Proof.
  apply (forall_range (fun sc => u8 sc = sc /\ Z.land sc 0x0080 = 0 /\ Z.land sc 0x00ff = sc /\
    (is_lower (keymap_at sc false) = true ->
       0 < sc /\ shift_only_key sc = false /\ keymap_at sc true = to_upper (keymap_at sc false)))).
  vm_compute. reflexivity.
Qed.

Lemma is_lower_upper (c : Z) : is_lower c = true -> to_upper c = c - 32 /\ 0 < c - 32 /\ 0 < c.
Proof.
  unfold to_upper. intros H. rewrite H. unfold is_lower in H.
  apply andb_true_iff in H as [H1 H2]. apply Z.leb_le in H1, H2.
  change (ch "a") with 97 in H1. change (ch "z") with 122 in H2. lia.
Qed.

(** ** The handler *)

(** A make code below [0x3b], with no [0xe0] before it. *)
Lemma kbd_decode_make (k : kbd_state) (sc : Z) :
  ext_scancode k = false -> 0 < sc < 0x3b ->
  kbd_decode k sc =
    (let shift := if shift_only_key sc then shift_status k
                  else if shift_status k && caps_lock_status k then false
                  else if shift_status k || caps_lock_status k then true else false in
     let cur_char := keymap_at sc shift in
     if negb (cur_char =? 0) then
       (k, KbdPut (if (ctrl_status k && (cur_char =? ch "l")) || (ctrl_status k && (cur_char =? ch "u"))
                   then cur_char - ch "a" else cur_char))
     else (kbd_modifier k sc, KbdNothing)).
Proof.
  intros He Hsc. destruct (keymap_rows sc ltac:(lia)) as (Hu & Hb & Hm & _).
  unfold kbd_decode. rewrite Hu, He, Hb, Hm, Hu. cbn [negb Z.eqb].
  replace (sc =? 0xe0) with false by lia. replace ((0 <? sc) && (sc <? 0x3b)) with true by lia.
  reflexivity.
Qed.

(** The handler's new flags are those [kbd_decode] computes. *)
Lemma intr_keyboard_handler_state (s s' : sched) (q q' : ioqueue) (k k' : kbd_state) (data : Z) :
  intr_keyboard_handler s q k data = KOk (s', q', k') -> k' = fst (kbd_decode k data).
Proof.
  unfold intr_keyboard_handler. destruct (kbd_decode k data) as [k1 a]. cbn [fst]. intros H.
  destruct a as [| c |]; try (injection H as <- <- <-; reflexivity).
  kinv H. destruct a; cbn [negb] in Hk; [injection Hk as <- <- <-; reflexivity |].
  kinv Hk. destruct a as [[[] s1] q1]; [injection Hk0 as <- <- <-; reflexivity | discriminate].
Qed.

(** No byte sets [alt_status]. *)
Lemma kbd_decode_alt (k : kbd_state) (data : Z) :
  alt_status k = false -> alt_status (fst (kbd_decode k data)) = false.
Proof.
  intros Ha. unfold kbd_decode, kbd_break, kbd_modifier.
  destruct k as [c sh a cl e]; cbn in Ha |- *; subst a.
  destruct (u8 data =? 0xe0); [reflexivity |].
  destruct e; cbn; case_tests; reflexivity.
Qed.

(** The left shift key: its make code sets [shift_status], its break
    code [0xaa] clears it. *)
Lemma kbd_decode_shift_l (k : kbd_state) :
  ext_scancode k = false ->
  kbd_decode k shift_l_make = (with_shift k true, KbdNothing) /\
  kbd_decode k 0xaa = (with_shift k false, KbdNothing).
Proof. destruct k as [[] [] [] [] []]; cbn; first [discriminate | split; reflexivity]. Qed.

(** ** The handler feeds the queue *)

(** C14 (refinement) A keyboard interrupt whose byte completes a character
    puts that character into the keyboard queue as [aq_put] of the
    abstract bounded queue does, and drops it when the queue is full; it
    never blocks, keeps the queue well formed and the scheduler invariant
    (waking a consumer that sleeps on the queue), leaves the interrupted
    task running, and restores the interrupt flag. *)
Theorem intr_keyboard_handler_put (s : sched) (q : ioqueue) (k k' : kbd_state) (data c : Z) :
  sched_inv s -> ioq_wf q -> kbd_decode k data = (k', KbdPut c) ->
  (consumer q = 0 \/ status (get_task s (consumer q)) = TASK_BLOCKED) ->
  exists s' q', intr_keyboard_handler s q k data = KOk (s', q', k') /\
    contents q' = default (contents q) (aq_put (contents q) c) /\
    ioq_wf q' /\ sched_inv s' /\ running s' = running s /\ intr s' = intr s.
Proof.
  intros Hinv Hw Hd Hc.
  assert (Hinv0 : sched_inv (with_intr s INTR_OFF)) by (eapply sched_inv_same; [reflexivity .. | exact Hinv]).
  unfold intr_keyboard_handler. rewrite Hd. unfold ioqueue_full at 1.
  rewrite intr_off_true by reflexivity. cbn [kbind]. rewrite (proj2 (ioq_tests q Hw)).
  unfold aq_put. rewrite contents_length, Z2Nat.id by apply count_range. pose proof (count_range q).
  destruct (Z.eqb_spec (count q) (bufsize - 1)) as [Ef | Ef]; cbn [negb].
  - replace (count q <? bufsize - 1) with false by lia. eexists _, _.
    do 3 (split; [reflexivity || exact Hw |]). split; [eapply sched_inv_same; [reflexivity .. | exact Hinv] |].
    split; reflexivity.
  - replace (count q <? bufsize - 1) with true by lia. rewrite (putchar_not_full (with_intr s INTR_OFF) q c Hw eq_refl Ef).
    destruct (putchar_put_spec (with_intr s INTR_OFF) q c Hinv0 Hw Ef)
      as (s1 & q1 & Hp & Ec & Hw1 & Hinv1 & Hrun & _ & _); [rewrite get_task_with_intr; exact Hc |].
    rewrite Hp. cbn [kbind]. eexists _, _. split; [reflexivity |]. split; [exact Ec |]. split; [exact Hw1 |].
    split; [eapply sched_inv_same; [reflexivity .. | exact Hinv1] |]. split; [exact Hrun | reflexivity].
Qed.

(** ** Letters, shift and caps lock *)

(** A letter key (a make code whose unshifted character is
    a lower-case letter) gives the letter, in upper case exactly when one
    of shift and caps lock is on; with ctrl down, the ['l'] and ['u'] it
    gives become the control codes ['l' - 'a'] (11) and ['u' - 'a'] (20)
    the shell reads; the flags do not change. *)
Theorem kbd_decode_letter (k : kbd_state) (sc : Z) :
  ext_scancode k = false -> 0 <= sc < 0x3b -> is_lower (keymap_at sc false) = true ->
  let c := if xorb (shift_status k) (caps_lock_status k) then to_upper (keymap_at sc false)
           else keymap_at sc false in
  kbd_decode k sc = (k, KbdPut (if ctrl_status k && ((c =? ch "l") || (c =? ch "u")) then c - ch "a" else c)).
Proof.
  intros He Hsc Hl. destruct (proj2 (proj2 (proj2 (keymap_rows sc Hsc))) Hl) as (Hpos & Hso & Hup).
  destruct (is_lower_upper _ Hl) as (Hu & Hu0 & Hc0).
  rewrite kbd_decode_make by (auto; lia). rewrite Hso. cbv zeta.
  destruct (ctrl_status k), (shift_status k), (caps_lock_status k); cbn [andb orb xorb];
    rewrite ?Hup, ?Hu, ?(proj2 (Z.eqb_neq _ 0)) by lia; reflexivity.
Qed.

(** Typing a letter with the left shift key held (shift make
    code, the letter, shift break code) gives the upper-case letter and
    leaves the keyboard's flags as they were. *)
Theorem kbd_shift_letter_roundtrip (k : kbd_state) (sc : Z) :
  ctrl_status k = false -> shift_status k = false -> caps_lock_status k = false -> ext_scancode k = false ->
  0 <= sc < 0x3b -> is_lower (keymap_at sc false) = true ->
  kbd_feed k [shift_l_make; sc; 0xaa] = (k, [KbdNothing; KbdPut (to_upper (keymap_at sc false)); KbdNothing]).
Proof.
  intros Hc Hs Hk He Hsc Hl. destruct (proj2 (proj2 (proj2 (keymap_rows sc Hsc))) Hl) as (Hpos & Hso & Hup).
  destruct (is_lower_upper _ Hl) as (Hu & Hu0 & Hc0).
  cbn [kbd_feed]. rewrite (proj1 (kbd_decode_shift_l k He)).
  rewrite kbd_decode_make by (auto; lia). cbn [ext_scancode with_shift shift_status caps_lock_status ctrl_status].
  rewrite Hso, Hk, Hc. cbn [andb orb]. rewrite Hup, Hu, (proj2 (Z.eqb_neq _ 0)) by lia. cbn [negb].
  rewrite (proj2 (kbd_decode_shift_l (with_shift k true) He)). destruct k; cbn in *; subst; reflexivity.
Qed.

(** ** [alt_status] *)

(** No sequence of interrupts and other kernel steps from [keyboard_init]
    ever sets [alt_status]: the make codes of both alt keys fall in the
    branch that records only ctrl, shift and caps lock. *)
Lemma kbd_steps_alt (x y : sched * ioqueue * kbd_state) :
  rtc kbd_step x y -> alt_status (snd x) = false -> alt_status (snd y) = false.
Proof.
  induction 1 as [| x y z Hs _ IH]; [auto |]. intros Ha. apply IH.
  destruct Hs as [s q k data s' q' k' _ Hh | s q k s' q']; [| exact Ha].
  rewrite (intr_keyboard_handler_state _ _ _ _ _ _ _ Hh). apply kbd_decode_alt, Ha.
Qed.

(** C20 (invariant) In every state reachable from [keyboard_init],
    [alt_status] is false: the handler clears it when an alt key is released but never
    sets it. *)
Theorem kbd_alt_never_set (s0 : sched) (q0 : ioqueue) (s : sched) (q : ioqueue) (k : kbd_state) :
  rtc kbd_step (s0, fst (keyboard_init q0), snd (keyboard_init q0)) (s, q, k) -> alt_status k = false.
Proof. intros H. exact (kbd_steps_alt _ (s, q, k) H eq_refl). Qed.

(** ** Witnesses *)

(** The key ['a'] on the queue holding ['a'] and ['b']. *)
Lemma intr_keyboard_handler_put_witness :
  exists s' q', intr_keyboard_handler demo_sched kbd_ab kbd_released 0x1e = KOk (s', q', kbd_released) /\
    contents q' = default (contents kbd_ab) (aq_put (contents kbd_ab) (ch "a")) /\
    ioq_wf q' /\ sched_inv s' /\ running s' = running demo_sched /\ intr s' = intr demo_sched.
Proof.
  apply (intr_keyboard_handler_put demo_sched kbd_ab kbd_released kbd_released 0x1e (ch "a"));
    [exact demo_sched_inv | concrete | vm_compute; reflexivity | left; reflexivity].
Defined.

(** ctrl and ['l'] give 11; with caps lock on as well, ['L']. *)
Lemma kbd_decode_letter_witness :
  kbd_decode (mk_kbd true false false false false) 0x26 = (mk_kbd true false false false false, KbdPut 11) /\
  kbd_decode (mk_kbd true false false true false) 0x26 = (mk_kbd true false false true false, KbdPut (ch "L")).
Proof.
  split.
  - refine (eq_trans (kbd_decode_letter (mk_kbd true false false false false) 0x26 eq_refl _ eq_refl) _);
      [lia | vm_compute; reflexivity].
  - refine (eq_trans (kbd_decode_letter (mk_kbd true false false true false) 0x26 eq_refl _ eq_refl) _);
      [lia | vm_compute; reflexivity].
Defined.

(** Shift, ['q'], release: ['Q']. *)
Lemma kbd_shift_letter_roundtrip_witness :
  kbd_feed kbd_released [shift_l_make; 0x10; 0xaa] = (kbd_released, [KbdNothing; KbdPut (ch "Q"); KbdNothing]).
Proof.
  refine (eq_trans (kbd_shift_letter_roundtrip kbd_released 0x10 eq_refl eq_refl eq_refl eq_refl _ eq_refl) _);
    [lia | vm_compute; reflexivity].
Defined.

(** Pressing left alt right after [keyboard_init]. *)
Lemma kbd_alt_never_set_witness :
  alt_status (snd (result_or (intr_keyboard_handler demo_sched (ioqueue_init kbd_ab) kbd_released alt_l_make)
                             (demo_sched, kbd_ab, kbd_released))) = false.
Proof.
  destruct (result_or (intr_keyboard_handler demo_sched (ioqueue_init kbd_ab) kbd_released alt_l_make)
                      (demo_sched, kbd_ab, kbd_released)) as [[s q] k] eqn:E.
  apply (kbd_alt_never_set demo_sched kbd_ab s q k). apply rtc_once.
  apply (kbd_irq _ _ _ alt_l_make); [reflexivity |]. rewrite <- E. apply returns_ok. vm_compute. reflexivity.
Defined.
