(* ===== verification/Kstring.v ===== *)
(** * Kstring: the string and memory routines of [lib/string.c]

    Memory is the byte store of [Bitmap] ([rd]/[wr] over [gmap Z Z]); a
    byte that was never written reads as 0.  [char] is signed on this
    target, so a byte read through a [char*] is [i8] of the stored byte,
    while a [uint8_t] argument is [u8] of what the caller passes.
    [memset] is [Bitmap.memset].

    The loops that stop at a NUL byte are written with fuel.  Every byte
    outside the store's domain is 0, so a scan from any address meets a
    NUL within [size m + 1] bytes: that is the fuel the routines are given,
    and [strlen_loop_total] shows that it is enough.  A copy can still run
    out of fuel when it overwrites the terminator of its own source before
    reading it ([strcpy] into the string one byte further on); the C loop
    then runs on until it reaches an unmapped page and faults.  The model
    does not follow it that far and reports [KFault] at the pointer the
    loop started from.  Pointer increments are not wrapped at [2^32].

    Theorems: the scans end; [strlen] counts the bytes before the NUL;
    [strcpy] and [strcat] leave the copied string at the destination and
    touch nothing past its terminator; [memcpy] copies, and [memcmp] then
    finds the regions equal; [strcmp] orders by signed bytes, so a byte
    above [0x7f] sorts before ASCII; [strchr], [strrchr] and [strchrs]
    compare a signed [char] with a [uint8_t] and never find a byte above
    [0x7f]. *)

From Stdlib Require Import ZArith Lia String Bool.
From stdpp Require Import base gmap list.
From S2P Require Import Prelude Bitmap.

Open Scope Z_scope.
Open Scope kernel_scope.

(** ** Data *)

(** A [char] is a signed byte. *)
Definition i8 (z : Z) : Z := (z + 128) mod 256 - 128.

(** [*p] through a [char*]. *)
Definition rdc (m : store) (p : Z) : Z := i8 (rd m p).

(** The fuel of a scan: one byte more than the store holds. *)
Definition scan_fuel (m : store) : nat := S (size m).

(** ** Operations *)

(** [memcpy]: [while (size-- > 0) *dst++ = *src++;] *)
Fixpoint memcpy_loop (m : store) (dst src : Z) (size : nat) : store :=
  match size with
  | O => m
  | S n => memcpy_loop (wr m dst (rd m src)) (dst + 1) (src + 1) n
  end.

Definition memcpy (m : store) (dst src size : Z) : kres store :=
  ASSERT negb (dst =? 0) && negb (src =? 0) as "dst_ != NULL && src_ != NULL" ;;
  KOk (memcpy_loop m dst src (Z.to_nat size)).

(** [memcmp]: the first differing [char] decides. *)
Fixpoint memcmp_loop (m : store) (a b : Z) (size : nat) : Z :=
  match size with
  | O => 0
  | S n => if negb (rdc m a =? rdc m b) then (if rdc m a >? rdc m b then 1 else -1)
           else memcmp_loop m (a + 1) (b + 1) n
  end.

Definition memcmp (m : store) (a b size : Z) : kres Z :=
  ASSERT negb (a =? 0) && negb (b =? 0) as "a_ != NULL && b_ != NULL" ;;
  KOk (memcmp_loop m a b (Z.to_nat size)).

(** [while (( *dst_++ = *src_++));]: copy a byte, stop after the NUL. *)
Fixpoint strcpy_loop (m : store) (dst src : Z) (fuel : nat) : option store :=
  match fuel with
  | O => None
  | S f =>
      let c := rd m src in
      let m' := wr m dst c in
      if c =? 0 then Some m' else strcpy_loop m' (dst + 1) (src + 1) f
  end.

(** [strcpy]; the code's [&] between the two tests is a bitwise and of
    two truth values, the same test as [&&]. *)
Definition strcpy (m : store) (dst src : Z) : kres (Z * store) :=
  ASSERT negb (dst =? 0) && negb (src =? 0) as "dst_ != NULL & src_ != NULL" ;;
  match strcpy_loop m dst src (scan_fuel m) with
  | Some m' => KOk (dst, m')
  | None => KFault src
  end.

(** [while ( *p++);]: the address after the NUL. *)
Fixpoint strlen_loop (m : store) (p : Z) (fuel : nat) : option Z :=
  match fuel with
  | O => None
  | S f => if rd m p =? 0 then Some (p + 1) else strlen_loop m (p + 1) f
  end.

Definition strlen (m : store) (str : Z) : kres Z :=
  ASSERT negb (str =? 0) as "str != NULL" ;;
  match strlen_loop m str (scan_fuel m) with
  | Some p => KOk (u32 (p - str - 1))
  | None => KFault str
  end.

(** [strcmp]: [while ( *a != 0 && *a == *b) { a++; b++; }] and
    [*a < *b ? -1 : *a > *b]. *)
Fixpoint strcmp_loop (m : store) (a b : Z) (fuel : nat) : option Z :=
  match fuel with
  | O => None
  | S f =>
      if negb (rdc m a =? 0) && (rdc m a =? rdc m b) then strcmp_loop m (a + 1) (b + 1) f
      else Some (if rdc m a <? rdc m b then -1 else if rdc m a >? rdc m b then 1 else 0)
  end.

Definition strcmp (m : store) (a b : Z) : kres Z :=
  ASSERT negb (a =? 0) && negb (b =? 0) as "a != NULL && b != NULL" ;;
  match strcmp_loop m a b (scan_fuel m) with
  | Some r => KOk r
  | None => KFault a
  end.

(** [strchr]: [*str == ch] compares a [char] with a [uint8_t]. *)
Fixpoint strchr_loop (m : store) (str ch : Z) (fuel : nat) : option Z :=
  match fuel with
  | O => None
  | S f =>
      if negb (rdc m str =? 0) then
        if rdc m str =? ch then Some str else strchr_loop m (str + 1) ch f
      else Some 0
  end.

Definition strchr (m : store) (str ch : Z) : kres Z :=
  ASSERT negb (str =? 0) as "str != NULL" ;;
  match strchr_loop m str (u8 ch) (scan_fuel m) with
  | Some r => KOk r
  | None => KFault str
  end.

(** [strrchr]: the last match, [last_char] starting at NULL. *)
Fixpoint strrchr_loop (m : store) (str ch last_char : Z) (fuel : nat) : option Z :=
  match fuel with
  | O => None
  | S f =>
      if negb (rdc m str =? 0) then
        strrchr_loop m (str + 1) ch (if rdc m str =? ch then str else last_char) f
      else Some last_char
  end.

Definition strrchr (m : store) (str ch : Z) : kres Z :=
  ASSERT negb (str =? 0) as "str != NULL" ;;
  match strrchr_loop m str (u8 ch) 0 (scan_fuel m) with
  | Some r => KOk r
  | None => KFault str
  end.

(** [strcat]: [while ( *str++); --str;] finds the NUL of [dst_], then the
    loop of [strcpy] copies [src_] over it. *)
Definition strcat (m : store) (dst src : Z) : kres (Z * store) :=
  ASSERT negb (dst =? 0) && negb (src =? 0) as "dst_ != NULL && src_ != NULL" ;;
  match strlen_loop m dst (scan_fuel m) with
  | None => KFault dst
  | Some str =>
      match strcpy_loop m (str - 1) src (scan_fuel m) with
      | Some m' => KOk (dst, m')
      | None => KFault src
      end
  end.

(** [strchrs]: how many [char]s equal [ch], counted in a [uint32_t]. *)
Fixpoint strchrs_loop (m : store) (p ch ch_cnt : Z) (fuel : nat) : option Z :=
  match fuel with
  | O => None
  | S f =>
      if negb (rdc m p =? 0) then
        strchrs_loop m (p + 1) ch (if rdc m p =? ch then u32 (ch_cnt + 1) else ch_cnt) f
      else Some ch_cnt
  end.

Definition strchrs (m : store) (str ch : Z) : kres Z :=
  ASSERT negb (str =? 0) as "str != NULL" ;;
  match strchrs_loop m str (u8 ch) 0 (scan_fuel m) with
  | Some r => KOk r
  | None => KFault str
  end.

(** ** Strings in memory *)

(** The [n] bytes from [p]. *)
Fixpoint read_bytes (m : store) (p : Z) (n : nat) : list Z :=
  match n with
  | O => []
  | S k => rd m p :: read_bytes m (p + 1) k
  end.

(** The string at [p] is [l]: its bytes, none of them NUL, then a NUL. *)
Definition cstring (m : store) (p : Z) (l : list Z) : Prop :=
  read_bytes m p (length l) = l /\ Forall (fun c => c <> 0) l /\ rd m (p + Z.of_nat (length l)) = 0.

(** The bytes [\[p, p + n)] are written nowhere else: [m'] agrees with [m]
    outside them. *)
Definition agree_outside (m m' : store) (p : Z) (n : Z) : Prop :=
  forall a, (a < p \/ p + n <= a) -> rd m' a = rd m a.

#[export] Instance cstring_dec (m : store) (p : Z) (l : list Z) : Decision (cstring m p l).
Proof. unfold cstring. apply _. Defined.

(** A memory with ["hi"] at [0x1000] and the Latin-1 [e-acute] ([0xe9])
    as a one-byte string at [0x2000]; [0x3000] is an empty buffer. *)
Definition str_mem : store := <[0x1000 := 104]> (<[0x1001 := 105]> (<[0x2000 := 0xe9]> ∅)).

(** ** Signed bytes *)

Lemma i8_range (z : Z) : -128 <= i8 z <= 127.
Proof. unfold i8. pose proof (Z.mod_pos_bound (z + 128) 256 ltac:(lia)). lia. Qed.

Lemma i8_ascii (b : Z) : 0 <= b < 128 -> i8 b = b.
Proof. intros Hb. unfold i8. rewrite Z.mod_small; lia. Qed.

Lemma i8_high (b : Z) : 128 <= b < 256 -> i8 b = b - 256.
Proof.
  intros Hb. unfold i8. replace ((b + 128) mod 256) with (b - 128); [lia |].
  apply (Z.mod_unique _ _ 1); lia.
Qed.

(** ** Strings in memory *)

Lemma cstring_nil (m : store) (p : Z) : cstring m p [] <-> rd m p = 0.
Proof. unfold cstring. cbn. rewrite Z.add_0_r. intuition. Qed.

Lemma cstring_cons (m : store) (p c : Z) (l : list Z) :
  cstring m p (c :: l) <-> rd m p = c /\ c <> 0 /\ cstring m (p + 1) l.
Proof.
  unfold cstring. cbn [length read_bytes]. rewrite Forall_cons, Nat2Z.inj_succ.
  replace (p + Z.succ (Z.of_nat (length l))) with (p + 1 + Z.of_nat (length l)) by lia.
  split.
  - intros (Hr & [Hc Hf] & Hz). injection Hr as -> Hr. auto.
  - intros (-> & Hc & Hr & Hf & Hz). rewrite Hr. auto.
Qed.

(** The bytes of a string are where [cstring] says. *)
Lemma cstring_lookup (m : store) (p : Z) (l : list Z) (i : nat) (c : Z) :
  cstring m p l -> l !! i = Some c -> rd m (p + Z.of_nat i) = c /\ c <> 0.
Proof.
  revert p i. induction l as [| c' l IH]; intros p i H Hi; [discriminate |].
  apply cstring_cons in H as (Hr & Hc & H). destruct i as [| i]; cbn in Hi.
  - injection Hi as <-. rewrite Z.add_0_r. auto.
  - replace (p + Z.of_nat (S i)) with (p + 1 + Z.of_nat i) by lia. exact (IH _ _ H Hi).
Qed.

(** A string depends only on its bytes and its terminator. *)
Lemma cstring_agree (m m' : store) (p : Z) (l : list Z) :
  cstring m p l -> (forall a, p <= a <= p + Z.of_nat (length l) -> rd m' a = rd m a) -> cstring m' p l.
Proof.
  revert p. induction l as [| c l IH]; intros p H Ha.
  - apply cstring_nil in H. apply cstring_nil. rewrite Ha; [exact H | cbn; lia].
  - apply cstring_cons in H as (Hr & Hc & H). apply cstring_cons. cbn [length] in Ha.
    split; [rewrite Ha; [exact Hr | lia] |]. split; [exact Hc |].
    apply IH; [exact H |]. intros a Hb. apply Ha. lia.
Qed.

Lemma cstring_wr (m : store) (p a v : Z) (l : list Z) :
  cstring m p l -> a < p \/ p + Z.of_nat (length l) < a -> cstring (wr m a v) p l.
Proof. intros H Ha. apply (cstring_agree m); [exact H |]. intros b Hb. apply rd_wr_ne. lia. Qed.

(** Pigeonhole: the bytes that are not 0 are in the store, so a run of
    them is no longer than the store. *)
Lemma nonzero_run_bound (m : store) (p : Z) (n : nat) :
  (forall i, (i < n)%nat -> rd m (p + Z.of_nat i) <> 0) -> (n <= size m)%nat.
Proof.
  intros Hn.
  set (X := list_to_set ((fun i => p + Z.of_nat i) <$> seq 0 n) : gset Z).
  assert (Hx : size X = n).
  { unfold X. rewrite size_list_to_set, length_fmap, length_seq; [reflexivity |].
    apply NoDup_fmap_2_strong; [intros x y _ _ ?; lia | apply NoDup_seq]. }
  assert (Hs : X ⊆ dom m).
  { intros a Ha. unfold X in Ha. rewrite elem_of_list_to_set, list_elem_of_fmap in Ha.
    destruct Ha as (i & -> & Hi). apply elem_of_seq in Hi. apply elem_of_dom.
    specialize (Hn i ltac:(lia)). unfold rd in Hn.
    destruct (m !! (p + Z.of_nat i)); [eexists; reflexivity | cbn in Hn; contradiction]. }
  rewrite <- Hx, <- (size_dom m). apply subseteq_size, Hs.
Qed.

Lemma cstring_length_bound (m : store) (p : Z) (l : list Z) : cstring m p l -> (length l <= size m)%nat.
Proof.
  intros H. apply (nonzero_run_bound m p). intros i Hi.
  destruct (lookup_lt_is_Some_2 l i Hi) as [c Hc]. rewrite (proj1 (cstring_lookup m p l i c H Hc)).
  exact (proj2 (cstring_lookup m p l i c H Hc)).
Qed.

(** ** The NUL scan *)

Lemma strlen_loop_none (m : store) (p : Z) (fuel : nat) :
  strlen_loop m p fuel = None -> forall i, (i < fuel)%nat -> rd m (p + Z.of_nat i) <> 0.
Proof.
  revert p. induction fuel as [| f IH]; intros p H i Hi; [lia |]. cbn in H.
  destruct (Z.eqb_spec (rd m p) 0) as [E | E]; [discriminate |].
  destruct i as [| i]; [rewrite Z.add_0_r; exact E |].
  replace (p + Z.of_nat (S i)) with (p + 1 + Z.of_nat i) by lia. apply IH; [exact H | lia].
Qed.

Lemma strlen_loop_some (m : store) (p q : Z) (fuel : nat) :
  strlen_loop m p fuel = Some q -> exists l, cstring m p l /\ q = p + Z.of_nat (length l) + 1.
Proof.
  revert p. induction fuel as [| f IH]; intros p H; [discriminate |]. cbn in H.
  destruct (Z.eqb_spec (rd m p) 0) as [E | E].
  - injection H as <-. exists []. split; [apply cstring_nil, E | cbn; lia].
  - destruct (IH _ H) as (l & Hl & ->). exists (rd m p :: l).
    split; [apply cstring_cons; auto | cbn [length]; lia].
Qed.

Lemma strlen_loop_cstring (m : store) (p : Z) (l : list Z) (fuel : nat) :
  cstring m p l -> (length l < fuel)%nat -> strlen_loop m p fuel = Some (p + Z.of_nat (length l) + 1).
Proof.
  revert p fuel. induction l as [| c l IH]; intros p [| f] H Hf; cbn in Hf; try lia; cbn.
  - apply cstring_nil in H. rewrite H. cbn. f_equal. lia.
  - apply cstring_cons in H as (Hr & Hc & H). rewrite Hr, (proj2 (Z.eqb_neq _ _) Hc).
    rewrite (IH _ _ H) by lia. f_equal. lia.
Qed.

(** Every address starts a string no longer than the store. *)
Lemma cstring_exists (m : store) (p : Z) : exists l, cstring m p l /\ strlen_loop m p (scan_fuel m) = Some (p + Z.of_nat (length l) + 1).
Proof.
  destruct (strlen_loop m p (scan_fuel m)) as [q |] eqn:E.
  - destruct (strlen_loop_some m p q _ E) as (l & Hl & ->). eauto.
  - pose proof (nonzero_run_bound m p _ (strlen_loop_none m p _ E)). unfold scan_fuel in *. lia.
Qed.

(** C17 (termination) [strlen] ends on every non-NULL pointer, without a
    fault: it returns the number of bytes before the first NUL, as a
    [uint32_t]. *)
Theorem strlen_total (m : store) (str : Z) :
  str <> 0 -> exists l, cstring m str l /\ strlen m str = KOk (u32 (Z.of_nat (length l))).
Proof.
  intros Hs. destruct (cstring_exists m str) as (l & Hl & E). exists l. split; [exact Hl |].
  unfold strlen. rewrite (proj2 (Z.eqb_neq _ _) Hs). cbn [negb]. rewrite E. do 2 f_equal. lia.
Qed.

(** ** Copies *)

Lemma strcpy_loop_cstring (l : list Z) (m : store) (dst src : Z) (fuel : nat) :
  cstring m src l -> (length l < fuel)%nat ->
  dst + Z.of_nat (length l) < src \/ src + Z.of_nat (length l) < dst ->
  exists m', strcpy_loop m dst src fuel = Some m' /\ cstring m' dst l /\ cstring m' src l /\
    agree_outside m m' dst (Z.of_nat (length l) + 1).
Proof.
  revert m dst src fuel. induction l as [| c l IH]; intros m dst src [| f] H Hf Hd; cbn [length] in *; try lia; cbn.
  - apply cstring_nil in H. rewrite H. cbn. eexists. split; [reflexivity |].
    split; [apply cstring_nil, rd_wr_eq |]. split; [apply cstring_nil; rewrite rd_wr_ne by lia; exact H |].
    intros a Ha. apply rd_wr_ne. lia.
  - apply cstring_cons in H as (Hr & Hc & H). rewrite Hr, (proj2 (Z.eqb_neq _ _) Hc).
    destruct (IH (wr m dst c) (dst + 1) (src + 1) f) as (m' & E & Hdst & Hsrc & Ha);
      [apply cstring_wr; [exact H | lia] | lia | lia |].
    rewrite E. eexists. split; [reflexivity |].
    assert (Hd0 : rd m' dst = c) by (rewrite Ha by lia; apply rd_wr_eq).
    assert (Hs0 : rd m' src = c) by (rewrite Ha, rd_wr_ne by lia; exact Hr).
    split; [apply cstring_cons; auto |]. split; [apply cstring_cons; auto |].
    intros a Hb. rewrite Ha, rd_wr_ne by lia. reflexivity.
Qed.

(** C15 (roundtrip) [strcpy] between two strings that do not overlap
    returns the destination, which then holds the source string (and
    [strlen] finds its length there); the source is unchanged, and no
    byte past the copied terminator is written. *)
Theorem strcpy_copies (m : store) (dst src : Z) (l : list Z) :
  dst <> 0 -> src <> 0 -> cstring m src l ->
  dst + Z.of_nat (length l) < src \/ src + Z.of_nat (length l) < dst ->
  exists m', strcpy m dst src = KOk (dst, m') /\ cstring m' dst l /\ cstring m' src l /\
    agree_outside m m' dst (Z.of_nat (length l) + 1) /\ strlen m' dst = KOk (u32 (Z.of_nat (length l))).
Proof.
  intros Hd Hs H Hov. pose proof (cstring_length_bound m src l H) as Hb.
  destruct (strcpy_loop_cstring l m dst src (scan_fuel m)) as (m' & E & Hdst & Hsrc & Ha);
    [exact H | unfold scan_fuel; lia | exact Hov |].
  exists m'. unfold strcpy. rewrite (proj2 (Z.eqb_neq _ _) Hd), (proj2 (Z.eqb_neq _ _) Hs). cbn [negb andb].
  rewrite E. do 4 (split; [auto |]).
  unfold strlen. rewrite (proj2 (Z.eqb_neq _ _) Hd). cbn [negb].
  rewrite (strlen_loop_cstring m' dst l) by (auto; pose proof (cstring_length_bound m' dst l Hdst); unfold scan_fuel; lia).
  do 2 f_equal. lia.
Qed.

(** Two strings one after the other form their concatenation. *)
Lemma cstring_app (m : store) (p : Z) (l1 l2 : list Z) :
  (forall i c, l1 !! i = Some c -> rd m (p + Z.of_nat i) = c /\ c <> 0) ->
  cstring m (p + Z.of_nat (length l1)) l2 -> cstring m p (l1 ++ l2).
Proof.
  revert p. induction l1 as [| c l1 IH]; intros p Hl H; cbn [length app] in *.
  - rewrite Z.add_0_r in H. exact H.
  - destruct (Hl 0%nat c eq_refl) as [Hr Hc]. rewrite Z.add_0_r in Hr. apply cstring_cons. do 2 (split; [auto |]).
    apply IH; [| replace (p + 1 + Z.of_nat (length l1)) with (p + Z.of_nat (S (length l1))) by lia; exact H].
    intros i c' Hi. replace (p + 1 + Z.of_nat i) with (p + Z.of_nat (S i)) by lia. exact (Hl (S i) c' Hi).
Qed.

(** [strcat] of a source string that overlaps neither the
    destination string nor the space after it leaves the concatenation
    at the destination and returns the destination. *)
Theorem strcat_appends (m : store) (dst src : Z) (ld ls : list Z) :
  dst <> 0 -> src <> 0 -> cstring m dst ld -> cstring m src ls ->
  dst + Z.of_nat (length ld + length ls) < src \/ src + Z.of_nat (length ls) < dst ->
  exists m', strcat m dst src = KOk (dst, m') /\ cstring m' dst (ld ++ ls) /\ cstring m' src ls.
Proof.
  intros Hd Hs Hdl Hsl Hov. pose proof (cstring_length_bound m src ls Hsl) as Hb.
  destruct (strcpy_loop_cstring ls m (dst + Z.of_nat (length ld)) src (scan_fuel m)) as (m' & E & Hdst & Hsrc & Ha);
    [exact Hsl | unfold scan_fuel; lia | lia |].
  exists m'. unfold strcat. rewrite (proj2 (Z.eqb_neq _ _) Hd), (proj2 (Z.eqb_neq _ _) Hs). cbn [negb andb].
  rewrite (strlen_loop_cstring m dst ld) by (auto; pose proof (cstring_length_bound m dst ld Hdl); unfold scan_fuel; lia).
  replace (dst + Z.of_nat (length ld) + 1 - 1) with (dst + Z.of_nat (length ld)) by lia. rewrite E.
  split; [reflexivity |]. split; [| exact Hsrc]. apply cstring_app; [| exact Hdst].
  intros i c Hi. pose proof (lookup_lt_Some _ _ _ Hi).
  rewrite Ha by lia. exact (cstring_lookup m dst ld i c Hdl Hi).
Qed.

(** ** Searching *)

(** [strchr] never finds a byte above [0x7f]: it compares the
    signed [char] [*str], at most [0x7f], with the [uint8_t] [ch], so for
    such a byte it returns NULL even when the string holds it. *)
Theorem strchr_high_byte (m : store) (str ch : Z) (l : list Z) :
  str <> 0 -> cstring m str l -> 0x80 <= u8 ch -> strchr m str ch = KOk 0.
Proof.
  intros Hs H Hc. unfold strchr. rewrite (proj2 (Z.eqb_neq _ _) Hs). cbn [negb].
  pose proof (cstring_length_bound m str l H) as Hb.
  enough (E : forall l p f, cstring m p l -> (length l < f)%nat -> strchr_loop m p (u8 ch) f = Some 0)
    by (rewrite (E l str (scan_fuel m) H) by (unfold scan_fuel; lia); reflexivity).
  clear - Hc. intros l0. induction l0 as [| c l IH]; intros p [| f] Hl Hf; cbn [length] in Hf; try lia; cbn.
  - apply cstring_nil in Hl. unfold rdc. rewrite Hl. reflexivity.
  - apply cstring_cons in Hl as (_ & _ & Hl). pose proof (i8_range (rd m p)) as Hr. unfold rdc.
    destruct (negb _); [| reflexivity]. rewrite (proj2 (Z.eqb_neq _ _)) by lia. apply IH; [exact Hl | lia].
Qed.

(** An ASCII character is found at its first occurrence. *)
Lemma strchr_ascii_found (m : store) (str ch : Z) (l1 l2 : list Z) :
  byte_store m -> str <> 0 -> cstring m str (l1 ++ u8 ch :: l2) -> u8 ch < 0x80 -> u8 ch ∉ l1 ->
  strchr m str ch = KOk (str + Z.of_nat (length l1)).
Proof.
  intros Hm Hs H Hc Hn. unfold strchr. rewrite (proj2 (Z.eqb_neq _ _) Hs). cbn [negb].
  pose proof (cstring_length_bound m str _ H) as Hb. rewrite length_app in Hb. cbn [length] in Hb.
  enough (E : forall l1 p f, cstring m p (l1 ++ u8 ch :: l2) -> u8 ch ∉ l1 -> (length l1 < f)%nat ->
                 strchr_loop m p (u8 ch) f = Some (p + Z.of_nat (length l1)))
    by (rewrite (E l1 str (scan_fuel m) H Hn) by (unfold scan_fuel; lia); reflexivity).
  clear - Hm Hc. intros l0. induction l0 as [| c l IH]; intros p [| f] Hl Hn Hf; cbn [length app] in *; try lia; cbn.
  - apply cstring_cons in Hl as (Hr & Hz & _). unfold rdc. rewrite Hr, i8_ascii by (pose proof (u8_range ch); lia).
    rewrite (proj2 (Z.eqb_neq _ _) Hz), Z.eqb_refl, Z.add_0_r. reflexivity.
  - apply cstring_cons in Hl as (Hr & Hz & Hl). pose proof (rd_byte m p Hm) as Hbyte. unfold rdc. rewrite Hr in *.
    assert (Hi : i8 c <> 0 /\ i8 c <> u8 ch).
    { assert (c <> u8 ch) by (intros ->; apply Hn; left).
      pose proof (u8_range ch). destruct (Z.ltb_spec c 128); [rewrite i8_ascii | rewrite i8_high]; lia. }
    rewrite (proj2 (Z.eqb_neq _ _) (proj1 Hi)), (proj2 (Z.eqb_neq _ _) (proj2 Hi)). cbn [negb].
    rewrite (IH (p + 1) f Hl); [f_equal; lia | intros Hin; apply Hn; right; exact Hin | lia].
Qed.

(** [strcmp] compares signed [char]s: a string that starts
    with a byte above [0x7f] sorts before one that starts with an ASCII
    character, though its first byte is the larger. *)
Theorem strcmp_signed (m : store) (a b ca cb : Z) (la lb : list Z) :
  a <> 0 -> b <> 0 -> cstring m a (ca :: la) -> cstring m b (cb :: lb) ->
  0x80 <= ca < 0x100 -> 0 < cb < 0x80 -> strcmp m a b = KOk (-1).
Proof.
  intros Ha Hb Hla Hlb Hca Hcb. apply cstring_cons in Hla as (Hra & _ & _), Hlb as (Hrb & _ & _).
  unfold strcmp. rewrite (proj2 (Z.eqb_neq _ _) Ha), (proj2 (Z.eqb_neq _ _) Hb). cbn [negb andb].
  unfold scan_fuel. cbn [strcmp_loop]. unfold rdc. rewrite Hra, Hrb, (i8_high ca), (i8_ascii cb) by lia.
  rewrite (proj2 (Z.eqb_neq (ca - 256) 0)), (proj2 (Z.eqb_neq (ca - 256) cb)) by lia. cbn [negb andb].
  destruct (Z.ltb_spec (ca - 256) cb); [reflexivity | lia].
Qed.

(** [strrchr] and [strchrs] make the same comparison as [strchr]: a byte
    above [0x7f] is never the last match, nor counted. *)
Lemma strrchr_strchrs_high_byte (m : store) (str ch : Z) (l : list Z) :
  str <> 0 -> cstring m str l -> 0x80 <= u8 ch -> strrchr m str ch = KOk 0 /\ strchrs m str ch = KOk 0.
Proof.
  intros Hs H Hc. unfold strrchr, strchrs. rewrite (proj2 (Z.eqb_neq _ _) Hs). cbn [negb].
  pose proof (cstring_length_bound m str l H) as Hb.
  enough (E : forall l p f, cstring m p l -> (length l < f)%nat ->
                strrchr_loop m p (u8 ch) 0 f = Some 0 /\ strchrs_loop m p (u8 ch) 0 f = Some 0)
    by (destruct (E l str (scan_fuel m) H) as [-> ->]; [unfold scan_fuel; lia | split; reflexivity]).
  clear - Hc. intros l0. induction l0 as [| c l IH]; intros p [| f] Hl Hf; cbn [length] in Hf; try lia; cbn.
  - apply cstring_nil in Hl. unfold rdc. rewrite Hl. split; reflexivity.
  - apply cstring_cons in Hl as (_ & _ & Hl). pose proof (i8_range (rd m p)) as Hr. unfold rdc.
    destruct (negb _); [| split; reflexivity]. rewrite (proj2 (Z.eqb_neq _ _)) by lia. apply IH; [exact Hl | lia].
Qed.

(** ** [memcpy] and [memcmp] *)

Lemma read_bytes_agree (m m' : store) (p : Z) (n : nat) :
  (forall a, p <= a < p + Z.of_nat n -> rd m' a = rd m a) -> read_bytes m' p n = read_bytes m p n.
Proof.
  revert p. induction n as [| n IH]; intros p Ha; [reflexivity |]. cbn.
  rewrite Ha by lia. f_equal. apply IH. intros a Hb. apply Ha. lia.
Qed.

Lemma length_read_bytes (m : store) (p : Z) (n : nat) : length (read_bytes m p n) = n.
Proof. revert p. induction n as [| n IH]; intros p; cbn; [reflexivity | by rewrite IH]. Qed.

Lemma read_bytes_app (m : store) (p : Z) (a b : nat) :
  read_bytes m p (a + b) = read_bytes m p a ++ read_bytes m (p + Z.of_nat a) b.
Proof.
  revert p. induction a as [| a IH]; intros p; cbn [Nat.add read_bytes app].
  - rewrite Z.add_0_r. reflexivity.
  - rewrite IH. do 3 f_equal. lia.
Qed.

Lemma read_bytes_const (m : store) (p c : Z) (n : nat) :
  (forall a, p <= a < p + Z.of_nat n -> rd m a = c) -> read_bytes m p n = repeat c n.
Proof.
  revert p. induction n as [| n IH]; intros p Ha; [reflexivity |]. cbn.
  rewrite Ha by lia. f_equal. apply IH. intros a Hb. apply Ha. lia.
Qed.

(** [strlen] of a string shorter than 2^32 bytes is its length. *)
Lemma strlen_cstring (m : store) (str : Z) (l : list Z) :
  str <> 0 -> cstring m str l -> Z.of_nat (length l) < 2 ^ 32 -> strlen m str = KOk (Z.of_nat (length l)).
Proof.
  intros Hs H Hl. pose proof (cstring_length_bound m str l H).
  unfold strlen. rewrite (proj2 (Z.eqb_neq _ _) Hs). cbn [negb].
  rewrite (strlen_loop_cstring m str l) by (auto; unfold scan_fuel; lia).
  f_equal. rewrite u32_small; lia.
Qed.

Lemma memset_loop_spec (m : store) (dst v : Z) (n : nat) :
  (forall a, dst <= a < dst + Z.of_nat n -> rd (memset_loop m dst v n) a = u8 v) /\
  agree_outside m (memset_loop m dst v n) dst (Z.of_nat n).
Proof.
  split; intros a Ha; rewrite memset_loop_rd; case_decide; (reflexivity || lia).
Qed.

Lemma memcpy_loop_spec (m : store) (dst src : Z) (n : nat) :
  dst + Z.of_nat n <= src \/ src + Z.of_nat n <= dst ->
  read_bytes (memcpy_loop m dst src n) dst n = read_bytes m src n /\
  read_bytes (memcpy_loop m dst src n) src n = read_bytes m src n /\
  agree_outside m (memcpy_loop m dst src n) dst (Z.of_nat n).
Proof.
  revert m dst src. induction n as [| n IH]; intros m dst src Hd; cbn [memcpy_loop read_bytes].
  - split; [reflexivity |]. split; [reflexivity |]. intros a _. reflexivity.
  - destruct (IH (wr m dst (rd m src)) (dst + 1) (src + 1)) as (E1 & E2 & Ha); [lia |].
    set (m' := memcpy_loop (wr m dst (rd m src)) (dst + 1) (src + 1) n) in *.
    assert (Hs : read_bytes (wr m dst (rd m src)) (src + 1) n = read_bytes m (src + 1) n)
      by (apply read_bytes_agree; intros a Hb; apply rd_wr_ne; lia).
    split; [| split].
    + rewrite Ha, rd_wr_eq, E1, Hs by lia. reflexivity.
    + rewrite Ha, rd_wr_ne, E2, Hs by lia. reflexivity.
    + intros a Hb. rewrite Ha, rd_wr_ne by lia. reflexivity.
Qed.

Lemma memcmp_loop_same (m : store) (a b : Z) (n : nat) :
  read_bytes m a n = read_bytes m b n -> memcmp_loop m a b n = 0.
Proof.
  revert a b. induction n as [| n IH]; intros a b H; [reflexivity |]. cbn in H |- *.
  injection H as Hab H. unfold rdc. rewrite Hab, Z.eqb_refl. apply IH, H.
Qed.

(** [memcpy] between regions that do not overlap copies the [size]
    bytes and writes nothing else; [memcmp] then finds the two regions
    equal. *)
Theorem memcpy_memcmp (m : store) (dst src n : Z) :
  dst <> 0 -> src <> 0 -> 0 <= n -> dst + n <= src \/ src + n <= dst ->
  exists m', memcpy m dst src n = KOk m' /\ read_bytes m' dst (Z.to_nat n) = read_bytes m src (Z.to_nat n) /\
    agree_outside m m' dst n /\ memcmp m' dst src n = KOk 0.
Proof.
  intros Hd Hs Hn Hov. destruct (memcpy_loop_spec m dst src (Z.to_nat n)) as (E1 & E2 & Ha); [lia |].
  unfold memcpy, memcmp. rewrite (proj2 (Z.eqb_neq _ _) Hd), (proj2 (Z.eqb_neq _ _) Hs). cbn [negb andb].
  eexists. split; [reflexivity |]. split; [exact E1 |]. split; [rewrite Z2Nat.id in Ha by lia; exact Ha |].
  rewrite memcmp_loop_same; [reflexivity |]. rewrite E1, E2. reflexivity.
Qed.

(** ** Witnesses *)

Lemma strlen_total_witness :
  exists l, cstring str_mem 0x1000 l /\ strlen str_mem 0x1000 = KOk (u32 (Z.of_nat (length l))).
Proof. apply strlen_total. lia. Defined.

Lemma strcpy_copies_witness :
  exists m', strcpy str_mem 0x3000 0x1000 = KOk (0x3000, m') /\ cstring m' 0x3000 [104; 105] /\
    cstring m' 0x1000 [104; 105] /\ agree_outside str_mem m' 0x3000 (Z.of_nat (length [104; 105]) + 1) /\
    strlen m' 0x3000 = KOk (u32 (Z.of_nat (length [104; 105]))).
Proof.
  apply strcpy_copies; [lia | lia | apply (bool_decide_unpack _); vm_compute; reflexivity | cbn; lia].
Defined.

Lemma strcat_appends_witness :
  exists m', strcat str_mem 0x1000 0x2000 = KOk (0x1000, m') /\ cstring m' 0x1000 ([104; 105] ++ [0xe9]) /\
    cstring m' 0x2000 [0xe9].
Proof.
  apply strcat_appends; [lia | lia | apply (bool_decide_unpack _); vm_compute; reflexivity
                        | apply (bool_decide_unpack _); vm_compute; reflexivity | cbn; lia].
Defined.

(** [strchr] does not find the [0xe9] the string holds. *)
Lemma strchr_high_byte_witness : cstring str_mem 0x2000 [0xe9] /\ strchr str_mem 0x2000 0xe9 = KOk 0.
Proof.
  assert (H : cstring str_mem 0x2000 [0xe9]) by (apply (bool_decide_unpack _); vm_compute; reflexivity).
  split; [exact H | apply (strchr_high_byte str_mem 0x2000 0xe9 [0xe9]); [lia | exact H | vm_compute; discriminate]].
Defined.

Lemma strcmp_signed_witness : strcmp str_mem 0x2000 0x1000 = KOk (-1).
Proof.
  apply (strcmp_signed str_mem 0x2000 0x1000 0xe9 104 [] [105]);
    [lia | lia | apply (bool_decide_unpack _); vm_compute; reflexivity
    | apply (bool_decide_unpack _); vm_compute; reflexivity | lia | lia].
Defined.

Lemma memcpy_memcmp_witness :
  exists m', memcpy str_mem 0x3000 0x1000 2 = KOk m' /\ read_bytes m' 0x3000 (Z.to_nat 2) = read_bytes str_mem 0x1000 (Z.to_nat 2) /\
    agree_outside str_mem m' 0x3000 2 /\ memcmp m' 0x3000 0x1000 2 = KOk 0.
Proof. apply memcpy_memcmp; lia. Defined.
