(* ===== verification/Stdio.v ===== *)
(** * Stdio: [itoa], [vsprintf], [sprintf] and [printf] of [lib/stdio.c], [printk] of [lib/kernel/stdio_kernel.c]

    [vsprintf] walks the format string in the byte store of [Kstring] and
    writes the output at [str].  Its [va_list] is the stack above the
    format argument: [va_arg] steps 4 bytes and reads the next word, so
    the arguments are a list of 32-bit words, [int] arguments are the
    signed reading of a word ([i32]), a [char] argument its low byte, and
    a [char*] argument an address in the store.  Words past the end of the
    list, which the C code would read from whatever follows on the stack,
    read as 0.

    [itoa] recurses on the quotient; its fuel is 32, the number of digits
    of a [uint32_t] in base 2, which [itoa_digits] shows is enough for
    every base from 2 to 16.  The format loop is given one iteration per
    byte of the store plus one, which is enough because every iteration
    consumes a byte of the format string.

    Theorems: [itoa] writes the digits of its value, which read back as
    the value (no leading zero); [vsprintf] never writes the terminating
    NUL, so the length it returns counts whatever nonzero bytes follow the
    output in the buffer; a conversion other than [s], [d], [x] and [c]
    prints its letter and consumes no argument; [printf] and [printk],
    which clear their 1024-byte buffer first, print a format without
    conversions exactly, the cleared buffer giving the NUL [vsprintf]
    omits.  Their output, which [write] and [console_put_str] (not in
    the sources) receive, is the list of bytes of the buffer's string. *)

From Stdlib Require Import ZArith Lia String Bool.
From stdpp Require Import base gmap list.
From S2P Require Import Prelude Bitmap Kstring.

Open Scope Z_scope.
Open Scope kernel_scope.

(** ** Data *)

(** An [int32_t] as the signed reading of a 32-bit word. *)
Definition i32 (z : Z) : Z := (z + 2 ^ 31) mod 2 ^ 32 - 2 ^ 31.

(** The characters the code tests. *)
Definition PERCENT : Z := 37.
Definition CHAR_s : Z := 115.
Definition CHAR_d : Z := 100.
Definition CHAR_x : Z := 120.
Definition CHAR_c : Z := 99.
Definition CHAR_MINUS : Z := 45.

(** [va_arg(ap, t)]: the next word of the stack. *)
Definition va_arg (ap : list Z) : Z * list Z :=
  match ap with [] => (0, []) | w :: rest => (w, rest) end.

(** ** [itoa] *)

(** The digit written for [m]: [m + '0'] below 10, [m - 10 + 'A'] above. *)
Definition digit_char (m : Z) : Z := if m <? 10 then m + 48 else m - 10 + 65.

(** [itoa(value, &buf_ptr, base)]: the digits of the quotient first, then
    the last digit; the new [buf_ptr] is returned with the store. *)
Fixpoint itoa_loop (st : store) (buf_ptr value base : Z) (fuel : nat) : option (store * Z) :=
  match fuel with
  | O => None
  | S f =>
      let m := value mod base in
      let q := value / base in
      let r := if negb (q =? 0) then itoa_loop st buf_ptr q base f else Some (st, buf_ptr) in
      match r with
      | Some (st1, p1) => Some (wr st1 p1 (u8 (digit_char m)), p1 + 1)
      | None => None
      end
  end.

Definition itoa_fuel : nat := 32.

Definition itoa (st : store) (buf_ptr value base : Z) : kres (store * Z) :=
  match itoa_loop st buf_ptr value base itoa_fuel with
  | Some r => KOk r
  | None => KFault buf_ptr
  end.

(** ** [vsprintf] *)

(** One conversion after a ['%']: the store, [buf_ptr], the rest of the
    arguments and whether [index_ptr] moves past the conversion letter
    ([index_char = *(++index_ptr)]); a letter the [switch] has no case
    for is left as [index_char]. *)
Definition conversion (st : store) (buf_ptr index_char : Z) (ap : list Z) : kres (store * Z * list Z * bool) :=
  if index_char =? CHAR_s then
    let '(arg_str, ap1) := va_arg ap in
    let* (_, st1) := strcpy st buf_ptr arg_str in
    n <- strlen st1 arg_str ;;
    KOk (st1, buf_ptr + n, ap1, true)
  else if index_char =? CHAR_d then
    let '(w, ap1) := va_arg ap in
    let arg_int := i32 w in
    let '(arg_int, st1, p1) := if arg_int <? 0 then (i32 (0 - arg_int), wr st buf_ptr CHAR_MINUS, buf_ptr + 1)
                               else (arg_int, st, buf_ptr) in
    let* (st2, p2) := itoa st1 p1 (u32 arg_int) 10 in
    KOk (st2, p2, ap1, true)
  else if index_char =? CHAR_x then
    let '(w, ap1) := va_arg ap in
    let* (st1, p1) := itoa st buf_ptr (u32 (i32 w)) 16 in
    KOk (st1, p1, ap1, true)
  else if index_char =? CHAR_c then
    let '(w, ap1) := va_arg ap in
    KOk (wr st buf_ptr (u8 w), buf_ptr + 1, ap1, true)
  else KOk (st, buf_ptr, ap, false).

(** The [while (index_char)] loop; [index_char] is [*index_ptr]. *)
Fixpoint vsprintf_loop (st : store) (buf_ptr index_ptr : Z) (ap : list Z) (fuel : nat) : kres (store * Z) :=
  match fuel with
  | O => KFault index_ptr
  | S f =>
      let index_char := rd st index_ptr in
      if index_char =? 0 then KOk (st, buf_ptr)
      else if negb (index_char =? PERCENT) then
        vsprintf_loop (wr st buf_ptr index_char) (buf_ptr + 1) (index_ptr + 1) ap f
      else
        let index_ptr := index_ptr + 1 in
        let* (st1, p1, ap1, advance) := conversion st buf_ptr (rd st index_ptr) ap in
        vsprintf_loop st1 p1 (if advance then index_ptr + 1 else index_ptr) ap1 f
  end.

(** [vsprintf(str, format, ap)]: the loop, then [strlen(str)]. *)
Definition vsprintf (st : store) (str format : Z) (ap : list Z) : kres (Z * store) :=
  let* (st1, _) := vsprintf_loop st str format ap (scan_fuel st) in
  n <- strlen st1 str ;;
  KOk (n, st1).

(** [sprintf(buf, format, ...)]: [vsprintf] on the arguments after
    [format]. *)
Definition sprintf (st : store) (buf format : Z) (args : list Z) : kres (Z * store) :=
  vsprintf st buf format args.

(** [printf(format, ...)] of stdio.c: [buf] is the address of its local
    [char buf[1024] = {0}]; the result is the store and the bytes given
    to [write(1, buf, strlen(buf))]. *)
Definition printf (st : store) (buf format : Z) (args : list Z) : kres (store * list Z) :=
  let st := memset_loop st buf 0 1024 in
  let* (_, st) := vsprintf st buf format args in
  n <- strlen st buf ;;
  KOk (st, read_bytes st buf (Z.to_nat n)).

(** [printk(format, ...)] of stdio_kernel.c: the same buffer, given to
    [console_put_str], which prints up to its NUL. *)
Definition printk (st : store) (buf format : Z) (args : list Z) : kres (store * list Z) :=
  let st := memset_loop st buf 0 1024 in
  let* (_, st) := vsprintf st buf format args in
  n <- strlen st buf ;;
  KOk (st, read_bytes st buf (Z.to_nat n)).

(** ** Reading digits back *)

(** The value of a digit character, and of a digit string. *)
Definition digit_val (c : Z) : Z := if c <? 65 then c - 48 else c - 65 + 10.

Definition digits_val (base : Z) (l : list Z) : Z := fold_left (fun acc c => acc * base + digit_val c) l 0.

(** A memory with the format ["ok"] at [0x1000], ["%u"] at [0x1100], and
    the stale text ["xyz"] in the buffer at [0x3000]. *)
Definition fmt_mem : store :=
  <[0x1000 := 111]> (<[0x1001 := 107]> (<[0x1100 := 37]> (<[0x1101 := 117]>
  (<[0x3000 := 120]> (<[0x3001 := 121]> (<[0x3002 := 122]> ∅)))))).

(** ** Digits *)

Lemma read_bytes_snoc (m : store) (p : Z) (n : nat) :
  read_bytes m p (S n) = read_bytes m p n ++ [rd m (p + Z.of_nat n)].
Proof.
  revert p. induction n as [| n IH]; intros p; [cbn; rewrite Z.add_0_r; reflexivity |].
  change (read_bytes m p (S (S n))) with (rd m p :: read_bytes m (p + 1) (S n)).
  rewrite IH. change (read_bytes m p (S n)) with (rd m p :: read_bytes m (p + 1) n). cbn [app].
  replace (p + Z.of_nat (S n)) with (p + 1 + Z.of_nat n) by lia. reflexivity.
Qed.

Lemma read_bytes_lookup (m : store) (p : Z) (n i : nat) (c : Z) :
  read_bytes m p n !! i = Some c -> rd m (p + Z.of_nat i) = c.
Proof.
  revert p i. induction n as [| n IH]; intros p [| i] H; cbn in H; try discriminate.
  - injection H as <-. f_equal. lia.
  - rewrite <- (IH _ _ H). f_equal. lia.
Qed.

Lemma digits_val_snoc (base : Z) (l : list Z) (c : Z) :
  digits_val base (l ++ [c]) = digits_val base l * base + digit_val c.
Proof. unfold digits_val. rewrite fold_left_app. reflexivity. Qed.

Lemma digit_char_val (m : Z) : 0 <= m < 16 -> digit_val (u8 (digit_char m)) = m.
Proof.
  intros Hm. unfold digit_char, digit_val.
  destruct (Z.ltb_spec m 10); rewrite u8_small by lia;
    [rewrite (proj2 (Z.ltb_lt _ _)) by lia | rewrite (proj2 (Z.ltb_ge _ _)) by lia]; lia.
Qed.

Lemma itoa_loop_S (st : store) (p v b : Z) (f : nat) :
  itoa_loop st p v b (S f) =
    match (if negb (v / b =? 0) then itoa_loop st p (v / b) b f else Some (st, p)) with
    | Some (st1, p1) => Some (wr st1 p1 (u8 (digit_char (v mod b))), p1 + 1)
    | None => None
    end.
Proof. reflexivity. Qed.

(** [itoa] with one more level of fuel than the value has digits beyond
    the first. *)
Lemma itoa_loop_spec (base : Z) (f : nat) :
  2 <= base <= 16 ->
  forall st p value, 0 <= value < base ^ Z.of_nat (S f) ->
  exists n st', itoa_loop st p value base (S f) = Some (st', p + Z.of_nat n) /\
    digits_val base (read_bytes st' p n) = value /\ (n = 1%nat \/ base ^ (Z.of_nat n - 1) <= value) /\
    Forall (fun c => 0 <= digit_val c < base) (read_bytes st' p n) /\ agree_outside st st' p (Z.of_nat n).
Proof.
  intros Hb. induction f as [| f IH]; intros st p value Hv.
  - rewrite Z.pow_1_r in Hv. cbn [itoa_loop]. rewrite Z.div_small, Z.mod_small by lia. cbn.
    exists 1%nat. eexists. split; [f_equal; f_equal; lia |]. cbn [read_bytes].
    rewrite rd_wr_eq. unfold digits_val. cbn [fold_left]. rewrite digit_char_val by lia.
    split; [lia |]. split; [left; reflexivity |].
    split; [constructor; [rewrite digit_char_val by lia; lia | constructor] |].
    intros a Ha. apply rd_wr_ne. lia.
  - rewrite itoa_loop_S. pose proof (Z.mod_pos_bound value base ltac:(lia)) as Hm.
    pose proof (Z.div_mod value base ltac:(lia)) as Hd.
    assert (Hq : 0 <= value / base < base ^ Z.of_nat (S f)).
    { split; [apply Z.div_pos; lia |]. apply Z.div_lt_upper_bound; [lia |].
      rewrite <- Z.pow_succ_r by lia. replace (Z.succ (Z.of_nat (S f))) with (Z.of_nat (S (S f))) by lia. lia. }
    destruct (Z.eqb_spec (value / base) 0) as [E | E]; cbn [negb].
    + exists 1%nat. eexists. split; [f_equal; f_equal; lia |]. cbn [read_bytes].
      rewrite rd_wr_eq. unfold digits_val. cbn [fold_left]. rewrite digit_char_val by lia.
      split; [lia |]. split; [left; reflexivity |].
      split; [constructor; [rewrite digit_char_val by lia; lia | constructor] |].
      intros a Ha. apply rd_wr_ne. lia.
    + destruct (IH st p (value / base) Hq) as (n & st1 & -> & Hval & Hmin & Hdig & Ha).
      exists (S n). eexists. split; [f_equal; f_equal; lia |].
      rewrite read_bytes_snoc, rd_wr_eq.
      assert (Hr : read_bytes (wr st1 (p + Z.of_nat n) (u8 (digit_char (value mod base)))) p n = read_bytes st1 p n)
        by (apply read_bytes_agree; intros a Hb'; apply rd_wr_ne; lia).
      rewrite Hr, digits_val_snoc, Hval, digit_char_val by lia. split; [nia |].
      assert (Hn1 : (1 <= n)%nat) by (destruct n; [unfold digits_val in Hval; cbn in Hval; lia | lia]).
      split; [right; destruct Hmin as [-> | Hmin];
              [replace (Z.of_nat 2 - 1) with 1 by lia; rewrite Z.pow_1_r; nia
              | replace (Z.of_nat (S n) - 1) with (Z.succ (Z.of_nat n - 1)) by lia; rewrite Z.pow_succ_r by lia; nia] |].
      split; [apply Forall_app; split; [exact Hdig | constructor; [rewrite digit_char_val by lia; lia | constructor]] |].
      intros a Hb'. rewrite rd_wr_ne by lia. apply Ha. lia.
Qed.

(** C16 (roundtrip) [itoa] of a [uint32_t] in a base from 2 to 16 ends and
    writes the value's digits at [buf_ptr], advancing it past them: the
    digits read back as the value, the first is not 0 unless the value
    is, each is below the base, and nothing else is written. *)
Theorem itoa_digits (st : store) (buf_ptr value base : Z) :
  2 <= base <= 16 -> 0 <= value < 2 ^ 32 ->
  exists n st', itoa st buf_ptr value base = KOk (st', buf_ptr + Z.of_nat n) /\
    digits_val base (read_bytes st' buf_ptr n) = value /\ (n = 1%nat \/ base ^ (Z.of_nat n - 1) <= value) /\
    Forall (fun c => 0 <= digit_val c < base) (read_bytes st' buf_ptr n) /\ agree_outside st st' buf_ptr (Z.of_nat n).
Proof.
  intros Hb Hv. assert (Hp : 2 ^ 32 <= base ^ Z.of_nat (S 31)) by (apply Z.pow_le_mono_l; lia).
  destruct (itoa_loop_spec base 31 Hb st buf_ptr value ltac:(lia)) as (n & st' & E & H).
  exists n, st'. unfold itoa, itoa_fuel. rewrite E. auto.
Qed.

(** ** [vsprintf] *)

(** Text without ['%'] is copied byte by byte up to its NUL; nothing past
    the copied bytes is written, in particular no NUL. *)
Lemma vsprintf_loop_plain (l : list Z) (st : store) (buf fmt : Z) (ap : list Z) (fuel : nat) :
  cstring st fmt l -> Forall (fun c => c <> PERCENT) l -> (length l < fuel)%nat ->
  buf + Z.of_nat (length l) <= fmt \/ fmt + Z.of_nat (length l) < buf ->
  exists st', vsprintf_loop st buf fmt ap fuel = KOk (st', buf + Z.of_nat (length l)) /\
    read_bytes st' buf (length l) = l /\ agree_outside st st' buf (Z.of_nat (length l)).
Proof.
  revert st buf fmt fuel. induction l as [| c l IH]; intros st buf fmt [| f] H Hp Hf Hd; cbn [length] in *; try lia.
  - apply cstring_nil in H. cbn. rewrite H. cbn. eexists. split; [f_equal; f_equal; lia |].
    split; [reflexivity |]. intros a _. reflexivity.
  - apply cstring_cons in H as (Hr & Hc & H). apply Forall_cons in Hp as [Hpc Hp].
    cbn [vsprintf_loop]. rewrite Hr, (proj2 (Z.eqb_neq _ _) Hc), (proj2 (Z.eqb_neq _ _) Hpc). cbn [negb].
    destruct (IH (wr st buf c) (buf + 1) (fmt + 1) f) as (st' & E & Hb & Ha);
      [apply cstring_wr; [exact H | lia] | exact Hp | lia | lia |].
    rewrite E. eexists. split; [f_equal; f_equal; lia |]. cbn [read_bytes].
    rewrite Ha, rd_wr_eq, Hb by lia. split; [reflexivity |].
    intros a Hb'. rewrite Ha, rd_wr_ne by lia. reflexivity.
Qed.

(** [vsprintf] does not terminate its output: for a format
    without conversions it copies the text to [str] but writes no NUL,
    so the string at [str] runs on into whatever bytes were there before,
    and the length returned (and [sprintf]'s) counts them. *)
Theorem vsprintf_no_terminator (st : store) (str fmt : Z) (ap : list Z) (l stale : list Z) :
  str <> 0 -> cstring st fmt l -> Forall (fun c => c <> PERCENT) l ->
  cstring st (str + Z.of_nat (length l)) stale ->
  str + Z.of_nat (length l + length stale) < fmt \/ fmt + Z.of_nat (length l) < str ->
  exists st', vsprintf st str fmt ap = KOk (u32 (Z.of_nat (length l + length stale)), st') /\
    cstring st' str (l ++ stale).
Proof.
  intros Hs H Hp Hst Hd. pose proof (cstring_length_bound st fmt l H) as Hb.
  destruct (vsprintf_loop_plain l st str fmt ap (scan_fuel st)) as (st' & E & Hr & Ha);
    [exact H | exact Hp | unfold scan_fuel; lia | lia |].
  assert (Hc : cstring st' str (l ++ stale)).
  { apply cstring_app.
    - intros i c Hi. pose proof (lookup_lt_Some _ _ _ Hi). rewrite <- Hr in Hi.
      split; [exact (read_bytes_lookup _ _ _ _ _ Hi) |]. rewrite Hr in Hi.
      exact (proj1 (List.Forall_forall _ _) (proj1 (proj2 H)) c (proj1 (list_elem_of_In _ _) (list_elem_of_lookup_2 _ _ _ Hi))).
    - apply (cstring_agree st); [exact Hst |]. intros a Ha'. apply Ha. lia. }
  exists st'. unfold vsprintf. rewrite E. cbn [kbind].
  unfold strlen. rewrite (proj2 (Z.eqb_neq _ _) Hs). cbn [negb].
  rewrite (strlen_loop_cstring st' str (l ++ stale)) by
    (auto; pose proof (cstring_length_bound st' str _ Hc); unfold scan_fuel; lia).
  cbn [kbind]. rewrite length_app. split; [| exact Hc]. do 3 f_equal. lia.
Qed.

(** A conversion letter the [switch] has no case for is printed as an
    ordinary character: the ['%'] is dropped and no argument is read;
    in particular ["%%"] does not print ['%'] but starts a conversion
    with the second ['%']. *)
Lemma vsprintf_unknown_conversion (st : store) (buf p : Z) (ap : list Z) (f : nat) :
  rd st p = PERCENT -> rd st (p + 1) ∉ [CHAR_s; CHAR_d; CHAR_x; CHAR_c] ->
  vsprintf_loop st buf p ap (S f) = vsprintf_loop st buf (p + 1) ap f.
Proof.
  intros Hp Hn. cbn [vsprintf_loop]. rewrite Hp. cbn [Z.eqb negb PERCENT Pos.eqb].
  unfold conversion. rewrite !(proj2 (Z.eqb_neq _ _)) by (intros E; apply Hn; rewrite E; set_solver).
  reflexivity.
Qed.

Lemma i32_small (w : Z) : - 2 ^ 31 <= w < 2 ^ 31 -> i32 w = w.
Proof. intros Hw. unfold i32. rewrite Z.mod_small; lia. Qed.

(** A digit string of [n] digits of a value below [2^31] has at most 31
    digits. *)
Lemma digits_short (base w : Z) (n : nat) :
  2 <= base -> w < 2 ^ 31 -> (n = 1%nat \/ base ^ (Z.of_nat n - 1) <= w) -> Z.of_nat n <= 32.
Proof.
  intros Hb Hw [-> | Hn]; [lia |]. destruct (Z.le_gt_cases (Z.of_nat n) 32) as [| Hgt]; [assumption |].
  assert (2 ^ 31 <= 2 ^ (Z.of_nat n - 1)) by (apply Z.pow_le_mono_r; lia).
  assert (2 ^ (Z.of_nat n - 1) <= base ^ (Z.of_nat n - 1)) by (apply Z.pow_le_mono_l; lia). lia.
Qed.

(** A digit string is below [base] to its length. *)
Lemma digits_val_lt (base : Z) (l : list Z) :
  1 <= base -> Forall (fun c => 0 <= digit_val c < base) l -> 0 <= digits_val base l < base ^ Z.of_nat (length l).
Proof.
  intros Hb. induction l as [| c l IH] using rev_ind; intros Hl; [cbn; lia |].
  apply Forall_app in Hl as [Hl Hc]. inversion Hc as [| ? ? Hc1 _]; subst.
  rewrite digits_val_snoc, length_app, Nat2Z.inj_add, Z.pow_add_r by lia. rewrite Z.pow_1_r.
  specialize (IH Hl). nia.
Qed.

(** The number of digits [itoa] writes: at most [k] for a value below
    [base^k], exactly [k] when the value is at least [base^(k-1)]. *)
Lemma digits_count (base w : Z) (l : list Z) (k : nat) :
  2 <= base -> digits_val base l = w -> (length l = 1%nat \/ base ^ (Z.of_nat (length l) - 1) <= w) ->
  Forall (fun c => 0 <= digit_val c < base) l -> w < base ^ Z.of_nat k -> (1 <= k)%nat ->
  (length l <= k)%nat /\ (base ^ (Z.of_nat k - 1) <= w -> length l = k).
Proof.
  intros Hb Hv Hmin Hl Hk Hk1. pose proof (digits_val_lt base l ltac:(lia) Hl) as Hlt. rewrite Hv in Hlt.
  assert (Hle : (length l <= k)%nat).
  { destruct Hmin as [-> | Hmin]; [lia |].
    assert (Z.of_nat (length l) - 1 < Z.of_nat k) by (apply (Z.pow_lt_mono_r_iff base); lia). lia. }
  split; [exact Hle |]. intros Hlo.
  assert (Z.of_nat k - 1 < Z.of_nat (length l)) by (apply (Z.pow_lt_mono_r_iff base); lia). lia.
Qed.

(** [sprintf(buf, "%d", w)] and [sprintf(buf, "%x", w)] of a
    nonnegative [int] [w]: [itoa] writes the digits, and when the format is
    clear of them and a NUL follows them, [sprintf] returns their number. *)
Lemma sprintf_itoa (m : store) (buf fmt w c base : Z) :
  (c = CHAR_d /\ base = 10 \/ c = CHAR_x /\ base = 16) -> 0 <= w < 2 ^ 31 ->
  buf <> 0 -> read_bytes m fmt 3 = [PERCENT; c; 0] ->
  exists n m', itoa m buf w base = KOk (m', buf + Z.of_nat n) /\
    digits_val base (read_bytes m' buf n) = w /\ (n = 1%nat \/ base ^ (Z.of_nat n - 1) <= w) /\
    Forall (fun c => 0 <= digit_val c < base) (read_bytes m' buf n) /\ agree_outside m m' buf (Z.of_nat n) /\
    ((fmt + 3 <= buf \/ buf + Z.of_nat n <= fmt) -> rd m (buf + Z.of_nat n) = 0 ->
     sprintf m buf fmt [w] = KOk (Z.of_nat n, m')).
Proof.
  intros Hc Hw Hb Hf. assert (Hbase : 2 <= base <= 16) by lia.
  assert (Hp : 2 ^ 32 <= base ^ Z.of_nat (S 31)) by (apply Z.pow_le_mono_l; lia).
  destruct (itoa_loop_spec base 31 Hbase m buf w ltac:(lia)) as (n & m' & E0 & Hv & Hmin & Hdig & Ha).
  assert (E : itoa m buf w base = KOk (m', buf + Z.of_nat n)) by (unfold itoa, itoa_fuel; rewrite E0; reflexivity).
  exists n, m'. do 5 (split; [assumption |]). intros Hdis Hz.
  cbn in Hf. injection Hf as H0 H1 H2. replace (fmt + 1 + 1) with (fmt + 2) in H2 by lia.
  assert (Hsz : (2 <= size m)%nat).
  { apply (nonzero_run_bound m fmt 2). intros [| [| i]] Hi; [| | lia].
    - rewrite Z.add_0_r, H0. discriminate.
    - replace (fmt + Z.of_nat 1) with (fmt + 1) by lia. rewrite H1.
      destruct Hc as [[-> _] | [-> _]]; discriminate. }
  assert (Hcs : cstring m' buf (read_bytes m' buf n)).
  { split; [by rewrite length_read_bytes |]. split.
    - eapply Forall_impl; [exact Hdig |]. intros x Hx ->. unfold digit_val in Hx. cbn in Hx. lia.
    - rewrite length_read_bytes, Ha by lia. exact Hz. }
  pose proof (digits_short base w n ltac:(lia) ltac:(lia) Hmin) as Hshort.
  unfold sprintf, vsprintf, scan_fuel. destruct (size m) as [| [| k]]; [lia | lia |].
  cbn [vsprintf_loop]. rewrite H0, H1. change (PERCENT =? 0) with false. change (negb (PERCENT =? PERCENT)) with false.
  cbn zeta iota. replace (fmt + 1 + 1) with (fmt + 2) by lia.
  assert (Hconv : conversion m buf c [w] = KOk (m', buf + Z.of_nat n, [], true)).
  { unfold conversion. destruct Hc as [[-> ->] | [-> ->]]; cbn [va_arg]; rewrite i32_small by lia.
    - rewrite (proj2 (Z.ltb_ge w 0)) by lia. rewrite u32_small by lia. cbn. rewrite E. reflexivity.
    - rewrite u32_small by lia. cbn. rewrite E. reflexivity. }
  rewrite Hconv. cbn [kbind]. cbn [vsprintf_loop]. rewrite Ha, H2 by lia. cbn [Z.eqb kbind].
  rewrite (strlen_cstring m' buf _ Hb Hcs); rewrite length_read_bytes; [reflexivity | lia].
Qed.

(** [printk] and [printf] clear their buffer before [vsprintf], which
    writes no NUL: a format without conversions that fits the buffer is
    printed exactly. *)
Lemma printk_plain (st : store) (buf fmt : Z) (args l : list Z) :
  buf <> 0 -> cstring st fmt l -> Forall (fun c => c <> PERCENT) l -> (length l < 1024)%nat ->
  buf + 1024 <= fmt \/ fmt + Z.of_nat (length l) < buf ->
  exists st', printk st buf fmt args = KOk (st', l) /\ printf st buf fmt args = KOk (st', l).
Proof.
  intros Hb Hl Hp Hlen Hd. destruct (memset_loop_spec st buf 0 1024) as [Hz Ha0]. change (u8 0) with 0 in Hz.
  set (st1 := memset_loop st buf 0 1024).
  assert (Hl1 : cstring st1 fmt l) by (apply (cstring_agree st); [exact Hl | intros a Ha; apply Ha0; lia]).
  pose proof (cstring_length_bound st1 fmt l Hl1) as Hsz.
  destruct (vsprintf_loop_plain l st1 buf fmt args (scan_fuel st1)) as (st2 & E & Hr & Ha);
    [exact Hl1 | exact Hp | unfold scan_fuel; lia | lia |].
  assert (Hc : cstring st2 buf l).
  { split; [exact Hr |]. split; [apply Hl |]. rewrite Ha by lia. apply Hz. lia. }
  assert (Hv : vsprintf st1 buf fmt args = KOk (Z.of_nat (length l), st2)).
  { unfold vsprintf. rewrite E. cbn [kbind]. rewrite (strlen_cstring st2 buf l Hb Hc) by lia. reflexivity. }
  assert (Hout : (n <- strlen st2 buf;; KOk (st2, read_bytes st2 buf (Z.to_nat n))) = KOk (st2, l)).
  { rewrite (strlen_cstring st2 buf l Hb Hc) by lia. cbn [kbind]. rewrite Nat2Z.id. f_equal. f_equal. apply Hc. }
  exists st2. unfold printk, printf. fold st1. rewrite Hv. cbn [kbind]. split; exact Hout.
Qed.

(** ** Witnesses *)

(** [255] in base 16 is ["FF"]. *)
Lemma itoa_digits_witness :
  exists n st', itoa ∅ 0x3000 255 16 = KOk (st', 0x3000 + Z.of_nat n) /\
    digits_val 16 (read_bytes st' 0x3000 n) = 255 /\ (n = 1%nat \/ 16 ^ (Z.of_nat n - 1) <= 255) /\
    Forall (fun c => 0 <= digit_val c < 16) (read_bytes st' 0x3000 n) /\ agree_outside ∅ st' 0x3000 (Z.of_nat n).
Proof. apply itoa_digits; lia. Defined.

(** [sprintf(buf, "ok")] over ["xyz"] leaves ["okz"] and returns 3. *)
Lemma vsprintf_no_terminator_witness :
  exists st', vsprintf fmt_mem 0x3000 0x1000 [] = KOk (u32 (Z.of_nat (length [111; 107] + length [122])), st') /\
    cstring st' 0x3000 ([111; 107] ++ [122]).
Proof.
  apply vsprintf_no_terminator; [lia | apply (bool_decide_unpack _); vm_compute; reflexivity
    | repeat constructor; vm_compute; discriminate | apply (bool_decide_unpack _); vm_compute; reflexivity | cbn; lia].
Defined.

(** ["%u"] prints ["u"]. *)
Lemma vsprintf_unknown_conversion_witness :
  vsprintf_loop fmt_mem 0x3000 0x1100 [] 3 = vsprintf_loop fmt_mem 0x3000 0x1101 [] 2.
Proof. apply vsprintf_unknown_conversion; [reflexivity | apply (bool_decide_unpack _); vm_compute; reflexivity]. Defined.

(** [printk("ok")] prints ["ok"] over the ["xyz"] that was in its buffer. *)
Lemma printk_plain_witness :
  exists st', printk fmt_mem 0x3000 0x1000 [] = KOk (st', [111; 107]) /\ printf fmt_mem 0x3000 0x1000 [] = KOk (st', [111; 107]).
Proof.
  apply printk_plain; [lia | | | cbn; lia | cbn; lia]; apply (bool_decide_unpack _); vm_compute; reflexivity.
Defined.
