(* ===== verification/Ps.v ===== *)
(** * Ps: [sys_ps] of [thread/thread.c]

    [sys_ps] prints the title line, then one line per task of
    [thread_all_list] through [elem2thread_info], which prints the
    task's pid, parent pid, status and elapsed ticks in 16-column fields
    with [pad_print], then its name.  [pad_print] clears the buffer,
    formats one value into it with [sprintf] ([Stdio]), fills the rest of
    the field with spaces and writes [buf_len - 1] bytes to standard
    output.

    The tasks are in the byte store of [Kstring], at the offsets GCC gives
    the fields of [struct task_struct] on i386 ([PID_OFF] and the others);
    two- and four-byte fields are read little-endian ([load16],
    [load32]).  The string literals the code passes ([%s], ["NULL"],
    ["RUNNING"], ...) are at the addresses of a [rodata] record, a
    parameter of the section [Ps]; [sys_write], which is in the file
    system and not in the sources, is the list of bytes it is given.

    [pad_print]'s fill loop counts with a [uint8_t]: for a field of 256
    bytes or more it never ends.  The model's result is then
    [KOk None]; [hres] is [kres] with that outcome, and [let+] its bind.

    Theorems: the fill loop ends exactly when the field is shorter than
    256 bytes; case ['d'] of [pad_print] has no [break] and falls through
    to ['x'], so the pid column of a task that is not running shows, in
    hexadecimal, the four bytes from the pid on, that is
    [pid + 65536 * status]; a task name of 15 characters makes
    [elem2thread_info]'s [strcat] write one byte past [out_pad]. *)

From Stdlib Require Import ZArith Lia String Ascii Bool.
From stdpp Require Import base gmap list.
From S2P Require Import Prelude Bitmap Kstring Stdio.

Open Scope Z_scope.
Open Scope kernel_scope.

(** ** Routines that may not end *)

(** [KOk None]: the routine runs forever. *)
Definition hres (A : Type) : Type := kres (option A).

Definition hbind {A B : Type} (r : hres A) (f : A -> hres B) : hres B :=
  kbind r (fun o => match o with Some a => f a | None => KOk None end).

Definition hret {A : Type} (a : A) : hres A := KOk (Some a).

(** A routine that ends, as one that may not. *)
Definition hlift {A : Type} (r : kres A) : hres A := kbind r hret.

Notation "'let+' p ':=' r 'in' k" := (hbind r (fun x => match x with p => k end))
  (at level 65, p pattern, r at next level, right associativity) : kernel_scope.

(** ** Data *)

(** Little-endian loads of an [int16_t] or [uint16_t] and of a
    [uint32_t]. *)
Definition load16 (m : store) (p : Z) : Z := rd m p + 256 * rd m (p + 1).
Definition load32 (m : store) (p : Z) : Z := load16 m p + 65536 * load16 m (p + 2).

(** The offsets of [struct task_struct]'s fields: [self_kstack] at 0,
    the [pid_t]s [parent_pid] and [pid] at 4 and 6, the [enum]
    [status] at 8, [name[16]] at 12, the [uint8_t]s [priority] and
    [ticks] at 28 and 29, and [elapsed_ticks] aligned at 32. *)
Definition PARENT_PID_OFF : Z := 4.
Definition PID_OFF : Z := 6.
Definition STATUS_OFF : Z := 8.
Definition NAME_OFF : Z := 12.
Definition ELAPSED_TICKS_OFF : Z := 32.

Definition CHAR_SPACE : Z := 32.

(** The addresses of the string literals. *)
Record rodata := mk_rodata {
  lit_fmt_s : Z; lit_fmt_d : Z; lit_fmt_x : Z;
  lit_NULL : Z; lit_RUNNING : Z; lit_READY : Z; lit_BLOCKED : Z; lit_WAITING : Z;
  lit_HANGING : Z; lit_DIED : Z; lit_newline : Z; lit_ps_title : Z
}.

(** ** [pad_print] *)

(** [while (out_pad_0idx < buf_len) { buf[out_pad_0idx] = ' ';
    out_pad_0idx++; }] with a [uint8_t] index. *)
Fixpoint pad_loop (m : store) (buf out_pad_0idx buf_len : Z) (fuel : nat) : option store :=
  match fuel with
  | O => None
  | S f =>
      if out_pad_0idx <? buf_len then pad_loop (wr m (buf + out_pad_0idx) CHAR_SPACE) buf (u8 (out_pad_0idx + 1)) buf_len f
      else Some m
  end.

(** The index takes at most 256 values: the loop either ends within 256
    tests or never. *)
Definition pad_fuel : nat := 256.

(** The [n] bytes at [a] and the [k] bytes at [b] do not overlap. *)
Definition apart (a n b k : Z) : Prop := a + n <= b \/ b + k <= a.

Section Ps.

Context (lit : rodata).

(** The [switch (format)] of [pad_print]: case ['d'] has no [break] and
    goes on with case ['x']; the number [sprintf] returns is kept in the
    [uint8_t] [out_pad_0idx], which stays 0 for another format. *)
Definition pad_format (m : store) (buf ptr format : Z) : kres (Z * store) :=
  if format =? CHAR_s then
    let* (n, m) := sprintf m buf (lit_fmt_s lit) [ptr] in KOk (u8 n, m)
  else if format =? CHAR_d then
    let* (_, m) := sprintf m buf (lit_fmt_d lit) [u32 (i16 (load16 m ptr))] in
    let* (n, m) := sprintf m buf (lit_fmt_x lit) [load32 m ptr] in KOk (u8 n, m)
  else if format =? CHAR_x then
    let* (n, m) := sprintf m buf (lit_fmt_x lit) [load32 m ptr] in KOk (u8 n, m)
  else KOk (0, m).

(** [pad_print(buf, buf_len, ptr, format)]: clear ([memset]'s size is a
    [uint32_t]), format, fill, [sys_write(stdout_no, buf, buf_len - 1)].  The result is the store
    and the bytes written to standard output. *)
Definition pad_print (m : store) (buf buf_len ptr format : Z) : hres (store * list Z) :=
  let+ m := hlift (memset m buf 0 (u32 buf_len)) in
  let+ (out_pad_0idx, m) := hlift (pad_format m buf ptr format) in
  match pad_loop m buf out_pad_0idx buf_len pad_fuel with
  | Some m => hret (m, read_bytes m buf (Z.to_nat (u32 (buf_len - 1))))
  | None => KOk None
  end.

(** The literal [elem2thread_info] prints for a status. *)
Definition status_literal (status : Z) : option Z :=
  if status =? 0 then Some (lit_RUNNING lit)
  else if status =? 1 then Some (lit_READY lit)
  else if status =? 2 then Some (lit_BLOCKED lit)
  else if status =? 3 then Some (lit_WAITING lit)
  else if status =? 4 then Some (lit_HANGING lit)
  else if status =? 5 then Some (lit_DIED lit)
  else None.

(** The end of [elem2thread_info]: the task's name and a newline, through
    [out_pad]. *)
Definition print_name (m : store) (pthread out_pad : Z) : hres (store * list Z) :=
  let+ m := hlift (memset m out_pad 0 16) in
  let+ len := hlift (strlen m (pthread + NAME_OFF)) in
  if negb (len <? 17) then KPanic "strlen(pthread->name) < 17" else
  let+ m := hlift (memcpy m out_pad (pthread + NAME_OFF) len) in
  let+ (_, m) := hlift (strcat m out_pad (lit_newline lit)) in
  let+ n := hlift (strlen m out_pad) in
  hret (m, read_bytes m out_pad (Z.to_nat n)).

(** [elem2thread_info(&pthread->all_list_tag, 0)]; [out_pad] is the
    address of its local [char out_pad[16] = {0}]. *)
Definition elem2thread_info (m : store) (pthread out_pad : Z) : hres (store * list Z) :=
  let m := memset_loop m out_pad 0 16 in
  let+ (m, o_pid) := pad_print m out_pad 16 (pthread + PID_OFF) CHAR_d in
  let+ (m, o_ppid) :=
    if i16 (load16 m (pthread + PARENT_PID_OFF)) =? -1 then pad_print m out_pad 16 (lit_NULL lit) CHAR_s
    else pad_print m out_pad 16 (pthread + PARENT_PID_OFF) CHAR_d in
  let+ (m, o_stat) :=
    match status_literal (load32 m (pthread + STATUS_OFF)) with
    | Some s => pad_print m out_pad 16 s CHAR_s
    | None => hret (m, [])
    end in
  let+ (m, o_ticks) := pad_print m out_pad 16 (pthread + ELAPSED_TICKS_OFF) CHAR_x in
  let+ (m, o_name) := print_name m pthread out_pad in
  hret (m, o_pid ++ o_ppid ++ o_stat ++ o_ticks ++ o_name).

(** [list_traversal(&thread_all_list, elem2thread_info, 0)]: the
    callback returns [false], so every task of the list is visited. *)
Fixpoint ps_rows (m : store) (tasks : list Z) (out_pad : Z) : hres (store * list Z) :=
  match tasks with
  | [] => hret (m, [])
  | pthread :: rest =>
      let+ (m, o) := elem2thread_info m pthread out_pad in
      let+ (m, o') := ps_rows m rest out_pad in
      hret (m, o ++ o')
  end.

(** [sys_ps]: the title, then a line per task of [thread_all_list]. *)
Definition sys_ps (m : store) (thread_all_list : list Z) (out_pad : Z) : hres (store * list Z) :=
  let+ n := hlift (strlen m (lit_ps_title lit)) in
  let+ (m, o) := ps_rows m thread_all_list out_pad in
  hret (m, read_bytes m (lit_ps_title lit) (Z.to_nat n) ++ o).

End Ps.

(** ** A task list in memory *)

Fixpoint put_bytes (m : store) (p : Z) (l : list Z) : store :=
  match l with [] => m | c :: r => put_bytes (<[p := c]> m) (p + 1) r end.

(** A string literal's bytes, with the NUL. *)
Definition cbytes (s : string) : list Z := map (fun a => Z.of_nat (nat_of_ascii a)) (list_ascii_of_string s) ++ [0].
Arguments cbytes s%_string.

Definition ps_lits : rodata :=
  mk_rodata 0x100 0x110 0x120 0x130 0x140 0x150 0x160 0x170 0x180 0x190 0x1a0 0x200.

(** The literals, a task at [0x5000] (pid 10, no parent, [TASK_READY],
    named ["idle"]) and one at [0x6000] (pid 1000, [TASK_RUNNING], a name
    of 15 characters); [0x8000] is [out_pad], and the byte after it is
    [0x55]. *)
Definition ps_mem : store :=
  fold_left (fun m '(p, l) => put_bytes m p l)
    [(0x100, cbytes "%s"); (0x110, cbytes "%d"); (0x120, cbytes "%x"); (0x130, cbytes "NULL");
     (0x140, cbytes "RUNNING"); (0x150, cbytes "READY"); (0x160, cbytes "BLOCKED"); (0x170, cbytes "WAITING");
     (0x180, cbytes "HANGING"); (0x190, cbytes "DIED"); (0x1a0, [10; 0]); (0x200, cbytes "PID PPID STAT TICKS COMMAND");
     (0x5000, [0; 0; 0; 0; 255; 255; 10; 0; 1; 0; 0; 0] ++ cbytes "idle");
     (0x6000, [0; 0; 0; 0; 255; 255; 232; 3; 0; 0; 0; 0] ++ cbytes "kernel_worker01");
     (0x8010, [0x55])]
    ∅.

(** ** Theorems *)

(** The fill loop from [idx] up to a [len] below 256 writes spaces over
    [\[buf + idx, buf + len)] and nothing else. *)
Lemma pad_loop_fills (m : store) (buf idx len : Z) (fuel : nat) :
  0 <= idx <= len -> len <= 255 -> (Z.to_nat (len - idx) < fuel)%nat ->
  exists m', pad_loop m buf idx len fuel = Some m' /\
    (forall a, buf + idx <= a < buf + len -> rd m' a = CHAR_SPACE) /\ agree_outside m m' (buf + idx) (len - idx).
Proof.
  intros Hi Hl. revert fuel. remember (Z.to_nat (len - idx)) as d eqn:Hd. revert m idx Hi Hd.
  induction d as [| d IH]; intros m idx Hi Hd [| f] Hf; try lia; cbn [pad_loop].
  - rewrite (proj2 (Z.ltb_ge idx len)) by lia. exists m.
    split; [reflexivity |]. split; [intros; lia | intros a _; reflexivity].
  - rewrite (proj2 (Z.ltb_lt idx len)), u8_small by lia.
    destruct (IH (wr m (buf + idx) CHAR_SPACE) (idx + 1) ltac:(lia) ltac:(lia) f ltac:(lia)) as (m' & E & Hs & Ha).
    exists m'. split; [exact E |]. split.
    + intros a Hb. destruct (Z.eq_dec a (buf + idx)) as [-> |]; [rewrite Ha, rd_wr_eq by lia; reflexivity | apply Hs; lia].
    + intros a Hb. rewrite Ha, rd_wr_ne by lia. reflexivity.
Qed.

(** With a [uint8_t] index the test [out_pad_0idx < buf_len] holds for
    ever once [buf_len] is 256 or more. *)
Lemma pad_loop_hangs (m : store) (buf idx len : Z) (fuel : nat) :
  256 <= len -> 0 <= idx < 256 -> pad_loop m buf idx len fuel = None.
Proof.
  intros Hl. revert m idx. induction fuel as [| f IH]; intros m idx Hi; [reflexivity |]. cbn [pad_loop].
  rewrite (proj2 (Z.ltb_lt idx len)) by lia. apply IH. unfold u8. apply Z.mod_pos_bound. lia.
Qed.

(** [out_pad_0idx] is a [uint8_t]. *)
Lemma pad_format_index (lit : rodata) (m : store) (buf ptr format idx : Z) (m' : store) :
  pad_format lit m buf ptr format = KOk (idx, m') -> 0 <= idx < 256.
Proof.
  assert (Hu : forall n, 0 <= u8 n < 256) by (intros n; unfold u8; apply Z.mod_pos_bound; lia).
  unfold pad_format. repeat case_match; intros E;
    repeat (apply kbind_ok in E as ([? ?] & _ & E)); injection E as <- _; auto; lia.
Qed.

(** C26 (termination) [pad_print] never returns for a field of 256 bytes
    or more: whatever [sprintf] returned, its [uint8_t] index stays below
    256, so the fill loop's test never fails. *)
Theorem pad_print_hangs (lit : rodata) (m : store) (buf buf_len ptr format : Z) :
  256 <= buf_len -> forall r, pad_print lit m buf buf_len ptr format <> KOk (Some r).
Proof.
  intros Hl r. unfold pad_print, hbind, hlift.
  destruct (memset m buf 0 (u32 buf_len)) as [m1 | | |]; cbn [kbind hret]; [| discriminate ..].
  destruct (pad_format lit m1 buf ptr format) as [[idx m2] | | |] eqn:E; cbn [kbind hret]; [| discriminate ..].
  apply pad_format_index in E. rewrite pad_loop_hangs by lia. discriminate.
Qed.

(** The [switch] of [pad_print] for ['d'] on a pid and the status after
    it, in a cleared buffer: [sprintf(buf, "%d", pid)] writes at most 5
    digits, and [sprintf(buf, "%x", *(uint32_t* )ptr)] then writes the 5
    hexadecimal digits of [pid + 65536 * status] over them. *)
Lemma pad_format_pid (lit : rodata) (m : store) (buf ptr pid status : Z) :
  read_bytes m (lit_fmt_d lit) 3 = [PERCENT; CHAR_d; 0] -> read_bytes m (lit_fmt_x lit) 3 = [PERCENT; CHAR_x; 0] ->
  buf <> 0 -> apart buf 16 (lit_fmt_d lit) 3 -> apart buf 16 (lit_fmt_x lit) 3 -> apart buf 16 ptr 4 ->
  (forall a, buf <= a < buf + 16 -> rd m a = 0) ->
  load16 m ptr = pid -> load16 m (ptr + 2) = status -> 0 <= pid < 2 ^ 15 -> 1 <= status < 16 ->
  exists m', pad_format lit m buf ptr CHAR_d = KOk (5, m') /\
    digits_val 16 (read_bytes m' buf 5) = pid + 65536 * status /\
    Forall (fun c => 0 <= digit_val c < 16) (read_bytes m' buf 5) /\
    (forall a, buf + 5 <= a < buf + 16 -> rd m' a = 0) /\ agree_outside m m' buf 16.
Proof.
  intros Hfd Hfx Hb Hd Hx Hp Hz Hpid Hst Hpr Hsr. unfold apart in *.
  unfold pad_format. change (CHAR_d =? CHAR_s) with false. change (CHAR_d =? CHAR_d) with true. cbn iota.
  rewrite Hpid, i16_small, u32_small by lia.
  destruct (sprintf_itoa m buf (lit_fmt_d lit) pid CHAR_d 10) as (n1 & m2 & _ & Hv1 & Hmin1 & Hdig1 & Ha1 & Hs1);
    [left; auto | lia | exact Hb | exact Hfd |].
  rewrite <- (length_read_bytes m2 buf n1) in Hmin1.
  destruct (digits_count 10 pid _ 5 ltac:(lia) Hv1 Hmin1 Hdig1 ltac:(cbn; lia) ltac:(lia)) as [Hn1 _].
  rewrite length_read_bytes in Hn1.
  rewrite Hs1 by (lia || (apply Hz; lia)). cbn [kbind].
  assert (Hw : load32 m2 ptr = pid + 65536 * status).
  { unfold load32, load16 in *. rewrite !Ha1 by lia. lia. }
  assert (Hfx2 : read_bytes m2 (lit_fmt_x lit) 3 = [PERCENT; CHAR_x; 0]).
  { rewrite <- Hfx. apply read_bytes_agree. intros a Ha. apply Ha1. lia. }
  rewrite Hw.
  destruct (sprintf_itoa m2 buf (lit_fmt_x lit) (pid + 65536 * status) CHAR_x 16) as (n2 & m3 & _ & Hv2 & Hmin2 & Hdig2 & Ha2 & Hs2);
    [right; auto | lia | exact Hb | exact Hfx2 |].
  rewrite <- (length_read_bytes m3 buf n2) in Hmin2.
  destruct (digits_count 16 _ _ 5 ltac:(lia) Hv2 Hmin2 Hdig2 ltac:(cbn; lia) ltac:(lia)) as [_ Hn2].
  rewrite length_read_bytes in Hn2. specialize (Hn2 ltac:(cbn; lia)). subst n2.
  rewrite Hs2 by (lia || (rewrite Ha1 by lia; apply Hz; lia)). cbn [kbind].
  exists m3. split; [reflexivity |]. split; [exact Hv2 |]. split; [exact Hdig2 |]. split.
  - intros a Ha. rewrite Ha2, Ha1 by lia. apply Hz. lia.
  - intros a Ha. rewrite Ha2, Ha1 by lia. reflexivity.
Qed.

(** C22 (functional) [pad_print(out_pad, 16, &pthread->pid, 'd')], as
    [elem2thread_info] calls it, prints no decimal pid: case ['d'] falls
    through to case ['x'], which reads four bytes from the pid on, the
    pid and the low half of [status].  For a task that is not running
    (status 1 to 5, any status below 16) the column is the 5 hexadecimal
    digits of [pid + 65536 * status], then 10 spaces. *)
Theorem pad_print_pid_hex (lit : rodata) (m : store) (buf ptr pid status : Z) :
  read_bytes m (lit_fmt_d lit) 3 = [PERCENT; CHAR_d; 0] -> read_bytes m (lit_fmt_x lit) 3 = [PERCENT; CHAR_x; 0] ->
  buf <> 0 -> apart buf 16 (lit_fmt_d lit) 3 -> apart buf 16 (lit_fmt_x lit) 3 -> apart buf 16 ptr 4 ->
  load16 m ptr = pid -> load16 m (ptr + 2) = status -> 0 <= pid < 2 ^ 15 -> 1 <= status < 16 ->
  exists m' digits, pad_print lit m buf 16 ptr CHAR_d = KOk (Some (m', digits ++ repeat CHAR_SPACE 10)) /\
    length digits = 5%nat /\ digits_val 16 digits = pid + 65536 * status /\
    Forall (fun c => 0 <= digit_val c < 16) digits.
Proof.
  intros Hfd Hfx Hb Hd Hx Hp Hpid Hst Hpr Hsr. unfold apart in *.
  destruct (memset_loop_spec m buf 0 16) as [Hz Ha0]. change (u8 0) with 0 in Hz.
  set (m1 := memset_loop m buf 0 16) in *.
  assert (Hrb : forall a k, a + Z.of_nat k <= buf \/ buf + 16 <= a -> read_bytes m1 a k = read_bytes m a k).
  { intros a k Hak. apply read_bytes_agree. intros a' Ha'. apply Ha0. lia. }
  destruct (pad_format_pid lit m1 buf ptr pid status) as (m3 & E & Hv & Hdig & _ & _);
    [rewrite Hrb; [exact Hfd | lia] | rewrite Hrb; [exact Hfx | lia] | exact Hb | exact Hd | exact Hx | exact Hp
    | exact Hz | unfold load16 in *; rewrite !Ha0 by lia; lia | unfold load16 in *; rewrite !Ha0 by lia; lia | lia | lia |].
  destruct (pad_loop_fills m3 buf 5 16 pad_fuel) as (m4 & E4 & Hsp & Ha4); [lia | lia | unfold pad_fuel; cbn; lia |].
  exists m4, (read_bytes m3 buf 5).
  unfold pad_print, hbind, hlift, memset. rewrite (proj2 (Z.eqb_neq _ _) Hb). cbn [negb kbind hret].
  change (Z.to_nat (u32 16)) with 16%nat. fold m1.
  rewrite E. cbn [kbind hret]. rewrite E4. cbn [hret].
  split; [| split; [apply length_read_bytes | split; assumption]].
  change (Z.to_nat (u32 (16 - 1))) with (5 + 10)%nat. rewrite read_bytes_app. unfold hret.
  rewrite (read_bytes_agree m3 m4 buf 5), (read_bytes_const m4 (buf + Z.of_nat 5) CHAR_SPACE 10); [reflexivity | |].
  - intros a Ha. apply Hsp. lia.
  - intros a Ha. apply Ha4. lia.
Qed.

(** C27 (bounds) [elem2thread_info] allows names of up to 16 characters
    ([ASSERT(strlen(pthread->name) < 17)]) in a 16-byte [out_pad]: for a
    name of 15 characters, which [name[16]] holds with its NUL, the
    [strcat] of the newline puts the terminating NUL at [out_pad[16]],
    one byte past the array, whatever was there. *)
Theorem print_name_overflow (lit : rodata) (m : store) (pthread out_pad : Z) (name : list Z) :
  out_pad <> 0 -> pthread + NAME_OFF <> 0 -> lit_newline lit <> 0 ->
  cstring m (pthread + NAME_OFF) name -> length name = 15%nat -> cstring m (lit_newline lit) [10] ->
  apart out_pad 17 (pthread + NAME_OFF) 16 -> apart out_pad 17 (lit_newline lit) 2 ->
  exists m', print_name lit m pthread out_pad = KOk (Some (m', name ++ [10])) /\ rd m' (out_pad + 16) = 0.
Proof.
  intros Ho Hn Hl Hname Hlen Hnl Hap1 Hap2. unfold apart in *.
  destruct (memset_loop_spec m out_pad 0 16) as [Hz Ha0]. change (u8 0) with 0 in Hz. set (m1 := memset_loop m out_pad 0 16) in *.
  assert (Hname1 : cstring m1 (pthread + NAME_OFF) name) by (apply (cstring_agree m); [exact Hname | intros a Ha; apply Ha0; lia]).
  assert (Hmc : memcpy m1 out_pad (pthread + NAME_OFF) 15 = KOk (memcpy_loop m1 out_pad (pthread + NAME_OFF) 15)).
  { unfold memcpy. rewrite (proj2 (Z.eqb_neq _ _) Ho), (proj2 (Z.eqb_neq _ _) Hn). reflexivity. }
  destruct (memcpy_loop_spec m1 out_pad (pthread + NAME_OFF) 15) as (Ec & _ & Ha1); [cbn; lia |].
  set (m2 := memcpy_loop m1 out_pad (pthread + NAME_OFF) 15) in *.
  assert (Hout2 : cstring m2 out_pad name).
  { split; [rewrite Hlen, Ec, <- Hlen; apply Hname1 |]. split; [apply Hname |].
    rewrite Hlen, Ha1 by (cbn; lia). apply Hz. cbn; lia. }
  assert (Hnl2 : cstring m2 (lit_newline lit) [10]).
  { apply (cstring_agree m); [exact Hnl |]. intros a Ha. cbn in Ha. rewrite Ha1, Ha0 by lia. reflexivity. }
  destruct (strcat_appends m2 out_pad (lit_newline lit) name [10] Ho Hl Hout2 Hnl2) as (m3 & Es & Hout3 & _);
    [rewrite Hlen; cbn; lia |].
  exists m3. unfold print_name, hbind, hlift, memset. rewrite (proj2 (Z.eqb_neq _ _) Ho). cbn [negb kbind hret].
  change (Z.to_nat 16) with 16%nat. fold m1.
  rewrite (strlen_cstring m1 _ name Hn Hname1) by lia. rewrite Hlen. cbn [kbind hret negb Z.ltb Z.compare].
  change (Z.of_nat 15) with 15. rewrite Hmc. cbn [kbind hret]. fold m2. rewrite Es. cbn [kbind hret].
  rewrite (strlen_cstring m3 _ _ Ho Hout3) by (rewrite length_app, Hlen; cbn; lia). cbn [kbind hret].
  destruct Hout3 as (Hr3 & _ & Hz3). rewrite length_app, Hlen in Hr3, Hz3.
  change (15 <? 17) with true. cbn [negb]. rewrite length_app, Hlen, Nat2Z.id.
  split; [unfold hret; rewrite Hr3; reflexivity | exact Hz3].
Qed.

(** ** Witnesses *)

Lemma pad_print_hangs_witness :
  256 <= 300 /\ forall r, pad_print ps_lits ps_mem 0x8000 300 0x130 CHAR_s <> KOk (Some r).
Proof. split; [lia | apply pad_print_hangs; lia]. Defined.

(** Pid 10 of a ready task prints as ["1000A"]. *)
Lemma pad_print_pid_hex_witness :
  exists m' digits, pad_print ps_lits ps_mem 0x8000 16 0x5006 CHAR_d = KOk (Some (m', digits ++ repeat CHAR_SPACE 10)) /\
    length digits = 5%nat /\ digits_val 16 digits = 10 + 65536 * 1 /\ Forall (fun c => 0 <= digit_val c < 16) digits.
Proof.
  apply pad_print_pid_hex; try (vm_compute; reflexivity); try (unfold apart; cbn; lia); lia.
Defined.

Lemma print_name_overflow_witness :
  exists m', print_name ps_lits ps_mem 0x6000 0x8000 = KOk (Some (m', removelast (cbytes "kernel_worker01") ++ [10])) /\
    rd m' (0x8000 + 16) = 0.
Proof.
  apply print_name_overflow; try (unfold apart, NAME_OFF; cbn; lia); try (vm_compute; reflexivity);
    apply (bool_decide_unpack _); vm_compute; reflexivity.
Defined.

(** [ps] on the two tasks of [ps_mem]: pid 10 shows as ["1000A"] and pid
    1000 as ["3E80"], the hexadecimal [3E8] followed by the last digit of
    the decimal [1000] that [sprintf(buf, "%x", ...)] did not overwrite. *)
Example sys_ps_output :
  match sys_ps ps_lits ps_mem [0x5000; 0x6000] 0x8000 with
  | KOk (Some (_, out)) =>
      out = removelast (cbytes "PID PPID STAT TICKS COMMAND") ++
            removelast (cbytes "1000A          NULL           READY          0              idle") ++ [10] ++
            removelast (cbytes "3E80           NULL           RUNNING        0              kernel_worker01") ++ [10]
  | _ => False
  end.
Proof. vm_compute. reflexivity. Qed.
