(* ===== verification/Task.v ===== *)
(** * Task: creating a task in memory ([init_thread], [thread_create],
    [thread_start], [make_main_thread], [running_thread] of
    [thread/thread.c])

    [Thread] models the scheduler on task records; this file models how
    [thread.c] lays a new task out in its page, byte by byte, in the store
    of [Kstring], at the offsets GCC gives [struct task_struct] on i386
    (those [sys_ps] reads are in [Ps]).  Multi-byte fields are written
    little-endian ([store16], [store32]).

    [thread_start]'s page is the one [get_kernel_pages(1)] returned
    ([PageAlloc]), and its pid the one [allocate_pid] returned ([Kernel]):
    both are parameters.  The ready and all-task lists are lists of the
    addresses of the tasks' list elements, as in [Thread]; [list.c], not
    in the sources, also links the elements through their [prev] and
    [next] fields, which the model leaves out.  The addresses of
    [kernel_thread] and of the thread's function are parameters.

    Theorems: [init_thread] sets every field of a new task and writes
    nothing outside it; [self_kstack] is a [uint32_t*], so [thread_create]'s
    [self_kstack -= sizeof(struct intr_stack)] and
    [-= sizeof(struct thread_stack)] move it 4 bytes per unit: the frame
    is built 432 bytes, not 108, below the top of the page, still above
    the task's fields; a task name of 16 characters, which [init_thread]
    copies with its NUL into [name[16]], loses its NUL to [priority], and
    [sys_ps] then stops the kernel at its [ASSERT]; [running_thread] finds
    a task's page from any address in its kernel stack. *)

From Stdlib Require Import ZArith Lia String Bool.
From stdpp Require Import base gmap list.
From S2P Require Import Prelude Bitmap Thread Kstring Stdio Ps.

Open Scope Z_scope.
Open Scope kernel_scope.

(** ** Stores *)

Definition store8 (m : store) (a v : Z) : store := wr m a (u8 v).
Definition store16 (m : store) (a v : Z) : store := store8 (store8 m a v) (a + 1) (Z.shiftr v 8).
Definition store32 (m : store) (a v : Z) : store := store16 (store16 m a v) (a + 2) (Z.shiftr v 16).

(** ** The layout of a task *)

(** [#define MAX_FILES_OPEN_PER_PROC 8]. *)
Definition MAX_FILES_OPEN_PER_PROC : Z := 8.

(** The offsets of [struct task_struct]'s other fields: [self_kstack] at
    0, [priority] and [ticks] at 28 and 29, [fd_table] at 36, the two
    [list_elem]s (two pointers each) at 68 and 76, [pgdir] at 84,
    [userprog_vaddr] (a [struct bitmap] and a [uint32_t]) at 88,
    [u_block_desc] (7 descriptors of 24 bytes) at 100, [cwd_inode_nr] at
    268 and [stack_magic] at 272; the structure has 276 bytes. *)
Definition SELF_KSTACK_OFF : Z := 0.
Definition PRIORITY_OFF : Z := 28.
Definition TICKS_OFF : Z := 29.
Definition FD_TABLE_OFF : Z := 36.
Definition GENERAL_TAG_OFF : Z := 68.
Definition ALL_LIST_TAG_OFF : Z := 76.
Definition PGDIR_OFF : Z := 84.
Definition CWD_INODE_NR_OFF : Z := 268.
Definition STACK_MAGIC_OFF : Z := 272.
Definition TASK_STRUCT_SIZE : Z := 276.

(** [sizeof(struct intr_stack)], 19 words, and [sizeof(struct
    thread_stack)], 8 words with [ebp], [ebx], [edi], [esi], [eip],
    [unused_retaddr], [function] and [func_arg] in that order. *)
Definition INTR_STACK_SIZE : Z := 76.
Definition THREAD_STACK_SIZE : Z := 32.
Definition TS_EBP_OFF : Z := 0.
Definition TS_EBX_OFF : Z := 4.
Definition TS_EDI_OFF : Z := 8.
Definition TS_ESI_OFF : Z := 12.
Definition TS_EIP_OFF : Z := 16.
Definition TS_FUNCTION_OFF : Z := 24.
Definition TS_FUNC_ARG_OFF : Z := 28.

(** The value of an [enum task_status]. *)
Definition status_val (st : task_status) : Z :=
  match st with
  | TASK_RUNNING => 0 | TASK_READY => 1 | TASK_BLOCKED => 2
  | TASK_WAITING => 3 | TASK_HANGING => 4 | TASK_DIED => 5
  end.

(** [#define STACK_MAGIC 0x19870916], written by [init_thread]. *)
Definition STACK_MAGIC : Z := 0x19870916.

(** ** [init_thread] *)

(** [uint8_t fd_idx = 3; while (fd_idx < MAX_FILES_OPEN_PER_PROC) {
    pthread->fd_table[fd_idx] = -1; fd_idx++; }], structural on the
    loop's bound. *)
Fixpoint fd_table_fill (m : store) (pthread fd_idx : Z) (n : nat) : store :=
  match n with
  | O => m
  | S k =>
      if fd_idx <? MAX_FILES_OPEN_PER_PROC then
        fd_table_fill (store32 m (pthread + FD_TABLE_OFF + 4 * fd_idx) (-1)) pthread (u8 (fd_idx + 1)) k
      else m
  end.

(** The assignments of [init_thread] after the [strcpy] of the name. *)
Definition init_thread_fields (m : store) (main_thread pthread prio : Z) : store :=
  let m := store32 m (pthread + STATUS_OFF)
             (status_val (if pthread =? main_thread then TASK_RUNNING else TASK_READY)) in
  let m := store32 m (pthread + SELF_KSTACK_OFF) (u32 (pthread + PG_SIZE)) in
  let m := store8 m (pthread + PRIORITY_OFF) prio in
  let m := store8 m (pthread + TICKS_OFF) prio in
  let m := store32 m (pthread + ELAPSED_TICKS_OFF) 0 in
  let m := store32 m (pthread + PGDIR_OFF) 0 in
  let m := store32 m (pthread + CWD_INODE_NR_OFF) 0 in
  let m := store16 m (pthread + PARENT_PID_OFF) (-1) in
  let m := store32 m (pthread + STACK_MAGIC_OFF) STACK_MAGIC in
  let m := store32 m (pthread + FD_TABLE_OFF) 0 in
  let m := store32 m (pthread + FD_TABLE_OFF + 4) 1 in
  let m := store32 m (pthread + FD_TABLE_OFF + 8) 2 in
  fd_table_fill m pthread 3 (Z.to_nat MAX_FILES_OPEN_PER_PROC).

(** [init_thread(pthread, name, prio)]; [pid] is what [allocate_pid()]
    returned. *)
Definition init_thread (m : store) (main_thread pthread name prio pid : Z) : kres store :=
  m <- memset m pthread 0 TASK_STRUCT_SIZE ;;
  let m := store16 m (pthread + PID_OFF) pid in
  let* (_, m) := strcpy m (pthread + NAME_OFF) name in
  KOk (init_thread_fields m main_thread pthread prio).

(** ** [thread_create] *)

(** [pthread->self_kstack -= n] on a [uint32_t*]: [n] words. *)
Definition kstack_sub (m : store) (pthread n : Z) : store :=
  store32 m (pthread + SELF_KSTACK_OFF) (u32 (load32 m (pthread + SELF_KSTACK_OFF) - 4 * n)).

(** [thread_create(pthread, function, func_arg)]; [kernel_thread] is the
    address of the function of that name.  The chained assignment
    [ebp = ebx = esi = edi = 0] writes [edi] first. *)
Definition thread_create (m : store) (pthread kernel_thread function func_arg : Z) : store :=
  let m := kstack_sub m pthread INTR_STACK_SIZE in
  let m := kstack_sub m pthread THREAD_STACK_SIZE in
  let kthread_stack := load32 m (pthread + SELF_KSTACK_OFF) in
  let m := store32 m (kthread_stack + TS_EIP_OFF) kernel_thread in
  let m := store32 m (kthread_stack + TS_FUNCTION_OFF) function in
  let m := store32 m (kthread_stack + TS_FUNC_ARG_OFF) func_arg in
  let m := store32 m (kthread_stack + TS_EDI_OFF) 0 in
  let m := store32 m (kthread_stack + TS_ESI_OFF) 0 in
  let m := store32 m (kthread_stack + TS_EBX_OFF) 0 in
  store32 m (kthread_stack + TS_EBP_OFF) 0.

(** ** [thread_start], [running_thread], [make_main_thread] *)

(** [thread_start(name, prio, function, func_arg)] on the page [thread]
    and the pid [pid]: the store and the ready and all-task lists. *)
Definition thread_start (m : store) (ready all : list Z) (main_thread thread name prio pid kernel_thread function func_arg : Z)
    : kres (store * list Z * list Z) :=
  m <- init_thread m main_thread thread name prio pid ;;
  let m := thread_create m thread kernel_thread function func_arg in
  ASSERT negb (queued (thread + GENERAL_TAG_OFF) ready) as "!elem_find(&thread_ready_list, &thread->general_tag)" ;;
  let ready := ready ++ [thread + GENERAL_TAG_OFF] in
  ASSERT negb (queued (thread + ALL_LIST_TAG_OFF) all) as "!elem_find(&thread_all_list, &thread->all_list_tag)" ;;
  KOk (m, ready, all ++ [thread + ALL_LIST_TAG_OFF]).

(** [running_thread()]: [esp & 0xfffff000]. *)
Definition running_thread (esp : Z) : Z := Z.land (u32 esp) 0xfffff000.

(** [make_main_thread()]: the task of the running stack, named by the
    literal at [main_name], priority 31. *)
Definition make_main_thread (m : store) (all : list Z) (esp main_name pid : Z) : kres (store * list Z * Z) :=
  let main_thread := running_thread esp in
  m <- init_thread m main_thread main_thread main_name 31 pid ;;
  ASSERT negb (queued (main_thread + ALL_LIST_TAG_OFF) all) as "!elem_find(&thread_all_list, &main_thread->all_list_tag)" ;;
  KOk (m, all ++ [main_thread + ALL_LIST_TAG_OFF], main_thread).

(** ** A page for a task *)

(** The literals of [Ps.ps_mem], a name of 16 characters at [0x300] and
    ["idle"] at [0x320]; the task's page is [0x7000]. *)
Definition task_mem : store :=
  put_bytes (put_bytes ps_mem 0x300 (cbytes "sixteen_chars_xx")) 0x320 (cbytes "idle").

(** ** Reading back what was stored *)

Lemma rd_store8_ne (m : store) (a v b : Z) : a <> b -> rd (store8 m a v) b = rd m b.
Proof. intros H. apply rd_wr_ne, H. Qed.

Lemma rd_store8_eq (m : store) (a v : Z) : rd (store8 m a v) a = u8 v.
Proof. apply rd_wr_eq. Qed.

Lemma rd_store16_out (m : store) (a v b : Z) : b < a \/ a + 2 <= b -> rd (store16 m a v) b = rd m b.
Proof. intros H. unfold store16. rewrite !rd_store8_ne by lia. reflexivity. Qed.

Lemma rd_store32_out (m : store) (a v b : Z) : b < a \/ a + 4 <= b -> rd (store32 m a v) b = rd m b.
Proof. intros H. unfold store32. rewrite !rd_store16_out by lia. reflexivity. Qed.

(** The two bytes of a 16-bit value, and the two halves of a 32-bit one,
    recombine to the value at that width. *)
Lemma bytes_recombine (v k : Z) : 0 <= k ->
  v mod 2 ^ k + 2 ^ k * (Z.shiftr v k mod 2 ^ k) = v mod 2 ^ (2 * k).
Proof.
  intros Hk. rewrite Z.shiftr_div_pow2 by lia. replace (2 * k) with (k + k) by lia.
  rewrite Z.pow_add_r by lia. symmetry. apply Z.rem_mul_r; lia.
Qed.

Lemma load16_store16 (m : store) (a v : Z) : load16 (store16 m a v) a = v mod 2 ^ 16.
Proof.
  unfold load16, store16. rewrite rd_store8_ne, rd_store8_eq, rd_store8_eq by lia.
  unfold u8. apply (bytes_recombine v 8). lia.
Qed.

Lemma load32_store32 (m : store) (a v : Z) : load32 (store32 m a v) a = u32 v.
Proof.
  unfold load32, store32. rewrite load16_store16.
  assert (E : load16 (store16 (store16 m a v) (a + 2) (Z.shiftr v 16)) a = load16 (store16 m a v) a).
  { unfold load16. rewrite (rd_store16_out _ (a + 2) _ a), (rd_store16_out _ (a + 2) _ (a + 1)) by lia. reflexivity. }
  rewrite E, load16_store16. unfold u32. apply (bytes_recombine v 16). lia.
Qed.

Lemma load16_out (m m' : store) (a : Z) : rd m' a = rd m a -> rd m' (a + 1) = rd m (a + 1) -> load16 m' a = load16 m a.
Proof. unfold load16. intros -> ->. reflexivity. Qed.

Lemma load32_out (m m' : store) (a : Z) : (forall k, 0 <= k < 4 -> rd m' (a + k) = rd m (a + k)) -> load32 m' a = load32 m a.
Proof.
  intros H. unfold load32, load16.
  rewrite <- (Z.add_0_r a) at 1 2. rewrite !H by lia. rewrite Z.add_0_r.
  replace (a + 2 + 1) with (a + 3) by lia. rewrite !H by lia. reflexivity.
Qed.

(** The offsets as numbers, for [lia]. *)
Ltac task_offsets :=
  unfold SELF_KSTACK_OFF, PARENT_PID_OFF, PID_OFF, STATUS_OFF, NAME_OFF, PRIORITY_OFF, TICKS_OFF,
    ELAPSED_TICKS_OFF, FD_TABLE_OFF, GENERAL_TAG_OFF, ALL_LIST_TAG_OFF, PGDIR_OFF, CWD_INODE_NR_OFF,
    STACK_MAGIC_OFF, TASK_STRUCT_SIZE, MAX_FILES_OPEN_PER_PROC in *.

Create Rewrite HintDb task_rw.
#[export] Hint Rewrite rd_store8_eq load16_store16 load32_store32 : task_rw.
Lemma load32_store32_out (m : store) (a v b : Z) : b + 4 <= a \/ a + 4 <= b -> load32 (store32 m a v) b = load32 m b.
Proof. intros H. apply load32_out. intros k Hk. apply rd_store32_out. lia. Qed.

Lemma load32_store32_at (m : store) (a v b : Z) : a = b -> load32 (store32 m a v) b = u32 v.
Proof. intros <-. apply load32_store32. Qed.

Lemma load16_store16_at (m : store) (a v b : Z) : a = b -> load16 (store16 m a v) b = v mod 2 ^ 16.
Proof. intros <-. apply load16_store16. Qed.

Lemma load16_store32_out (m : store) (a v b : Z) : b + 2 <= a \/ a + 4 <= b -> load16 (store32 m a v) b = load16 m b.
Proof. intros H. apply load16_out; apply rd_store32_out; lia. Qed.

Lemma load16_store16_out (m : store) (a v b : Z) : b + 2 <= a \/ a + 2 <= b -> load16 (store16 m a v) b = load16 m b.
Proof. intros H. apply load16_out; apply rd_store16_out; lia. Qed.

Lemma load16_store8_out (m : store) (a v b : Z) : b + 2 <= a \/ a + 1 <= b -> load16 (store8 m a v) b = load16 m b.
Proof. intros H. apply load16_out; apply rd_store8_ne; lia. Qed.

Lemma load32_store16_out (m : store) (a v b : Z) : b + 4 <= a \/ a + 2 <= b -> load32 (store16 m a v) b = load32 m b.
Proof. intros H. apply load32_out. intros k Hk. apply rd_store16_out. lia. Qed.

Lemma load32_store8_out (m : store) (a v b : Z) : b + 4 <= a \/ a + 1 <= b -> load32 (store8 m a v) b = load32 m b.
Proof. intros H. apply load32_out. intros k Hk. apply rd_store8_ne. lia. Qed.

Lemma u32_idem (z : Z) : u32 (u32 z) = u32 z.
Proof. apply Z.mod_mod. lia. Qed.

#[export] Hint Rewrite u32_idem : task_rw.
#[export] Hint Rewrite rd_store8_ne rd_store16_out rd_store32_out load32_store32_out load32_store32_at
  load16_store16_at load16_store32_out load16_store16_out load16_store8_out load32_store16_out load32_store8_out
  using lia : task_rw.

(** [fd_table_fill] writes the entries from [fd_idx] on and nothing
    outside [fd_table]. *)
Lemma fd_table_fill_out (m : store) (pthread fd_idx : Z) (n : nat) (a : Z) :
  0 <= fd_idx -> a < pthread + FD_TABLE_OFF \/ pthread + FD_TABLE_OFF + 4 * MAX_FILES_OPEN_PER_PROC <= a ->
  rd (fd_table_fill m pthread fd_idx n) a = rd m a.
Proof.
  revert m fd_idx. induction n as [| n IH]; intros m fd_idx Hi Ha; [reflexivity |]. cbn [fd_table_fill].
  destruct (Z.ltb_spec fd_idx MAX_FILES_OPEN_PER_PROC); [| reflexivity].
  rewrite IH; [| unfold u8; apply Z.mod_pos_bound; lia | exact Ha].
  unfold FD_TABLE_OFF, MAX_FILES_OPEN_PER_PROC in *. apply rd_store32_out. lia.
Qed.

(** The name and the bytes after it up to [priority] are left as the
    [strcpy] wrote them; [priority] and [ticks] are [prio]. *)
Lemma init_thread_fields_name (m : store) (main_thread pthread prio k : Z) :
  NAME_OFF <= k < PRIORITY_OFF \/ TICKS_OFF < k < ELAPSED_TICKS_OFF ->
  rd (init_thread_fields m main_thread pthread prio) (pthread + k) = rd m (pthread + k).
Proof.
  intros Hk. unfold init_thread_fields.
  unfold NAME_OFF, PRIORITY_OFF, TICKS_OFF, ELAPSED_TICKS_OFF, STATUS_OFF, SELF_KSTACK_OFF, PGDIR_OFF,
    CWD_INODE_NR_OFF, PARENT_PID_OFF, STACK_MAGIC_OFF in *.
  rewrite fd_table_fill_out by (unfold FD_TABLE_OFF, MAX_FILES_OPEN_PER_PROC; lia). unfold FD_TABLE_OFF.
  autorewrite with task_rw. reflexivity.
Qed.

Lemma init_thread_fields_prio (m : store) (main_thread pthread prio : Z) :
  rd (init_thread_fields m main_thread pthread prio) (pthread + PRIORITY_OFF) = u8 prio /\
  rd (init_thread_fields m main_thread pthread prio) (pthread + TICKS_OFF) = u8 prio.
Proof.
  unfold init_thread_fields. rewrite !fd_table_fill_out by (unfold FD_TABLE_OFF, PRIORITY_OFF, TICKS_OFF, MAX_FILES_OPEN_PER_PROC; lia).
  unfold NAME_OFF, PRIORITY_OFF, TICKS_OFF, ELAPSED_TICKS_OFF, STATUS_OFF, SELF_KSTACK_OFF, PGDIR_OFF,
    CWD_INODE_NR_OFF, PARENT_PID_OFF, STACK_MAGIC_OFF, FD_TABLE_OFF.
  autorewrite with task_rw. split; reflexivity.
Qed.

(** The first half of [init_thread]: the cleared task, its pid, and the
    name copied; then [init_thread_fields]. *)
Lemma init_thread_copy (m : store) (main_thread pthread name prio pid : Z) (l : list Z) :
  pthread <> 0 -> pthread + NAME_OFF <> 0 -> name <> 0 -> cstring m name l -> (length l <= 16)%nat ->
  apart name (Z.of_nat (length l) + 1) pthread TASK_STRUCT_SIZE ->
  exists m3, init_thread m main_thread pthread name prio pid = KOk (init_thread_fields m3 main_thread pthread prio) /\
    cstring m3 (pthread + NAME_OFF) l /\
    (forall a, pthread <= a < pthread + TASK_STRUCT_SIZE -> ~ (pthread + PID_OFF <= a < pthread + PID_OFF + 2) ->
       ~ (pthread + NAME_OFF <= a <= pthread + NAME_OFF + Z.of_nat (length l)) -> rd m3 a = 0) /\
    load16 m3 (pthread + PID_OFF) = pid mod 2 ^ 16 /\ agree_outside m m3 pthread TASK_STRUCT_SIZE.
Proof.
  intros Hp Hn Hname Hl Hlen Hap. unfold apart, TASK_STRUCT_SIZE, NAME_OFF, PID_OFF in *.
  set (m1 := memset_loop m pthread 0 (Z.to_nat 276)).
  assert (Hm1 : forall a, rd m1 a = if decide (pthread <= a < pthread + 276) then 0 else rd m a).
  { intros a. unfold m1. rewrite memset_loop_rd. rewrite Z2Nat.id by lia. reflexivity. }
  set (m2 := store16 m1 (pthread + 6) pid).
  assert (Hl2 : cstring m2 name l).
  { apply (cstring_agree m); [exact Hl |]. intros a Ha. unfold m2. rewrite rd_store16_out, Hm1 by lia.
    case_decide; [lia | reflexivity]. }
  pose proof (cstring_length_bound m2 name l Hl2) as Hb.
  destruct (strcpy_loop_cstring l m2 (pthread + 12) name (scan_fuel m2)) as (m3 & E & Hdst & _ & Ha3);
    [exact Hl2 | unfold scan_fuel; lia | lia |].
  exists m3. split.
  - unfold init_thread, memset, strcpy, NAME_OFF, PID_OFF, TASK_STRUCT_SIZE. rewrite (proj2 (Z.eqb_neq _ _) Hp). cbn [negb kbind].
    fold m1. fold m2. rewrite (proj2 (Z.eqb_neq _ _) Hn), (proj2 (Z.eqb_neq _ _) Hname). cbn [negb andb].
    rewrite E. reflexivity.
  - split; [exact Hdst |]. split; [| split].
    + intros a Ha Hpid Hnm. rewrite Ha3 by lia. unfold m2. rewrite rd_store16_out, Hm1 by lia.
      case_decide; [reflexivity | lia].
    + rewrite (load16_out m2 m3) by (apply Ha3; lia). apply load16_store16.
    + intros a Ha. rewrite Ha3 by lia. unfold m2. rewrite rd_store16_out, Hm1 by lia.
      case_decide; [lia | reflexivity].
Qed.

(** C28 (error) A task name of 16 characters fits [name[16]] only without
    its NUL: [init_thread]'s [strcpy] puts the NUL on [priority], which the
    next assignment overwrites, so the name runs on through [priority] and
    [ticks].  [sys_ps] then finds a name of 18 characters and stops the
    kernel at [ASSERT(strlen(pthread->name) < 17)]. *)
Theorem long_name_ps_panics (lit : rodata) (m : store) (main_thread pthread name prio pid out_pad : Z) (l : list Z) :
  pthread <> 0 -> pthread + NAME_OFF <> 0 -> name <> 0 -> out_pad <> 0 ->
  cstring m name l -> length l = 16%nat -> u8 prio <> 0 ->
  apart name 17 pthread TASK_STRUCT_SIZE -> apart out_pad 16 pthread TASK_STRUCT_SIZE ->
  exists m', init_thread m main_thread pthread name prio pid = KOk m' /\
    print_name lit m' pthread out_pad = KPanic "strlen(pthread->name) < 17".
Proof.
  intros Hp Hn Hname Ho Hl Hlen Hprio Hap Hapo.
  destruct (init_thread_copy m main_thread pthread name prio pid l) as (m3 & E & Hdst & Hz & _ & _);
    [assumption .. | lia | rewrite Hlen; exact Hap |].
  set (m' := init_thread_fields m3 main_thread pthread prio). exists m'. split; [exact E |].
  destruct (init_thread_fields_prio m3 main_thread pthread prio) as [Hpr Htk].
  assert (Hname' : cstring m' (pthread + NAME_OFF) (l ++ [u8 prio; u8 prio])).
  { apply cstring_app.
    - intros i c Hi. pose proof (lookup_lt_Some _ _ _ Hi) as Hlt.
      destruct (cstring_lookup m3 _ l i c Hdst Hi) as [Hc Hc0]. split; [| exact Hc0].
      unfold m'. rewrite <- Z.add_assoc, init_thread_fields_name, Z.add_assoc by (unfold NAME_OFF, PRIORITY_OFF; lia).
      exact Hc.
    - rewrite Hlen. replace (pthread + NAME_OFF + Z.of_nat 16) with (pthread + PRIORITY_OFF) by (unfold NAME_OFF, PRIORITY_OFF; lia).
      apply cstring_cons. split; [exact Hpr |]. split; [exact Hprio |].
      replace (pthread + PRIORITY_OFF + 1) with (pthread + TICKS_OFF) by (unfold PRIORITY_OFF, TICKS_OFF; lia).
      apply cstring_cons. split; [exact Htk |]. split; [exact Hprio |]. apply cstring_nil.
      unfold m'. replace (pthread + TICKS_OFF + 1) with (pthread + 30) by (unfold TICKS_OFF; lia).
      rewrite init_thread_fields_name by (unfold TICKS_OFF, ELAPSED_TICKS_OFF; lia).
      apply Hz; rewrite ?Hlen; unfold apart, TASK_STRUCT_SIZE, PID_OFF, NAME_OFF in *; lia. }
  unfold apart, TASK_STRUCT_SIZE in Hapo.
  assert (Hname4 : cstring (memset_loop m' out_pad 0 (Z.to_nat 16)) (pthread + NAME_OFF) (l ++ [u8 prio; u8 prio])).
  { apply (cstring_agree m'); [exact Hname' |]. intros a Ha. rewrite memset_loop_rd.
    rewrite length_app, Hlen in Ha. cbn [length] in Ha. unfold NAME_OFF in Ha. case_decide; [lia | reflexivity]. }
  unfold print_name, hbind, hlift, memset. rewrite (proj2 (Z.eqb_neq _ _) Ho). cbn [negb kbind hret].
  rewrite (strlen_cstring _ _ _ Hn Hname4) by (rewrite length_app, Hlen; cbn; lia).
  cbn [kbind hret]. rewrite length_app, Hlen. reflexivity.
Qed.

(** [fd_table_fill] from 3 sets entries 3 to 7 to -1. *)
Lemma fd_table_fill_3 (m : store) (pthread : Z) :
  fd_table_fill m pthread 3 (Z.to_nat MAX_FILES_OPEN_PER_PROC) =
  store32 (store32 (store32 (store32 (store32 m
    (pthread + FD_TABLE_OFF + 4 * 3) (-1)) (pthread + FD_TABLE_OFF + 4 * 4) (-1)) (pthread + FD_TABLE_OFF + 4 * 5) (-1))
    (pthread + FD_TABLE_OFF + 4 * 6) (-1)) (pthread + FD_TABLE_OFF + 4 * 7) (-1).
Proof. reflexivity. Qed.

(** [init_thread] of a task named by a string shorter
    than [name[16]]: the name is copied; the pid is the one
    [allocate_pid] gave, the parent pid -1, the status [TASK_RUNNING] for
    the main thread and [TASK_READY] otherwise, the priority and the time
    slice [prio], no elapsed ticks, the kernel stack at the top of the
    page, the stack magic set, and the descriptors 0, 1, 2 open and the
    rest -1; nothing outside the task changes. *)
Theorem init_thread_new_task (m : store) (main_thread pthread name prio pid : Z) (l : list Z) :
  pthread <> 0 -> pthread + NAME_OFF <> 0 -> name <> 0 -> cstring m name l -> (length l < 16)%nat ->
  apart name (Z.of_nat (length l) + 1) pthread TASK_STRUCT_SIZE ->
  exists m', init_thread m main_thread pthread name prio pid = KOk m' /\
    cstring m' (pthread + NAME_OFF) l /\
    load16 m' (pthread + PID_OFF) = pid mod 2 ^ 16 /\ i16 (load16 m' (pthread + PARENT_PID_OFF)) = -1 /\
    load32 m' (pthread + STATUS_OFF) = status_val (if pthread =? main_thread then TASK_RUNNING else TASK_READY) /\
    rd m' (pthread + PRIORITY_OFF) = u8 prio /\ rd m' (pthread + TICKS_OFF) = u8 prio /\
    load32 m' (pthread + SELF_KSTACK_OFF) = u32 (pthread + PG_SIZE) /\
    load32 m' (pthread + ELAPSED_TICKS_OFF) = 0 /\ load32 m' (pthread + STACK_MAGIC_OFF) = STACK_MAGIC /\
    (forall k, 0 <= k < MAX_FILES_OPEN_PER_PROC ->
       load32 m' (pthread + FD_TABLE_OFF + 4 * k) = if k <? 3 then k else u32 (-1)) /\
    agree_outside m m' pthread TASK_STRUCT_SIZE.
Proof.
  intros Hp Hn Hname Hl Hlen Hap.
  destruct (init_thread_copy m main_thread pthread name prio pid l) as (m3 & E & Hdst & _ & Hpid & Hag);
    [assumption .. | lia | exact Hap |].
  destruct (init_thread_fields_prio m3 main_thread pthread prio) as [Hpr Htk].
  exists (init_thread_fields m3 main_thread pthread prio). split; [exact E |].
  split; [| split; [| split; [| split; [| split; [exact Hpr | split; [exact Htk |]]]]]].
  - apply (cstring_agree m3); [exact Hdst |]. intros a Ha.
    replace a with (pthread + (a - pthread)) by lia. apply init_thread_fields_name. task_offsets. lia.
  - rewrite <- Hpid. unfold init_thread_fields. rewrite fd_table_fill_3. task_offsets. autorewrite with task_rw. reflexivity.
  - unfold init_thread_fields. rewrite fd_table_fill_3. task_offsets. autorewrite with task_rw. reflexivity.
  - unfold init_thread_fields. rewrite fd_table_fill_3. task_offsets. autorewrite with task_rw.
    destruct (pthread =? main_thread); reflexivity.
  - unfold init_thread_fields. rewrite fd_table_fill_3. task_offsets. autorewrite with task_rw.
    split; [reflexivity |]. split; [reflexivity |]. split; [reflexivity |].
    split.
    + intros k Hk. assert (k = 0 \/ k = 1 \/ k = 2 \/ k = 3 \/ k = 4 \/ k = 5 \/ k = 6 \/ k = 7) by lia.
      repeat match goal with H : _ \/ _ |- _ => destruct H end; subst k; autorewrite with task_rw; reflexivity.
    + intros a Ha. autorewrite with task_rw. apply Hag. exact Ha.
Qed.

(** C30 (bounds) [thread_create] on a task whose [self_kstack] is the top
    of its page: [self_kstack] is a [uint32_t*], so the two [-=] move it
    by 4 bytes per byte of [struct intr_stack] and [struct thread_stack],
    and the [thread_stack] frame is built at [PG_SIZE - 432], not at
    [PG_SIZE - 108] where the comment places it, still above the task's
    fields; the frame holds [kernel_thread], [function], [func_arg] and
    zeroed callee-saved registers. *)
Theorem thread_create_frame (m : store) (pthread kernel_thread function func_arg : Z) :
  0 <= pthread -> pthread + PG_SIZE < 2 ^ 32 -> load32 m (pthread + SELF_KSTACK_OFF) = pthread + PG_SIZE ->
  let m' := thread_create m pthread kernel_thread function func_arg in
  let ks := load32 m' (pthread + SELF_KSTACK_OFF) in
  ks = pthread + PG_SIZE - 4 * (INTR_STACK_SIZE + THREAD_STACK_SIZE) /\
  pthread + TASK_STRUCT_SIZE <= ks /\ ks + THREAD_STACK_SIZE <= pthread + PG_SIZE - INTR_STACK_SIZE /\
  load32 m' (ks + TS_EIP_OFF) = u32 kernel_thread /\ load32 m' (ks + TS_FUNCTION_OFF) = u32 function /\
  load32 m' (ks + TS_FUNC_ARG_OFF) = u32 func_arg /\
  load32 m' (ks + TS_EBP_OFF) = 0 /\ load32 m' (ks + TS_EBX_OFF) = 0 /\
  load32 m' (ks + TS_EDI_OFF) = 0 /\ load32 m' (ks + TS_ESI_OFF) = 0.
Proof.
  intros Hp Hpg Hk. unfold thread_create, kstack_sub. task_offsets.
  unfold INTR_STACK_SIZE, THREAD_STACK_SIZE, TS_EBP_OFF, TS_EBX_OFF, TS_EDI_OFF, TS_ESI_OFF, TS_EIP_OFF,
    TS_FUNCTION_OFF, TS_FUNC_ARG_OFF, PG_SIZE in *.
  autorewrite with task_rw. rewrite Hk.
  assert (Hks : u32 (u32 (pthread + 4096 - 4 * 76) - 4 * 32) = pthread + 3664)
    by (rewrite (u32_small (pthread + 4096 - 4 * 76)), u32_small; lia).
  rewrite !Hks. autorewrite with task_rw. rewrite (u32_small (pthread + 3664)) by lia. autorewrite with task_rw.
  split; [lia |]. split; [lia |]. split; [lia |]. repeat split; reflexivity.
Qed.

(** [thread_create] on a task whose [self_kstack] is the top of its page
    writes [self_kstack] and the 32 bytes of the frame at
    [pthread + PG_SIZE - 432], and nothing else. *)
Lemma thread_create_rd (m : store) (pthread kernel_thread function func_arg a : Z) :
  0 <= pthread -> pthread + PG_SIZE < 2 ^ 32 -> load32 m (pthread + SELF_KSTACK_OFF) = pthread + PG_SIZE ->
  a < pthread \/ pthread + 4 <= a < pthread + 3664 \/ pthread + 3696 <= a ->
  rd (thread_create m pthread kernel_thread function func_arg) a = rd m a.
Proof.
  intros Hp Hpg Hk Ha. unfold thread_create, kstack_sub. task_offsets.
  unfold INTR_STACK_SIZE, THREAD_STACK_SIZE, TS_EBP_OFF, TS_EBX_OFF, TS_EDI_OFF, TS_ESI_OFF, TS_EIP_OFF,
    TS_FUNCTION_OFF, TS_FUNC_ARG_OFF, PG_SIZE in *.
  autorewrite with task_rw. rewrite Hk.
  assert (Hks : u32 (u32 (pthread + 4096 - 4 * 76) - 4 * 32) = pthread + 3664)
    by (rewrite (u32_small (pthread + 4096 - 4 * 76)), u32_small; lia).
  rewrite !Hks. autorewrite with task_rw. reflexivity.
Qed.

(** [esp & 0xfffff000] clears the 12 low bits of a 32-bit address. *)
Lemma land_page_mask (x : Z) : 0 <= x < 2 ^ 32 -> Z.land x 0xfffff000 = x / PG_SIZE * PG_SIZE.
Proof.
  intros Hx. change PG_SIZE with (2 ^ 12). rewrite <- Z.shiftr_div_pow2, <- Z.shiftl_mul_pow2 by lia.
  change 0xfffff000 with (Z.shiftl (Z.ones 20) 12).
  apply Z.bits_inj'; intros n Hn. rewrite Z.land_spec.
  destruct (Z.ltb_spec n 12).
  - rewrite !Z.shiftl_spec_low by lia. apply andb_false_r.
  - rewrite !Z.shiftl_spec, Z.shiftr_spec, Z.testbit_ones_nonneg by lia. replace (n - 12 + 12) with n by lia.
    destruct (Z.ltb_spec (n - 12) 20); [apply andb_true_r |]. rewrite andb_false_r.
    destruct (Z.eq_dec x 0) as [-> | Hx0]; [symmetry; apply Z.bits_0 |].
    symmetry. apply Z.bits_above_log2; [lia |]. assert (Z.log2 x < 32) by (apply Z.log2_lt_pow2; lia). lia.
Qed.

(** [running_thread()] from any stack pointer inside a
    task's page, as every kernel stack pointer of the task is, gives back
    the page-aligned task. *)
Theorem running_thread_page (pthread esp : Z) :
  pthread mod PG_SIZE = 0 -> 0 <= pthread -> pthread <= esp < pthread + PG_SIZE -> pthread + PG_SIZE <= 2 ^ 32 ->
  running_thread esp = pthread.
Proof.
  intros Ha Hp He Hm. unfold running_thread. rewrite u32_small, land_page_mask by lia.
  pose proof (Z.div_mod pthread PG_SIZE ltac:(unfold PG_SIZE; lia)) as Hd. rewrite Ha, Z.add_0_r in Hd.
  rewrite <- (Z.div_unique esp PG_SIZE (pthread / PG_SIZE) (esp - pthread)); [lia | unfold PG_SIZE in *; lia | lia].
Qed.

Lemma running_thread_page_witness :
  0xc009e000 mod PG_SIZE = 0 /\ 0 <= 0xc009e000 /\ 0xc009e000 <= 0xc009eff0 < 0xc009e000 + PG_SIZE /\
  0xc009e000 + PG_SIZE <= 2 ^ 32 /\ running_thread 0xc009eff0 = 0xc009e000.
Proof.
  unfold PG_SIZE. split; [reflexivity |]. split; [lia |]. split; [lia |]. split; [lia |].
  apply running_thread_page; unfold PG_SIZE; (reflexivity || lia).
Defined.

(** ** Witnesses *)

Lemma long_name_ps_panics_witness :
  exists m', init_thread task_mem 0xc009e000 0x7000 0x300 31 5 = KOk m' /\
    print_name ps_lits m' 0x7000 0x8000 = KPanic "strlen(pthread->name) < 17".
Proof.
  apply (long_name_ps_panics ps_lits task_mem 0xc009e000 0x7000 0x300 31 5 0x8000 (removelast (cbytes "sixteen_chars_xx")));
    try (unfold apart, NAME_OFF, TASK_STRUCT_SIZE; lia); try (vm_compute; reflexivity); try (vm_compute; discriminate).
  apply (bool_decide_unpack _). vm_compute. reflexivity.
Defined.

Lemma init_thread_new_task_witness :
  exists m', init_thread task_mem 0xc009e000 0x7000 0x320 10 3 = KOk m' /\
    cstring m' (0x7000 + NAME_OFF) (removelast (cbytes "idle")) /\
    load16 m' (0x7000 + PID_OFF) = 3 mod 2 ^ 16 /\ i16 (load16 m' (0x7000 + PARENT_PID_OFF)) = -1 /\
    load32 m' (0x7000 + STATUS_OFF) = status_val (if 0x7000 =? 0xc009e000 then TASK_RUNNING else TASK_READY) /\
    rd m' (0x7000 + PRIORITY_OFF) = u8 10 /\ rd m' (0x7000 + TICKS_OFF) = u8 10 /\
    load32 m' (0x7000 + SELF_KSTACK_OFF) = u32 (0x7000 + PG_SIZE) /\
    load32 m' (0x7000 + ELAPSED_TICKS_OFF) = 0 /\ load32 m' (0x7000 + STACK_MAGIC_OFF) = STACK_MAGIC /\
    (forall k, 0 <= k < MAX_FILES_OPEN_PER_PROC ->
       load32 m' (0x7000 + FD_TABLE_OFF + 4 * k) = if k <? 3 then k else u32 (-1)) /\
    agree_outside task_mem m' 0x7000 TASK_STRUCT_SIZE.
Proof.
  apply init_thread_new_task; try (unfold apart, NAME_OFF, TASK_STRUCT_SIZE; cbn; lia); try (vm_compute; reflexivity).
  apply (bool_decide_unpack _). vm_compute. reflexivity.
Defined.

Lemma thread_create_frame_witness :
  0 <= 0x7000 /\ 0x7000 + PG_SIZE < 2 ^ 32 /\ load32 (store32 ∅ 0x7000 0x8000) (0x7000 + SELF_KSTACK_OFF) = 0x7000 + PG_SIZE /\
  let m' := thread_create (store32 ∅ 0x7000 0x8000) 0x7000 0xc0001500 0xc0002000 0 in
  let ks := load32 m' (0x7000 + SELF_KSTACK_OFF) in
  ks = 0x7000 + PG_SIZE - 4 * (INTR_STACK_SIZE + THREAD_STACK_SIZE) /\
  0x7000 + TASK_STRUCT_SIZE <= ks /\ ks + THREAD_STACK_SIZE <= 0x7000 + PG_SIZE - INTR_STACK_SIZE /\
  load32 m' (ks + TS_EIP_OFF) = u32 0xc0001500 /\ load32 m' (ks + TS_FUNCTION_OFF) = u32 0xc0002000 /\
  load32 m' (ks + TS_FUNC_ARG_OFF) = u32 0 /\
  load32 m' (ks + TS_EBP_OFF) = 0 /\ load32 m' (ks + TS_EBX_OFF) = 0 /\
  load32 m' (ks + TS_EDI_OFF) = 0 /\ load32 m' (ks + TS_ESI_OFF) = 0.
Proof.
  split; [lia |]. split; [unfold PG_SIZE; lia |]. split; [vm_compute; reflexivity |].
  apply thread_create_frame; [lia | unfold PG_SIZE; lia | vm_compute; reflexivity].
Defined.
