(* ===== verification/Io.v ===== *)
(** * Io: the string port transfers [outsw] and [insw] of
    [lib/kernel/io.h]

    [outsw(port, addr, word_cnt)] runs [cld; rep outsw]: with the
    direction flag clear, it writes the 16-bit word at [addr], then the
    one at [addr + 2], and so on, [word_cnt] times ([ecx], a [uint32_t]),
    to [port].  [insw(port, addr, word_cnt)] runs [cld; rep insw]: it
    reads [word_cnt] words from [port] and stores them at [addr],
    [addr + 2], ...  Words are little-endian in memory ([load16] of [Ps],
    [store16] of [Task]); the [uint16_t] port is [Pool.u16] of the
    argument.  As for [outb] in [Intr], what is written to a port is a
    trace of (port, word) pairs; what a port gives is the
    device's business, so a port is read as a stream: [dev port i] is the
    [i]-th word read from [port].  The addresses stay below [2^32] in the
    kernel's buffers, and [esi]/[edi] are advanced without the wrap
    around.

    Theorems: [insw] stores the words the device gives, low byte first,
    and nothing outside the [2 * word_cnt] bytes at [addr]; and the round
    trip: the words [outsw] writes, read back by [insw] (from a device that
    gives back what it was given, as a disk sector is), copy the
    [2 * word_cnt] bytes of the source to the destination. *)

From Stdlib Require Import ZArith Lia Bool.
From stdpp Require Import base gmap list.
From S2P Require Import Prelude Pool Kstring Ps Task.

Open Scope Z_scope.
Open Scope kernel_scope.

(** [rep outsw]: [n] words from [addr] up. *)
Fixpoint outsw_loop (m : store) (port addr : Z) (n : nat) : list (Z * Z) :=
  match n with
  | O => []
  | S k => (port, load16 m addr) :: outsw_loop m port (addr + 2) k
  end.

(** [outsw(port, addr, word_cnt)]. *)
Definition outsw (m : store) (port addr word_cnt : Z) : list (Z * Z) :=
  outsw_loop m (u16 port) addr (Z.to_nat (u32 word_cnt)).

(** [rep insw]: the [i]-th word read from the port, and the following
    [n - 1], stored from [addr] up. *)
Fixpoint insw_loop (m : store) (dev : nat -> Z) (i : nat) (addr : Z) (n : nat) : store :=
  match n with
  | O => m
  | S k => insw_loop (store16 m addr (dev i)) dev (S i) (addr + 2) k
  end.

(** [insw(port, addr, word_cnt)], the port read as the stream [dev]. *)
Definition insw (m : store) (dev : Z -> nat -> Z) (port addr word_cnt : Z) : store :=
  insw_loop m (dev (u16 port)) 0 addr (Z.to_nat (u32 word_cnt)).

(** ** [insw] *)

Lemma insw_loop_out (m : store) (dev : nat -> Z) (i : nat) (addr : Z) (n : nat) (a : Z) :
  a < addr \/ addr + 2 * Z.of_nat n <= a -> rd (insw_loop m dev i addr n) a = rd m a.
Proof.
  revert m i addr. induction n as [| n IH]; intros m i addr Ha; [reflexivity |].
  cbn [insw_loop]. rewrite IH by lia. apply rd_store16_out. lia.
Qed.

(** The [j]-th word read is at [addr + 2 * j], low byte first. *)
Lemma insw_loop_bytes (m : store) (dev : nat -> Z) (i : nat) (addr : Z) (n j : nat) :
  (j < n)%nat ->
  rd (insw_loop m dev i addr n) (addr + 2 * Z.of_nat j) = u8 (dev (i + j)%nat) /\
  rd (insw_loop m dev i addr n) (addr + 2 * Z.of_nat j + 1) = u8 (Z.shiftr (dev (i + j)%nat) 8).
Proof.
  revert m i addr j. induction n as [| n IH]; intros m i addr j Hj; [lia |]. cbn [insw_loop].
  destruct j as [| j].
  - rewrite !insw_loop_out by lia. rewrite Nat.add_0_r. unfold store16.
    cbn [Z.of_nat]. rewrite Z.mul_0_r, Z.add_0_r, rd_store8_eq, rd_store8_ne, rd_store8_eq by lia.
    split; reflexivity.
  - destruct (IH (store16 m addr (dev i)) (S i) (addr + 2) j ltac:(lia)) as [H0 H1].
    replace (S i + j)%nat with (i + S j)%nat in H0, H1 by lia.
    replace (addr + 2 * Z.of_nat (S j)) with (addr + 2 + 2 * Z.of_nat j) by lia. split; assumption.
Qed.

(** ** [outsw] *)

Lemma length_outsw_loop (m : store) (port addr : Z) (n : nat) : length (outsw_loop m port addr n) = n.
Proof. revert addr. induction n; intros; cbn; [reflexivity | f_equal; apply IHn]. Qed.

(** The [j]-th word written is the one at [addr + 2 * j], to [port]. *)
Lemma outsw_loop_nth (m : store) (port addr : Z) (n j : nat) :
  (j < n)%nat -> outsw_loop m port addr n !! j = Some (port, load16 m (addr + 2 * Z.of_nat j)).
Proof.
  revert addr j. induction n as [| n IH]; intros addr j Hj; [lia |]. destruct j as [| j]; cbn [outsw_loop].
  - cbn. do 3 f_equal. lia.
  - rewrite lookup_cons, IH by lia. do 3 f_equal. lia.
Qed.

(** A word built from two bytes splits back into them. *)
Lemma load16_bytes (m : store) (p : Z) :
  0 <= rd m p < 256 -> 0 <= rd m (p + 1) < 256 ->
  u8 (load16 m p) = rd m p /\ u8 (Z.shiftr (load16 m p) 8) = rd m (p + 1).
Proof.
  intros H0 H1. unfold load16, u8. rewrite Z.shiftr_div_pow2 by lia. change (2 ^ 8) with 256. split.
  - rewrite Z.mul_comm, Z.mod_add, Z.mod_small by lia. reflexivity.
  - rewrite Z.mul_comm, Z.div_add, Z.div_small, Z.add_0_l, Z.mod_small by lia. reflexivity.
Qed.

(** ** The round trip *)

(** C31 (roundtrip) The words [outsw] writes from [src], given back in
    the same order by the port ([dev]) and read by [insw] to [dst], copy
    the [2 * word_cnt] bytes at [src] to [dst] and change nothing else. *)
Theorem insw_outsw_roundtrip (m m' : store) (dev : Z -> nat -> Z) (port src dst word_cnt : Z) :
  0 <= word_cnt < 2 ^ 32 ->
  (forall k, 0 <= k < 2 * word_cnt -> 0 <= rd m (src + k) < 256) ->
  (forall i, dev (u16 port) i = default 0 (snd <$> outsw m port src word_cnt !! i)) ->
  let m2 := insw m' dev port dst word_cnt in
  (forall k, 0 <= k < 2 * word_cnt -> rd m2 (dst + k) = rd m (src + k)) /\
  agree_outside m' m2 dst (2 * word_cnt).
Proof.
  intros Hn Hb Hdev m2. unfold m2, insw, outsw in *. rewrite u32_small in * by lia.
  split.
  - intros k Hk. set (j := Z.to_nat (k / 2)).
    assert (Hj : (j < Z.to_nat word_cnt)%nat) by (unfold j; apply Nat2Z.inj_lt; rewrite !Z2Nat.id; divmod k 2; lia).
    assert (Hk2 : Z.of_nat j = k / 2) by (unfold j; rewrite Z2Nat.id; divmod k 2; lia).
    destruct (insw_loop_bytes m' (dev (u16 port)) 0 dst _ j Hj) as [B0 B1]. cbn [Nat.add] in B0, B1.
    rewrite Hdev, outsw_loop_nth in B0, B1 by exact Hj. cbn in B0, B1.
    set (p := src + 2 * Z.of_nat j) in *.
    destruct (load16_bytes m p) as [L0 L1].
    { replace p with (src + 2 * Z.of_nat j) by reflexivity. apply Hb. lia. }
    { replace (p + 1) with (src + (2 * Z.of_nat j + 1)) by (unfold p; lia). apply Hb. lia. }
    rewrite L0 in B0. rewrite L1 in B1. unfold p in *.
    destruct (Z.Even_or_Odd k) as [[h ->] | [h ->]].
    + rewrite (Z.mul_comm 2 h), Z.div_mul in Hk2 by lia. rewrite <- Hk2. exact B0.
    + assert (Hh : (2 * h + 1) / 2 = h) by (divmod (2 * h + 1) 2; lia). rewrite Hh in Hk2.
      rewrite <- Hk2, !Z.add_assoc. exact B1.
  - intros a Ha. apply insw_loop_out. rewrite Z2Nat.id by lia. exact Ha.
Qed.

(** ** Witness *)

(** Four bytes at [0x1000], written to the primary ATA data port
    [0x1f0] and read back into the empty store at [0x2000]. *)
Definition io_src : store := put_bytes ∅ 0x1000 [0x12; 0x34; 0x56; 0x78].

Definition io_disk (port : Z) (i : nat) : Z := default 0 (snd <$> outsw io_src 0x1f0 0x1000 2 !! i).

Lemma insw_outsw_roundtrip_witness :
  let m2 := insw ∅ io_disk 0x1f0 0x2000 2 in
  (forall k, 0 <= k < 2 * 2 -> rd m2 (0x2000 + k) = rd io_src (0x1000 + k)) /\
  agree_outside ∅ m2 0x2000 (2 * 2).
Proof.
  apply insw_outsw_roundtrip; [lia | check_range | intros i; reflexivity].
Defined.
