(* ===== verification/Boot.v ===== *)
(** * Boot: [thread_init] of [thread/thread.c]

    [thread_init] runs once, from [init_all], on the main thread with
    interrupts off: it empties [thread_ready_list] and [thread_all_list],
    creates the first user process [init] with [process_execute], makes
    the running [main] function a thread ([make_main_thread]) and starts
    the [idle] thread ([thread_start("idle", 10, idle, NULL)]).

    The tasks are the byte store of [Task] with the two lists of tag
    addresses and [allocate_pid]'s [next_pid] ([tasks]).  No other thread
    runs yet, so [allocate_pid] is [next_pid++; return next_pid] at once
    ([allocate_pid_seq]); [Kernel] models it as calls that interrupts can
    separate.  [process_execute] is in [userprog/process.c], which is not
    in the sources: it is a parameter, any change of the tasks.  So are
    the stack pointer of [main], the page [get_kernel_pages(1)] gives
    [idle], the addresses of the literals ["main"] and ["idle"], and those
    of [kernel_thread] and [idle].  [put_str]'s console output and
    [lock_init(&pid_lock)] are not modelled.

    Theorem: after [thread_init], [main] is the running task and [idle]
    the last of the ready queue, with the names, priorities and the two
    pids after those [process_execute] took; the pids [allocate_pid]
    hands out are their count as an [int16_t], so they repeat after
    65536. *)

From Stdlib Require Import ZArith Lia String Bool.
From stdpp Require Import base gmap list.
From S2P Require Import Prelude Thread Kstring Ps Task.

Open Scope Z_scope.
Open Scope kernel_scope.

(** ** Data *)

(** The tasks: the store, [thread_ready_list], [thread_all_list] (tag
    addresses) and [next_pid]. *)
Record tasks := mk_tasks {
  t_mem : store;
  t_ready : list Z;
  t_all : list Z;
  t_next_pid : Z
}.

(** [allocate_pid()] when no other thread runs: [next_pid++; return
    next_pid] on an [int16_t]. *)
Definition allocate_pid_seq (next_pid : Z) : Z := i16 (next_pid + 1).

(** ** [thread_init] *)

Section ThreadInit.

(** [process_execute(init, "init")]. *)
Context (process_execute : tasks -> kres tasks).
(** [esp] of [main], the page of [idle], the literals ["main"] and
    ["idle"], [kernel_thread] and [idle]. *)
Context (esp main_name idle_page idle_name kernel_thread idle : Z).

(** The main thread, then the idle thread, each with the next pid; the
    result is the tasks, [main_thread] and [idle_thread]. *)
Definition thread_init (t : tasks) : kres (tasks * Z * Z) :=
  let t := mk_tasks (t_mem t) [] [] (t_next_pid t) in
  t <- process_execute t ;;
  let main_pid := allocate_pid_seq (t_next_pid t) in
  let* (m, all, main_thread) := make_main_thread (t_mem t) (t_all t) esp main_name main_pid in
  let idle_pid := allocate_pid_seq main_pid in
  let* (m, ready, all) := thread_start m (t_ready t) all main_thread idle_page idle_name 10 idle_pid kernel_thread idle 0 in
  KOk (mk_tasks m ready all idle_pid, main_thread, idle_page).

End ThreadInit.

(** What [sys_ps] and the scheduler read of a task at [p]: its name, pid,
    status and priority. *)
Definition task_is (m : store) (p : Z) (name : list Z) (pid : Z) (st : task_status) (prio : Z) : Prop :=
  cstring m (p + NAME_OFF) name /\ i16 (load16 m (p + PID_OFF)) = pid /\
  load32 m (p + STATUS_OFF) = status_val st /\ rd m (p + PRIORITY_OFF) = u8 prio.

(** ** Lemmas *)

Lemma i16_mod (z : Z) : i16 (z mod 2 ^ 16) = i16 z.
Proof. unfold i16. rewrite Zplus_mod_idemp_l. reflexivity. Qed.

Lemma i16_idem (z : Z) : i16 (i16 z) = i16 z.
Proof.
  unfold i16 at 1 2. replace ((z + 2 ^ 15) mod 2 ^ 16 - 2 ^ 15 + 2 ^ 15) with ((z + 2 ^ 15) mod 2 ^ 16) by lia.
  rewrite Z.mod_mod by lia. reflexivity.
Qed.

(** A task's fields stay as long as its bytes from [parent_pid] on do. *)
Lemma task_is_agree (m m' : store) (p : Z) (name : list Z) (pid : Z) (st : task_status) (prio : Z) :
  (length name < 16)%nat -> (forall a, p + PARENT_PID_OFF <= a < p + TASK_STRUCT_SIZE -> rd m' a = rd m a) ->
  task_is m p name pid st prio -> task_is m' p name pid st prio.
Proof.
  unfold task_is. intros Hl Ha (Hn & Hpid & Hst & Hpr). task_offsets. split; [| split; [| split]].
  - apply (cstring_agree m); [exact Hn |]. intros a Hr. apply Ha. lia.
  - rewrite (load16_out m m') by (apply Ha; lia). exact Hpid.
  - rewrite (load32_out m m') by (intros k Hk; apply Ha; lia). exact Hst.
  - rewrite Ha by lia. exact Hpr.
Qed.

(** [init_thread] of a task with a short name gives the task its fields
    and writes nothing outside it; its [self_kstack] is the page's top. *)
Lemma init_thread_task_is (m : store) (main_thread pthread name prio pid : Z) (l : list Z) :
  0 <= pthread -> pthread + PG_SIZE < 2 ^ 32 -> pthread <> 0 -> name <> 0 -> cstring m name l -> (length l < 16)%nat ->
  apart name (Z.of_nat (length l) + 1) pthread TASK_STRUCT_SIZE ->
  exists m', init_thread m main_thread pthread name prio pid = KOk m' /\
    task_is m' pthread l (i16 pid) (if pthread =? main_thread then TASK_RUNNING else TASK_READY) prio /\
    load32 m' (pthread + SELF_KSTACK_OFF) = pthread + PG_SIZE /\ agree_outside m m' pthread TASK_STRUCT_SIZE.
Proof.
  intros H0 Hpg Hp Hn Hl Hlen Hap.
  destruct (init_thread_new_task m main_thread pthread name prio pid l) as
    (m' & E & Hname & Hpid & _ & Hst & Hpr & _ & Hks & _ & _ & _ & Hag); [assumption | unfold NAME_OFF; lia | assumption .. |].
  exists m'. split; [exact E |]. split; [| split; [| exact Hag]].
  - split; [exact Hname |]. split; [rewrite Hpid, i16_mod; reflexivity |]. split; assumption.
  - rewrite Hks. apply u32_small. unfold PG_SIZE in *. lia.
Qed.

(** [make_main_thread]: the task of the running stack, named and
    [TASK_RUNNING], appended to [thread_all_list]. *)
Lemma make_main_thread_ok (m : store) (all : list Z) (esp name pid : Z) (l : list Z) :
  let pm := running_thread esp in
  pm <> 0 -> pm + PG_SIZE < 2 ^ 32 -> name <> 0 -> cstring m name l -> (length l < 16)%nat ->
  apart name (Z.of_nat (length l) + 1) pm TASK_STRUCT_SIZE -> pm + ALL_LIST_TAG_OFF ∉ all ->
  exists m', make_main_thread m all esp name pid = KOk (m', all ++ [pm + ALL_LIST_TAG_OFF], pm) /\
    task_is m' pm l (i16 pid) TASK_RUNNING 31 /\ agree_outside m m' pm TASK_STRUCT_SIZE.
Proof.
  intros pm Hp Hpg Hn Hl Hlen Hap Hall.
  assert (H0 : 0 <= pm) by (unfold pm, running_thread; apply Z.land_nonneg; left; apply u32_range).
  destruct (init_thread_task_is m pm pm name 31 pid l) as (m' & E & Hti & _ & Hag); [assumption .. |].
  rewrite Z.eqb_refl in Hti. exists m'. split; [| split; assumption].
  unfold make_main_thread. fold pm. rewrite E. cbn [kbind]. unfold queued.
  rewrite bool_decide_false by exact Hall. reflexivity.
Qed.

(** [thread_start] on a fresh page: the task, named and [TASK_READY],
    at the tail of both lists; nothing outside its page changes. *)
Lemma thread_start_ok (m : store) (ready all : list Z) (main_thread thread name prio pid kt f arg : Z) (l : list Z) :
  0 < thread -> thread + PG_SIZE < 2 ^ 32 -> thread <> main_thread -> name <> 0 -> cstring m name l ->
  (length l < 16)%nat -> apart name (Z.of_nat (length l) + 1) thread TASK_STRUCT_SIZE ->
  thread + GENERAL_TAG_OFF ∉ ready -> thread + ALL_LIST_TAG_OFF ∉ all ->
  exists m', thread_start m ready all main_thread thread name prio pid kt f arg =
      KOk (m', ready ++ [thread + GENERAL_TAG_OFF], all ++ [thread + ALL_LIST_TAG_OFF]) /\
    task_is m' thread l (i16 pid) TASK_READY prio /\ agree_outside m m' thread PG_SIZE.
Proof.
  intros Hp Hpg Hmain Hn Hl Hlen Hap Hr Ha.
  destruct (init_thread_task_is m main_thread thread name prio pid l) as (m1 & E & Hti & Hks & Hag);
    [lia | assumption | lia | assumption .. |].
  rewrite (proj2 (Z.eqb_neq _ _) Hmain) in Hti.
  assert (Hc : forall a, a < thread \/ thread + 4 <= a < thread + 3664 \/ thread + 3696 <= a ->
            rd (thread_create m1 thread kt f arg) a = rd m1 a) by (intros a; apply thread_create_rd; lia).
  exists (thread_create m1 thread kt f arg). split; [| split].
  - unfold thread_start. rewrite E. cbn [kbind]. unfold queued.
    rewrite !bool_decide_false by assumption. reflexivity.
  - apply (task_is_agree m1); [exact Hlen | | exact Hti]. intros a Ha'. apply Hc. task_offsets. lia.
  - intros a Ha'. rewrite Hc by (unfold PG_SIZE in Ha'; lia). apply Hag. unfold TASK_STRUCT_SIZE, PG_SIZE in *. lia.
Qed.

(** ** [thread_init] *)

(** C29 (functional) After [process_execute] has made its tasks,
    [thread_init] makes the running stack's page the task [main],
    [TASK_RUNNING] with priority 31 and the next pid, and starts [idle],
    [TASK_READY] with priority 10 and the pid after; [idle] is the last of
    the ready queue, [main] is not on it, and the two are the last of the
    all-task list, [main] first. *)
Theorem thread_init_tasks (pe : tasks -> kres tasks) (esp main_name idle_page idle_name kt idle : Z)
    (t t1 : tasks) (l_main l_idle : list Z) :
  let pm := running_thread esp in
  pe (mk_tasks (t_mem t) [] [] (t_next_pid t)) = KOk t1 ->
  pm <> 0 -> pm + PG_SIZE < 2 ^ 32 -> 0 < idle_page -> idle_page + PG_SIZE < 2 ^ 32 ->
  apart pm PG_SIZE idle_page PG_SIZE ->
  main_name <> 0 -> cstring (t_mem t1) main_name l_main -> (length l_main < 16)%nat ->
  apart main_name (Z.of_nat (length l_main) + 1) pm TASK_STRUCT_SIZE ->
  idle_name <> 0 -> cstring (t_mem t1) idle_name l_idle -> (length l_idle < 16)%nat ->
  apart idle_name (Z.of_nat (length l_idle) + 1) pm TASK_STRUCT_SIZE ->
  apart idle_name (Z.of_nat (length l_idle) + 1) idle_page TASK_STRUCT_SIZE ->
  pm + ALL_LIST_TAG_OFF ∉ t_all t1 -> idle_page + GENERAL_TAG_OFF ∉ t_ready t1 ->
  idle_page + ALL_LIST_TAG_OFF ∉ t_all t1 ->
  exists m', thread_init pe esp main_name idle_page idle_name kt idle t =
    KOk (mk_tasks m' (t_ready t1 ++ [idle_page + GENERAL_TAG_OFF])
           (t_all t1 ++ [pm + ALL_LIST_TAG_OFF; idle_page + ALL_LIST_TAG_OFF])
           (allocate_pid_seq (allocate_pid_seq (t_next_pid t1))), pm, idle_page) /\
    task_is m' pm l_main (allocate_pid_seq (t_next_pid t1)) TASK_RUNNING 31 /\
    task_is m' idle_page l_idle (allocate_pid_seq (allocate_pid_seq (t_next_pid t1))) TASK_READY 10.
Proof.
  intros pm Hpe Hp Hpg Hi Hig Hap Hmn Hml Hmlen Hmap Hin Hil Hilen Hiap Hiap' Hall Hr Hia.
  unfold apart, TASK_STRUCT_SIZE, PG_SIZE in *.
  destruct (make_main_thread_ok (t_mem t1) (t_all t1) esp main_name (allocate_pid_seq (t_next_pid t1)) l_main)
    as (m1 & E1 & Hm1 & Hag1); [assumption .. | unfold apart, TASK_STRUCT_SIZE; lia | assumption |].
  assert (Hil1 : cstring m1 idle_name l_idle)
    by (apply (cstring_agree (t_mem t1)); [exact Hil | intros a Ha; apply Hag1; unfold TASK_STRUCT_SIZE; lia]).
  destruct (thread_start_ok m1 (t_ready t1) (t_all t1 ++ [pm + ALL_LIST_TAG_OFF]) pm idle_page idle_name 10
              (allocate_pid_seq (allocate_pid_seq (t_next_pid t1))) kt idle 0 l_idle)
    as (m2 & E2 & Hm2 & Hag2); [lia | unfold PG_SIZE; lia | lia | assumption .. | unfold apart, TASK_STRUCT_SIZE; lia | assumption | |].
  { rewrite elem_of_app, list_elem_of_singleton. intros [H | H]; [exact (Hia H) | unfold ALL_LIST_TAG_OFF in H; lia]. }
  exists m2. split; [| split].
  - unfold thread_init. cbn [t_mem t_next_pid]. rewrite Hpe. cbn [kbind]. fold pm. rewrite E1. cbn [kbind].
    change (running_thread esp) with pm. rewrite E2, <- app_assoc. reflexivity.
  - unfold allocate_pid_seq in *. rewrite i16_idem in Hm1. apply (task_is_agree m1); [exact Hmlen | | exact Hm1].
    intros a Ha. apply Hag2. task_offsets. unfold PG_SIZE. lia.
  - unfold allocate_pid_seq in *. rewrite i16_idem in Hm2. exact Hm2.
Qed.

(** ** [next_pid] on an [int16_t] *)

Lemma i16_succ (z : Z) : i16 (i16 z + 1) = i16 (z + 1).
Proof.
  unfold i16. replace ((z + 2 ^ 15) mod 2 ^ 16 - 2 ^ 15 + 1 + 2 ^ 15) with ((z + 2 ^ 15) mod 2 ^ 16 + 1) by lia.
  rewrite Zplus_mod_idemp_l. f_equal. f_equal. lia.
Qed.

(** The [n]-th pid [allocate_pid] hands out is [n] at the width of
    [pid_t]. *)
Lemma allocate_pid_seq_iter (n : nat) : Nat.iter n allocate_pid_seq 0 = i16 (Z.of_nat n).
Proof.
  induction n as [| n IH]; [reflexivity |].
  change (Nat.iter (S n) allocate_pid_seq 0) with (allocate_pid_seq (Nat.iter n allocate_pid_seq 0)).
  rewrite IH. unfold allocate_pid_seq.
  rewrite i16_succ, Nat2Z.inj_succ. reflexivity.
Qed.

(** [pid_t] is an [int16_t]: the 32768th pid is negative, and the 65537th
    is 1 again, the pid of [init]. *)
Lemma allocate_pid_seq_repeats :
  Nat.iter (Z.to_nat 32768) allocate_pid_seq 0 = -32768 /\
  Nat.iter (Z.to_nat 65537) allocate_pid_seq 0 = Nat.iter 1 allocate_pid_seq 0.
Proof. rewrite !allocate_pid_seq_iter, !Z2Nat.id by lia. split; reflexivity. Qed.

(** ** Witness *)

(** The literal ["main"] at [0x340] beside those of [Task.task_mem];
    [process_execute] has taken pid 1. *)
Definition boot_mem : store := put_bytes task_mem 0x340 (cbytes "main").

Definition init_taken (t : tasks) : kres tasks := KOk (mk_tasks (t_mem t) [] [] 1).

Lemma thread_init_tasks_witness :
  exists m', thread_init init_taken 0xc009effc 0x340 0xc0101000 0x320 0xc0001500 0xc0001600
               (mk_tasks boot_mem [] [] 0) =
    KOk (mk_tasks m' ([] ++ [0xc0101000 + GENERAL_TAG_OFF])
           ([] ++ [running_thread 0xc009effc + ALL_LIST_TAG_OFF; 0xc0101000 + ALL_LIST_TAG_OFF])
           (allocate_pid_seq (allocate_pid_seq 1)), running_thread 0xc009effc, 0xc0101000) /\
    task_is m' (running_thread 0xc009effc) (removelast (cbytes "main")) (allocate_pid_seq 1) TASK_RUNNING 31 /\
    task_is m' 0xc0101000 (removelast (cbytes "idle")) (allocate_pid_seq (allocate_pid_seq 1)) TASK_READY 10.
Proof.
  apply (thread_init_tasks init_taken 0xc009effc 0x340 0xc0101000 0x320 0xc0001500 0xc0001600
           (mk_tasks boot_mem [] [] 0) (mk_tasks boot_mem [] [] 1));
    try (vm_compute; reflexivity); try (vm_compute; discriminate);
    try (unfold apart, running_thread, TASK_STRUCT_SIZE, PG_SIZE; vm_compute; lia);
    try (apply (bool_decide_unpack _); vm_compute; reflexivity).
Defined.
