(* ===== verification/Intr.v ===== *)
(** * Intr: the interrupt set-up of [kernel/interrupt.c] and [device/timer.c]

    [idt_init] fills the interrupt descriptor table [idt] (one gate per
    entry of the assembly table [intr_entry_table], and a user-callable
    gate for the system call at [0x80]), registers [general_intr_handler]
    and the exception names, programs the two 8259A interrupt controllers
    and loads [idt]; [timer_init] programs counter 0 of the 8254 timer and
    registers the timer handler.  [intr_enable] and its relatives work
    on the field [intr] of [Thread]'s state; here they are also written
    on the [EFLAGS] register, with [sti], [cli] and the [EFLAGS_IF] test
    of [intr_get_status].

    The port writes [outb] makes are a trace of (port, byte) pairs.  What
    they mean is the hardware's business; two small device models, written
    from the 8259A and 8254 data sheets and not from the sources, read a
    trace: the 8259A's initialisation sequence (ICW1 to ICW4, then the
    interrupt mask) and the 8254's control word and two-byte reload value.

    The selectors and gate attributes of [global.h], the addresses of
    [intr_entry_table] and [syscall_handler] (in [kernel.S]), which are not
    in the sources, are parameters of the section [Idt].

    [ticks_to_sleep]'s loop reads [ticks], which the timer handler
    advances while the thread yields; the model takes the values it reads
    as a list, and [one_tick_per_yield] is the list when one tick comes
    during each [thread_yield].  [init_all_tables] is the handler table
    after [init_all] has run [idt_init], [timer_init] and the
    [register_handler] of [keyboard_init].

    Theorems: a gate holds its handler's address split in two words, which
    recombine to the address, and [idt_desc_init] gives every vector its
    entry with the right privilege; the operand of [lidt] is the table's
    limit and base; after [pic_init] exactly IRQ 0, 1, 2 and 14 are
    unmasked and IRQ [i] arrives at vector [0x20 + i]; after [init_all]
    vectors [0x20] and [0x21] go to the timer and the keyboard and all
    others to [general_intr_handler], which ignores the spurious vectors
    [0x27] and [0x2f] and halts with the exception's name otherwise;
    [frequency_set] writes 0 as the high byte of every reload value, so
    [timer_init] runs the timer at 7697 Hz, not 100 Hz; [mtime_sleep]
    stops the kernel for 0 ms and for the last 9 values of a [uint32_t];
    [ticks_to_sleep(n)] returns after [n] ticks, also across the
    wrap-round of [ticks]; [intr_set_status] on [EFLAGS] refines the
    scheduler's flag and changes no other bit. *)

From Stdlib Require Import ZArith Lia String Bool.
From stdpp Require Import base list.
From S2P Require Import Prelude Thread.

Open Scope Z_scope.
Open Scope kernel_scope.

(** ** Port output *)

(** [outb(port, data)]: one byte written to a port. *)
Definition outb (port data : Z) : list (Z * Z) := [(port, u8 data)].

(** ** The 8259A interrupt controllers ([pic_init]) *)

Definition PIC_M_CTRL : Z := 0x20.
Definition PIC_M_DATA : Z := 0x21.
Definition PIC_S_CTRL : Z := 0xa0.
Definition PIC_S_DATA : Z := 0xa1.

Definition pic_init : list (Z * Z) :=
  outb PIC_M_CTRL 0x11 ++ outb PIC_M_DATA 0x20 ++ outb PIC_M_DATA 0x04 ++ outb PIC_M_DATA 0x01 ++
  outb PIC_S_CTRL 0x11 ++ outb PIC_S_DATA 0x28 ++ outb PIC_S_DATA 0x02 ++ outb PIC_S_DATA 0x01 ++
  outb PIC_M_DATA 0xfc ++ outb PIC_S_DATA 0xff ++ outb PIC_M_DATA 0xf8 ++ outb PIC_S_DATA 0xbf.

(** ** The 8254 timer ([frequency_set], [timer_init]) *)

Definition IRQ0_FREQUENCY : Z := 100.
Definition INPUT_FREQUENCY : Z := 1193180.
Definition COUNTER0_VALUE : Z := INPUT_FREQUENCY / IRQ0_FREQUENCY.
Definition COUNTER0_PORT : Z := 0x40.
Definition COUNTER0_NO : Z := 0.
Definition COUNTER_MODE : Z := 2.
Definition READ_WRITE_LATCH : Z := 3.
Definition PIT_COUNTROL_PORT : Z := 0x43.
Definition mil_seconds_per_intr : Z := 1000 / IRQ0_FREQUENCY.

(** [frequency_set]: the control word, then [(uint8_t)counter_value] and
    [(uint8_t)counter_value >> 8]: the cast comes first, so the second
    byte is the low byte shifted out, 0. *)
Definition frequency_set (counter_port counter_no rwl counter_mode counter_value : Z) : list (Z * Z) :=
  outb PIT_COUNTROL_PORT (u8 (Z.lor (Z.shiftl (u8 counter_no) 6) (Z.lor (Z.shiftl (u8 rwl) 4) (Z.shiftl (u8 counter_mode) 1)))) ++
  outb (u8 counter_port) (u8 (Z.land counter_value 0xffff)) ++
  outb (u8 counter_port) (Z.shiftr (u8 (Z.land counter_value 0xffff)) 8).

(** The port writes of [timer_init]'s call of [frequency_set]. *)
Definition timer_init_ports : list (Z * Z) :=
  frequency_set COUNTER0_PORT COUNTER0_NO READ_WRITE_LATCH COUNTER_MODE COUNTER0_VALUE.

(** [DIV_ROUND_UP(X, STEP)] of [global.h] on [uint32_t]s:
    [(X + STEP - 1) / STEP]. *)
Definition DIV_ROUND_UP (x step : Z) : Z := u32 (x + step - 1) / step.

(** [mtime_sleep]: the number of ticks [ticks_to_sleep] waits, after the
    [ASSERT]. *)
Definition mtime_sleep (m_seconds : Z) : kres Z :=
  let sleep_ticks := DIV_ROUND_UP m_seconds mil_seconds_per_intr in
  ASSERT (0 <? sleep_ticks) as "sleep_ticks > 0" ;;
  KOk sleep_ticks.

(** [ticks_to_sleep]'s loop test: [ticks - start_tick < sleep_ticks] on
    [uint32_t]s. *)
Definition still_sleeping (ticks start_tick sleep_ticks : Z) : bool := u32 (ticks - start_tick) <? sleep_ticks.

(** [ticks_to_sleep]'s loop, given the values of [ticks] it reads at its
    tests (the timer handler changes [ticks] while the thread yields): the
    number of [thread_yield]s before the test fails, or [None] when the
    reads run out first. *)
Fixpoint ticks_to_sleep (start_tick sleep_ticks : Z) (reads : list Z) : option nat :=
  match reads with
  | [] => None
  | ticks :: reads' =>
      if still_sleeping ticks start_tick sleep_ticks then S <$> ticks_to_sleep start_tick sleep_ticks reads'
      else Some 0%nat
  end.

(** The values of [ticks] when one timer interrupt comes during each
    [thread_yield]: [start_tick], [start_tick + 1], ..., as a [uint32_t]. *)
Definition one_tick_per_yield (start_tick : Z) (n : nat) : list Z :=
  map (fun k => u32 (start_tick + Z.of_nat k)) (seq 0 n).

(** ** The interrupt descriptor table *)

(** [struct gate_desc]. *)
Record gate_desc := mk_gate {
  func_offset_low_word : Z;
  selector : Z;
  dcout : Z;
  attribute : Z;
  func_offset_high_word : Z
}.

(** [#define IDT_DESC_CNT 0x81]. *)
Definition IDT_DESC_CNT : Z := 0x81.

(** The handlers [idt_table] can hold. *)
Inductive intr_handler := General | Timer | Keyboard | Handler (addr : Z).

(** What [general_intr_handler] does: return, or print the exception's
    name (and, for a page fault, the address in [cr2]) and spin. *)
Inductive exc_outcome := ExcIgnored | ExcHalted (name : string) (page_fault_vaddr : option Z).

(** The software side of the interrupt set-up: the handler table and the
    exception names. *)
Record intr_tables := mk_tables {
  idt_table : list intr_handler;
  intr_name : list string
}.

(** [exception_init]: every vector goes to [general_intr_handler] and is
    named ["unknown"], then the names of the processor's exceptions. *)
Definition exception_names : list (nat * string) :=
  [(0%nat, "#DE Divide Error"); (1%nat, "#DB Debug Exception"); (2%nat, "NMI Interrupt");
   (3%nat, "#BP Breakpoint Exception"); (4%nat, "#OF Overflow Exception");
   (5%nat, "#BR BOUND Range Exceeded Exception"); (6%nat, "#UD Invalid Opcode Exception");
   (7%nat, "#NM Device Not Available Exception"); (8%nat, "#DF Double Fault Exception");
   (9%nat, "Coprocessor Segment Overrun"); (10%nat, "#TS Invalid TSS Exception");
   (11%nat, "#NP Segment Not Present"); (12%nat, "#SS Stack Fault Exception");
   (13%nat, "#GP General Protection Exception"); (14%nat, "#PF Page-Fault Exception");
   (16%nat, "#MF x87 FPU Floating-Point Error"); (17%nat, "#AC Alignment Check Exception");
   (18%nat, "#MC Machine-Check Exception"); (19%nat, "#XF SIMD Floating-Point Exception")]%string.

Definition exception_init : intr_tables :=
  mk_tables (repeat General (Z.to_nat IDT_DESC_CNT))
            (foldl (fun names '(i, n) => <[i := n]> names) (repeat "unknown"%string (Z.to_nat IDT_DESC_CNT))
                   exception_names).

Section Idt.

Context (SELECTOR_K_CODE IDT_DESC_ATTR_DPL0 IDT_DESC_ATTR_DPL3 : Z).
Context (intr_entry_table : list Z) (syscall_handler idt_addr : Z).

(** [make_idt_desc]. *)
Definition make_idt_desc (attr function : Z) : gate_desc :=
  mk_gate (Z.land (u32 function) 0x0000FFFF) SELECTOR_K_CODE 0 (u8 attr)
          (Z.shiftr (Z.land (u32 function) 0xFFFF0000) 16).

(** [idt_desc_init]: a DPL0 gate per entry of [intr_entry_table], then
    the system call's DPL3 gate over the last one. *)
Definition idt_desc_init : list gate_desc :=
  let lastindex := Z.to_nat (IDT_DESC_CNT - 1) in
  <[lastindex := make_idt_desc IDT_DESC_ATTR_DPL3 syscall_handler]>
    (map (fun i => make_idt_desc IDT_DESC_ATTR_DPL0 (nth i intr_entry_table 0)) (seq 0 (Z.to_nat IDT_DESC_CNT))).

(** The operand of [lidt]: [(sizeof(idt) - 1) | ((uint64_t)(uint32_t)idt << 16)]. *)
Definition idt_operand : Z := Z.lor (IDT_DESC_CNT * 8 - 1) (Z.shiftl (u32 idt_addr) 16).

(** [idt_init]: the gates, the handler and name tables, the port writes of
    [pic_init] and the operand [lidt] loads. *)
Definition idt_init : list gate_desc * intr_tables * list (Z * Z) * Z :=
  (idt_desc_init, exception_init, pic_init, idt_operand).

End Idt.

(** [register_handler(vector_no, function)]: [idt_table[vector_no] =
    function].  [vector_no] is a [uint8_t] and the table has [0x81]
    entries; a larger vector writes past the table, which the model
    reports as [None]. *)
Definition register_handler (t : intr_tables) (vector_no : Z) (function : intr_handler) : option intr_tables :=
  let v := u8 vector_no in
  if v <? IDT_DESC_CNT then Some (mk_tables (<[Z.to_nat v := function]> (idt_table t)) (intr_name t))
  else None.

(** [timer_init]: the port writes of [frequency_set], then
    [register_handler(0x20, intr_timer_handler)]. *)
Definition timer_init (t : intr_tables) : list (Z * Z) * option intr_tables :=
  (timer_init_ports, register_handler t 0x20 Timer).

(** [keyboard_init]'s [register_handler(0x21, intr_keyboard_handler)]. *)
Definition keyboard_register (t : intr_tables) : option intr_tables := register_handler t 0x21 Keyboard.

(** The handler table after [init_all] has run [idt_init], [timer_init]
    and [keyboard_init]. *)
Definition init_all_tables : option intr_tables :=
  match snd (timer_init exception_init) with Some t => keyboard_register t | None => None end.

(** [general_intr_handler(vec_nr)]; [cr2] is the faulting address of a
    page fault.  Only the [0x81] vectors of [idt] reach it, so
    [intr_name[vec_nr]] is in the table; the default of [nth] is never
    read. *)
Definition general_intr_handler (t : intr_tables) (vec_nr cr2 : Z) : exc_outcome :=
  let v := u8 vec_nr in
  if (v =? 0x27) || (v =? 0x2f) then ExcIgnored
  else ExcHalted (nth (Z.to_nat v) (intr_name t) "unknown"%string) (if v =? 14 then Some cr2 else None).

(** ** The interrupt flag in [EFLAGS]

    [Thread] keeps [EFLAGS.IF] as the field [intr] of its state; here
    [intr_enable], [intr_disable], [intr_set_status] and
    [intr_get_status] work on the 32-bit [EFLAGS] register as the code
    does, through [sti], [cli] and the test of [EFLAGS_IF]. *)

(** [#define EFLAGS_IF 0x00000200]: bit 9. *)
Definition EFLAGS_IF : Z := 0x00000200.

(** [intr_get_status()]: [GET_EFLAGS] ([pushfl; popl]) reads the
    register, and [EFLAGS_IF & eflags] tests the flag. *)
Definition intr_get_status (eflags : Z) : intr_status :=
  if Z.land EFLAGS_IF eflags =? 0 then INTR_OFF else INTR_ON.

(** The instructions [sti] and [cli] set and clear IF. *)
Definition sti (eflags : Z) : Z := Z.lor eflags EFLAGS_IF.
Definition cli (eflags : Z) : Z := Z.land eflags (Z.lnot EFLAGS_IF).

(** [intr_enable()], [intr_disable()]: the status before, and the
    register after. *)
Definition intr_enable_eflags (eflags : Z) : intr_status * Z :=
  if intr_get_status eflags is INTR_ON then (INTR_ON, eflags) else (INTR_OFF, sti eflags).

Definition intr_disable_eflags (eflags : Z) : intr_status * Z :=
  if intr_get_status eflags is INTR_ON then (INTR_ON, cli eflags) else (INTR_OFF, eflags).

(** The values of [enum intr_status]: [INTR_OFF] is 0, [INTR_ON] 1. *)
Definition intr_status_val (st : intr_status) : Z := if st is INTR_ON then 1 else 0.

(** [intr_set_status(status)]: [status & INTR_ON ? intr_enable() :
    intr_disable()]. *)
Definition intr_set_status_eflags (status : intr_status) (eflags : Z) : intr_status * Z :=
  if Z.land (intr_status_val status) (intr_status_val INTR_ON) =? 0 then intr_disable_eflags eflags
  else intr_enable_eflags eflags.

(** ** The devices, from their data sheets *)

(** An 8259A: where it is in its initialisation sequence (0 when done,
    else the ICW it expects next), whether ICW1 asked for ICW4 and for
    cascade mode, the vector of IRQ 0 and the interrupt mask. *)
Record pic := mk_pic {
  pic_next_icw : nat;
  pic_icw4 : bool;
  pic_cascade : bool;
  pic_base : Z;
  pic_imr : Z
}.

Definition pic_write_ctrl (p : pic) (v : Z) : pic :=
  if Z.testbit v 4 then mk_pic 2 (Z.testbit v 0) (negb (Z.testbit v 1)) (pic_base p) 0 else p.

Definition pic_write_data (p : pic) (v : Z) : pic :=
  match pic_next_icw p with
  | 2%nat => mk_pic (if pic_cascade p then 3 else if pic_icw4 p then 4 else 0) (pic_icw4 p) (pic_cascade p)
                    (Z.land v 0xf8) (pic_imr p)
  | 3%nat => mk_pic (if pic_icw4 p then 4 else 0) (pic_icw4 p) (pic_cascade p) (pic_base p) (pic_imr p)
  | 4%nat => mk_pic 0 (pic_icw4 p) (pic_cascade p) (pic_base p) (pic_imr p)
  | _ => mk_pic (pic_next_icw p) (pic_icw4 p) (pic_cascade p) (pic_base p) v
  end.

(** The master at ports [0x20]/[0x21] and the slave at [0xa0]/[0xa1]. *)
Definition pics_write (ms : pic * pic) (w : Z * Z) : pic * pic :=
  let '(m, s) := ms in
  let '(port, v) := w in
  if port =? PIC_M_CTRL then (pic_write_ctrl m v, s)
  else if port =? PIC_M_DATA then (pic_write_data m v, s)
  else if port =? PIC_S_CTRL then (m, pic_write_ctrl s v)
  else if port =? PIC_S_DATA then (m, pic_write_data s v)
  else ms.

(** IRQ [i] (0 to 15) reaches the processor: unmasked on its chip and,
    for the slave's, on the master's cascade line 2. *)
Definition irq_enabled (ms : pic * pic) (i : Z) : bool :=
  if i <? 8 then negb (Z.testbit (pic_imr (fst ms)) i)
  else negb (Z.testbit (pic_imr (fst ms)) 2) && negb (Z.testbit (pic_imr (snd ms)) (i - 8)).

Definition irq_vector (ms : pic * pic) (i : Z) : Z :=
  if i <? 8 then pic_base (fst ms) + i else pic_base (snd ms) + (i - 8).

(** An 8254 counter: the access mode and operating mode of the last
    control word, whether the next byte is the low one, the low byte
    written, and the reload value. *)
Record pit_counter := mk_pit {
  pit_access : Z;
  pit_mode : Z;
  pit_low_next : bool;
  pit_low : Z;
  pit_reload : Z
}.

(** Counter 0 only: a control word for counter 0 sets the modes; with
    access mode 3 the low byte then the high byte load the reload value
    (0 standing for 65536). *)
Definition pit_write (c : pit_counter) (w : Z * Z) : pit_counter :=
  let '(port, v) := w in
  if port =? PIT_COUNTROL_PORT then
    if Z.shiftr v 6 =? 0 then mk_pit (Z.land (Z.shiftr v 4) 3) (Z.land (Z.shiftr v 1) 7) true 0 (pit_reload c) else c
  else if port =? COUNTER0_PORT then
    if pit_access c =? 3 then
      if pit_low_next c then mk_pit (pit_access c) (pit_mode c) false v (pit_reload c)
      else mk_pit (pit_access c) (pit_mode c) true (pit_low c) (Z.lor (Z.shiftl v 8) (pit_low c))
    else c
  else c.

(** The interrupt rate of a mode-2 counter, in Hz. *)
Definition pit_frequency (c : pit_counter) : Z :=
  INPUT_FREQUENCY / (if pit_reload c =? 0 then 65536 else pit_reload c).

(** ** Theorems *)

#[global] Instance intr_handler_eq_dec : EqDecision intr_handler.
Proof. solve_decision. Defined.

(** The high half of a gate: the [uint32_t] handler address shifted down
    16 bits. *)
Lemma gate_high_word (f : Z) : Z.shiftr (Z.land (u32 f) 0xFFFF0000) 16 = Z.shiftr (u32 f) 16.
Proof.
  apply Z.bits_inj'; intros n Hn.
  rewrite !Z.shiftr_spec, Z.land_spec by lia.
  change 0xFFFF0000 with (Z.shiftl (Z.ones 16) 16).
  rewrite Z.shiftl_spec, Z.testbit_ones_nonneg by lia.
  destruct (Z.ltb_spec (n + 16 - 16) 16); [apply andb_true_r|].
  rewrite andb_false_r. symmetry.
  pose proof (u32_range f) as Hf.
  destruct (Z.eq_dec (u32 f) 0) as [->|]; [apply Z.bits_0|].
  apply Z.bits_above_log2; [lia|]. assert (Z.log2 (u32 f) < 32) by (apply Z.log2_lt_pow2; lia). lia.
Qed.

(** [make_idt_desc] splits the handler's address into the
    gate's two 16-bit offset words, and the processor's recombination of
    the two words, high word over low word, gives back the address as a
    [uint32_t]. *)
Theorem make_idt_desc_offset (sel attr function : Z) :
  let g := make_idt_desc sel attr function in
  0 <= func_offset_low_word g < 2 ^ 16 /\ 0 <= func_offset_high_word g < 2 ^ 16 /\
  Z.lor (Z.shiftl (func_offset_high_word g) 16) (func_offset_low_word g) = u32 function.
Proof.
  cbn. rewrite gate_high_word. change 0x0000FFFF with (Z.ones 16).
  pose proof (u32_range function) as Hf.
  rewrite Z.land_ones, Z.shiftr_div_pow2 by lia.
  split; [apply Z.mod_pos_bound; lia|]. split; [split; [apply Z.div_pos | apply Z.div_lt_upper_bound]; lia|].
  rewrite <- Z.shiftr_div_pow2, <- Z.land_ones by lia. apply lor_shiftl_split. lia.
Qed.

(** The operand [idt_init] gives [lidt]: its low 16 bits are
    the table's limit [0x81 * 8 - 1], the 32 bits above them the table's
    address. *)
Theorem idt_operand_fields (idt_addr : Z) :
  Z.land (idt_operand idt_addr) (Z.ones 16) = IDT_DESC_CNT * 8 - 1 /\
  Z.shiftr (idt_operand idt_addr) 16 = u32 idt_addr.
Proof.
  unfold idt_operand. rewrite Z.lor_comm.
  split; [apply lor_shiftl_low | apply lor_shiftl_high]; unfold IDT_DESC_CNT; lia.
Qed.

(** [idt_desc_init] fills all [0x81] gates: vector [i]
    below [0x80] gets a DPL0 gate to entry [i] of [intr_entry_table], and
    the system call's vector [0x80] a DPL3 gate to [syscall_handler]. *)
Theorem idt_desc_init_gates (sel dpl0 dpl3 : Z) (entries : list Z) (syscall : Z) :
  let idt := idt_desc_init sel dpl0 dpl3 entries syscall in
  length idt = Z.to_nat IDT_DESC_CNT /\
  (forall i, (i < 0x80)%nat -> idt !! i = Some (make_idt_desc sel dpl0 (nth i entries 0))) /\
  idt !! 0x80%nat = Some (make_idt_desc sel dpl3 syscall).
Proof.
  unfold idt_desc_init. cbn zeta. split; [|split].
  - by rewrite length_insert, length_map, length_seq.
  - intros i Hi. rewrite list_lookup_insert_ne by (unfold IDT_DESC_CNT; cbn; lia).
    rewrite list_lookup_fmap, lookup_seq_lt by (unfold IDT_DESC_CNT; cbn; lia). reflexivity.
  - apply list_lookup_insert_eq. rewrite length_map, length_seq. unfold IDT_DESC_CNT; cbn; lia.
Qed.

Lemma idt_desc_init_gates_witness :
  (3 < 0x80)%nat /\ idt_desc_init 8 0x8e 0xee [0x1000; 0x1010; 0x1020; 0x1030] 0x2000 !! 3%nat =
    Some (make_idt_desc 8 0x8e (nth 3 [0x1000; 0x1010; 0x1020; 0x1030] 0)).
Proof. split; [lia | apply (idt_desc_init_gates 8 0x8e 0xee [0x1000; 0x1010; 0x1020; 0x1030] 0x2000); lia]. Defined.

(** C24 (functional) Whatever state the two 8259As are in, the port writes
    of [pic_init] take both through their initialisation and leave exactly
    IRQ 0 (timer), 1 (keyboard), 2 (the cascade) and 14 (disk) unmasked,
    with IRQ [i] delivered at vector [0x20 + i]. *)
Theorem pic_init_irqs (m s : pic) (i : Z) :
  0 <= i < 16 ->
  let ms := fold_left pics_write pic_init (m, s) in
  irq_enabled ms i = bool_decide (i = 0 \/ i = 1 \/ i = 2 \/ i = 14) /\ irq_vector ms i = 0x20 + i.
Proof.
  intros Hi ms.
  assert (Hms : ms = (mk_pic 0 true true 0x20 0xf8, mk_pic 0 true true 0x28 0xbf)) by (destruct m, s; reflexivity).
  rewrite Hms. revert i Hi. check_range.
Qed.

Lemma pic_init_irqs_witness : 0 <= 14 < 16 /\
  let ms := fold_left pics_write pic_init (mk_pic 0 false false 0 0xff, mk_pic 0 false false 0 0xff) in
  irq_enabled ms 14 = bool_decide (14 = 0 \/ 14 = 1 \/ 14 = 2 \/ 14 = 14) /\ irq_vector ms 14 = 0x20 + 14.
Proof. split; [lia | apply pic_init_irqs; lia]. Defined.

(** The bytes [frequency_set] writes for counter 0: the control word
    [0x34] (counter 0, low byte then high byte, mode 2), the low byte of
    the value, and 0. *)
Lemma frequency_set_trace (counter_value : Z) :
  frequency_set COUNTER0_PORT COUNTER0_NO READ_WRITE_LATCH COUNTER_MODE counter_value =
  [(PIT_COUNTROL_PORT, 0x34); (COUNTER0_PORT, u8 counter_value); (COUNTER0_PORT, 0)].
Proof.
  assert (Hlow : u8 (u8 (Z.land counter_value 0xffff)) = u8 counter_value).
  { unfold u8. rewrite Z.mod_mod by lia. change 0xffff with (Z.ones 16). rewrite Z.land_ones by lia.
    apply Z.mod_mod_divide. exists (2 ^ 8). reflexivity. }
  assert (Hhigh : Z.shiftr (u8 (Z.land counter_value 0xffff)) 8 = 0).
  { rewrite Z.shiftr_div_pow2 by lia. apply Z.div_small. unfold u8. apply Z.mod_pos_bound. lia. }
  unfold frequency_set, outb. rewrite Hhigh. cbn [app]. rewrite Hlow. reflexivity.
Qed.

(** C21 (functional) [frequency_set] loses the high byte of the reload
    value: [(uint8_t)counter_value >> 8] casts before it shifts, so the
    second byte written to the counter is 0, and the 8254, whatever its
    state, counts in mode 2 from [counter_value mod 256], not from
    [counter_value]. *)
Theorem frequency_set_drops_high_byte (c : pit_counter) (counter_value : Z) :
  let c' := fold_left pit_write (frequency_set COUNTER0_PORT COUNTER0_NO READ_WRITE_LATCH COUNTER_MODE counter_value) c in
  pit_mode c' = COUNTER_MODE /\ pit_reload c' = u8 counter_value.
Proof.
  rewrite frequency_set_trace. cbn. split; [reflexivity|].
  apply Z.lor_0_l.
Qed.

(** [timer_init] programs the 8254 to count from 155, the low byte of
    [COUNTER0_VALUE = 11931]: IRQ 0 fires 7697 times a second, not
    [IRQ0_FREQUENCY = 100]. *)
Theorem timer_init_rate (c : pit_counter) :
  let c' := fold_left pit_write (fst (timer_init exception_init)) c in
  COUNTER0_VALUE = 11931 /\ pit_reload c' = 155 /\ pit_frequency c' = 7697.
Proof. cbn [fst timer_init]. unfold timer_init_ports. rewrite frequency_set_trace. destruct c. vm_compute. auto. Qed.

(** [DIV_ROUND_UP(m, 10)] on a [uint32_t]: the rounded-up quotient,
    except for the last 9 values, where [m + 9] wraps round to a number
    below 9. *)
Lemma div_round_up_10 (m : Z) : 0 <= m < 2 ^ 32 ->
  DIV_ROUND_UP m 10 = if m <? 2 ^ 32 - 9 then (m + 9) / 10 else 0.
Proof.
  intros Hm. unfold DIV_ROUND_UP, u32. replace (m + 10 - 1) with (m + 9) by lia.
  destruct (Z.ltb_spec m (2 ^ 32 - 9)).
  - rewrite Z.mod_small by lia. reflexivity.
  - rewrite <- (Z.mod_unique (m + 9) (2 ^ 32) 1 (m + 9 - 2 ^ 32)) by lia. apply Z.div_small. lia.
Qed.

(** C25 (error) [mtime_sleep(m)] on a [uint32_t] [m]: it waits
    [ceil(m / 10)] ticks for [0 < m < 2^32 - 9] and stops the kernel on its
    [ASSERT] otherwise: for 0 ms, and for the 9 largest values, where
    [DIV_ROUND_UP] overflows. *)
Theorem mtime_sleep_spec (m : Z) : 0 <= m < 2 ^ 32 ->
  mtime_sleep m = if (0 <? m) && (m <? 2 ^ 32 - 9) then KOk ((m + 9) / 10) else KPanic "sleep_ticks > 0".
Proof.
  intros Hm. unfold mtime_sleep. change mil_seconds_per_intr with 10. rewrite div_round_up_10 by exact Hm.
  destruct (Z.ltb_spec 0 m), (Z.ltb_spec m (2 ^ 32 - 9)); cbn [andb]; try reflexivity.
  - rewrite (proj2 (Z.ltb_lt 0 ((m + 9) / 10))); [reflexivity|]. apply Z.div_str_pos. lia.
  - replace m with 0 by lia. reflexivity.
Qed.

Lemma mtime_sleep_spec_witness : 0 <= 0 < 2 ^ 32 /\
  mtime_sleep 0 = if (0 <? 0) && (0 <? 2 ^ 32 - 9) then KOk ((0 + 9) / 10) else KPanic "sleep_ticks > 0".
Proof. split; [lia | apply mtime_sleep_spec; lia]. Defined.

(** [ticks - start_tick] on [uint32_t]s counts the ticks since
    [start_tick], across the wrap-round of [ticks]. *)
Lemma still_sleeping_elapsed (start_tick k n : Z) :
  0 <= start_tick < 2 ^ 32 -> 0 <= k < 2 ^ 32 ->
  still_sleeping (u32 (start_tick + k)) start_tick n = (k <? n).
Proof.
  intros Hs Hk. unfold still_sleeping, u32. rewrite Zminus_mod_idemp_l.
  replace (start_tick + k - start_tick) with k by lia. rewrite Z.mod_small by lia. reflexivity.
Qed.

Lemma ticks_to_sleep_from (start_tick n : Z) (k : nat) (extra : list Z) :
  0 <= start_tick < 2 ^ 32 -> 0 <= n < 2 ^ 32 -> (Z.of_nat k <= n)%Z ->
  ticks_to_sleep start_tick n
    (map (fun j => u32 (start_tick + Z.of_nat j)) (seq k (S (Z.to_nat n - k))) ++ extra) =
  Some (Z.to_nat n - k)%nat.
Proof.
  intros Hs Hn. remember (Z.to_nat n - k)%nat as d eqn:Hd. revert k Hd.
  induction d as [| d IH]; intros k Hd Hk; change (seq k (S ?x)) with (k :: seq (S k) x);
    cbn [map app ticks_to_sleep]; rewrite still_sleeping_elapsed by lia.
  - rewrite (proj2 (Z.ltb_ge _ _)) by lia. reflexivity.
  - rewrite (proj2 (Z.ltb_lt _ _)) by lia. rewrite (IH (S k)) by lia. reflexivity.
Qed.

(** C23 (liveness) [ticks_to_sleep(n)] wakes up: when the timer ticks
    once during each [thread_yield], the loop stops after exactly [n]
    yields, whatever the value of [ticks] it starts from, also when
    [ticks] wraps round during the sleep, and whatever the timer does
    afterwards. *)
Theorem ticks_to_sleep_wakes (start_tick : Z) (n : nat) (later : list Z) :
  0 <= start_tick < 2 ^ 32 -> (Z.of_nat n < 2 ^ 32)%Z ->
  ticks_to_sleep start_tick (Z.of_nat n) (one_tick_per_yield start_tick (S n) ++ later) = Some n.
Proof.
  intros Hs Hn. pose proof (ticks_to_sleep_from start_tick (Z.of_nat n) 0 later Hs) as H.
  rewrite Nat2Z.id, Nat.sub_0_r in H. apply H; lia.
Qed.

Lemma ticks_to_sleep_wakes_witness : 0 <= 2 ^ 32 - 2 < 2 ^ 32 /\ (Z.of_nat 5 < 2 ^ 32)%Z /\
  ticks_to_sleep (2 ^ 32 - 2) (Z.of_nat 5) (one_tick_per_yield (2 ^ 32 - 2) 6 ++ []) = Some 5%nat.
Proof. split; [lia | split; [lia | apply ticks_to_sleep_wakes; lia]]. Defined.

(** The names [exception_init] gives: a processor exception's own name
    for vectors 0 to 19, except the reserved 15, and ["unknown"] for the
    others. *)
Lemma exception_init_names (v : Z) : 0 <= v < IDT_DESC_CNT ->
  (nth (Z.to_nat v) (intr_name exception_init) "unknown"%string = "unknown"%string <-> v = 15 \/ 20 <= v).
Proof. revert v. check_range. Qed.

(** After [init_all] has run [idt_init], [timer_init] and
    [keyboard_init], vector [0x20] goes to the timer's handler, [0x21] to
    the keyboard's, and every other vector of the [0x81] to
    [general_intr_handler]. *)
Theorem init_all_tables_handlers :
  exists t, init_all_tables = Some t /\ length (idt_table t) = Z.to_nat IDT_DESC_CNT /\
    forall v, 0 <= v < IDT_DESC_CNT ->
      nth (Z.to_nat v) (idt_table t) General = if v =? 0x20 then Timer else if v =? 0x21 then Keyboard else General.
Proof.
  eexists. split; [reflexivity|]. split; [reflexivity|]. check_range.
Qed.

(** [general_intr_handler] after [exception_init]: it
    returns on the spurious vectors [0x27] and [0x2f] (IRQ 7 and 15);
    otherwise it halts, printing ["unknown"] exactly for the reserved
    vector 15 and the vectors from 20 on, and the faulting address exactly
    for a page fault (vector 14). *)
Theorem general_intr_handler_spec (vec cr2 : Z) : 0 <= vec < IDT_DESC_CNT ->
  match general_intr_handler exception_init vec cr2 with
  | ExcIgnored => vec = 0x27 \/ vec = 0x2f
  | ExcHalted name fault =>
      vec <> 0x27 /\ vec <> 0x2f /\ (name = "unknown"%string <-> vec = 15 \/ 20 <= vec) /\
      fault = (if vec =? 14 then Some cr2 else None)
  end.
Proof.
  intros Hv. unfold general_intr_handler. rewrite u8_small by (unfold IDT_DESC_CNT in Hv; lia).
  destruct (Z.eqb_spec vec 0x27), (Z.eqb_spec vec 0x2f); cbn [orb]; [auto ..|].
  split; [done|]. split; [done|]. split; [apply exception_init_names; exact Hv | reflexivity].
Qed.

Lemma general_intr_handler_spec_witness : 0 <= 14 < IDT_DESC_CNT /\
  match general_intr_handler exception_init 14 0xc0000000 with
  | ExcIgnored => 14 = 0x27 \/ 14 = 0x2f
  | ExcHalted name fault =>
      14 <> 0x27 /\ 14 <> 0x2f /\ (name = "unknown"%string <-> 14 = 15 \/ 20 <= 14) /\
      fault = (if 14 =? 14 then Some 0xc0000000 else None)
  end.
Proof. split; [unfold IDT_DESC_CNT; lia | apply general_intr_handler_spec; unfold IDT_DESC_CNT; lia]. Defined.

(** ** The interrupt flag *)

(** [EFLAGS_IF & eflags] is non-zero exactly when bit 9 is set. *)
Lemma intr_get_status_bit (e : Z) : intr_get_status e = if Z.testbit e 9 then INTR_ON else INTR_OFF.
Proof.
  unfold intr_get_status, EFLAGS_IF. change 0x00000200 with (2 ^ 9).
  destruct (Z.testbit e 9) eqn:B.
  - rewrite (proj2 (Z.eqb_neq _ _)); [reflexivity |]. intros E.
    assert (T : Z.testbit (Z.land (2 ^ 9) e) 9 = true) by (rewrite Z.land_spec, Z.pow2_bits_true, B by lia; reflexivity).
    rewrite E, Z.bits_0 in T. discriminate.
  - replace (Z.land (2 ^ 9) e) with 0; [reflexivity |]. apply Z.bits_inj'. intros n Hn.
    rewrite Z.bits_0, Z.land_spec, Z.pow2_bits_eqb by lia. destruct (Z.eqb_spec 9 n); [subst; rewrite B |]; reflexivity.
Qed.

Lemma sti_bits (e n : Z) : 0 <= n -> Z.testbit (sti e) n = Z.testbit e n || (n =? 9).
Proof.
  intros Hn. unfold sti, EFLAGS_IF. change 0x00000200 with (2 ^ 9).
  rewrite Z.lor_spec, Z.pow2_bits_eqb by lia. rewrite Z.eqb_sym. reflexivity.
Qed.

Lemma cli_bits (e n : Z) : 0 <= n -> Z.testbit (cli e) n = Z.testbit e n && negb (n =? 9).
Proof.
  intros Hn. unfold cli, EFLAGS_IF. change 0x00000200 with (2 ^ 9).
  rewrite Z.land_spec, Z.lnot_spec, Z.pow2_bits_eqb by lia. rewrite Z.eqb_sym. reflexivity.
Qed.

(** C32 (refinement) [intr_set_status] on the register refines the
    scheduler's flag: from a state whose [intr] is the register's IF, it
    returns the same old status, leaves [intr] equal to the new
    register's IF, which is the status asked for, and changes no bit of
    [EFLAGS] but IF.  [intr_enable] and [intr_disable] are its two
    cases. *)
Theorem intr_set_status_refines (s : sched) (e : Z) (st : intr_status) :
  intr s = intr_get_status e ->
  fst (intr_set_status st s) = fst (intr_set_status_eflags st e) /\
  intr (snd (intr_set_status st s)) = intr_get_status (snd (intr_set_status_eflags st e)) /\
  intr_get_status (snd (intr_set_status_eflags st e)) = st /\
  (forall n, n <> 9 -> Z.testbit (snd (intr_set_status_eflags st e)) n = Z.testbit e n).
Proof.
  intros Hs. unfold intr_set_status, intr_enable, intr_disable, intr_set_status_eflags,
    intr_enable_eflags, intr_disable_eflags. rewrite Hs, !intr_get_status_bit.
  assert (Hb : forall n, n <> 9 -> Z.testbit (sti e) n = Z.testbit e n /\ Z.testbit (cli e) n = Z.testbit e n).
  { intros n Hn. destruct (Z.ltb_spec n 0); [rewrite !Z.testbit_neg_r by lia; split; reflexivity |].
    rewrite sti_bits, cli_bits, (proj2 (Z.eqb_neq n 9) Hn) by lia. rewrite orb_false_r, andb_true_r. split; reflexivity. }
  assert (H9 : Z.testbit (sti e) 9 = true /\ Z.testbit (cli e) 9 = false).
  { rewrite sti_bits, cli_bits by lia. rewrite orb_true_r, andb_false_r. split; reflexivity. }
  assert (L : forall st', (Z.land (intr_status_val st') (intr_status_val INTR_ON) =? 0) = negb (intr_status_val st' =? 1))
    by (intros []; reflexivity).
  destruct st, (Z.testbit e 9) eqn:B; rewrite L; cbn -[sti cli Z.testbit];
    rewrite ?Hs, ?intr_get_status_bit, ?B, ?(proj1 H9), ?(proj2 H9);
    (split; [reflexivity |]); (split; [reflexivity |]); (split; [reflexivity |]);
    intros n Hn; first [reflexivity | apply (Hb n Hn)].
Qed.

(** Interrupts on ([EFLAGS] [0x246] after [sti] at boot, IF set), turned
    off by [intr_set_status(INTR_OFF)]. *)
Lemma intr_set_status_refines_witness :
  intr (with_intr demo_sched INTR_ON) = intr_get_status 0x246 /\
  fst (intr_set_status INTR_OFF (with_intr demo_sched INTR_ON)) = fst (intr_set_status_eflags INTR_OFF 0x246) /\
  intr (snd (intr_set_status INTR_OFF (with_intr demo_sched INTR_ON))) =
    intr_get_status (snd (intr_set_status_eflags INTR_OFF 0x246)) /\
  intr_get_status (snd (intr_set_status_eflags INTR_OFF 0x246)) = INTR_OFF /\
  (forall n, n <> 9 -> Z.testbit (snd (intr_set_status_eflags INTR_OFF 0x246)) n = Z.testbit 0x246 n).
Proof. split; [reflexivity | apply intr_set_status_refines; reflexivity]. Defined.
