(* ===== verification/Main.v ===== *)
(** * Main: [main] and [init] of [kernel/main.c], with the constants of
    [fs/fs.h] and [fs/file.h] they use

    After [init_all], [main] loads a program from the disk into the file
    system: it asks [sys_malloc] for a buffer of [file_size = 4488] bytes,
    reads [DIV_ROUND_UP(file_size, 512)] sectors into it with [ide_read],
    creates ["/prog_no_arg"] with [sys_open(O_CREAT|O_RDWR)] and writes the
    buffer to it, then clears the screen, prints a prompt and spins.

    [sys_malloc] is the allocator of [Heap], on any state with the pool
    locks and heap data of [Heap] and their laws.  The file system, the
    disk driver and the console ([ide_read], [sys_open], [sys_write],
    [printf]'s output, [cls_screen], [console_put_str]) are not in the
    sources: [main]'s calls to them are a trace ([main_call]), and what
    [sys_open] and [sys_write] return are parameters.  [main] ends in
    [while(1)] on every path; the model's result is the trace up to there
    and the state.  [fork] and [my_shell] are not in the sources either:
    [init] takes what [fork] returned and whether [my_shell] returns.

    Theorems: when [sys_malloc] gives a buffer, the 9 sectors [ide_read]
    writes, 120 bytes more than [main] asked for, still fit in the arena
    of two pages that [sys_malloc] took; when it gives NULL, [main] does
    not check and has [ide_read] write to address 0; a negative [fork]
    result, in the [uint32_t ret_pid], takes [init] down the parent's
    path. *)

From Stdlib Require Import ZArith Lia String Ascii Bool.
From stdpp Require Import base gmap list.
From S2P Require Import Prelude Bitmap Pool Paging PageAlloc Heap Thread Intr.

Open Scope Z_scope.
Open Scope kernel_scope.

(** ** [fs/fs.h] and [fs/file.h] *)

(** [#define SECTOR_SIZE 512]. *)
Definition SECTOR_SIZE : Z := 512.

(** [enum oflags]. *)
Inductive oflags := O_RDONLY | O_WRONLY | O_RDWR | O_CREAT.

Definition oflags_val (f : oflags) : Z :=
  match f with O_RDONLY => 0 | O_WRONLY => 1 | O_RDWR => 2 | O_CREAT => 4 end.

(** ** [main] *)

(** A newline. *)
Definition nl : string := String (ascii_of_nat 10) EmptyString.

(** The calls [main] makes to code that is not in the sources. *)
Inductive main_call :=
| PutStr (s : string)                       (** [put_str] *)
| InitAll                                   (** [init_all()] *)
| IdeRead (hd lba buf sec_cnt : Z)          (** [ide_read] *)
| SysOpen (pathname : string) (flags : Z)   (** [sys_open] *)
| SysWrite (fd buf count : Z)               (** [sys_write] *)
| Printf (format : string)                  (** [printf] *)
| ClsScreen                                 (** [cls_screen()] *)
| ConsolePutStr (s : string).               (** [console_put_str] *)

Section Main.
Context {St : Type} `{PoolLocks St} `{HeapData St}.
(** [sda = &channels[0].device[0]], and what [sys_open] and [sys_write]
    return. *)
Context (sda open_fd write_ret : Z).

(** [main()] from the state [init_all] leaves, up to the final
    [while(1)]. *)
Definition main (s : St) : kres (list main_call * St) :=
  let file_size := 4488 in
  let sec_cnt := DIV_ROUND_UP file_size 512 in
  let* (prog_buf, s) := sys_malloc s file_size in
  let load := [PutStr ("I am kernel" ++ nl); InitAll; IdeRead sda 300 prog_buf sec_cnt;
               SysOpen "/prog_no_arg" (Z.lor (oflags_val O_CREAT) (oflags_val O_RDWR))] in
  let prompt := [ClsScreen; ConsolePutStr "[rog@localhost /]$ "] in
  if negb (open_fd =? -1) then
    if write_ret =? -1 then KOk (load ++ [SysWrite open_fd prog_buf file_size; Printf ("file write error!" ++ nl)], s)
    else KOk (load ++ [SysWrite open_fd prog_buf file_size] ++ prompt, s)
  else KOk (load ++ prompt, s).

End Main.

(** ** [init] *)

(** The path [init] takes: the parent's [while (1)], or the child's
    [my_shell()]. *)
Inductive init_path := InitParent | InitChild.

(** [init()]: [uint32_t ret_pid = fork()]; if [my_shell] returns, the
    [PANIC]. *)
Definition init (fork_ret : Z) (shell_returns : bool) : kres init_path :=
  let ret_pid := u32 fork_ret in
  if negb (ret_pid =? 0) then KOk InitParent
  else if shell_returns then KPanic "init: should not be here" else KOk InitChild.

(** ** Lemmas *)

Section MainSpecs.
Context {St : Type} `{PL : PoolLocks St} `{HD : HeapData St}.
Context `{!PoolLocksLaws St} `{!HeapDataLaws St}.

(** A request above 1024 bytes that [sys_malloc] grants lies
    [arena_size] bytes into an arena whose header records its page
    count, [DIV_ROUND_UP(size + sizeof(struct arena), PG_SIZE)]. *)
Lemma sys_malloc_large_arena (s s' : St) (size p : Z) :
  1024 < size -> size + arena_size + PG_SIZE < 2 ^ 32 ->
  sys_malloc s size = KOk (p, s') -> p <> 0 ->
  exists a, p = u32 (a + arena_size) /\
    get_arena (hp s') a = mk_arena DNull ((size + arena_size + PG_SIZE - 1) / PG_SIZE) true.
Proof.
  intros Hs Hw E Hp. unfold sys_malloc in E.
  destruct (negb _); [injection E as <- _; congruence |].
  kinv E. rewrite (proj2 (Z.ltb_lt _ _) Hs) in Hk. unfold malloc_large in Hk.
  rewrite (u32_small (size + arena_size)), (u32_small (size + arena_size + PG_SIZE - 1)) in Hk by (unfold arena_size, PG_SIZE in *; lia).
  kinv Hk. destruct a0 as [va m2]. destruct (Z.eqb_spec va 0) as [-> | Ha]; cbn [negb Z.eqb] in Hk0.
  - kinv Hk0. injection Hk as <- _. congruence.
  - kinv Hk0. rename Hk into E1. kinv E1. rename Hk into E2. kinv E2. injection Hk as <- <-. exists va. split; [reflexivity |].
    rewrite (release_hp _ _ _ Hr3), hp_set_hp. unfold arena_write in Hr2.
    destruct (translate _ _ _); [injection Hr2 as <- | discriminate].
    unfold get_arena, set_arena. cbn. rewrite lookup_insert_eq. reflexivity.
Qed.

End MainSpecs.

(** ** [main] *)

Section MainTheorems.
Context {St : Type} `{PL : PoolLocks St} `{HD : HeapData St}.
Context `{!PoolLocksLaws St} `{!HeapDataLaws St}.

(** [DIV_ROUND_UP(4488, 512)] is 9: [ide_read] writes 4608 bytes. *)
Lemma main_sec_cnt : DIV_ROUND_UP 4488 512 = 9.
Proof. reflexivity. Qed.

(** C39 (bounds) The buffer [main] reads the program into: every
    [ide_read] of [main] to a buffer [sys_malloc] gave writes its sectors,
    120 bytes more than the 4488 [main] asked for, inside the arena of two
    pages [sys_malloc] took for it, after the arena's header. *)
Theorem main_load_fits (s s' : St) (sda fd w : Z) (calls : list main_call) (hd lba buf n : Z) :
  main sda fd w s = KOk (calls, s') -> IdeRead hd lba buf n ∈ calls -> buf <> 0 ->
  4488 < n * SECTOR_SIZE /\
  exists a, buf = u32 (a + arena_size) /\ get_arena (hp s') a = mk_arena DNull 2 true /\
    arena_size + n * SECTOR_SIZE <= 2 * PG_SIZE.
Proof.
  intros E Hin Hb. unfold main in E. rewrite main_sec_cnt in E. kinv E. destruct a as [p s1].
  assert (Hid : buf = p /\ n = 9 /\ s' = s1).
  { destruct (negb _); [destruct (_ =? _) |]; injection Hk as <- <-;
      apply list_elem_of_In in Hin; cbn in Hin; intuition congruence. }
  destruct Hid as (-> & -> & ->). unfold SECTOR_SIZE. split; [lia |].
  destruct (sys_malloc_large_arena s s1 4488 p) as (a & Ha & Har); [lia | unfold arena_size, PG_SIZE; lia | exact Hr | exact Hb |].
  exists a. split; [exact Ha |]. split; [exact Har | unfold arena_size, PG_SIZE; lia].
Qed.

(** C40 (error) [main] does not check what [sys_malloc] returned: when
    the kernel heap cannot give 4488 bytes, [ide_read] is asked to write
    the 9 sectors to address 0, and [sys_write] to write them from it. *)
Theorem main_null_buffer (s s1 : St) (sda fd w : Z) :
  sys_malloc s 4488 = KOk (0, s1) ->
  exists calls, main sda fd w s = KOk (calls, s1) /\ IdeRead sda 300 0 9 ∈ calls /\
    (fd <> -1 -> SysWrite fd 0 4488 ∈ calls).
Proof.
  intros E. unfold main. rewrite main_sec_cnt, E. cbn [kbind].
  destruct (Z.eqb_spec fd (-1)) as [Hfd | Hfd]; cbn [negb]; [| destruct (w =? -1)];
    (eexists; split; [reflexivity |]);
    (split; [apply list_elem_of_In; cbn; tauto | intros Hfd'; try congruence; apply list_elem_of_In; cbn; tauto]).
Qed.

End MainTheorems.

(** The pattern of [main] for another file size: a size from 3585 to
    4084 bytes takes one page with its header, but whole sectors fill
    4096 bytes after the header, 12 bytes past the page. *)
Lemma load_sectors_overrun (size : Z) :
  3585 <= size <= 4084 ->
  (size + arena_size + PG_SIZE - 1) / PG_SIZE = 1 /\
  PG_SIZE < arena_size + DIV_ROUND_UP size 512 * SECTOR_SIZE.
Proof.
  intros Hs. unfold DIV_ROUND_UP, arena_size, PG_SIZE, SECTOR_SIZE. rewrite u32_small by lia.
  split; [symmetry; apply Z.div_unique with (size + 12 - 1); lia |].
  rewrite <- (Z.div_unique (size + 512 - 1) 512 8 (size - 1 - 3584)) by lia. lia.
Qed.

(** ** [init] *)

(** [init] on an [int32_t] result of [fork]: only 0 takes the child's
    path; every other value, a negative error value included, is taken
    for the child's pid and [init] spins as the parent, with no shell
    started. *)
Lemma init_fork_result (fork_ret : Z) (shell_returns : bool) :
  - 2 ^ 31 <= fork_ret < 2 ^ 31 ->
  init fork_ret shell_returns =
    if fork_ret =? 0 then (if shell_returns then KPanic "init: should not be here" else KOk InitChild)
    else KOk InitParent.
Proof.
  intros Hr. unfold init, u32.
  destruct (Z.eqb_spec fork_ret 0) as [-> | Hn]; [reflexivity |].
  replace (fork_ret mod 2 ^ 32 =? 0) with false; [reflexivity |].
  symmetry. apply Z.eqb_neq. intros Hm. apply Z.mod_divide in Hm as [k Hk]; [| lia].
  destruct (Z.lt_trichotomy k 0) as [? | [-> | ?]]; nia.
Qed.

(** ** Witnesses *)

(** The kernel heap after [mem_init] ([Heap.heap_boot]): [main]'s buffer
    is [0xc010000c], 12 bytes into the arena at [0xc0100000]. *)
Lemma main_load_fits_witness :
  let r := result_or (main 0xc0007000 3 4488 heap_boot) ([], heap_boot) in
  4488 < 9 * SECTOR_SIZE /\
  exists a, 0xc010000c = u32 (a + arena_size) /\ get_arena (hp (snd r)) a = mk_arena DNull 2 true /\
    arena_size + 9 * SECTOR_SIZE <= 2 * PG_SIZE.
Proof.
  intros r. apply (main_load_fits heap_boot (snd r) 0xc0007000 3 4488 (fst r) 0xc0007000 300 0xc010000c 9).
  - rewrite <- surjective_pairing. apply returns_ok. vm_compute. reflexivity.
  - apply list_elem_of_In. vm_compute. right. right. left. reflexivity.
  - lia.
Defined.

(** The kernel heap whose virtual pool has three pages free, no two of
    them together: a request for two pages finds no run and gets NULL. *)
Definition heap_frag : hstate :=
  let vb := vaddr_bitmap (kernel_vaddr loader_mstate) in
  let m := memset_loop (bmem loader_mstate) (bits vb) 0xff (Z.to_nat (btmp_bytes_len vb)) in
  mk_hstate (with_bmem loader_mstate (wr m (bits vb + btmp_bytes_len vb - 1) 0xd5)) (hs_heap heap_boot).

Lemma main_null_buffer_witness :
  let s1 := snd (result_or (sys_malloc heap_frag 4488) (0, heap_frag)) in
  exists calls, main 0xc0007000 3 4488 heap_frag = KOk (calls, s1) /\ IdeRead 0xc0007000 300 0 9 ∈ calls /\
    (3 <> -1 -> SysWrite 3 0 4488 ∈ calls).
Proof. intros s1. apply main_null_buffer. apply returns_pair_ok; vm_compute; reflexivity. Defined.
