(* ===== verification/Kernel.v ===== *)
(** * Kernel: threads running kernel code, interleaved by the timer

    The components of [Thread] and [Sync] are routines; this file runs
    them.  Each task has a context: the kernel code it still has to run,
    as a list of calls ([instr]); whether it is suspended inside the loop
    of a [sema_down] (with the interrupt flag that [sema_down] will
    restore); the pids it got; and, as ghost state for the proofs, how
    many times it holds each lock.  A step of the machine either runs the
    next call of the running task ([exec]) or delivers a timer interrupt
    ([tick]) when interrupts are on.  Interrupts can thus fall between any
    two calls, and only there: the calls themselves either run with
    interrupts off or touch only state no interrupt handler reads.

    [allocate_pid] of thread.c is the call sequence
    [lock_acquire(&pid_lock); next_pid++; lock_release(&pid_lock);
    return next_pid], so an interrupt can fall between the release and the
    read of [next_pid].

    The memory routines of [PageAlloc] take the pool locks through the
    interface [PoolLocks]; the instance here takes them in this machine: a
    lock that another task holds makes the routine block ([KBlock]).

    Theorems: mutual exclusion (at most one task holds a lock, and the
    lock's [holder] and count are that task's) is an invariant of every
    reachable state, by induction on the steps; [sema_up] wakes the first
    waiter ([Sync]), but the order is not kept: a task that takes the
    semaphore between the [sema_up] and the woken task's run sends that
    task to the tail of the queue; two tasks can get the same pid. *)

From Stdlib Require Import ZArith Lia String Bool.
From stdpp Require Import base gmap list relations.
From S2P Require Import Prelude Bitmap Pool Paging PageAlloc Thread Sync.

Open Scope Z_scope.
Open Scope kernel_scope.

(** ** Data *)

(** The kernel calls a task makes, on semaphores and locks by address. *)
Inductive instr :=
| IDown (a : Z)          (** [sema_down] *)
| IUp (a : Z)            (** [sema_up] *)
| IAcquire (a : Z)       (** [lock_acquire] *)
| IRelease (a : Z)       (** [lock_release] *)
| IYield                 (** [thread_yield] *)
| IPidIncr               (** [next_pid++] of [allocate_pid] *)
| IPidRead.              (** [return next_pid] of [allocate_pid] *)

#[export] Instance instr_eq_dec : EqDecision instr.
Proof. solve_decision. Defined.

Record thread_ctx := mk_ctx {
  prog : list instr;               (** the calls still to run *)
  pending : option intr_status;    (** suspended in a [sema_down] loop *)
  pids : list Z;                   (** what [allocate_pid] returned *)
  held : store                     (** ghost: acquisitions not yet released, by lock *)
}.

Record kstate := mk_kstate {
  sch : sched;
  mem : mstate;
  sems : gmap Z semaphore;
  locks : gmap Z lock;
  next_pid : Z;                    (** [static pid_t next_pid], an [int16_t] *)
  ctxs : gmap Z thread_ctx
}.

Definition empty_ctx : thread_ctx := mk_ctx [] None [] ∅.

Definition get_ctx (k : kstate) (t : Z) : thread_ctx := default empty_ctx (ctxs k !! t).
Definition get_sema (k : kstate) (a : Z) : semaphore := default (sema_init 0) (sems k !! a).
Definition get_lock (k : kstate) (a : Z) : lock := default lock_init (locks k !! a).

Definition with_sch (k : kstate) (s : sched) : kstate :=
  mk_kstate s (mem k) (sems k) (locks k) (next_pid k) (ctxs k).
Definition set_ctx (k : kstate) (t : Z) (c : thread_ctx) : kstate :=
  mk_kstate (sch k) (mem k) (sems k) (locks k) (next_pid k) (<[t := c]> (ctxs k)).
Definition set_sema (k : kstate) (a : Z) (m : semaphore) : kstate :=
  mk_kstate (sch k) (mem k) (<[a := m]> (sems k)) (locks k) (next_pid k) (ctxs k).
Definition set_lock (k : kstate) (a : Z) (l : lock) : kstate :=
  mk_kstate (sch k) (mem k) (sems k) (<[a := l]> (locks k)) (next_pid k) (ctxs k).
Definition with_next_pid (k : kstate) (n : Z) : kstate :=
  mk_kstate (sch k) (mem k) (sems k) (locks k) n (ctxs k).
Definition with_mem (k : kstate) (m : mstate) : kstate :=
  mk_kstate (sch k) m (sems k) (locks k) (next_pid k) (ctxs k).

(** The address of the global [pid_lock] (any fixed address). *)
Definition pid_lock : Z := 0xc000a000.

(** [allocate_pid], as the calls it makes. *)
Definition allocate_pid : list instr := [IAcquire pid_lock; IPidIncr; IRelease pid_lock; IPidRead].

(** The addresses of [kernel_pool.lock] and [user_pool.lock] (any two
    fixed addresses); [mem_pool_init] leaves both locks as [lock_init]
    does, which [get_lock] returns for an address not yet used. *)
Definition pool_lock (pf : pool_flags) : Z :=
  match pf with PF_KERNEL => 0xc000b000 | PF_USER => 0xc000c000 end.

(** The pool locks, taken by the running task in this machine.  A lock
    held by another task blocks the routine. *)
#[export] Instance kstate_pool_locks : PoolLocks kstate := {
  mm := mem;
  set_mm := with_mem;
  pool_lock_acquire pf k :=
    let* (done, s1, l1) := lock_acquire (sch k) (get_lock k (pool_lock pf)) in
    if done then KOk (set_lock (with_sch k s1) (pool_lock pf) l1) else KBlock;
  pool_lock_release pf k :=
    let* (s1, l1) := lock_release (sch k) (get_lock k (pool_lock pf)) in
    KOk (set_lock (with_sch k s1) (pool_lock pf) l1)
}.

#[export] Instance kstate_pool_locks_laws : PoolLocksLaws kstate.
Proof.
  split.
  - reflexivity.
  - intros pf k k'. cbn. intros H. kinv H. destruct a as [[[|] s1] l1]; [| discriminate].
    apply kok_inj in Hk. subst. reflexivity.
  - intros pf k k'. cbn. intros H. kinv H. destruct a as [s1 l1]. apply kok_inj in Hk. subst. reflexivity.
Qed.

(** ** One call of the running task *)

(** The flag the suspended [sema_down] restores. *)
Definition resume_flag (c : thread_ctx) (s : sched) : intr_status :=
  match pending c with Some o => o | None => intr s end.

(** The context after a call that may have blocked: the call is done, or
    the task is suspended in it. *)
Definition after (c : thread_ctx) (s : sched) (rest : list instr) (done : bool) (h : store) : thread_ctx :=
  if done then mk_ctx rest None (pids c) h else mk_ctx (prog c) (Some (resume_flag c s)) (pids c) (held c).

Definition exec (k : kstate) : kres kstate :=
  let s := sch k in
  let t := running s in
  let c := get_ctx k t in
  match prog c with
  | [] => KBlock
  | i :: rest =>
      let adv := mk_ctx rest None (pids c) (held c) in
      match i with
      | IDown a =>
          let* (done, s1, m1) := match pending c with
                                 | Some old => sema_down_loop s (get_sema k a) old
                                 | None => sema_down s (get_sema k a) end in
          KOk (set_ctx (set_sema (with_sch k s1) a m1) t (after c s rest done (held c)))
      | IAcquire a =>
          let* (done, s1, l1) := match pending c with
                                 | Some old => lock_acquire_resume s (get_lock k a) old
                                 | None => lock_acquire s (get_lock k a) end in
          KOk (set_ctx (set_lock (with_sch k s1) a l1) t
                 (after c s rest done (wr (held c) a (rd (held c) a + 1))))
      | IUp a =>
          let* (s1, m1) := sema_up s (get_sema k a) in
          KOk (set_ctx (set_sema (with_sch k s1) a m1) t adv)
      | IRelease a =>
          let* (s1, l1) := lock_release s (get_lock k a) in
          KOk (set_ctx (set_lock (with_sch k s1) a l1) t
                 (mk_ctx rest None (pids c) (wr (held c) a (rd (held c) a - 1))))
      | IYield =>
          s1 <- thread_yield s ;;
          KOk (with_sch (set_ctx k t adv) s1)
      | IPidIncr => KOk (set_ctx (with_next_pid k (i16 (next_pid k + 1))) t adv)
      | IPidRead => KOk (set_ctx k t (mk_ctx rest None (pids c ++ [next_pid k]) (held c)))
      end
  end.

(** A timer interrupt. *)
Definition tick (k : kstate) : kres kstate :=
  s1 <- intr_timer_handler (sch k) ;; KOk (with_sch k s1).

(** The machine: a call of the running task, or an interrupt when the
    flag is set. *)
Inductive kstep : kstate -> kstate -> Prop :=
| kstep_exec k k' : exec k = KOk k' -> kstep k k'
| kstep_tick k k' : intr (sch k) = INTR_ON -> tick k = KOk k' -> kstep k k'.

(** A schedule of steps, to run a scenario. *)
Inductive event := Exec | Tick.

Fixpoint run (evs : list event) (k : kstate) : kres kstate :=
  match evs with
  | [] => KOk k
  | Exec :: evs' => k' <- exec k ;; run evs' k'
  | Tick :: evs' =>
      if intr (sch k) is INTR_ON then k' <- tick k ;; run evs' k' else KBlock
  end.

(** ** Scenarios *)

(** Kernel threads as [thread_start] leaves them ([ticks = priority]),
    here all of priority [prio] and with [ticks] left. *)
Definition kthread (st : task_status) (prio ticks_ : Z) : task :=
  mk_task st prio ticks_ 0 0 (-1) 0 0x19870916 INTR_ON.

Definition task_main : Z := 0xc009e000.
Definition task_idle : Z := 0xc0101000.
Definition task_a : Z := 0xc0102000.
Definition task_b : Z := 0xc0103000.
Definition task_c : Z := 0xc0104000.

(** The main thread runs; [a], [b], [c] are ready in this order; the
    idle task has blocked itself. *)
Definition sched_abc : sched :=
  mk_sched (list_to_map [(task_main, kthread TASK_RUNNING 31 31); (task_idle, kthread TASK_BLOCKED 10 10);
                         (task_a, kthread TASK_READY 31 31); (task_b, kthread TASK_READY 31 31);
                         (task_c, kthread TASK_READY 31 31)])
           [task_a; task_b; task_c] [task_main; task_idle; task_a; task_b; task_c] task_main INTR_ON task_idle 0.

(** A semaphore initialised to 0, at some address. *)
Definition sem0 : Z := 0xc0005000.

(** [a], [b], [c] each [sema_down], then yield the CPU; the main thread
    runs [pm]. *)
Definition waiter_prog : list instr := [IDown sem0; IYield; IYield; IYield; IYield].

Definition fifo_init (pm : list instr) : kstate :=
  mk_kstate sched_abc boot_mstate (<[sem0 := sema_init 0]> ∅) ∅ 0
    (list_to_map [(task_main, mk_ctx pm None [] ∅); (task_a, mk_ctx waiter_prog None [] ∅);
                  (task_b, mk_ctx waiter_prog None [] ∅); (task_c, mk_ctx waiter_prog None [] ∅)]).

(** Two threads call [allocate_pid]; both have used up their time slice. *)
Definition pid_init : kstate :=
  mk_kstate (mk_sched (list_to_map [(task_a, kthread TASK_RUNNING 31 0); (task_b, kthread TASK_READY 31 0);
                                    (task_idle, kthread TASK_BLOCKED 10 10)])
                      [task_b] [task_idle; task_a; task_b] task_a INTR_ON task_idle 0)
            boot_mstate ∅ (<[pid_lock := lock_init]> ∅) 0
            (list_to_map [(task_a, mk_ctx allocate_pid None [] ∅); (task_b, mk_ctx allocate_pid None [] ∅)]).

(** A user process whose virtual pool (one bitmap byte at [0xc0010000],
    from [0x8048000]) has every other page in use, [10101010]: no two
    free pages are adjacent. *)
Definition user_mstate : mstate :=
  mk_mstate (kernel_pool boot_mstate) (user_pool boot_mstate) (kernel_vaddr boot_mstate) 0x100000
            (mk_vaddr (mk_bitmap 1 0xc0010000) 0x8048000) (<[0xc0010000 := 0xAA]> (bmem boot_mstate))
            (pmem boot_mstate) (cr3 boot_mstate).

Definition user_kstate : kstate := with_mem pid_init user_mstate.

(** A task is past its [sema_down] in [waiter_prog]. *)
Definition passed_down (k : kstate) (t : Z) : bool :=
  bool_decide (prog (get_ctx k t) = tail waiter_prog).

(** ** Mutual exclusion *)

(** How many [lock_acquire] of the lock at [a] a call list still makes. *)
Fixpoint count_acq (a : Z) (p : list instr) : Z :=
  match p with
  | [] => 0
  | i :: p' => (if decide (i = IAcquire a) then 1 else 0) + count_acq a p'
  end.

(** Ghost: how many times task [t] holds the lock at [a]. *)
Definition held_of (k : kstate) (t a : Z) : Z := rd (held (get_ctx k t)) a.

(** A lock is free (semaphore up, no holder, no task holds it), or held:
    its semaphore is down, its holder holds it [holder_repeat_nr] times,
    at least once, and no other task holds it. *)
Definition lock_ok (k : kstate) (a : Z) : Prop :=
  let l := get_lock k a in
  (value (lsema l) = 1 /\ holder l = 0 /\ holder_repeat_nr l = 0 /\ forall t, held_of k t a = 0) \/
  (value (lsema l) = 0 /\ holder_repeat_nr l = held_of k (holder l) a /\ 1 <= holder_repeat_nr l /\
   forall t, t <> holder l -> held_of k t a = 0).

(** The invariant: no code runs as the NULL task, every lock is free or
    held as above, and no count can reach [2^32] with the acquisitions
    left to run. *)
Definition mutex_inv (k : kstate) : Prop :=
  prog (get_ctx k 0) = [] /\ (forall a, lock_ok k a) /\
  (forall t a, 0 <= held_of k t a /\ held_of k t a + count_acq a (prog (get_ctx k t)) < 2 ^ 32).

(** A start state: locks free, nothing held, short call lists. *)
Definition init_inv (k : kstate) : Prop :=
  prog (get_ctx k 0) = [] /\
  map_Forall (fun _ l => value (lsema l) = 1 /\ holder l = 0 /\ holder_repeat_nr l = 0) (locks k) /\
  map_Forall (fun _ c => held c = ∅ /\ Z.of_nat (length (prog c)) < 2 ^ 32) (ctxs k).

#[export] Instance init_inv_dec (k : kstate) : Decision (init_inv k).
Proof. unfold init_inv. apply _. Defined.

(** ** Running scenarios *)

Lemma run_rtc (evs : list event) (k k' : kstate) : run evs k = KOk k' -> rtc kstep k k'.
Proof.
  revert k. induction evs as [| [|] evs IH]; intros k H; cbn in H.
  - apply kok_inj in H. subst. reflexivity.
  - kinv H. eapply rtc_l; [apply kstep_exec; exact Hr | apply IH, Hk].
  - destruct (intr (sch k)) eqn:Ei; [discriminate |]. kinv H.
    eapply rtc_l; [apply kstep_tick; [exact Ei | exact Hr] | apply IH, Hk].
Qed.

(** A scenario that runs reaches its result. *)
Lemma run_reach (evs : list event) (k : kstate) :
  returns (run evs k) = true -> rtc kstep k (result_or (run evs k) k).
Proof. intros H. apply (run_rtc evs). apply returns_ok, H. Qed.

(** Run a scenario [evs] from [k] as a witness of reachability. *)
Ltac reach evs k := apply (run_reach evs k); vm_compute; reflexivity.

(** ** Semaphore scenarios *)

(** C36: FIFO order is lost when the task that calls [sema_up] takes the
    semaphore again before the woken task runs: [a], woken first and
    queued at the head of the ready queue, finds the value 0 when it runs
    and blocks again at the tail, behind [b] and [c]. *)
Theorem sema_woken_task_overtaken :
  let k0 := fifo_init [IYield; IUp sem0; IDown sem0; IYield] in
  exists k1 k2, rtc kstep k0 k1 /\ rtc kstep k1 k2 /\
    waiters (get_sema k1 sem0) = [task_b; task_c] /\ ready (sch k1) = [task_a] /\
    passed_down k2 task_a = false /\ waiters (get_sema k2 sem0) = [task_b; task_c; task_a].
Proof.
  intros k0.
  pose (k1 := result_or (run (repeat Exec 5) k0) k0).
  pose (k2 := result_or (run (repeat Exec 3) k1) k1).
  exists k1, k2. split; [reach (repeat Exec 5) k0 |]. split; [reach (repeat Exec 3) k1 |].
  vm_compute. repeat split.
Qed.

(** C37: two tasks can get the same pid: [allocate_pid] reads [next_pid]
    after releasing [pid_lock], so a timer interrupt between the release
    and the read lets the other task increment it first. *)
Theorem allocate_pid_duplicate :
  exists k1, rtc kstep pid_init k1 /\ pids (get_ctx k1 task_a) = [2] /\ pids (get_ctx k1 task_b) = [2].
Proof.
  pose (evs := [Exec; Exec; Exec; Tick; Exec; Exec; Exec; Exec; Tick; Exec]).
  exists (result_or (run evs pid_init) pid_init). split; [reach evs pid_init |]. vm_compute. split; reflexivity.
Qed.

(** [next_pid] is an [int16_t]: the pid after 32767 is -32768. *)
Theorem allocate_pid_wraps :
  exists k1, rtc kstep (with_next_pid pid_init 32767) k1 /\ pids (get_ctx k1 task_a) = [-32768].
Proof.
  pose (k0 := with_next_pid pid_init 32767). pose (evs := repeat Exec 4).
  exists (result_or (run evs k0) k0). split; [reach evs k0 |]. vm_compute. reflexivity.
Qed.

(** ** Mutual exclusion: the frame of a step *)

Lemma count_acq_nonneg (a : Z) (p : list instr) : 0 <= count_acq a p.
Proof. induction p as [| i p IH]; cbn; [lia | case_decide; lia]. Qed.

Lemma mutex_inv_ext (k k' : kstate) :
  ctxs k' = ctxs k -> locks k' = locks k -> mutex_inv k -> mutex_inv k'.
Proof. destruct k, k'. cbn. intros -> ->. exact id. Qed.

Lemma get_ctx_set_ctx (k : kstate) (t u : Z) (c : thread_ctx) :
  get_ctx (set_ctx k t c) u = if decide (u = t) then c else get_ctx k u.
Proof. unfold get_ctx. cbn. case_decide; [subst; rewrite lookup_insert_eq | rewrite lookup_insert_ne]; auto. Qed.

Lemma get_lock_set_lock (k : kstate) (a b : Z) (l : lock) :
  get_lock (set_lock k a l) b = if decide (b = a) then l else get_lock k b.
Proof. unfold get_lock. cbn. case_decide; [subst; rewrite lookup_insert_eq | rewrite lookup_insert_ne]; auto. Qed.

Lemma held_of_set_ctx (k : kstate) (t u a : Z) (c : thread_ctx) :
  held_of (set_ctx k t c) u a = if decide (u = t) then rd (held c) a else held_of k u a.
Proof. unfold held_of. rewrite get_ctx_set_ctx. case_decide; reflexivity. Qed.

(** The fields the other updates leave alone. *)
Lemma kstate_fields (k : kstate) (t a : Z) (c : thread_ctx) (l : lock) :
  get_lock (set_ctx k t c) a = get_lock k a /\ get_ctx (set_lock k a l) t = get_ctx k t /\
  held_of (set_lock k a l) t = held_of k t.
Proof. repeat split. Qed.
Definition get_lock_set_ctx k t a c := proj1 (kstate_fields k t a c lock_init).
Definition get_ctx_set_lock k t a l := proj1 (proj2 (kstate_fields k t a empty_ctx l)).
Definition held_of_set_lock k t a l := proj2 (proj2 (kstate_fields k t a empty_ctx l)).

#[export] Hint Rewrite get_ctx_set_ctx get_lock_set_lock held_of_set_ctx get_lock_set_ctx get_ctx_set_lock
  held_of_set_lock : kernel_rw.

(** [lock_ok] reads only the lock's view and the ghost counts. *)
Lemma lock_ok_transfer (k k' : kstate) (a : Z) :
  lock_view (get_lock k' a) = lock_view (get_lock k a) -> (forall u, held_of k' u a = held_of k u a) ->
  lock_ok k a -> lock_ok k' a.
Proof.
  unfold lock_ok, lock_view. intros El Eh. injection El as E1 E2 E3. rewrite E1, E2, E3, !Eh.
  setoid_rewrite Eh. exact id.
Qed.

(** A held lock, from the holder's side. *)
Lemma lock_ok_holder (k : kstate) (a t : Z) :
  lock_ok k a -> holder (get_lock k a) = t -> t <> 0 ->
  value (lsema (get_lock k a)) = 0 /\ holder_repeat_nr (get_lock k a) = held_of k t a /\
  1 <= held_of k t a /\ forall u, u <> t -> held_of k u a = 0.
Proof. intros [(_ & H0 & _) | (Hv & Hn & H1 & Ho)] Hh Ht; [congruence | subst; rewrite <- Hn; auto]. Qed.

(** A lock whose semaphore is up is free. *)
Lemma lock_ok_free (k : kstate) (a : Z) :
  lock_ok k a -> value (lsema (get_lock k a)) <> 0 ->
  holder (get_lock k a) = 0 /\ holder_repeat_nr (get_lock k a) = 0 /\ forall u, held_of k u a = 0.
Proof. intros [(_ & H0 & Hn & Hu) | (Hv & _)] Hv'; [auto | contradiction]. Qed.

(** A step of task [t] that changes the lock at [a] to [l1] and its
    context to [c], whose ghost count moves only at [a] and never grows
    past the acquisitions it consumed. *)
Lemma mutex_lock (k : kstate) (t a : Z) (c : thread_ctx) (l1 : lock) :
  mutex_inv k -> t <> 0 ->
  (forall b, b <> a -> rd (held c) b = held_of k t b) ->
  (forall b, rd (held c) b + count_acq b (prog c) <= held_of k t b + count_acq b (prog (get_ctx k t))) ->
  0 <= rd (held c) a ->
  lock_ok (set_ctx (set_lock k a l1) t c) a ->
  mutex_inv (set_ctx (set_lock k a l1) t c).
Proof.
  intros (H0 & Hl & Hb) Ht Hc Hcount Ha Hok. split; [| split].
  - autorewrite with kernel_rw. rewrite decide_False by congruence. exact H0.
  - intros b. destruct (decide (b = a)) as [-> | Hba]; [exact Hok |].
    apply (lock_ok_transfer k); [| | apply Hl].
    + autorewrite with kernel_rw. rewrite decide_False by exact Hba. reflexivity.
    + intros u. autorewrite with kernel_rw. case_decide; [subst; apply Hc, Hba | reflexivity].
  - intros u b. autorewrite with kernel_rw. destruct (decide (u = t)) as [-> | Hu]; [| apply Hb].
    specialize (Hcount b). specialize (Hb t b). pose proof (count_acq_nonneg b (prog c)).
    split; [| lia]. destruct (decide (b = a)) as [-> | Hba]; [exact Ha | rewrite Hc by exact Hba; lia].
Qed.

(** A step of task [t] that changes no lock and no ghost count. *)
Lemma mutex_frame (k : kstate) (t : Z) (c : thread_ctx) :
  mutex_inv k -> t <> 0 -> held c = held (get_ctx k t) ->
  (forall b, count_acq b (prog c) <= count_acq b (prog (get_ctx k t))) ->
  mutex_inv (set_ctx k t c).
Proof.
  intros (H0 & Hl & Hb) Ht Hh Hcount. split; [| split].
  - autorewrite with kernel_rw. rewrite decide_False by congruence. exact H0.
  - intros b. apply (lock_ok_transfer k); [reflexivity | | apply Hl].
    intros u. autorewrite with kernel_rw. case_decide; [subst; unfold held_of; rewrite Hh |]; reflexivity.
  - intros u b. autorewrite with kernel_rw. destruct (decide (u = t)) as [-> | Hu]; [| apply Hb].
    specialize (Hcount b). specialize (Hb t b). unfold held_of in *. rewrite Hh. lia.
Qed.

Lemma count_acq_cons (b : Z) (i : instr) (rest : list instr) :
  count_acq b (i :: rest) = (if decide (i = IAcquire b) then 1 else 0) + count_acq b rest.
Proof. reflexivity. Qed.

Lemma count_acq_le (b : Z) (i : instr) (rest : list instr) : count_acq b rest <= count_acq b (i :: rest).
Proof. rewrite count_acq_cons. case_decide; lia. Qed.

(** The ghost count of the task at [a] changes; its other counts stay. *)
Lemma held_shift (k : kstate) (t a b v : Z) :
  b <> a -> rd (wr (held (get_ctx k t)) a v) b = held_of k t b.
Proof. intros H. unfold held_of. apply rd_wr_ne. congruence. Qed.

(** An [IAcquire a] by task [t]: counted, blocked or acquired. *)
Lemma mutex_acquire (k : kstate) (s : sched) (t a : Z) (rest : list instr) (done : bool) (l1 : lock)
    (x : sched) :
  mutex_inv k -> t <> 0 -> running s = t -> prog (get_ctx k t) = IAcquire a :: rest ->
  (holder (get_lock k a) = running s /\ done = true /\
   lock_view l1 = (value (lsema (get_lock k a)), holder (get_lock k a),
                   u32 (holder_repeat_nr (get_lock k a) + 1))) \/
  acquired_or_blocked s (get_lock k a) done l1 ->
  mutex_inv (set_ctx (set_lock k a l1) t
    (after (get_ctx k t) x rest done (wr (held (get_ctx k t)) a (held_of k t a + 1)))).
Proof.
  intros Hinv Ht Hr Hp Hres. pose proof Hinv as (H0 & Hl & Hb).
  destruct (Hb t a) as [Hh0 Hhb]. rewrite Hp, count_acq_cons, decide_True in Hhb by reflexivity.
  pose proof (count_acq_nonneg a rest).
  destruct Hres as [(Hh & -> & Hv) | [(-> & Hv0 & Hv) | (-> & Hv0 & Hn & Hv)]].
  all: unfold lock_view in Hv; injection Hv as Ev Eh En.
  - rewrite Hr in Hh. destruct (lock_ok_holder k a t (Hl a) Hh Ht) as (Hval & Hn & H1 & Ho).
    apply mutex_lock; cbn [after held prog]; auto using held_shift.
    + intros b. destruct (decide (b = a)) as [-> | Hba]; [rewrite rd_wr_eq | rewrite held_shift by exact Hba];
        rewrite Hp, count_acq_cons; case_decide; simplify_eq; lia.
    + rewrite rd_wr_eq. lia.
    + right. autorewrite with kernel_rw. rewrite !decide_True by reflexivity. rewrite Ev, Eh, En, Hh.
      cbn [held]. rewrite ?decide_True by reflexivity. rewrite rd_wr_eq, Hval, Hn, u32_small by lia.
      split; [reflexivity |]. split; [lia |].
      split; [lia |]. intros u Hu. autorewrite with kernel_rw. rewrite decide_False by exact Hu. apply Ho, Hu.
  - apply mutex_lock; cbn [after held prog]; try (intros; unfold held_of in *; lia); [exact Hinv |].
    apply (lock_ok_transfer k); [| | apply Hl].
      * autorewrite with kernel_rw. rewrite decide_True by reflexivity. unfold lock_view. congruence.
      * intros u. autorewrite with kernel_rw. case_decide; [subst |]; reflexivity.
  - destruct (lock_ok_free k a (Hl a) Hv0) as (Hh & Hn' & Hu).
    apply mutex_lock; cbn [after held prog]; auto using held_shift.
    + intros b. destruct (decide (b = a)) as [-> | Hba]; [rewrite rd_wr_eq | rewrite held_shift by exact Hba];
        rewrite Hp, count_acq_cons; case_decide; simplify_eq; lia.
    + rewrite rd_wr_eq. lia.
    + right. autorewrite with kernel_rw. rewrite !decide_True by reflexivity. rewrite Ev, Eh, En, Hr.
      cbn [held]. rewrite ?decide_True by reflexivity. rewrite rd_wr_eq, Hu. split; [reflexivity |].
      split; [reflexivity |]. split; [lia |]. intros u Hu'. autorewrite with kernel_rw. rewrite decide_False by exact Hu'. apply Hu.
Qed.

(** An [IRelease a] by task [t] that returns: a nested or a last release. *)
Lemma mutex_release (k : kstate) (s : sched) (t a : Z) (rest : list instr) (l1 : lock) :
  mutex_inv k -> t <> 0 -> running s = t -> prog (get_ctx k t) = IRelease a :: rest ->
  holder (get_lock k a) = running s /\
  ((1 < holder_repeat_nr (get_lock k a) /\
    lock_view l1 = (value (lsema (get_lock k a)), holder (get_lock k a), holder_repeat_nr (get_lock k a) - 1)) \/
   (holder_repeat_nr (get_lock k a) = 1 /\ value (lsema (get_lock k a)) = 0 /\ lock_view l1 = (1, 0, 0))) ->
  mutex_inv (set_ctx (set_lock k a l1) t
    (mk_ctx rest None (pids (get_ctx k t)) (wr (held (get_ctx k t)) a (held_of k t a - 1)))).
Proof.
  intros Hinv Ht Hr Hp (Hh & Hres). pose proof Hinv as (H0 & Hl & Hb). rewrite Hr in Hh.
  destruct (lock_ok_holder k a t (Hl a) Hh Ht) as (Hval & Hn & H1 & Ho).
  apply mutex_lock; cbn [held prog]; auto using held_shift.
  - intros b. destruct (decide (b = a)) as [-> | Hba]; [rewrite rd_wr_eq | rewrite held_shift by exact Hba];
      rewrite Hp, count_acq_cons; case_decide; simplify_eq; lia.
  - rewrite rd_wr_eq. lia.
  - destruct Hres as [(Hgt & Hv) | (H1' & _ & Hv)]; unfold lock_view in Hv; injection Hv as Ev Eh En.
    + right. autorewrite with kernel_rw. rewrite !decide_True by reflexivity. rewrite Ev, Eh, En, Hh.
      cbn [held]. rewrite ?decide_True by reflexivity. rewrite rd_wr_eq. split; [exact Hval |].
      split; [lia |]. split; [lia |]. intros u Hu. autorewrite with kernel_rw.
      rewrite decide_False by exact Hu. apply Ho, Hu.
    + left. autorewrite with kernel_rw. rewrite !decide_True by reflexivity. rewrite Ev, Eh, En.
      split; [reflexivity |]. split; [reflexivity |]. split; [reflexivity |]. intros u.
      autorewrite with kernel_rw. case_decide as Hu; [subst; cbn [held]; rewrite rd_wr_eq; lia | apply Ho, Hu].
Qed.

(** A call that may block leaves the ghost counts and consumes at most itself. *)
Lemma after_frame (c : thread_ctx) (x : sched) (i : instr) (rest : list instr) (done : bool) :
  prog c = i :: rest ->
  held (after c x rest done (held c)) = held c /\
  forall b, count_acq b (prog (after c x rest done (held c))) <= count_acq b (prog c).
Proof.
  intros Hp. unfold after. destruct done; cbn [held prog]; split; [reflexivity | | reflexivity | lia].
  intros b. rewrite Hp. apply count_acq_le.
Qed.

(** Every call that returns keeps the invariant. *)
Lemma exec_mutex (k k' : kstate) : mutex_inv k -> exec k = KOk k' -> mutex_inv k'.
Proof.
  intros Hinv H. pose proof Hinv as (H0 & _ & _). unfold exec in H. cbv zeta in H.
  destruct (prog (get_ctx k (running (sch k)))) as [| i rest] eqn:Ep; [discriminate |].
  assert (Ht : running (sch k) <> 0) by (intros E; rewrite E, H0 in Ep; discriminate).
  destruct i as [a | a | a | a | | |].
  - kinv H. destruct a0 as [[done s1] m1]. apply kok_inj in Hk. subst k'.
    destruct (after_frame (get_ctx k (running (sch k))) (sch k) _ rest done Ep) as [Hh Hc].
    eapply (mutex_inv_ext (set_ctx k (running (sch k)) _)); [reflexivity | reflexivity | apply mutex_frame; assumption].
  - kinv H. destruct a0 as [s1 m1]. apply kok_inj in Hk. subst k'.
    eapply (mutex_inv_ext (set_ctx k (running (sch k)) _)); [reflexivity | reflexivity |].
    apply mutex_frame; [exact Hinv | exact Ht | reflexivity | intros b; rewrite Ep; apply count_acq_le].
  - kinv H. destruct a0 as [[done s1] l1]. apply kok_inj in Hk. subst k'.
    eapply (mutex_inv_ext (set_ctx (set_lock k a l1) (running (sch k)) _)); [reflexivity | reflexivity |]. apply (mutex_acquire k (sch k)); auto.
    destruct (pending _); [right; eapply lock_acquire_resume_result, Hr |].
    destruct (lock_acquire_result _ _ _ _ _ Hr) as [H1 | [_ H1]]; [left | right]; exact H1.
  - kinv H. destruct a0 as [s1 l1]. apply kok_inj in Hk. subst k'.
    eapply (mutex_inv_ext (set_ctx (set_lock k a l1) (running (sch k)) _)); [reflexivity | reflexivity |]. apply (mutex_release k (sch k)); auto.
    eapply lock_release_result, Hr.
  - kinv H. apply kok_inj in Hk. subst k'.
    eapply (mutex_inv_ext (set_ctx k (running (sch k)) _)); [reflexivity | reflexivity |].
    apply mutex_frame; [exact Hinv | exact Ht | reflexivity | intros b; rewrite Ep; apply count_acq_le].
  - apply kok_inj in H. subst k'. eapply (mutex_inv_ext (set_ctx k (running (sch k)) _)); [reflexivity | reflexivity |].
    apply mutex_frame; [exact Hinv | exact Ht | reflexivity | intros b; rewrite Ep; apply count_acq_le].
  - apply kok_inj in H. subst k'.
    apply mutex_frame; [exact Hinv | exact Ht | reflexivity | intros b; rewrite Ep; apply count_acq_le].
Qed.

Lemma tick_mutex (k k' : kstate) : mutex_inv k -> tick k = KOk k' -> mutex_inv k'.
Proof. unfold tick. intros Hinv H. kinv H. apply kok_inj in Hk. subst k'. exact Hinv. Qed.

Lemma kstep_mutex (k k' : kstate) : kstep k k' -> mutex_inv k -> mutex_inv k'.
Proof. intros [k1 k2 H | k1 k2 _ H] Hinv; [eapply exec_mutex | eapply tick_mutex]; eassumption. Qed.

Lemma reach_mutex (k0 k : kstate) : rtc kstep k0 k -> mutex_inv k0 -> mutex_inv k.
Proof. induction 1 as [| k1 k2 k3 Hs _ IH]; [exact id | intros H; apply IH, (kstep_mutex k1); assumption]. Qed.

(** A start state satisfies the invariant. *)
Lemma init_mutex (k : kstate) : init_inv k -> mutex_inv k.
Proof.
  intros (H0 & Hl & Hc). split; [exact H0 | split].
  - intros a. left. unfold get_lock. destruct (locks k !! a) as [l |] eqn:E.
    + destruct (Hl a l E) as (Hv & Hh & Hn). split; [exact Hv |]. split; [exact Hh |]. split; [exact Hn |].
      intros t. unfold held_of, get_ctx. destruct (ctxs k !! t) as [c |] eqn:Ec; [| reflexivity].
      cbn. rewrite (proj1 (Hc t c Ec)). reflexivity.
    + cbn. split; [reflexivity |]. split; [reflexivity |]. split; [reflexivity |].
      intros t. unfold held_of, get_ctx. destruct (ctxs k !! t) as [c |] eqn:Ec; [| reflexivity].
      cbn. rewrite (proj1 (Hc t c Ec)). reflexivity.
  - intros t a. unfold held_of, get_ctx. destruct (ctxs k !! t) as [c |] eqn:Ec.
    + destruct (Hc t c Ec) as [Hh Hlen]. cbn [default id]. rewrite Hh. unfold rd. rewrite lookup_empty. cbn [default id].
      assert (count_acq a (prog c) <= Z.of_nat (length (prog c))).
      { clear. induction (prog c) as [| i p IH]; cbn [count_acq length]; [lia | case_decide; lia]. }
      pose proof (count_acq_nonneg a (prog c)). lia.
    + cbn [default id empty_ctx held prog]. unfold rd. rewrite lookup_empty. cbn. lia.
Qed.

(** ** Mutual exclusion *)

(** C1: in every state reachable from a start state (locks free, nothing
    held), at most one task holds each lock, and it is the lock's
    [holder], with [holder_repeat_nr] its number of acquisitions not yet
    released. *)
Theorem mutual_exclusion (k0 k : kstate) :
  init_inv k0 -> rtc kstep k0 k ->
  forall a t u, 0 < held_of k t a -> 0 < held_of k u a ->
    t = u /\ holder (get_lock k a) = t /\ holder_repeat_nr (get_lock k a) = held_of k t a.
Proof.
  intros H0 Hr a t u Ht Hu. destruct (reach_mutex k0 k Hr (init_mutex k0 H0)) as (_ & Hl & _).
  destruct (Hl a) as [(_ & _ & _ & Hall) | (_ & Hn & _ & Ho)]; [rewrite Hall in Ht; lia |].
  destruct (decide (t = holder (get_lock k a))) as [-> | Hne]; [| rewrite Ho in Ht by exact Hne; lia].
  destruct (decide (u = holder (get_lock k a))) as [-> | Hne]; [auto | rewrite Ho in Hu by exact Hne; lia].
Qed.

Lemma mutual_exclusion_witness :
  exists k, rtc kstep pid_init k /\ 0 < held_of k task_a pid_lock /\ holder (get_lock k pid_lock) = task_a.
Proof.
  pose (k := result_or (run [Exec] pid_init) pid_init).
  assert (Hr : rtc kstep pid_init k) by reach [Exec] pid_init.
  assert (Hh : 0 < held_of k task_a pid_lock) by (vm_compute; reflexivity).
  exists k. split; [exact Hr |]. split; [exact Hh |].
  apply (mutual_exclusion pid_init k ltac:(apply (bool_decide_unpack _); vm_compute; reflexivity) Hr
           pid_lock task_a task_a Hh Hh).
Defined.

(** ** Witnesses of the claims on the locked memory routines *)

Lemma get_user_pages_null_panics_witness :
  get_user_pages user_kstate 2 = KPanic "dst_ != NULL".
Proof.
  apply (get_user_pages_null_panics user_kstate
           (result_or (pool_lock_acquire PF_USER user_kstate) user_kstate) 2 user_mstate);
    apply returns_ok || vm_compute; reflexivity.
Defined.

Lemma get_a_page_first_page_panics_witness :
  get_a_page pid_init PF_KERNEL (vaddr_start (kernel_vaddr boot_mstate)) = KPanic "bit_idx > 0".
Proof.
  change (vaddr_start (kernel_vaddr boot_mstate)) with
    (vaddr_start (kernel_vaddr (mm (result_or (pool_lock_acquire PF_KERNEL pid_init) pid_init)))).
  apply (get_a_page_first_page_panics pid_init
           (result_or (pool_lock_acquire PF_KERNEL pid_init) pid_init) PF_KERNEL).
  - apply returns_ok. vm_compute. reflexivity.
  - left. split; [vm_compute; reflexivity | reflexivity].
Defined.
